(** * bbc-common: the persistence access layer, embedded in Rocq

    A shallow embedding of the Go packages [models], [ydb] and [telegram]
    of arseniisemenow/bbc-common.  Go functions become state-passing
    functions over a [World] that holds everything the package reads or
    writes outside its arguments: the process environment, the wall
    clock, the random source behind [uuid.New], the package variables of
    the connection provider, the tables of the store and the outcome of
    each network round trip.

    - [pkg/models]                      : section "Domain entities"
    - [pkg/ydb/errors.go]               : section "Errors"
    - the connection provider           : [Module Connection]
    - [pkg/ydb/repository.go]           : [Module Repository]
    - the client of [interface.go]      : [Module Client]
    - the query layer of [interface.go] : [Module Queries]
    - the telegram helpers              : [Module Telegram]                    *)

From Stdlib Require Import ZArith Lia List Ascii String.
From stdpp Require Import base option numbers list gmap strings.

Local Open Scope string_scope.
Local Open Scope list_scope.
Local Open Scope Z_scope.

(* ===================================================================== *)
(** ** Go primitives                                                      *)
(* ===================================================================== *)

(** Fixed-width conversions, with their wrap-around written out. *)
Definition uint32 (z : Z) : Z := z mod 2 ^ 32.
Definition uint64 (z : Z) : Z := z mod 2 ^ 64.
Definition int32 (z : Z) : Z := (z + 2 ^ 31) mod 2 ^ 32 - 2 ^ 31.

(** [time.Time] as an instant: whole seconds since the Unix epoch and the
    nanoseconds within that second.  Location and monotonic reading play no
    part in what the package stores. *)
Record time_Time := mkTime { unix_sec : Z; nanos : Z }.

(** [time.Time{}]: January 1 of year 1, 00:00:00 UTC. *)
Definition zero_Time : time_Time := mkTime (-62135596800) 0.

Definition Time_IsZero (t : time_Time) : bool :=
  (unix_sec t =? -62135596800) && (nanos t =? 0).

(** [t.Unix()] *)
Definition Time_Unix (t : time_Time) : Z := unix_sec t.

(** [t.UnixMicro()] *)
Definition Time_UnixMicro (t : time_Time) : Z := unix_sec t * 1000000 + nanos t / 1000.

(** [time.Unix(sec, nsec)] for [0 <= nsec < 1e9] *)
Definition time_Unix (sec nsec : Z) : time_Time := mkTime sec nsec.

(** The instant with its sub-second part dropped. *)
Definition Time_seconds (t : time_Time) : time_Time := mkTime (unix_sec t) 0.

#[global] Instance time_Time_eq_dec : EqDecision time_Time.
Proof. solve_decision. Defined.

(** A Go string is a sequence of bytes; so is a [string] here. *)
Definition byte_string (codes : list nat) : string :=
  fold_right (fun c s => String (ascii_of_nat c) s) EmptyString codes.

(** [s[:hi]]: the slice expression panics when [hi > len(s)]. *)
Inductive panic := SliceBoundsOutOfRange (hi len : nat).

Fixpoint string_take (n : nat) (s : string) : string :=
  match n, s with
  | S k, String c rest => String c (string_take k rest)
  | _, _ => EmptyString
  end.

Definition slice_to (s : string) (hi : nat) : panic + string :=
  if (hi <=? String.length s)%nat then inr (string_take hi s)
  else inl (SliceBoundsOutOfRange hi (String.length s)).

(** [uuid.New().String()]: sixteen random bytes, the version and variant
    bits forced, printed as 8-4-4-4-12 lower-case hexadecimal digits. *)
Definition hex_digit (n : Z) : ascii :=
  ascii_of_nat (Z.to_nat (if n <? 10 then 48 + n else 87 + n)).

Definition hex_byte (b : Z) (rest : string) : string :=
  String (hex_digit ((b mod 256) / 16)) (String (hex_digit (b mod 16)) rest).

Definition uuid_v4 (random : list Z) : list Z :=
  let b := fun i => nth i random 0 mod 256 in
  map (fun i : nat =>
         if (i =? 6)%nat then Z.lor (Z.land (b i) 15) 64
         else if (i =? 8)%nat then Z.lor (Z.land (b i) 63) 128
         else b i)
      (seq 0 16).

Definition uuid_String (u : list Z) : string :=
  let b := fun i => nth i u 0 in
  let run := fun (from len : nat) rest => fold_right (fun i s => hex_byte (b i) s) rest (seq from len) in
  run 0%nat 4%nat (String "-" (run 4%nat 2%nat (String "-" (run 6%nat 2%nat
    (String "-" (run 8%nat 2%nat (String "-" (run 10%nat 6%nat EmptyString)))))))).

(* ===================================================================== *)
(** ** Errors ([pkg/ydb/errors.go])                                        *)
(* ===================================================================== *)

(** The four sentinels of [errors.go], the errors the SDK and the store
    produce, and [fmt.Errorf] with a [%w] verb, which keeps the cause. *)
Inductive error :=
| ErrMissingConfig
| ErrUserNotFound
| ErrTokensNotFound
| ErrSubscriptionNotFound
| ErrStore (msg : string)
| fmt_Errorf (format : string) (args : list Z) (cause : error).

#[global] Instance error_eq_dec : EqDecision error.
Proof. solve_decision. Defined.

(** [errors.Is(e, target)] *)
Fixpoint errors_Is (e target : error) : bool :=
  bool_decide (e = target) ||
  match e with
  | fmt_Errorf _ _ cause => errors_Is cause target
  | _ => false
  end.

(* ===================================================================== *)
(** ** Domain entities ([pkg/models])                                     *)
(* ===================================================================== *)

Definition UserStatus := string.
Definition UserStatusActive : UserStatus := "active".
Definition UserStatusInactive : UserStatus := "inactive".
Definition UserStatusUnauthenticated : UserStatus := "unauthenticated".

Record User := mkUser {
  User_TelegramChatID : Z;
  User_Status : UserStatus;
  User_CreatedAt : time_Time;
  User_LastAuthSuccessAt : option time_Time;
  User_LastAuthFailureAt : option time_Time }.

Record UserTokens := mkUserTokens {
  UserTokens_TelegramChatID : Z;
  UserTokens_AccessToken : string;
  UserTokens_RefreshToken : string;
  UserTokens_UserID : string;
  UserTokens_Datadome : string;
  UserTokens_AppToken : string;
  UserTokens_CreatedAt : time_Time;
  UserTokens_UpdatedAt : time_Time }.

Record SearchSubscription := mkSearchSubscription {
  Sub_ID : string;
  Sub_TelegramChatID : Z;
  Sub_FromPlaceID : string;
  Sub_FromPlaceName : string;
  Sub_ToPlaceID : string;
  Sub_ToPlaceName : string;
  Sub_DepartureDate : string;
  Sub_RequestedSeats : Z;
  Sub_IsActive : bool;
  Sub_CreatedAt : time_Time;
  Sub_LastCheckedAt : option time_Time }.

Record Notification := mkNotification {
  Notif_ID : string;
  Notif_TelegramChatID : Z;
  Notif_SubscriptionID : string;
  Notif_TripID : string;
  Notif_TelegramMessageID : Z;
  Notif_Status : string;
  Notif_CreatedAt : time_Time }.


(* ===================================================================== *)
(** ** The table store as the package sees it through the SDK              *)
(* ===================================================================== *)

(** Column types and values of [table/types], as far as the package builds
    them.  [types.TextValue] and [types.UTF8Value] build the same value. *)
Inductive ydb_Type := TypeInt32 | TypeInt64 | TypeBool | TypeUTF8 | TypeDatetime | TypeTimestamp.
Definition TypeText : ydb_Type := TypeUTF8.

Inductive Scalar :=
| SInt32 (z : Z)
| SInt64 (z : Z)
| SBool (b : bool)
| SText (s : string)
| SDatetime (seconds : Z)
| STimestamp (micros : Z).

Inductive Value :=
| Prim (s : Scalar)
| NullValue (t : ydb_Type)
| OptionalValue (v : Value).

#[global] Instance ydb_Type_eq_dec : EqDecision ydb_Type.
Proof. solve_decision. Defined.
#[global] Instance Scalar_eq_dec : EqDecision Scalar.
Proof. solve_decision. Defined.
#[global] Instance Value_eq_dec : EqDecision Value.
Proof. solve_decision. Defined.

Definition Int32Value (z : Z) : Value := Prim (SInt32 z).
Definition Int64Value (z : Z) : Value := Prim (SInt64 z).
Definition BoolValue (b : bool) : Value := Prim (SBool b).
Definition UTF8Value (s : string) : Value := Prim (SText s).
Definition TextValue (s : string) : Value := Prim (SText s).
Definition DatetimeValue (seconds : Z) : Value := Prim (SDatetime seconds).
Definition TimestampValue (micros : Z) : Value := Prim (STimestamp micros).

(** [types.TimestampValueFromTime]: microseconds since the epoch, unsigned. *)
Definition TimestampValueFromTime (t : time_Time) : Value :=
  TimestampValue (uint64 (Time_UnixMicro t)).

(** [types.OptionalValue(T, p)] as [repository.go] calls it, with a column
    type and a pointer to a value: a nil pointer is the null of that type. *)
Definition OptionalValueOf (t : ydb_Type) (p : option Value) : Value :=
  match p with
  | None => NullValue t
  | Some v => OptionalValue v
  end.

(** [true] for a value that is a null, however deep in optional wrappers. *)
Fixpoint is_null (v : Value) : bool :=
  match v with
  | Prim _ => false
  | NullValue _ => true
  | OptionalValue v' => is_null v'
  end.

(** A cell of a row: [None] is SQL NULL.  A bound parameter lands in a cell
    with its optional wrappers dropped. *)
Definition Cell := option Scalar.

Fixpoint cell_of (v : Value) : Cell :=
  match v with
  | Prim s => Some s
  | NullValue _ => None
  | OptionalValue v' => cell_of v'
  end.

(** A row maps column names to the cells that are not NULL. *)
Abbreviation Row := (gmap string Scalar).
Abbreviation DB := (gmap string (list (gmap string Scalar))).
Abbreviation QueryParameters := (list (string * Value)).

Definition table_rows (d : DB) (tbl : string) : list Row := default [] (d !! tbl).

(** The statements the package sends, as syntax: the column lists pair a
    column with the [$parameter] it is compared with or set from. *)
Inductive Stmt :=
| Select (cols : list string) (tbl : string) (where_ : list (string * string))
| Upsert (tbl : string) (cols : list (string * string))
| Insert (tbl : string) (cols : list (string * string))
| Update (tbl : string) (set_ : list (string * string)) (where_ : list (string * string))
| Delete (tbl : string) (where_ : list (string * string))
| EmptyQuery.

(** Modelled from the spec: the table definitions are not among the sources.
    Section 3 gives the keys: a user and a token set are identified by the
    chat identity, a subscription and a notification by a generated id. *)
Definition primary_key (tbl : string) : list string :=
  if String.eqb tbl "users" then ["telegram_chat_id"]
  else if String.eqb tbl "user_tokens" then ["telegram_chat_id"]
  else ["id"].

Definition param (ps : QueryParameters) (name : string) : option Value :=
  snd <$> List.find (fun p => String.eqb (fst p) name) ps.

Fixpoint bind_cells (cols : list (string * string)) (ps : QueryParameters)
  : option (list (string * Cell)) :=
  match cols with
  | [] => Some []
  | (c, p) :: rest =>
      match param ps p, bind_cells rest ps with
      | Some v, Some cells => Some ((c, cell_of v) :: cells)
      | _, _ => None
      end
  end.

Definition set_cell (r : Row) (c : string) (v : Cell) : Row :=
  match v with
  | Some s => <[c := s]> r
  | None => delete c r
  end.

Definition set_cells (r : Row) (cells : list (string * Cell)) : Row :=
  fold_left (fun acc cv => set_cell acc (fst cv) (snd cv)) cells r.

(** [col = $p AND ...]: a comparison with NULL holds for no row. *)
Definition row_matches (conds : list (string * Cell)) (r : Row) : bool :=
  forallb (fun cv => match snd cv with
                     | Some s => bool_decide (r !! fst cv = Some s)
                     | None => false
                     end) conds.

Definition same_key (pk : list string) (r1 r2 : Row) : bool :=
  forallb (fun c => bool_decide (r1 !! c = r2 !! c)) pk.

Definition has_key (pk : list string) (r : Row) : bool :=
  forallb (fun c => bool_decide (is_Some (r !! c))) pk.

Definition project (cols : list string) (r : Row) : list Cell :=
  map (fun c => r !! c) cols.

(** What the store does with one statement: the tables after it and the
    result sets it returns, or the store's refusal.  The statements of the
    package select without [ORDER BY], and nothing in the sources says in
    which order the store returns rows: the list of the rows of a table
    stands for that order, whatever it is.  An update and a delete go
    through the list in place; an insert has to put its row somewhere and
    puts it last, a choice of this model: the properties stated of the
    operations of the package do not depend on it, and those that speak of
    the rows after an insert speak of them up to their order. *)
Definition exec_stmt (d : DB) (q : Stmt) (ps : QueryParameters)
  : string + (DB * list (list (list Cell))) :=
  match q with
  | EmptyQuery => inr (d, [])
  | Select cols tbl where_ =>
      match bind_cells where_ ps with
      | None => inl "parameter not bound"
      | Some conds => inr (d, [map (project cols) (List.filter (row_matches conds) (table_rows d tbl))])
      end
  | Insert tbl cols =>
      match bind_cells cols ps with
      | None => inl "parameter not bound"
      | Some cells =>
          let r := set_cells ∅ cells in
          if negb (has_key (primary_key tbl) r) then inl "key column is null"
          else if existsb (same_key (primary_key tbl) r) (table_rows d tbl)
               then inl "conflict with existing key"
               else inr (<[tbl := table_rows d tbl ++ [r]]> d, [])
      end
  | Upsert tbl cols =>
      match bind_cells cols ps with
      | None => inl "parameter not bound"
      | Some cells =>
          let r := set_cells ∅ cells in
          if negb (has_key (primary_key tbl) r) then inl "key column is null"
          else if existsb (same_key (primary_key tbl) r) (table_rows d tbl)
               then inr (<[tbl := map (fun old => if same_key (primary_key tbl) r old
                                                  then set_cells old cells else old)
                                      (table_rows d tbl)]> d, [])
               else inr (<[tbl := table_rows d tbl ++ [r]]> d, [])
      end
  | Update tbl set_ where_ =>
      match bind_cells set_ ps, bind_cells where_ ps with
      | Some cells, Some conds =>
          inr (<[tbl := map (fun old => if row_matches conds old
                                        then set_cells old cells else old)
                            (table_rows d tbl)]> d, [])
      | _, _ => inl "parameter not bound"
      end
  | Delete tbl where_ =>
      match bind_cells where_ ps with
      | None => inl "parameter not bound"
      | Some conds =>
          inr (<[tbl := List.filter (fun r => negb (row_matches conds r)) (table_rows d tbl)]> d, [])
      end
  end.

(** [result.Result]: the result sets still to come, the rows still to come
    in the current set, and the row [Scan] reads. *)
Record Result := mkResult {
  sets : list (list (list Cell));
  rows_left : list (list Cell);
  current_row : option (list Cell) }.

Definition result_of (sets_ : list (list (list Cell))) : Result := mkResult sets_ [] None.
Definition no_result : Result := result_of [].

Definition NextResultSet (r : Result) : bool * Result :=
  match sets r with
  | [] => (false, r)
  | s :: rest => (true, mkResult rest s None)
  end.

Definition Next (r : Result) : bool * Result :=
  match rows_left r with
  | [] => (false, r)
  | x :: xs => (true, mkResult (sets r) xs (Some x))
  end.

(* ===================================================================== *)
(** ** The world outside the arguments                                    *)
(* ===================================================================== *)

(** [*ydb.Driver]: an open connection, known by what it was dialled with. *)
Record Driver := mkDriver { Driver_dsn : string }.

(** What a row scanner of the SDK does with a NULL cell whose destination
    is a plain (non-pointer) variable.  The sources do not settle it: the
    scanners belong to the SDK and to [yscan]. *)
Inductive NullPolicy := NullAsZeroValue | NullIsScanError.

(** The calls that leave the process. *)
Inductive Event :=
| EvGetenv (key : string)
| EvOpen (dsn : string)
| EvExecute (q : Stmt) (ps : QueryParameters)
| EvBeginTransaction
| EvCommit
| EvRollback.

Record World := mkWorld {
  environ : gmap string string;        (* the process environment *)
  wall_clock : time_Time;              (* what [time.Now()] reads *)
  random : list (list Z);              (* the bytes behind each [uuid.New()] *)
  round_trips : list (option string);  (* each network call to come: [Some msg] fails *)
  scan_null : NullPolicy;
  var_db : option Driver;              (* [var db *ydb.Driver] *)
  var_once : bool;                     (* [var once sync.Once], done or not *)
  var_initErr : option error;          (* [var initErr error] *)
  tables : DB;
  trace : list Event }.

Definition set_environ (e : gmap string string) (w : World) : World :=
  mkWorld e (wall_clock w) (random w) (round_trips w) (scan_null w)
          (var_db w) (var_once w) (var_initErr w) (tables w) (trace w).
Definition set_random (r : list (list Z)) (w : World) : World :=
  mkWorld (environ w) (wall_clock w) r (round_trips w) (scan_null w)
          (var_db w) (var_once w) (var_initErr w) (tables w) (trace w).
Definition set_round_trips (r : list (option string)) (w : World) : World :=
  mkWorld (environ w) (wall_clock w) (random w) r (scan_null w)
          (var_db w) (var_once w) (var_initErr w) (tables w) (trace w).
Definition set_var_db (d : option Driver) (w : World) : World :=
  mkWorld (environ w) (wall_clock w) (random w) (round_trips w) (scan_null w)
          d (var_once w) (var_initErr w) (tables w) (trace w).
Definition set_var_once (b : bool) (w : World) : World :=
  mkWorld (environ w) (wall_clock w) (random w) (round_trips w) (scan_null w)
          (var_db w) b (var_initErr w) (tables w) (trace w).
Definition set_var_initErr (e : option error) (w : World) : World :=
  mkWorld (environ w) (wall_clock w) (random w) (round_trips w) (scan_null w)
          (var_db w) (var_once w) e (tables w) (trace w).
Definition set_tables (d : DB) (w : World) : World :=
  mkWorld (environ w) (wall_clock w) (random w) (round_trips w) (scan_null w)
          (var_db w) (var_once w) (var_initErr w) d (trace w).
Definition set_trace (t : list Event) (w : World) : World :=
  mkWorld (environ w) (wall_clock w) (random w) (round_trips w) (scan_null w)
          (var_db w) (var_once w) (var_initErr w) (tables w) t.

(** A Go function with effects: from the world before to its results and
    the world after. *)
Definition M (A : Type) : Type := World -> A * World.

Definition ret {A} (a : A) : M A := fun w => (a, w).
Definition bind {A B} (m : M A) (k : A -> M B) : M B :=
  fun w => let (a, w') := m w in k a w'.

Notation "x <- m ;; k" := (bind m (fun x => k))
  (at level 100, m at next level, right associativity).
Notation "m >> k" := (bind m (fun _ => k))
  (at level 100, right associativity).

Definition emit (e : Event) : M unit := fun w => (tt, set_trace (trace w ++ [e]) w).

(** [os.Getenv]: the value, empty when the variable is not present. *)
Definition os_Getenv (key : string) : M string :=
  emit (EvGetenv key) >> fun w => (default "" (environ w !! key), w).

(** [time.Now()] *)
Definition time_Now : M time_Time := fun w => (wall_clock w, w).

(** [uuid.New().String()] *)
Definition uuid_New_String : M string := fun w =>
  (uuid_String (uuid_v4 (hd [] (random w))), set_random (tl (random w)) w).

(** One network call: it fails when the world says so. *)
Definition round_trip : M (option error) := fun w =>
  match round_trips w with
  | [] => (None, w)
  | o :: rest => (ErrStore <$> o, set_round_trips rest w)
  end.

(** [ydb.Open(ctx, dsn, creds)] *)
Definition ydb_Open (dsn : string) : M (option Driver * option error) :=
  emit (EvOpen dsn) >>
  failed <- round_trip ;;
  match failed with
  | Some err => ret (None, Some err)
  | None => ret (Some (mkDriver dsn), None)
  end.

(** [s.Execute(ctx, table.SerializableReadWriteTxControl(), query, params)]:
    one serializable statement, applied to the tables unless the call or
    the store fails. *)
Definition Session_Execute (q : Stmt) (ps : QueryParameters) : M (Result * option error) :=
  emit (EvExecute q ps) >>
  failed <- round_trip ;;
  match failed with
  | Some err => ret (no_result, Some err)
  | None => fun w =>
      match exec_stmt (tables w) q ps with
      | inl msg => ((no_result, Some (ErrStore msg)), w)
      | inr (d, sets_) => ((result_of sets_, None), set_tables d w)
      end
  end.

(** [driver.Table().Do(ctx, op)]: [op] runs against a session of the pool.
    The retry policy of the SDK, which may run [op] again after a transient
    failure, is outside the package and is not modelled: one run. *)
Definition Do {A} (op : M A) : M A := op.

(** [s.Execute(ctx, txControl, query, nil)] for a statement that takes no
    parameter and compares columns with literals of its text:
    [SELECT cols FROM tbl WHERE col = literal].  Each condition carries the
    literal as written and the value it denotes; the call is logged with the
    condition as written, and the rows selected are those whose cell is that
    value. *)
Definition Session_Execute_literal (cols : list string) (tbl : string)
    (where_ : list (string * (string * Scalar))) : M (Result * option error) :=
  emit (EvExecute (Select cols tbl (map (fun c => (fst c, fst (snd c))) where_)) []) >>
  failed <- round_trip ;;
  match failed with
  | Some err => ret (no_result, Some err)
  | None => fun w =>
      let conds := map (fun c => (fst c, Some (snd (snd c)))) where_ in
      ((result_of [map (project cols)
                       (List.filter (row_matches conds) (table_rows (tables w) tbl))], None), w)
  end.

(** A transaction handle and its three calls. *)
Inductive Transaction := mkTransaction.

Definition Session_BeginTransaction : M (option Transaction * option error) :=
  emit EvBeginTransaction >>
  failed <- round_trip ;;
  match failed with
  | Some err => ret (None, Some err)
  | None => ret (Some mkTransaction, None)
  end.

Definition Transaction_Commit (tx : Transaction) : M (option error) :=
  emit EvCommit >> round_trip.

Definition Transaction_Rollback (tx : Transaction) : M (option error) :=
  emit EvRollback >> round_trip.

(* ===================================================================== *)
(** ** Row scanning                                                       *)
(* ===================================================================== *)

Notation "'let?' x := e 'in' k" :=
  (match e with inl err => inl err | inr x => k end)
  (at level 10, x name, e at level 100, k at level 200, only parsing).

Definition scan_failed (what : string) : error := ErrStore (String.append "scan row failed: " what).

(** A destination that is a plain variable of type [A]. *)
Definition plain {A} (pol : NullPolicy) (zero : A) (dec : Scalar -> option A) (c : Cell) : error + A :=
  match c with
  | Some s => match dec s with
              | Some a => inr a
              | None => inl (scan_failed "type mismatch")
              end
  | None => match pol with
            | NullAsZeroValue => inr zero
            | NullIsScanError => inl (scan_failed "null value for a destination that is not optional")
            end
  end.

(** A destination that is a pointer variable [*A]: NULL leaves it nil. *)
Definition nullable {A} (dec : Scalar -> option A) (c : Cell) : error + option A :=
  match c with
  | Some s => match dec s with
              | Some a => inr (Some a)
              | None => inl (scan_failed "type mismatch")
              end
  | None => inr None
  end.

Definition as_int64 (s : Scalar) : option Z := match s with SInt64 z => Some z | _ => None end.
Definition as_int (s : Scalar) : option Z :=
  match s with SInt32 z => Some z | SInt64 z => Some z | _ => None end.
Definition as_bool (s : Scalar) : option bool := match s with SBool b => Some b | _ => None end.
Definition as_string (s : Scalar) : option string := match s with SText t => Some t | _ => None end.
Definition as_uint32 (s : Scalar) : option Z := match s with SDatetime z => Some z | _ => None end.
Definition as_time (s : Scalar) : option time_Time :=
  match s with
  | SDatetime z => Some (time_Unix z 0)
  | STimestamp us => Some (time_Unix (us / 1000000) ((us mod 1000000) * 1000))
  | _ => None
  end.

(** [for res.Next() { ...Scan...; xs = append(xs, x) }] over the rows of one
    result set, and [for res.NextResultSet(ctx) { ... }] around it: the
    first scan that fails ends both loops with its error. *)
Fixpoint scan_rows {A} (scan : option (list Cell) -> error + A)
    (rows : list (list Cell)) (acc : list A) : error + list A :=
  match rows with
  | [] => inr acc
  | row :: rest =>
      match scan (Some row) with
      | inl err => inl err
      | inr a => scan_rows scan rest (acc ++ [a])
      end
  end.

Fixpoint scan_sets {A} (scan : option (list Cell) -> error + A)
    (sets_ : list (list (list Cell))) (acc : list A) : error + list A :=
  match sets_ with
  | [] => inr acc
  | rows :: rest =>
      match scan_rows scan rows acc with
      | inl err => inl err
      | inr acc' => scan_sets scan rest acc'
      end
  end.

(** [VALUES ($c1, $c2, ...)] for the columns [(c1, c2, ...)]: each column is
    set from the parameter that carries its name. *)
Definition by_name (cols : list string) : list (string * string) :=
  map (fun c => (c, String "$" c)) cols.

(* ===================================================================== *)
(** ** The connection provider                                            *)
(* ===================================================================== *)

Module Connection.

(** The function [once.Do] is given. *)
Definition initialise : M unit :=
  endpoint <- os_Getenv "YDB_ENDPOINT" ;;
  database <- os_Getenv "YDB_DATABASE" ;;
  if String.eqb endpoint "" || String.eqb database ""
  then fun w => (tt, set_var_initErr (Some ErrMissingConfig) w)
  else
    opened <- ydb_Open (String.append endpoint database) ;;
    fun w => (tt, set_var_initErr (snd opened) (set_var_db (fst opened) w)).

(** [once.Do(f)]: [f] runs on the first call only. *)
Definition once_Do (f : M unit) : M unit := fun w =>
  if var_once w then (tt, w)
  else let (_, w') := f w in (tt, set_var_once true w').

Definition GetConnection : M (option Driver * option error) :=
  once_Do initialise >>
  fun w => ((var_db w, var_initErr w), w).

End Connection.

(* ===================================================================== *)
(** ** [pkg/ydb/repository.go]                                            *)
(* ===================================================================== *)

Module Repository.
Import Connection.

Definition user_columns : list string :=
  ["telegram_chat_id"; "status"; "created_at"; "last_auth_success_at"; "last_auth_failure_at"].
Definition token_columns : list string :=
  ["telegram_chat_id"; "access_token"; "refresh_token"; "user_id"; "datadome"; "app_token";
   "created_at"; "updated_at"].
Definition subscription_columns : list string :=
  ["id"; "telegram_chat_id"; "from_place_id"; "from_place_name"; "to_place_id"; "to_place_name";
   "departure_date"; "requested_seats"; "is_active"; "created_at"].
Definition notification_columns : list string :=
  ["id"; "telegram_chat_id"; "subscription_id"; "trip_id"; "telegram_message_id"; "status";
   "created_at"].

(** [res.Scan(&user.TelegramChatID, &user.Status, &user.CreatedAt,
              &lastAuthSuccess, &lastAuthFailure)] with both last
    destinations of type [*time.Time]. *)
Definition scan_user (pol : NullPolicy) (row : option (list Cell)) : error + User :=
  match row with
  | Some [c1; c2; c3; c4; c5] =>
      let? chat := plain pol 0 as_int64 c1 in
      let? status := plain pol "" as_string c2 in
      let? created := plain pol zero_Time as_time c3 in
      let? lastAuthSuccess := nullable as_time c4 in
      let? lastAuthFailure := nullable as_time c5 in
      inr (mkUser chat status created lastAuthSuccess lastAuthFailure)
  | _ => inl (scan_failed "column count")
  end.

Definition GetUserByTelegramChatID (chatID : Z) : M (option User * option error) :=
  conn <- GetConnection ;;
  match snd conn with
  | Some err => ret (None, Some err)
  | None =>
      (* SELECT telegram_chat_id, status, created_at, last_auth_success_at,
         last_auth_failure_at FROM users WHERE telegram_chat_id = $chat_id; *)
      r <- Do (Session_Execute (Select user_columns "users" [("telegram_chat_id", "$chat_id")])
                               [("$chat_id", Int64Value chatID)]) ;;
      match snd r with
      | Some err => ret (None, Some err)
      | None => fun w =>
          let (has_set, res1) := NextResultSet (fst r) in
          if negb has_set then ((None, Some ErrUserNotFound), w) else
          let (has_row, res2) := Next res1 in
          if negb has_row then ((None, Some ErrUserNotFound), w) else
          match scan_user (scan_null w) (current_row res2) with
          | inl err => ((None, Some err), w)
          | inr user => ((Some user, None), w)
          end
      end
  end.

Definition UpsertUser (user : User) : M (User * option error) :=
  conn <- GetConnection ;;
  match snd conn with
  | Some err => ret (user, Some err)
  | None =>
      now <- time_Now ;;
      let user :=
        if Time_IsZero (User_CreatedAt user)
        then mkUser (User_TelegramChatID user) (User_Status user) now
                    (User_LastAuthSuccessAt user) (User_LastAuthFailureAt user)
        else user in
      let lastSuccess := TimestampValueFromTime <$> User_LastAuthSuccessAt user in
      let lastFailure := TimestampValueFromTime <$> User_LastAuthFailureAt user in
      r <- Do (Session_Execute (Upsert "users" (by_name user_columns))
                 [("$telegram_chat_id", Int64Value (User_TelegramChatID user));
                  ("$status", UTF8Value (User_Status user));
                  ("$created_at", TimestampValueFromTime (User_CreatedAt user));
                  ("$last_auth_success_at", OptionalValueOf TypeTimestamp lastSuccess);
                  ("$last_auth_failure_at", OptionalValueOf TypeTimestamp lastFailure)]) ;;
      ret (user, snd r)
  end.

Definition UpdateUserStatus (chatID : Z) (status : UserStatus) : M (option error) :=
  conn <- GetConnection ;;
  match snd conn with
  | Some err => ret (Some err)
  | None =>
      (* UPDATE users SET status = $status WHERE telegram_chat_id = $chat_id; *)
      r <- Do (Session_Execute (Update "users" [("status", "$status")]
                                       [("telegram_chat_id", "$chat_id")])
                 [("$chat_id", Int64Value chatID); ("$status", UTF8Value status)]) ;;
      ret (snd r)
  end.

(** [res.Scan] into the eight fields of a [models.UserTokens], all plain. *)
Definition scan_tokens (pol : NullPolicy) (row : option (list Cell)) : error + UserTokens :=
  match row with
  | Some [c1; c2; c3; c4; c5; c6; c7; c8] =>
      let? chat := plain pol 0 as_int64 c1 in
      let? access := plain pol "" as_string c2 in
      let? refresh := plain pol "" as_string c3 in
      let? uid := plain pol "" as_string c4 in
      let? datadome := plain pol "" as_string c5 in
      let? appToken := plain pol "" as_string c6 in
      let? created := plain pol zero_Time as_time c7 in
      let? updated := plain pol zero_Time as_time c8 in
      inr (mkUserTokens chat access refresh uid datadome appToken created updated)
  | _ => inl (scan_failed "column count")
  end.

Definition GetUserTokens (chatID : Z) : M (option UserTokens * option error) :=
  conn <- GetConnection ;;
  match snd conn with
  | Some err => ret (None, Some err)
  | None =>
      r <- Do (Session_Execute (Select token_columns "user_tokens" [("telegram_chat_id", "$chat_id")])
                               [("$chat_id", Int64Value chatID)]) ;;
      match snd r with
      | Some err => ret (None, Some err)
      | None => fun w =>
          let (has_set, res1) := NextResultSet (fst r) in
          if negb has_set then ((None, Some ErrTokensNotFound), w) else
          let (has_row, res2) := Next res1 in
          if negb has_row then ((None, Some ErrTokensNotFound), w) else
          match scan_tokens (scan_null w) (current_row res2) with
          | inl err => ((None, Some err), w)
          | inr tokens => ((Some tokens, None), w)
          end
      end
  end.

(** The parameters [StoreUserTokens] binds for [tokens]. *)
Definition token_params (tokens : UserTokens) : QueryParameters :=
  let datadome := if String.eqb (UserTokens_Datadome tokens) "" then None
                  else Some (UTF8Value (UserTokens_Datadome tokens)) in
  let appToken := if String.eqb (UserTokens_AppToken tokens) "" then None
                  else Some (UTF8Value (UserTokens_AppToken tokens)) in
  [("$telegram_chat_id", Int64Value (UserTokens_TelegramChatID tokens));
   ("$access_token", UTF8Value (UserTokens_AccessToken tokens));
   ("$refresh_token", UTF8Value (UserTokens_RefreshToken tokens));
   ("$user_id", UTF8Value (UserTokens_UserID tokens));
   ("$datadome", OptionalValueOf TypeUTF8 datadome);
   ("$app_token", OptionalValueOf TypeUTF8 appToken);
   ("$created_at", TimestampValueFromTime (UserTokens_CreatedAt tokens));
   ("$updated_at", TimestampValueFromTime (UserTokens_UpdatedAt tokens))].

(** The first component is [*tokens] as the caller finds it afterwards. *)
Definition StoreUserTokens (tokens : UserTokens) : M (UserTokens * option error) :=
  conn <- GetConnection ;;
  match snd conn with
  | Some err => ret (tokens, Some err)
  | None =>
      now <- time_Now ;;
      let created := if Time_IsZero (UserTokens_CreatedAt tokens) then now
                     else UserTokens_CreatedAt tokens in
      let tokens :=
        mkUserTokens (UserTokens_TelegramChatID tokens) (UserTokens_AccessToken tokens)
                     (UserTokens_RefreshToken tokens) (UserTokens_UserID tokens)
                     (UserTokens_Datadome tokens) (UserTokens_AppToken tokens)
                     created now in
      r <- Do (Session_Execute (Upsert "user_tokens" (by_name token_columns)) (token_params tokens)) ;;
      ret (tokens, snd r)
  end.

Definition subscription_params (sub : SearchSubscription) : QueryParameters :=
  [("$id", UTF8Value (Sub_ID sub));
   ("$telegram_chat_id", Int64Value (Sub_TelegramChatID sub));
   ("$from_place_id", UTF8Value (Sub_FromPlaceID sub));
   ("$from_place_name", UTF8Value (Sub_FromPlaceName sub));
   ("$to_place_id", UTF8Value (Sub_ToPlaceID sub));
   ("$to_place_name", UTF8Value (Sub_ToPlaceName sub));
   ("$departure_date", UTF8Value (Sub_DepartureDate sub));
   ("$requested_seats", Int32Value (int32 (Sub_RequestedSeats sub)));
   ("$is_active", BoolValue (Sub_IsActive sub));
   ("$created_at", TimestampValueFromTime (Sub_CreatedAt sub))].

(** The first component is [*sub] as the caller finds it afterwards. *)
Definition CreateSearchSubscription (sub : SearchSubscription) : M (SearchSubscription * option error) :=
  conn <- GetConnection ;;
  match snd conn with
  | Some err => ret (sub, Some err)
  | None =>
      id <- (if String.eqb (Sub_ID sub) "" then uuid_New_String else ret (Sub_ID sub)) ;;
      now <- time_Now ;;
      let sub :=
        mkSearchSubscription id (Sub_TelegramChatID sub) (Sub_FromPlaceID sub)
          (Sub_FromPlaceName sub) (Sub_ToPlaceID sub) (Sub_ToPlaceName sub)
          (Sub_DepartureDate sub) (Sub_RequestedSeats sub) true now (Sub_LastCheckedAt sub) in
      r <- Do (Session_Execute (Insert "search_subscriptions" (by_name subscription_columns))
                               (subscription_params sub)) ;;
      ret (sub, snd r)
  end.

Definition notification_params (notif : Notification) : QueryParameters :=
  [("$id", UTF8Value (Notif_ID notif));
   ("$telegram_chat_id", Int64Value (Notif_TelegramChatID notif));
   ("$subscription_id", UTF8Value (Notif_SubscriptionID notif));
   ("$trip_id", UTF8Value (Notif_TripID notif));
   ("$telegram_message_id", Int32Value (int32 (Notif_TelegramMessageID notif)));
   ("$status", UTF8Value (Notif_Status notif));
   ("$created_at", TimestampValueFromTime (Notif_CreatedAt notif))].

(** The first component is [*notif] as the caller finds it afterwards. *)
Definition CreateNotification (notif : Notification) : M (Notification * option error) :=
  conn <- GetConnection ;;
  match snd conn with
  | Some err => ret (notif, Some err)
  | None =>
      id <- (if String.eqb (Notif_ID notif) "" then uuid_New_String else ret (Notif_ID notif)) ;;
      now <- time_Now ;;
      let notif :=
        mkNotification id (Notif_TelegramChatID notif) (Notif_SubscriptionID notif)
          (Notif_TripID notif) (Notif_TelegramMessageID notif) "sent" now in
      r <- Do (Session_Execute (Insert "notifications" (by_name notification_columns))
                               (notification_params notif)) ;;
      ret (notif, snd r)
  end.

(** [res.Scan] into the seven fields of a [models.Notification]. *)
Definition scan_notification (pol : NullPolicy) (row : option (list Cell)) : error + Notification :=
  match row with
  | Some [c1; c2; c3; c4; c5; c6; c7] =>
      let? id := plain pol "" as_string c1 in
      let? chat := plain pol 0 as_int64 c2 in
      let? sub := plain pol "" as_string c3 in
      let? trip := plain pol "" as_string c4 in
      let? message := plain pol 0 as_int c5 in
      let? status := plain pol "" as_string c6 in
      let? created := plain pol zero_Time as_time c7 in
      inr (mkNotification id chat sub trip message status created)
  | _ => inl (scan_failed "column count")
  end.

Definition GetNotificationByTrip (chatID : Z) (subID tripID : string)
  : M (option Notification * option error) :=
  conn <- GetConnection ;;
  match snd conn with
  | Some err => ret (None, Some err)
  | None =>
      (* SELECT ... FROM notifications WHERE telegram_chat_id = $chat_id
         AND subscription_id = $subscription_id AND trip_id = $trip_id; *)
      r <- Do (Session_Execute
                 (Select notification_columns "notifications"
                         [("telegram_chat_id", "$chat_id");
                          ("subscription_id", "$subscription_id");
                          ("trip_id", "$trip_id")])
                 [("$chat_id", Int64Value chatID);
                  ("$subscription_id", UTF8Value subID);
                  ("$trip_id", UTF8Value tripID)]) ;;
      match snd r with
      | Some err => ret (None, Some err)
      | None => fun w =>
          let (has_set, res1) := NextResultSet (fst r) in
          if negb has_set then ((None, None), w) else
          let (has_row, res2) := Next res1 in
          if negb has_row then ((None, None), w) else
          match scan_notification (scan_null w) (current_row res2) with
          | inl err => ((None, Some err), w)
          | inr notif => ((Some notif, None), w)
          end
      end
  end.

Definition DeleteUserTokens (chatID : Z) : M (option error) :=
  conn <- GetConnection ;;
  match snd conn with
  | Some err => ret (Some err)
  | None =>
      (* DELETE FROM user_tokens WHERE telegram_chat_id = $chat_id; *)
      r <- Do (Session_Execute (Delete "user_tokens" [("telegram_chat_id", "$chat_id")])
                               [("$chat_id", Int64Value chatID)]) ;;
      ret (snd r)
  end.

Definition DeleteSearchSubscription (subID : string) : M (option error) :=
  conn <- GetConnection ;;
  match snd conn with
  | Some err => ret (Some err)
  | None =>
      (* DELETE FROM search_subscriptions WHERE id = $id; *)
      r <- Do (Session_Execute (Delete "search_subscriptions" [("id", "$id")])
                               [("$id", UTF8Value subID)]) ;;
      ret (snd r)
  end.

(** [res.Scan] into the ten plain fields of a [models.SearchSubscription]
    and into [lastChecked], a [*time.Time]. *)
Definition scan_subscription (pol : NullPolicy) (row : option (list Cell))
  : error + SearchSubscription :=
  match row with
  | Some [c1; c2; c3; c4; c5; c6; c7; c8; c9; c10; c11] =>
      let? id := plain pol "" as_string c1 in
      let? chat := plain pol 0 as_int64 c2 in
      let? fromID := plain pol "" as_string c3 in
      let? fromName := plain pol "" as_string c4 in
      let? toID := plain pol "" as_string c5 in
      let? toName := plain pol "" as_string c6 in
      let? date := plain pol "" as_string c7 in
      let? seats := plain pol 0 as_int c8 in
      let? active := plain pol false as_bool c9 in
      let? created := plain pol zero_Time as_time c10 in
      let? lastChecked := nullable as_time c11 in
      inr (mkSearchSubscription id chat fromID fromName toID toName date seats active created
                                lastChecked)
  | _ => inl (scan_failed "column count")
  end.

(** The first component is the slice returned: nil and the empty slice are
    both the empty list. *)
Definition GetSearchSubscriptionsByUser (chatID : Z)
  : M (list SearchSubscription * option error) :=
  conn <- GetConnection ;;
  match snd conn with
  | Some err => ret ([], Some err)
  | None =>
      r <- Do (Session_Execute
                 (Select (subscription_columns ++ ["last_checked_at"]) "search_subscriptions"
                         [("telegram_chat_id", "$chat_id")])
                 [("$chat_id", Int64Value chatID)]) ;;
      match snd r with
      | Some err => ret ([], Some err)
      | None => fun w =>
          match scan_sets (scan_subscription (scan_null w)) (sets (fst r)) [] with
          | inl err => (([], Some err), w)
          | inr subs => ((subs, None), w)
          end
      end
  end.

(** The scan of [GetActiveUsers] is that of [GetUserByTelegramChatID]. *)
Definition GetActiveUsers : M (list User * option error) :=
  conn <- GetConnection ;;
  match snd conn with
  | Some err => ret ([], Some err)
  | None =>
      (* SELECT ... FROM users WHERE status = 'active'; *)
      r <- Do (Session_Execute_literal user_columns "users"
                 [("status", ("'active'", SText "active"))]) ;;
      match snd r with
      | Some err => ret ([], Some err)
      | None => fun w =>
          match scan_sets (scan_user (scan_null w)) (sets (fst r)) [] with
          | inl err => (([], Some err), w)
          | inr users => ((users, None), w)
          end
      end
  end.

Definition GetActiveSubscriptions : M (list SearchSubscription * option error) :=
  conn <- GetConnection ;;
  match snd conn with
  | Some err => ret ([], Some err)
  | None =>
      (* SELECT ... FROM search_subscriptions WHERE is_active = true; *)
      r <- Do (Session_Execute_literal (subscription_columns ++ ["last_checked_at"])
                 "search_subscriptions" [("is_active", ("true", SBool true))]) ;;
      match snd r with
      | Some err => ret ([], Some err)
      | None => fun w =>
          match scan_sets (scan_subscription (scan_null w)) (sets (fst r)) [] with
          | inl err => (([], Some err), w)
          | inr subs => ((subs, None), w)
          end
      end
  end.

Definition UpdateSubscriptionLastChecked (subID : string) : M (option error) :=
  conn <- GetConnection ;;
  match snd conn with
  | Some err => ret (Some err)
  | None =>
      (* UPDATE search_subscriptions SET last_checked_at = $last_checked_at WHERE id = $id; *)
      now <- time_Now ;;
      r <- Do (Session_Execute (Update "search_subscriptions"
                                       [("last_checked_at", "$last_checked_at")] [("id", "$id")])
                 [("$id", UTF8Value subID); ("$last_checked_at", TimestampValueFromTime now)]) ;;
      ret (snd r)
  end.

Definition SetSubscriptionActive (subID : string) (active : bool) : M (option error) :=
  conn <- GetConnection ;;
  match snd conn with
  | Some err => ret (Some err)
  | None =>
      (* UPDATE search_subscriptions SET is_active = $is_active WHERE id = $id; *)
      r <- Do (Session_Execute (Update "search_subscriptions"
                                       [("is_active", "$is_active")] [("id", "$id")])
                 [("$id", UTF8Value subID); ("$is_active", BoolValue active)]) ;;
      ret (snd r)
  end.

Definition UpdateNotificationMessageID (notifID : string) (messageID : Z) : M (option error) :=
  conn <- GetConnection ;;
  match snd conn with
  | Some err => ret (Some err)
  | None =>
      (* UPDATE notifications SET telegram_message_id = $message_id WHERE id = $id; *)
      r <- Do (Session_Execute (Update "notifications"
                                       [("telegram_message_id", "$message_id")] [("id", "$id")])
                 [("$id", UTF8Value notifID); ("$message_id", Int32Value (int32 messageID))]) ;;
      ret (snd r)
  end.

End Repository.

(* ===================================================================== *)
(** ** [pkg/ydb/interface.go]: the client                                 *)
(* ===================================================================== *)

(** How a Go call ends: it returns, or it panics. *)
Inductive Outcome (A : Type) :=
| Returned (a : A)
| Panicked (v : string).
Arguments Returned {A} a.
Arguments Panicked {A} v.

Module Client.

(** [DoTx]: the deferred [tx.Rollback(ctx)] is registered once the
    transaction has begun and runs when the closure is left, by a return or
    by a panic of [fn]. *)
Definition DoTx (fn : Transaction -> M (Outcome (option error))) : M (Outcome (option error)) :=
  Do (_ <- Session_Execute EmptyQuery [] ;;
      begun <- Session_BeginTransaction ;;
      match snd begun, fst begun with
      | Some err, _ => ret (Returned (Some err))
      | None, None => ret (Panicked "nil pointer dereference")
      | None, Some tx =>
          out <- fn tx ;;
          match out with
          | Panicked v => _ <- Transaction_Rollback tx ;; ret (Panicked v)
          | Returned (Some err) => _ <- Transaction_Rollback tx ;; ret (Returned (Some err))
          | Returned None =>
              committed <- Transaction_Commit tx ;;
              _ <- Transaction_Rollback tx ;;
              ret (Returned committed)
          end
      end).

Definition Query (sql : Stmt) (params : QueryParameters) : M (Result * option error) :=
  Do (Session_Execute sql params).

Definition Exec (sql : Stmt) (params : QueryParameters) : M (option error) :=
  r <- Do (Session_Execute sql params) ;; ret (snd r).

End Client.

(* ===================================================================== *)
(** ** [pkg/ydb/interface.go]: the query layer                            *)
(* ===================================================================== *)

Module Queries.

(** Modelled from the spec: the package-level [Query] and [Exec] this file
    calls are not among the sources.  Sections 2 and 4.3 have every
    repository operation acquire the shared connection and execute its
    statement through it, and section 4.1 has the provider hand its cached
    error to every caller: the connection is acquired first, its error is
    returned as it is, and the statement then goes through the client above
    on that connection.  [TablePathPrefix] only prefixes the statement text
    with a pragma. *)
Definition Query (sql : Stmt) (params : QueryParameters) : M (Result * option error) :=
  conn <- Connection.GetConnection ;;
  match snd conn with
  | Some err => ret (no_result, Some err)
  | None => Client.Query sql params
  end.

(** Modelled from the spec: [Exec], absent as [Query] is, does the same and
    returns the error alone. *)
Definition Exec (sql : Stmt) (params : QueryParameters) : M (option error) :=
  conn <- Connection.GetConnection ;;
  match snd conn with
  | Some err => ret (Some err)
  | None => Client.Exec sql params
  end.

(** Modelled from the spec: [res.NextRow()] belongs to the result type of
    that absent [Query]; it moves to the next row of the result, entering
    the next result set when the current one is exhausted (section 4.3:
    "zero rows" against a row to decode). *)
Definition NextRow (r : Result) : bool * Result :=
  let (has_row, r1) := Next r in
  if has_row then (true, r1)
  else let (has_set, r2) := NextResultSet r in
       if has_set then Next r2 else (false, r2).

Definition optionalDatetime (ts : option Z) : Value :=
  match ts with
  | None => NullValue TypeDatetime
  | Some t => OptionalValue (DatetimeValue t)
  end.

Definition optionalText (s : option string) : Value :=
  match s with
  | None => NullValue TypeText
  | Some t => OptionalValue (TextValue t)
  end.

(** The two halves of the timestamp codec as the file writes them out. *)
Definition encode_time (t : option time_Time) : Value :=
  optionalDatetime ((fun x => uint32 (Time_Unix x)) <$> t).

Definition decode_time (ts : option Z) : option time_Time :=
  (fun s => time_Unix s 0) <$> ts.

Definition user_columns : list string :=
  ["telegram_chat_id"; "status"; "created_at"; "last_auth_success_at"; "last_auth_failure_at"].
Definition token_columns : list string :=
  ["telegram_chat_id"; "access_token"; "refresh_token"; "user_id"; "datadome"; "app_token";
   "created_at"; "updated_at"].
Definition subscription_columns : list string :=
  ["id"; "telegram_chat_id"; "from_place_id"; "from_place_name"; "to_place_id"; "to_place_name";
   "departure_date"; "requested_seats"; "is_active"; "created_at"].
Definition notification_columns : list string :=
  ["id"; "telegram_chat_id"; "subscription_id"; "trip_id"; "telegram_message_id"; "status";
   "created_at"].

(** [res.Scan(&user.TelegramChatID, &user.Status, &user.CreatedAt,
              &lastAuthSuccess, &lastAuthFailure)] with both last
    destinations of type [*uint32], then the conversion to [*time.Time]. *)
Definition scan_user (pol : NullPolicy) (row : option (list Cell)) : error + User :=
  match row with
  | Some [c1; c2; c3; c4; c5] =>
      let? chat := plain pol 0 as_int64 c1 in
      let? status := plain pol "" as_string c2 in
      let? created := plain pol zero_Time as_time c3 in
      let? lastAuthSuccess := nullable as_uint32 c4 in
      let? lastAuthFailure := nullable as_uint32 c5 in
      inr (mkUser chat status created (decode_time lastAuthSuccess) (decode_time lastAuthFailure))
  | _ => inl (scan_failed "column count")
  end.

Definition GetUserByTelegramChatID (telegramChatID : Z) : M (option User * option error) :=
  r <- Query (Select user_columns "users" [("telegram_chat_id", "$telegram_chat_id")])
             [("$telegram_chat_id", Int64Value telegramChatID)] ;;
  match snd r with
  | Some err =>
      ret (None, Some (fmt_Errorf "failed to query user by telegram_chat_id %d: %w"
                                  [telegramChatID] err))
  | None => fun w =>
      let (has_row, res) := NextRow (fst r) in
      if has_row then
        match scan_user (scan_null w) (current_row res) with
        | inl err => ((None, Some (fmt_Errorf "failed to scan user: %w" [] err)), w)
        | inr user => ((Some user, None), w)
        end
      else ((None, Some ErrUserNotFound), w)
  end.

Definition user_params (user : User) : QueryParameters :=
  [("$telegram_chat_id", Int64Value (User_TelegramChatID user));
   ("$status", TextValue (User_Status user));
   ("$created_at", DatetimeValue (uint32 (Time_Unix (User_CreatedAt user))));
   ("$last_auth_success_at", encode_time (User_LastAuthSuccessAt user));
   ("$last_auth_failure_at", encode_time (User_LastAuthFailureAt user))].

Definition UpsertUser (user : User) : M (option error) :=
  Exec (Upsert "users" (by_name user_columns)) (user_params user).

Definition UpdateUserStatus (chatID : Z) (status : UserStatus) : M (option error) :=
  Exec (Update "users" [("status", "$status")] [("telegram_chat_id", "$telegram_chat_id")])
       [("$telegram_chat_id", Int64Value chatID); ("$status", TextValue status)].

(** [yscan.ScanRow(&tokens, res)]: the columns of the row into the fields
    of the struct, all plain. *)
Definition ScanRow_tokens (pol : NullPolicy) (row : option (list Cell)) : error + UserTokens :=
  match row with
  | Some [c1; c2; c3; c4; c5; c6; c7; c8] =>
      let? chat := plain pol 0 as_int64 c1 in
      let? access := plain pol "" as_string c2 in
      let? refresh := plain pol "" as_string c3 in
      let? uid := plain pol "" as_string c4 in
      let? datadome := plain pol "" as_string c5 in
      let? appToken := plain pol "" as_string c6 in
      let? created := plain pol zero_Time as_time c7 in
      let? updated := plain pol zero_Time as_time c8 in
      inr (mkUserTokens chat access refresh uid datadome appToken created updated)
  | _ => inl (scan_failed "column count")
  end.

Definition GetUserTokens (chatID : Z) : M (option UserTokens * option error) :=
  r <- Query (Select token_columns "user_tokens" [("telegram_chat_id", "$telegram_chat_id")])
             [("$telegram_chat_id", Int64Value chatID)] ;;
  match snd r with
  | Some err => ret (None, Some (fmt_Errorf "failed to query user tokens: %w" [] err))
  | None => fun w =>
      let (has_row, res) := NextRow (fst r) in
      if has_row then
        match ScanRow_tokens (scan_null w) (current_row res) with
        | inl err => ((None, Some (fmt_Errorf "failed to scan user tokens: %w" [] err)), w)
        | inr tokens => ((Some tokens, None), w)
        end
      else ((None, Some ErrTokensNotFound), w)
  end.

Definition token_params (tokens : UserTokens) : QueryParameters :=
  let datadome := if String.eqb (UserTokens_Datadome tokens) "" then None
                  else Some (UserTokens_Datadome tokens) in
  let appToken := if String.eqb (UserTokens_AppToken tokens) "" then None
                  else Some (UserTokens_AppToken tokens) in
  [("$telegram_chat_id", Int64Value (UserTokens_TelegramChatID tokens));
   ("$access_token", TextValue (UserTokens_AccessToken tokens));
   ("$refresh_token", TextValue (UserTokens_RefreshToken tokens));
   ("$user_id", TextValue (UserTokens_UserID tokens));
   ("$datadome", optionalText datadome);
   ("$app_token", optionalText appToken);
   ("$created_at", DatetimeValue (uint32 (Time_Unix (UserTokens_CreatedAt tokens))));
   ("$updated_at", DatetimeValue (uint32 (Time_Unix (UserTokens_UpdatedAt tokens))))].

Definition StoreUserTokens (tokens : UserTokens) : M (option error) :=
  Exec (Upsert "user_tokens" (by_name token_columns)) (token_params tokens).

Definition subscription_params (sub : SearchSubscription) : QueryParameters :=
  [("$id", TextValue (Sub_ID sub));
   ("$telegram_chat_id", Int64Value (Sub_TelegramChatID sub));
   ("$from_place_id", TextValue (Sub_FromPlaceID sub));
   ("$from_place_name", TextValue (Sub_FromPlaceName sub));
   ("$to_place_id", TextValue (Sub_ToPlaceID sub));
   ("$to_place_name", TextValue (Sub_ToPlaceName sub));
   ("$departure_date", TextValue (Sub_DepartureDate sub));
   ("$requested_seats", Int32Value (int32 (Sub_RequestedSeats sub)));
   ("$is_active", BoolValue (Sub_IsActive sub));
   ("$created_at", DatetimeValue (uint32 (Time_Unix (Sub_CreatedAt sub))))].

Definition CreateSearchSubscription (sub : SearchSubscription) : M (option error) :=
  Exec (Insert "search_subscriptions" (by_name subscription_columns)) (subscription_params sub).

Definition DeleteUserTokens (chatID : Z) : M (option error) :=
  Exec (Delete "user_tokens" [("telegram_chat_id", "$telegram_chat_id")])
       [("$telegram_chat_id", Int64Value chatID)].

Definition DeleteSearchSubscription (subID : string) : M (option error) :=
  Exec (Delete "search_subscriptions" [("id", "$id")]) [("$id", TextValue subID)].

Definition notification_params (notif : Notification) : QueryParameters :=
  [("$id", TextValue (Notif_ID notif));
   ("$telegram_chat_id", Int64Value (Notif_TelegramChatID notif));
   ("$subscription_id", TextValue (Notif_SubscriptionID notif));
   ("$trip_id", TextValue (Notif_TripID notif));
   ("$telegram_message_id", Int32Value (int32 (Notif_TelegramMessageID notif)));
   ("$status", TextValue (Notif_Status notif));
   ("$created_at", DatetimeValue (uint32 (Time_Unix (Notif_CreatedAt notif))))].

Definition CreateNotification (notif : Notification) : M (option error) :=
  Exec (Insert "notifications" (by_name notification_columns)) (notification_params notif).

(** [res.Scan(..., &createdAt)] with [createdAt] a [uint32], then
    [notif.CreatedAt = time.Unix(int64(createdAt), 0)]. *)
Definition scan_notification (pol : NullPolicy) (row : option (list Cell)) : error + Notification :=
  match row with
  | Some [c1; c2; c3; c4; c5; c6; c7] =>
      let? id := plain pol "" as_string c1 in
      let? chat := plain pol 0 as_int64 c2 in
      let? sub := plain pol "" as_string c3 in
      let? trip := plain pol "" as_string c4 in
      let? message := plain pol 0 as_int c5 in
      let? status := plain pol "" as_string c6 in
      let? createdAt := plain pol 0 as_uint32 c7 in
      inr (mkNotification id chat sub trip message status (time_Unix createdAt 0))
  | _ => inl (scan_failed "column count")
  end.

Definition GetNotificationByTrip (chatID : Z) (subID tripID : string)
  : M (option Notification * option error) :=
  r <- Query (Select notification_columns "notifications"
                     [("telegram_chat_id", "$telegram_chat_id");
                      ("subscription_id", "$subscription_id");
                      ("trip_id", "$trip_id")])
             [("$telegram_chat_id", Int64Value chatID);
              ("$subscription_id", TextValue subID);
              ("$trip_id", TextValue tripID)] ;;
  match snd r with
  | Some err => ret (None, Some (fmt_Errorf "failed to query notification: %w" [] err))
  | None => fun w =>
      let (has_row, res) := NextRow (fst r) in
      if has_row then
        match scan_notification (scan_null w) (current_row res) with
        | inl err => ((None, Some (fmt_Errorf "failed to scan notification: %w" [] err)), w)
        | inr notif => ((Some notif, None), w)
        end
      else ((None, None), w)
  end.

(** Modelled from the spec: [Query(ctx, sql)] with no parameter, for the
    two statements that compare a column with a literal, is the absent
    [Query] above: the connection first, its error as it is, then the
    statement. *)
Definition Query_literal (cols : list string) (tbl : string)
    (where_ : list (string * (string * Scalar))) : M (Result * option error) :=
  conn <- Connection.GetConnection ;;
  match snd conn with
  | Some err => ret (no_result, Some err)
  | None => Do (Session_Execute_literal cols tbl where_)
  end.

(** [for res.NextRow() { ...; err = res.Scan(...); if err != nil { return
    nil, ... }; xs = append(xs, x) }].  Every turn but the last takes a row
    off the result, so the loop is over within one turn more than the
    result has rows: [fuel] bounds the turns and [scan_all] gives it that
    many. *)
Fixpoint NextRow_loop {A} (scan : option (list Cell) -> error + A)
    (fuel : nat) (r : Result) (acc : list A) : error + list A :=
  match fuel with
  | O => inr acc
  | S n =>
      let (has_row, r') := NextRow r in
      if has_row then
        match scan (current_row r') with
        | inl err => inl err
        | inr a => NextRow_loop scan n r' (acc ++ [a])
        end
      else inr acc
  end.

Definition pending (r : Result) : nat :=
  (length (rows_left r) + list_sum (map (@length (list Cell)) (sets r)))%nat.

Definition scan_all {A} (scan : option (list Cell) -> error + A) (r : Result) : error + list A :=
  NextRow_loop scan (S (pending r)) r [].

(** The literal of [WHERE status = ...] as this file writes it, between
    double quotes. *)
Definition quoted (s : string) : string :=
  String.append (byte_string [34]%nat) (String.append s (byte_string [34]%nat)).

Definition GetActiveUsers : M (list User * option error) :=
  r <- Query_literal user_columns "users" [("status", (quoted "active", SText "active"))] ;;
  match snd r with
  | Some err => ret ([], Some (fmt_Errorf "failed to query active users: %w" [] err))
  | None => fun w =>
      match scan_all (scan_user (scan_null w)) (fst r) with
      | inl err => (([], Some (fmt_Errorf "failed to scan user: %w" [] err)), w)
      | inr users => ((users, None), w)
      end
  end.

(** [res.Scan] into the ten plain fields of a [models.SearchSubscription]
    and into [lastChecked], a [*uint32], then the conversion to
    [*time.Time]. *)
Definition scan_subscription (pol : NullPolicy) (row : option (list Cell))
  : error + SearchSubscription :=
  match row with
  | Some [c1; c2; c3; c4; c5; c6; c7; c8; c9; c10; c11] =>
      let? id := plain pol "" as_string c1 in
      let? chat := plain pol 0 as_int64 c2 in
      let? fromID := plain pol "" as_string c3 in
      let? fromName := plain pol "" as_string c4 in
      let? toID := plain pol "" as_string c5 in
      let? toName := plain pol "" as_string c6 in
      let? date := plain pol "" as_string c7 in
      let? seats := plain pol 0 as_int c8 in
      let? active := plain pol false as_bool c9 in
      let? created := plain pol zero_Time as_time c10 in
      let? lastChecked := nullable as_uint32 c11 in
      inr (mkSearchSubscription id chat fromID fromName toID toName date seats active created
                                (decode_time lastChecked))
  | _ => inl (scan_failed "column count")
  end.

Definition GetSearchSubscriptionsByUser (chatID : Z)
  : M (list SearchSubscription * option error) :=
  r <- Query (Select (subscription_columns ++ ["last_checked_at"]) "search_subscriptions"
                     [("telegram_chat_id", "$telegram_chat_id")])
             [("$telegram_chat_id", Int64Value chatID)] ;;
  match snd r with
  | Some err => ret ([], Some (fmt_Errorf "failed to query subscriptions: %w" [] err))
  | None => fun w =>
      match scan_all (scan_subscription (scan_null w)) (fst r) with
      | inl err => (([], Some (fmt_Errorf "failed to scan subscription: %w" [] err)), w)
      | inr subs => ((subs, None), w)
      end
  end.

Definition GetActiveSubscriptions : M (list SearchSubscription * option error) :=
  r <- Query_literal (subscription_columns ++ ["last_checked_at"]) "search_subscriptions"
                     [("is_active", ("true", SBool true))] ;;
  match snd r with
  | Some err => ret ([], Some (fmt_Errorf "failed to query active subscriptions: %w" [] err))
  | None => fun w =>
      match scan_all (scan_subscription (scan_null w)) (fst r) with
      | inl err => (([], Some (fmt_Errorf "failed to scan subscription: %w" [] err)), w)
      | inr subs => ((subs, None), w)
      end
  end.

Definition UpdateSubscriptionLastChecked (subID : string) : M (option error) :=
  now <- time_Now ;;
  Exec (Update "search_subscriptions" [("last_checked_at", "$last_checked_at")] [("id", "$id")])
       [("$id", TextValue subID); ("$last_checked_at", DatetimeValue (uint32 (Time_Unix now)))].

Definition SetSubscriptionActive (subID : string) (active : bool) : M (option error) :=
  Exec (Update "search_subscriptions" [("is_active", "$is_active")] [("id", "$id")])
       [("$id", TextValue subID); ("$is_active", BoolValue active)].

Definition UpdateNotificationMessageID (notifID : string) (messageID : Z) : M (option error) :=
  Exec (Update "notifications" [("telegram_message_id", "$telegram_message_id")] [("id", "$id")])
       [("$id", TextValue notifID); ("$telegram_message_id", Int32Value (int32 messageID))].

End Queries.

(* ===================================================================== *)
(** ** The telegram helpers                                               *)
(* ===================================================================== *)

(** [strings.Split(s, sep)] for a separator of one byte: the pieces of [s]
    between the separators, at least one piece, the empty string having the
    empty piece alone. *)
Fixpoint strings_Split (s : string) (sep : ascii) : list string :=
  match s with
  | EmptyString => [EmptyString]
  | String c rest =>
      if Ascii.eqb c sep then EmptyString :: strings_Split rest sep
      else match strings_Split rest sep with
           | [] => [String c EmptyString]
           | piece :: pieces => String c piece :: pieces
           end
  end.

(** [strings.Join(elems, sep)] *)
Definition strings_Join (elems : list string) (sep : string) : string :=
  String.concat sep elems.

(** [strconv.ParseInt(s, 10, 64)] and the [strconv.ParseUint(s, 10, 64)] it
    is built on.  The result is the value returned and the error, which is
    [ErrSyntax] or [ErrRange] inside a [*NumError]. *)
Inductive NumError := ErrSyntax | ErrRange.

Definition maxUint64 : Z := 2 ^ 64 - 1.

(** The value of a decimal digit; no other byte is accepted in base 10. *)
Definition decimal_digit (c : ascii) : option Z :=
  let n := Z.of_nat (nat_of_ascii c) in
  if (48 <=? n) && (n <=? 57) then Some (n - 48) else None.

(** The loop of [ParseUint] over the bytes, [n] the number read so far. *)
Fixpoint ParseUint_loop (s : string) (n : Z) : Z * option NumError :=
  match s with
  | EmptyString => (n, None)
  | String c rest =>
      match decimal_digit c with
      | None => (0, Some ErrSyntax)
      | Some d =>
          (* cutoff: the smallest number such that cutoff*10 > maxUint64 *)
          if maxUint64 / 10 + 1 <=? n then (maxUint64, Some ErrRange)
          else
            let n10 := uint64 (n * 10) in
            let n1 := uint64 (n10 + d) in
            if (n1 <? n10) || (maxUint64 <? n1) then (maxUint64, Some ErrRange)
            else ParseUint_loop rest n1
      end
  end.

Definition strconv_ParseUint (s : string) : Z * option NumError :=
  if String.eqb s "" then (0, Some ErrSyntax) else ParseUint_loop s 0.

Definition strconv_ParseInt (s : string) : Z * option NumError :=
  match s with
  | EmptyString => (0, Some ErrSyntax)
  | String c rest =>
      let neg := Ascii.eqb c "-" in
      let digits := if Ascii.eqb c "+" || neg then rest else s in
      let (un, err) := strconv_ParseUint digits in
      match err with
      | Some ErrSyntax => (0, Some ErrSyntax)
      | _ =>
          let cutoff := 2 ^ 63 in
          if negb neg && (cutoff <=? un) then (cutoff - 1, Some ErrRange)
          else if neg && (cutoff <? un) then (- cutoff, Some ErrRange)
          else (if neg then - un else un, None)
      end
  end.

Module Telegram.

(** The UTF-8 bytes of the three symbols of the message. *)
Definition check_mark : string := byte_string [226; 156; 133]%nat.   (* U+2705 *)
Definition cross_mark : string := byte_string [226; 157; 140]%nat.   (* U+274C *)
Definition arrow : string := byte_string [226; 134; 146]%nat.        (* U+2192 *)
Definition newline : string := byte_string [10]%nat.

(** [fmt.Sprintf("*Subscription #%s*\n%s -> %s\nDate: %s\nStatus: %s",
                 id[:8], from, to, date, status)], the arrow being U+2192. *)
Definition FormatSubscriptionMessage (id from to date : string) (isActive : bool)
  : panic + string :=
  let status := if negb isActive
                then String.append cross_mark " Inactive"
                else String.append check_mark " Active" in
  match slice_to id 8 with
  | inl p => inl p
  | inr id8 =>
      inr (String.concat ""
             ["*Subscription #"; id8; "*"; newline; from; " "; arrow; " "; to; newline;
              "Date: "; date; newline; "Status: "; status])
  end.

(** [ParseCallbackData]: the piece before the first colon and the pieces
    after it. *)
Definition ParseCallbackData (data : string) : string * list string :=
  let parts := strings_Split data ":" in
  match parts with
  | [] => ("", [])                         (* len(parts) == 0 *)
  | action :: params => (action, params)   (* parts[0], parts[1:] *)
  end.

Definition CreateCallbackData (action : string) (params : list string) : string :=
  strings_Join ([action] ++ params) ":".

Definition FormatSubscriptionsList (subscriptions : list string) : string :=
  if (length subscriptions =? 0)%nat then "No active subscriptions"
  else strings_Join subscriptions (String.append newline newline).

Definition GetChatIDFromString (s : string) : Z * option NumError := strconv_ParseInt s.

(** [*tba.BotAPI], known by its token, and the client that wraps the
    pointer. *)
Record BotAPI := mkBotAPI { BotAPI_Token : string }.
Record BotClient := mkBotClient { BotClient_bot : option BotAPI }.

(** The two errors of [NewBotClientFromEnv]:
    [fmt.Errorf("TELEGRAM_BOT_TOKEN not set")] and
    [fmt.Errorf("failed to create bot: %w", err)]. *)
Inductive bot_error :=
| TokenNotSet
| CreateBotFailed (cause : error).

(** [tba.NewBotAPI(token)]: one call to the bot API, which checks the token. *)
Definition tba_NewBotAPI (token : string) : M (option BotAPI * option error) :=
  failed <- round_trip ;;
  match failed with
  | Some err => ret (None, Some err)
  | None => ret (Some (mkBotAPI token), None)
  end.

Definition NewBotClientFromEnv : M (option BotClient * option bot_error) :=
  token <- os_Getenv "TELEGRAM_BOT_TOKEN" ;;
  if String.eqb token "" then ret (None, Some TokenNotSet)
  else
    created <- tba_NewBotAPI token ;;
    match snd created with
    | Some err => ret (None, Some (CreateBotFailed err))
    | None => ret (Some (mkBotClient (fst created)), None)
    end.

End Telegram.

(* ===================================================================== *)
(** ** Vocabulary of the statements                                       *)
(* ===================================================================== *)

(** The package variables as the process starts. *)
Definition fresh_process (w : World) : Prop :=
  var_once w = false /\ var_db w = None /\ var_initErr w = None.

(** The connection provider has run and succeeded. *)
Definition connected (w : World) : Prop :=
  var_once w = true /\ var_initErr w = None.

(** What the provider can have cached: nothing, the configuration error or
    the error of the dial; never one of the not-found sentinels. *)
Definition provider_invariant (w : World) : Prop :=
  match var_initErr w with
  | None | Some ErrMissingConfig | Some (ErrStore _) => True
  | Some _ => False
  end.

(** The failure, if any, of the next network call. *)
Definition next_fault (w : World) : option string :=
  match round_trips w with
  | o :: _ => o
  | [] => None
  end.

(** The rows of a table whose listed columns hold the listed values. *)
Definition rows_where (w : World) (tbl : string) (conds : list (string * Scalar)) : list Row :=
  List.filter (row_matches (map (fun cv => (fst cv, Some (snd cv))) conds))
              (table_rows (tables w) tbl).

Definition user_rows (w : World) (chatID : Z) : list Row :=
  rows_where w "users" [("telegram_chat_id", SInt64 chatID)].

Definition token_rows (w : World) (chatID : Z) : list Row :=
  rows_where w "user_tokens" [("telegram_chat_id", SInt64 chatID)].

Definition notification_rows (w : World) (chatID : Z) (subID tripID : string) : list Row :=
  rows_where w "notifications"
    [("telegram_chat_id", SInt64 chatID); ("subscription_id", SText subID); ("trip_id", SText tripID)].

Definition subscription_rows (w : World) (chatID : Z) : list Row :=
  rows_where w "search_subscriptions" [("telegram_chat_id", SInt64 chatID)].

(** A variable that is not present, and one present with the empty string:
    [os.Getenv] returns the empty string for both. *)
Definition env_unset (w : World) (key : string) : Prop := environ w !! key = None.
Definition env_empty (w : World) (key : string) : Prop := environ w !! key = Some "".

(** The decoding half of the timestamp codec of the query layer: the cell a
    bound value lands in, scanned into a [*uint32], converted back. *)
Definition decode_stored_time (v : Value) : error + option time_Time :=
  match nullable as_uint32 (cell_of v) with
  | inl err => inl err
  | inr ts => inr (Queries.decode_time ts)
  end.

(** The instant a [Timestamp] column gives back for an instant written to it. *)
Definition through_timestamp (t : time_Time) : time_Time :=
  let us := uint64 (Time_UnixMicro t) in
  time_Unix (us / 1000000) ((us mod 1000000) * 1000).

(** The instant a [Datetime] column gives back for an instant written to it. *)
Definition through_datetime (t : time_Time) : time_Time :=
  time_Unix (uint32 (Time_Unix t)) 0.

Definition with_status (u : User) (status : UserStatus) : User :=
  mkUser (User_TelegramChatID u) status (User_CreatedAt u)
         (User_LastAuthSuccessAt u) (User_LastAuthFailureAt u).

(** The events [DoTx] adds once the unit of work has ended with [out]. *)
Definition after_unit_of_work (out : Outcome (option error)) : list Event :=
  match out with
  | Returned None => [EvCommit; EvRollback]
  | Returned (Some _) => [EvRollback]
  | Panicked _ => [EvRollback]
  end.

(** The state in which [DoTx] hands the transaction to the unit of work, or
    the error of [BeginTransaction]. *)
Definition begin_transaction (w : World) : (option Transaction * option error) * World :=
  Session_BeginTransaction (snd (Session_Execute EmptyQuery [] w)).

(** What a point lookup makes of the rows its statement selects: the
    answer for no row, or the first row scanned. *)
Definition read_first {A} (rows : list Row) (cols : list string)
    (scan : option (list Cell) -> error + A) (wrap : error -> error) (none : option error)
  : option A * option error :=
  match rows with
  | [] => (None, none)
  | r :: _ => match scan (Some (project cols r)) with
              | inl err => (None, Some (wrap err))
              | inr a => (Some a, None)
              end
  end.

(** The cell [set_cells] leaves in a column: the last one listed for it. *)
Fixpoint last_binding (c : string) (cells : list (string * Cell)) : option Cell :=
  match cells with
  | [] => None
  | cv :: rest =>
      match last_binding c rest with
      | Some v => Some v
      | None => if String.eqb (fst cv) c then Some (snd cv) else None
      end
  end.

(** The two shapes a stored row can have after a write of [cells]: an
    older row with those cells set, or the new row of those cells alone. *)
Definition written (cells : list (string * Cell)) (row : Row) : Prop :=
  exists old : Row, row = set_cells old cells.

(** The operations of [repository.go] that update their argument, seen as
    the query layer's are: the error and the world after. *)
Definition Repository_StoreUserTokens (tokens : UserTokens) : M (option error) :=
  fun w => let r := Repository.StoreUserTokens tokens w in (snd (fst r), snd r).

(** *** The claims, stated once for both implementations *)

(** C3, first half: no row for the triple is an empty answer, not an error. *)
Definition absent_notification_is_no_error
    (ready : World -> Prop)
    (get : Z -> string -> string -> M (option Notification * option error)) : Prop :=
  forall (chatID : Z) (subID tripID : string) (w : World),
    ready w ->
    next_fault w = None ->
    notification_rows w chatID subID tripID = [] ->
    fst (get chatID subID tripID w) = (None, None).

(** C3, second half: after one successful create with a triple that had no
    row, the lookup of the triple returns the record as stored. *)
Definition created_notification_is_found
    (ready : World -> Prop)
    (create : Notification -> M (Notification * option error))
    (get : Z -> string -> string -> M (option Notification * option error))
    (as_stored : Notification -> Notification) : Prop :=
  forall (notif : Notification) (w : World),
    let chatID := Notif_TelegramChatID notif in
    let subID := Notif_SubscriptionID notif in
    let tripID := Notif_TripID notif in
    let r := create notif w in
    ready w ->
    notification_rows w chatID subID tripID = [] ->
    snd (fst r) = None ->
    next_fault (snd r) = None ->
    exists found : Notification,
      fst (get chatID subID tripID (snd r)) = (Some found, None) /\
      found = as_stored (fst (fst r)) /\
      Notif_TelegramChatID found = chatID /\
      Notif_SubscriptionID found = subID /\
      Notif_TripID found = tripID.

(** C4: a point lookup answers its own not-found error when no row
    matches, answers it in no other case, and hands a failure of the store
    to the caller, as it is ([wrap] the identity) or wrapped by
    [fmt.Errorf] with [%w]. *)
Definition point_lookup_errors {A}
    (ready : World -> Prop)
    (get : Z -> M (option A * option error))
    (rows : World -> Z -> list Row)
    (not_found : error) (wrap : Z -> error -> error) : Prop :=
  forall (chatID : Z) (w : World),
    (ready w -> next_fault w = None -> rows w chatID = [] ->
       fst (get chatID w) = (None, Some not_found)) /\
    (provider_invariant w ->
       forall e, snd (fst (get chatID w)) = Some e -> errors_Is e not_found = true ->
       rows w chatID = []) /\
    (ready w ->
       forall msg, next_fault w = Some msg ->
       fst (get chatID w) = (None, Some (wrap chatID (ErrStore msg))) /\
       errors_Is (wrap chatID (ErrStore msg)) (ErrStore msg) = true /\
       errors_Is (wrap chatID (ErrStore msg)) not_found = false).

(** A blank auxiliary token is bound as the typed null and
    leaves a NULL cell, not an empty string, in the row of the chat. *)
Definition writes_null_for_blank_token (store : UserTokens -> M (option error)) : Prop :=
  forall (tokens : UserTokens) (w : World),
    let chatID := UserTokens_TelegramChatID tokens in
    let w' := snd (store tokens w) in
    fst (store tokens w) = None ->
    (exists q ps,
        last (trace w') = Some (EvExecute q ps) /\
        (UserTokens_Datadome tokens = "" -> param ps "$datadome" = Some (NullValue TypeUTF8)) /\
        (UserTokens_AppToken tokens = "" -> param ps "$app_token" = Some (NullValue TypeUTF8))) /\
    token_rows w' chatID <> [] /\
    (forall row : Row,
        In row (token_rows w' chatID) ->
        (UserTokens_Datadome tokens = "" -> row !! "datadome" = None) /\
        (UserTokens_AppToken tokens = "" -> row !! "app_token" = None)).

(** With the connection acquired and no fault of the network, a store of a
    token set goes through. *)
Definition store_goes_through (store : UserTokens -> M (option error)) : Prop :=
  forall (tokens : UserTokens) (w : World),
    connected w -> next_fault w = None -> fst (store tokens w) = None.

(** The status cell alone, set in the rows of one chat. *)
Definition set_status_of (chatID : Z) (status : UserStatus) (old : Row) : Row :=
  if row_matches [("telegram_chat_id", Some (SInt64 chatID))] old
  then set_cells old [("status", Some (SText status))]
  else old.

(** C9, in the store: a successful status update sets the status cell of
    the rows of the chat and nothing else; every other table, every other
    row and every other column is as it was. *)
Definition status_update_frame (update : Z -> UserStatus -> M (option error)) : Prop :=
  forall (chatID : Z) (status : UserStatus) (w1 w2 : World),
    update chatID status w1 = (None, w2) ->
    table_rows (tables w2) "users"
    = map (set_status_of chatID status) (table_rows (tables w1) "users") /\
    (forall tbl, tbl <> "users" -> table_rows (tables w2) tbl = table_rows (tables w1) tbl) /\
    Forall2 (fun old new : Row => forall c, c <> "status" -> new !! c = old !! c)
            (table_rows (tables w1) "users") (table_rows (tables w2) "users").

(** C9, as a lookup sees it: where a lookup returned [u] before the
    update, the lookup after it returns [u] with the new status: the chat
    identity, the creation time and both authentication times are those of
    before. *)
Definition status_update_observed
    (get : Z -> M (option User * option error))
    (update : Z -> UserStatus -> M (option error)) : Prop :=
  forall (chatID : Z) (status : UserStatus) (u : User) (w w1 w2 : World),
    get chatID w = ((Some u, None), w1) ->
    update chatID status w1 = (None, w2) ->
    next_fault w2 = None ->
    exists after : User,
      fst (get chatID w2) = (Some after, None) /\
      User_Status after = status /\
      User_TelegramChatID after = User_TelegramChatID u /\
      User_CreatedAt after = User_CreatedAt u /\
      User_LastAuthSuccessAt after = User_LastAuthSuccessAt u /\
      User_LastAuthFailureAt after = User_LastAuthFailureAt u.

(** Idempotent delete: with no fault of the network a delete succeeds,
    removes the rows under its key and no other row of any table, so that
    with no row under the key every table reads as before; and it leaves
    the conditions for the next delete in place. *)
Definition delete_is_idempotent {K}
    (ready : World -> Prop) (delete : K -> M (option error))
    (tbl col : string) (key : K -> Scalar) : Prop :=
  forall (k : K) (w : World),
    ready w ->
    next_fault w = None ->
    let r := delete k w in
    fst r = None /\
    ready (snd r) /\
    rows_where (snd r) tbl [(col, key k)] = [] /\
    table_rows (tables (snd r)) tbl
    = List.filter (fun row => negb (row_matches [(col, Some (key k))] row))
                  (table_rows (tables w) tbl) /\
    (forall tbl', tbl' <> tbl -> table_rows (tables (snd r)) tbl' = table_rows (tables w) tbl') /\
    (rows_where w tbl [(col, key k)] = [] ->
     forall tbl', table_rows (tables (snd r)) tbl' = table_rows (tables w) tbl').

(** Upsert then read: after a successful upsert the lookup of the chat
    returns the user the upsert wrote, as the table gives it back, whether
    the chat had a row before or not. *)
Definition upserted_user_is_read_back
    (ready : World -> Prop)
    (upsert : User -> M (User * option error))
    (get : Z -> M (option User * option error))
    (as_stored : User -> User) : Prop :=
  forall (user : User) (w : World),
    let r := upsert user w in
    ready w ->
    snd (fst r) = None ->
    next_fault (snd r) = None ->
    fst (get (User_TelegramChatID user) (snd r)) = (Some (as_stored (fst (fst r))), None).

(** A user as the store gives it back: the times at the resolution of the
    column, an absent time absent. *)
Definition Repository_user_as_stored (u : User) : User :=
  mkUser (User_TelegramChatID u) (User_Status u) (through_timestamp (User_CreatedAt u))
         (through_timestamp <$> User_LastAuthSuccessAt u)
         (through_timestamp <$> User_LastAuthFailureAt u).

Definition Queries_user_as_stored (u : User) : User :=
  mkUser (User_TelegramChatID u) (User_Status u) (through_datetime (User_CreatedAt u))
         (through_datetime <$> User_LastAuthSuccessAt u)
         (through_datetime <$> User_LastAuthFailureAt u).

Definition Queries_UpsertUser (user : User) : M (User * option error) :=
  fun w => let r := Queries.UpsertUser user w in ((user, fst r), snd r).

(** A subscription as [search_subscriptions] gives it back after its
    insert: the seat count narrowed to 32 bits, the creation time at the
    resolution of the column, and no last check, a column the insert does
    not set. *)
Definition Repository_subscription_as_stored (s : SearchSubscription) : SearchSubscription :=
  mkSearchSubscription (Sub_ID s) (Sub_TelegramChatID s) (Sub_FromPlaceID s) (Sub_FromPlaceName s)
    (Sub_ToPlaceID s) (Sub_ToPlaceName s) (Sub_DepartureDate s) (int32 (Sub_RequestedSeats s))
    (Sub_IsActive s) (through_timestamp (Sub_CreatedAt s)) None.

(** A notification as the store gives it back: the message id narrowed to
    32 bits and the creation time at the resolution of the column. *)
Definition Repository_as_stored (n : Notification) : Notification :=
  mkNotification (Notif_ID n) (Notif_TelegramChatID n) (Notif_SubscriptionID n) (Notif_TripID n)
                 (int32 (Notif_TelegramMessageID n)) (Notif_Status n)
                 (through_timestamp (Notif_CreatedAt n)).

Definition Queries_as_stored (n : Notification) : Notification :=
  mkNotification (Notif_ID n) (Notif_TelegramChatID n) (Notif_SubscriptionID n) (Notif_TripID n)
                 (int32 (Notif_TelegramMessageID n)) (Notif_Status n)
                 (through_datetime (Notif_CreatedAt n)).

Definition Queries_CreateNotification (notif : Notification) : M (Notification * option error) :=
  fun w => let r := Queries.CreateNotification notif w in ((notif, fst r), snd r).

(** Every process, whatever the state of its connection provider. *)
Definition always (w : World) : Prop := True.

(** *** Vocabulary for the rest of the package *)

(** [true] when the byte occurs in the string. *)
Fixpoint contains_byte (c : ascii) (s : string) : bool :=
  match s with
  | EmptyString => false
  | String a rest => Ascii.eqb a c || contains_byte c rest
  end.

(** No colon in the action nor in any of the parameters. *)
Definition colon_free (action : string) (params : list string) : Prop :=
  contains_byte ":" action = false /\ Forall (fun p => contains_byte ":" p = false) params.

(** The number a run of decimal digits denotes after [n], with no bound;
    [None] when a byte is not a digit. *)
Fixpoint digits_value (s : string) (n : Z) : option Z :=
  match s with
  | EmptyString => Some n
  | String c rest =>
      match decimal_digit c with
      | None => None
      | Some d => digits_value rest (n * 10 + d)
      end
  end.

(** A decimal numeral: one digit or more, then an optional sign before it. *)
Definition decimal_number (s : string) : option Z :=
  if String.eqb s "" then None else digits_value s 0.

Definition signed_decimal (s : string) : option Z :=
  match s with
  | EmptyString => None
  | String c rest =>
      if Ascii.eqb c "+" then decimal_number rest
      else if Ascii.eqb c "-" then Z.opp <$> decimal_number rest
      else decimal_number s
  end.

Definition blank_line : string := String.append Telegram.newline Telegram.newline.

(** The shape of every operation of [repository.go], and of the query
    layer through its [Query] and [Exec]: acquire the connection, hand its
    error to the caller, else run the statement. *)
Definition with_connection {A} (refused : error -> A) (body : M A) : M A :=
  conn <- Connection.GetConnection ;;
  match snd conn with
  | Some err => ret (refused err)
  | None => body
  end.

(** The cell of [col] set in a row whose [key_col] holds [key]; any other
    row as it is. *)
Definition set_where (key_col : string) (key : Scalar) (col : string) (cell : Cell)
    (old : Row) : Row :=
  if row_matches [(key_col, Some key)] old then set_cells old [(col, cell)] else old.

(** A narrow update: a call that succeeds has set the cell of [col] in the
    rows of [tbl] under the key and has changed nothing else: no other
    column, no other row, no other table; with no row under the key every
    table reads as before.  In a process that is [ready], whether a row has
    the key plays no part in the outcome: without a fault of the network
    the call returns no error, with one it returns that error and leaves
    the tables alone. *)
Definition narrow_update {K V}
    (ready : World -> Prop) (update : K -> V -> M (option error))
    (tbl key_col col : string) (key : K -> Scalar) (cell : World -> V -> Cell) : Prop :=
  (forall (k : K) (v : V) (w1 w2 : World),
      update k v w1 = (None, w2) ->
      table_rows (tables w2) tbl
      = map (set_where key_col (key k) col (cell w1 v)) (table_rows (tables w1) tbl) /\
      (forall tbl', tbl' <> tbl -> table_rows (tables w2) tbl' = table_rows (tables w1) tbl') /\
      Forall2 (fun old new : Row =>
                 (forall c, c <> col -> new !! c = old !! c) /\
                 (row_matches [(key_col, Some (key k))] old = false -> new = old))
              (table_rows (tables w1) tbl) (table_rows (tables w2) tbl) /\
      (rows_where w1 tbl [(key_col, key k)] = [] ->
       forall tbl', table_rows (tables w2) tbl' = table_rows (tables w1) tbl') /\
      scan_null w2 = scan_null w1 /\ (ready w1 -> ready w2)) /\
  (forall (k : K) (v : V) (w : World),
      ready w ->
      match next_fault w with
      | Some msg => fst (update k v w) = Some (ErrStore msg) /\
                    tables (snd (update k v w)) = tables w
      | None => fst (update k v w) = None
      end).

(** An operation that goes through the connection provider first: from
    any state it does what it does from the state the provider leaves, and
    it ends without an error only where the provider has succeeded. *)
Definition through_the_provider {A} (err : A -> option error) (op : M A) : Prop :=
  forall w : World,
    let wc := snd (Connection.GetConnection w) in
    op w = op wc /\ (err (fst (op w)) = None -> connected wc).

Definition active_user_rows (w : World) : list Row :=
  rows_where w "users" [("status", SText "active")].

Definition active_subscription_rows (w : World) : list Row :=
  rows_where w "search_subscriptions" [("is_active", SBool true)].

(** A multi-row scan.  A fault of the network is returned, wrapped by
    [wrap_query], with no sequence.  Without one, the call returns a
    sequence exactly when every selected row decodes, and the sequence is
    then the rows decoded one by one in the order of the store: the empty
    sequence when no row is selected.  An error of the scan names a row
    that does not decode, comes with no sequence and wraps an error of the
    scanner, never a not-found error.  The tables are left as they are, and
    the next operation finds the connection as this one did. *)
Definition ordered_scan {A}
    (ready : World -> Prop) (list_ : M (list A * option error))
    (rows : World -> list Row) (decode : World -> Row -> error + A)
    (wrap_query wrap_scan : error -> error) : Prop :=
  forall w : World,
    ready w ->
    (tables (snd (list_ w)) = tables w /\ scan_null (snd (list_ w)) = scan_null w /\
     ready (snd (list_ w))) /\
    match next_fault w with
    | Some msg => fst (list_ w) = ([], Some (wrap_query (ErrStore msg)))
    | None =>
        (rows w = [] -> fst (list_ w) = ([], None)) /\
        (forall xs : list A,
            fst (list_ w) = (xs, None) <->
            Forall2 (fun row x => decode w row = inr x) (rows w) xs) /\
        (forall e : error,
            snd (fst (list_ w)) = Some e ->
            fst (fst (list_ w)) = [] /\
            exists row msg, In row (rows w) /\ decode w row = inl (ErrStore msg) /\
                            e = wrap_scan (ErrStore msg))
    end.

Definition Repository_decode_user (w : World) (row : Row) : error + User :=
  Repository.scan_user (scan_null w) (Some (project Repository.user_columns row)).

Definition Repository_decode_subscription (w : World) (row : Row) : error + SearchSubscription :=
  Repository.scan_subscription (scan_null w)
    (Some (project (Repository.subscription_columns ++ ["last_checked_at"]) row)).

Definition Queries_decode_user (w : World) (row : Row) : error + User :=
  Queries.scan_user (scan_null w) (Some (project Queries.user_columns row)).

Definition Queries_decode_subscription (w : World) (row : Row) : error + SearchSubscription :=
  Queries.scan_subscription (scan_null w)
    (Some (project (Queries.subscription_columns ++ ["last_checked_at"]) row)).

(** The part of a list operation of [repository.go] that follows the
    connection: the statement, then the two loops over its result. *)
Definition Repository_list_body {A} (exec : M (Result * option error))
    (scan : NullPolicy -> option (list Cell) -> error + A) : M (list A * option error) :=
  r <- Do exec ;;
  match snd r with
  | Some err => ret ([], Some err)
  | None => fun w =>
      match scan_sets (scan (scan_null w)) (sets (fst r)) [] with
      | inl err => (([], Some err), w)
      | inr xs => ((xs, None), w)
      end
  end.

(** The part of a list operation of the query layer that follows the
    connection: the statement, then the loop over its rows, each error
    wrapped. *)
Definition Queries_list_body {A} (exec : M (Result * option error))
    (scan : NullPolicy -> option (list Cell) -> error + A)
    (wrap_query wrap_scan : error -> error) : M (list A * option error) :=
  r <- exec ;;
  match snd r with
  | Some err => ret ([], Some (wrap_query err))
  | None => fun w =>
      match Queries.scan_all (scan (scan_null w)) (fst r) with
      | inl err => (([], Some (wrap_scan err)), w)
      | inr xs => ((xs, None), w)
      end
  end.

(** A statement that changes nothing and returns one result set: the
    columns [cols] of the rows [rows]. *)
Definition selects (exec : M (Result * option error)) (cols : list string)
    (rows : World -> list Row) : Prop :=
  forall w : World,
    (tables (snd (exec w)) = tables w /\ scan_null (snd (exec w)) = scan_null w /\
     var_once (snd (exec w)) = var_once w /\ var_initErr (snd (exec w)) = var_initErr w /\
     round_trips (snd (exec w)) = tl (round_trips w)) /\
    fst (exec w) = match next_fault w with
                   | Some msg => (no_result, Some (ErrStore msg))
                   | None => (result_of [map (project cols) (rows w)], None)
                   end.

(** Every element of a sequence the operation returns has the property. *)
Definition lists_only {A} (ready : World -> Prop) (list_ : M (list A * option error))
    (P : A -> Prop) : Prop :=
  forall (w : World) (xs : list A), ready w -> fst (list_ w) = (xs, None) -> Forall P xs.

Definition with_active (s : SearchSubscription) (active : bool) : SearchSubscription :=
  mkSearchSubscription (Sub_ID s) (Sub_TelegramChatID s) (Sub_FromPlaceID s) (Sub_FromPlaceName s)
    (Sub_ToPlaceID s) (Sub_ToPlaceName s) (Sub_DepartureDate s) (Sub_RequestedSeats s)
    active (Sub_CreatedAt s) (Sub_LastCheckedAt s).

Definition with_last_checked (s : SearchSubscription) (t : time_Time) : SearchSubscription :=
  mkSearchSubscription (Sub_ID s) (Sub_TelegramChatID s) (Sub_FromPlaceID s) (Sub_FromPlaceName s)
    (Sub_ToPlaceID s) (Sub_ToPlaceName s) (Sub_DepartureDate s) (Sub_RequestedSeats s)
    (Sub_IsActive s) (Sub_CreatedAt s) (Some t).

(** [change] applied to the subscriptions with the id, the others as they are. *)
Definition on_id (subID : string) (change : SearchSubscription -> SearchSubscription)
    (s : SearchSubscription) : SearchSubscription :=
  if String.eqb (Sub_ID s) subID then change s else s.

(** An update as a later listing sees it: where the listing returned [xs]
    before the update, it returns [xs] with [after] applied after it. *)
Definition update_seen_by_list {K V A}
    (ready : World -> Prop) (update : K -> V -> M (option error))
    (list_ : M (list A * option error)) (good : K -> Prop)
    (after : K -> V -> World -> A -> A) : Prop :=
  forall (k : K) (v : V) (xs : list A) (w w1 w2 : World),
    good k ->
    ready w ->
    list_ w = ((xs, None), w1) ->
    update k v w1 = (None, w2) ->
    next_fault w2 = None ->
    fst (list_ w2) = (map (after k v w1) xs, None).

(** An update as a later listing by the updated column sees it: after an
    update that succeeded, to a value other than the one listed, nothing
    the listing returns has the key. *)
Definition update_leaves_list {K V A}
    (ready : World -> Prop) (update : K -> V -> M (option error))
    (list_ : M (list A * option error)) (good : K -> V -> Prop)
    (has_key : K -> A -> Prop) : Prop :=
  forall (k : K) (v : V) (xs : list A) (w1 w2 : World),
    good k v ->
    ready w1 ->
    update k v w1 = (None, w2) ->
    fst (list_ w2) = (xs, None) ->
    Forall (fun x => ~ has_key k x) xs.

(** An update whose key has no row: no error, and every table as before. *)
Definition update_of_absent_row_is_silent {K V}
    (ready : World -> Prop) (update : K -> V -> M (option error))
    (tbl key_col : string) (key : K -> Scalar) : Prop :=
  forall (k : K) (v : V) (w : World),
    ready w ->
    next_fault w = None ->
    rows_where w tbl [(key_col, key k)] = [] ->
    fst (update k v w) = None /\
    forall tbl', table_rows (tables (snd (update k v w))) tbl' = table_rows (tables w) tbl'.

Definition Queries_StoreUserTokens (tokens : UserTokens) : M (UserTokens * option error) :=
  fun w => let r := Queries.StoreUserTokens tokens w in ((tokens, fst r), snd r).

(** A token set as the store gives it back: both times at the resolution
    of their column. *)
Definition Repository_tokens_as_stored (t : UserTokens) : UserTokens :=
  mkUserTokens (UserTokens_TelegramChatID t) (UserTokens_AccessToken t) (UserTokens_RefreshToken t)
    (UserTokens_UserID t) (UserTokens_Datadome t) (UserTokens_AppToken t)
    (through_timestamp (UserTokens_CreatedAt t)) (through_timestamp (UserTokens_UpdatedAt t)).

Definition Queries_tokens_as_stored (t : UserTokens) : UserTokens :=
  mkUserTokens (UserTokens_TelegramChatID t) (UserTokens_AccessToken t) (UserTokens_RefreshToken t)
    (UserTokens_UserID t) (UserTokens_Datadome t) (UserTokens_AppToken t)
    (through_datetime (UserTokens_CreatedAt t)) (through_datetime (UserTokens_UpdatedAt t)).

(** Store then read.  After a store that succeeded the lookup of the chat
    returns the token set written, as the table gives it back, whatever the
    chat had before.  The one exception follows from the NULL written for a
    blank auxiliary token: with a scanner that refuses NULL for a plain
    destination the lookup of such a token set ends in the error of the
    scan. *)
Definition stored_tokens_are_read_back
    (ready : World -> Prop)
    (store : UserTokens -> M (UserTokens * option error))
    (get : Z -> M (option UserTokens * option error))
    (as_stored : UserTokens -> UserTokens) (wrap : error -> error) : Prop :=
  forall (tokens : UserTokens) (w : World),
    let r := store tokens w in
    let blank := String.eqb (UserTokens_Datadome tokens) "" ||
                 String.eqb (UserTokens_AppToken tokens) "" in
    ready w ->
    snd (fst r) = None ->
    next_fault (snd r) = None ->
    match scan_null (snd r), blank with
    | NullIsScanError, true =>
        exists msg, fst (get (UserTokens_TelegramChatID tokens) (snd r))
                    = (None, Some (wrap (ErrStore msg)))
    | _, _ =>
        fst (get (UserTokens_TelegramChatID tokens) (snd r))
        = (Some (as_stored (fst (fst r))), None)
    end.

(** Delete then read: after a delete of the tokens of a chat that
    succeeded, the lookup of the chat answers tokens-not-found. *)
Definition deleted_tokens_are_not_found
    (ready : World -> Prop) (delete : Z -> M (option error))
    (get : Z -> M (option UserTokens * option error)) : Prop :=
  forall (chatID : Z) (w : World),
    ready w ->
    next_fault w = None ->
    next_fault (snd (delete chatID w)) = None ->
    fst (delete chatID w) = None /\
    fst (get chatID (snd (delete chatID w))) = (None, Some ErrTokensNotFound).

Definition with_message_id (n : Notification) (messageID : Z) : Notification :=
  mkNotification (Notif_ID n) (Notif_TelegramChatID n) (Notif_SubscriptionID n) (Notif_TripID n)
                 messageID (Notif_Status n) (Notif_CreatedAt n).

(** The message id as a later lookup sees it: where the lookup of a triple
    returns a notification, after an update of the message id that
    succeeded it returns the same notification, with the new message id
    narrowed to 32 bits when the update named its id and as it was when the
    update named another. *)
Definition message_id_update_observed
    (ready : World -> Prop)
    (get : Z -> string -> string -> M (option Notification * option error))
    (update : string -> Z -> M (option error)) : Prop :=
  forall (chatID : Z) (subID tripID notifID : string) (messageID : Z) (n : Notification)
         (w1 w2 : World),
    notifID <> "" ->
    ready w1 ->
    next_fault w1 = None ->
    fst (get chatID subID tripID w1) = (Some n, None) ->
    update notifID messageID w1 = (None, w2) ->
    next_fault w2 = None ->
    fst (get chatID subID tripID w2)
    = (Some (if String.eqb (Notif_ID n) notifID then with_message_id n (int32 messageID) else n),
       None).

(** A delete as a later listing sees it: where the listing returned [xs]
    before a delete that succeeded, it returns after it the elements of
    [xs] that do not have the id, in their order. *)
Definition delete_seen_by_list
    (ready : World -> Prop) (delete : string -> M (option error))
    (list_ : M (list SearchSubscription * option error)) : Prop :=
  forall (subID : string) (xs : list SearchSubscription) (w w1 w2 : World),
    subID <> "" ->
    ready w ->
    list_ w = ((xs, None), w1) ->
    delete subID w1 = (None, w2) ->
    next_fault w2 = None ->
    fst (list_ w2) = (List.filter (fun s => negb (String.eqb (Sub_ID s) subID)) xs, None).

(** What a delete that succeeded leaves: the rows without the key. *)
Definition removes_rows {K} (ready : World -> Prop) (delete : K -> M (option error))
    (tbl key_col : string) (key : K -> Scalar) : Prop :=
  forall (k : K) (w1 w2 : World),
    delete k w1 = (None, w2) ->
    table_rows (tables w2) tbl
    = List.filter (fun row => negb (row_matches [(key_col, Some (key k))] row))
                  (table_rows (tables w1) tbl) /\
    scan_null w2 = scan_null w1 /\ (ready w1 -> ready w2).

(** A create that does not look for a notification of the triple.  When
    it succeeds the triple has one row more than it had, the new row under
    the id written, in whatever order the store keeps them; and with the
    connection acquired, no fault of the network and no row under the id
    written it succeeds, whatever rows the triple has. *)
Definition create_does_not_deduplicate
    (create : Notification -> M (Notification * option error)) : Prop :=
  forall (notif : Notification) (w : World),
    let chatID := Notif_TelegramChatID notif in
    let subID := Notif_SubscriptionID notif in
    let tripID := Notif_TripID notif in
    let r := create notif w in
    (snd (fst r) = None ->
     exists row : Row,
       Permutation (notification_rows (snd r) chatID subID tripID)
                   (row :: notification_rows w chatID subID tripID) /\
       row !! "id" = Some (SText (Notif_ID (fst (fst r))))) /\
    (connected w ->
     next_fault w = None ->
     rows_where w "notifications" [("id", SText (Notif_ID (fst (fst r))))] = [] ->
     snd (fst r) = None).

(** *** Sample worlds and entities, for the worked instances *)

(** A process that has just started, with nothing configured and an empty
    store; the clock reads 2024-06-01 10:00:00.25 UTC. *)
Definition unconfigured_world : World :=
  mkWorld ∅ (mkTime 1717236000 250000000) [] [] NullAsZeroValue None false None ∅ [].

(** The endpoint is set, to the empty string. *)
Definition empty_endpoint_world : World :=
  set_environ (<["YDB_ENDPOINT" := ""]> (<["YDB_DATABASE" := "/ru-central1/b1g/etn"]> ∅))
              unconfigured_world.

Definition configured_world : World :=
  set_environ (<["YDB_ENDPOINT" := "grpcs://ydb.serverless.yandexcloud.net:2135"]>
                 (<["YDB_DATABASE" := "/ru-central1/b1g/etn"]> ∅))
              unconfigured_world.

(** The same process once the connection provider has run. *)
Definition connected_world : World := snd (Connection.GetConnection configured_world).

(** The connected process on the point of losing the network. *)
Definition faulty_world : World := set_round_trips [Some "transport is closing"] connected_world.

(** A unit of work that panics. *)
Definition panicking_unit_of_work (tx : Transaction) : M (Outcome (option error)) :=
  ret (Panicked "index out of range").

(** The entities of the scenarios of section 8 of the specification. *)
Definition sample_user : User :=
  mkUser 12345 UserStatusUnauthenticated (mkTime 1717236000 0) None None.

(** A user on first contact, as a caller may hand it over: the creation
    time unset. *)
Definition first_contact : User :=
  mkUser 12345 UserStatusUnauthenticated zero_Time None None.

Definition sample_notification : Notification :=
  mkNotification "" 12345 "sub-7f3a" "trip-99" 7 "" zero_Time.

(** The same notification as the caller of the query layer hands it over,
    with the id, the status and the creation time filled in. *)
Definition delivered_notification : Notification :=
  mkNotification "notif-41c2" 12345 "sub-7f3a" "trip-99" 7 "sent" (mkTime 1717236000 0).

Definition sample_tokens : UserTokens :=
  mkUserTokens 12345 "access-1" "refresh-1" "user-1" "" "" zero_Time zero_Time.

(** A token set with every field filled in, and a later one for the same
    chat whose datadome cookie is blank. *)
Definition full_tokens : UserTokens :=
  mkUserTokens 12345 "access-0" "refresh-0" "user-1" "dd-cookie" "app-1"
               (mkTime 1717000000 0) (mkTime 1717000000 0).

Definition half_blank_tokens : UserTokens :=
  mkUserTokens 12345 "access-1" "refresh-1" "user-1" "" "app-9"
               (mkTime 1717000000 0) (mkTime 1717236000 0).

(** A subscription and a token set as a caller may hand them over: no id,
    not active, and timestamps unset or stale. *)
Definition blank_subscription : SearchSubscription :=
  mkSearchSubscription "" 12345 "place-paris" "Paris" "place-lyon" "Lyon" "2024-06-01" 2
                       false zero_Time None.

Definition stale_tokens : UserTokens :=
  mkUserTokens 12345 "access-1" "refresh-1" "user-1" "" "" zero_Time (mkTime 1600000000 0).

(** The connected process with the sample user stored. *)
Definition world_with_user : World := snd (Repository.UpsertUser sample_user connected_world).

(** The connected process with the full token set stored by the query
    layer. *)
Definition world_with_tokens : World := snd (Queries.StoreUserTokens full_tokens connected_world).

(** A started process with the bot token in its environment. *)
Definition world_with_bot_token : World :=
  set_environ (<["TELEGRAM_BOT_TOKEN" := "123456:bot-secret"]> (environ unconfigured_world))
              unconfigured_world.

(** The connected process with the sample subscription created, and the id
    it was given. *)
Definition world_with_subscription : World :=
  snd (Repository.CreateSearchSubscription blank_subscription connected_world).

Definition sample_subscription_id : string :=
  Sub_ID (fst (fst (Repository.CreateSearchSubscription blank_subscription connected_world))).

(** The connected process with the sample notification created. *)
Definition world_with_notification : World :=
  snd (Repository.CreateNotification sample_notification connected_world).

Definition sample_notification_id : string :=
  Notif_ID (fst (fst (Repository.CreateNotification sample_notification connected_world))).

(** A unit of work that does nothing and succeeds. *)
Definition idle_unit_of_work (tx : Transaction) : M (Outcome (option error)) :=
  ret (Returned None).

(** The connected process with the sample user stored and made active. *)
Definition world_with_active_user : World :=
  snd (Repository.UpdateUserStatus 12345 UserStatusActive world_with_user).

(** *** Proof automation *)

(** A lookup, unfolded down to the rows its statement selects. *)
Ltac read_cases execute_cases Ht Hs :=
  unfold Do, bind;
  match goal with
  | |- context [Session_Execute ?q ?ps ?w1] =>
      let Hf := fresh "Hf" in
      let Hx := fresh "Hx" in
      pose proof (execute_cases q ps w1) as [Hf Hx];
      cbv zeta in Hf, Hx;
      destruct (Session_Execute q ps w1) as [[?res ?err] ?w2]; simpl in Hf, Hx |- *;
      destruct (next_fault w1) as [?msg|];
      destruct Hx as [Hx _]; inversion Hx; subst; simpl; [try reflexivity|];
      unfold user_rows, token_rows, notification_rows, rows_where; simpl;
      rewrite <- ?Ht;
      destruct Hf as (-> & _);
      destruct (List.filter _ _) as [|?r ?rest];
      simpl; [reflexivity|];
      rewrite <- ?Hs;
      match goal with
      | |- context [match ?scan with inl _ => _ | inr _ => _ end] => destruct scan
      end; reflexivity
  end.

(** A scan that failed, taken apart destination by destination down to the
    one that failed. *)
Ltac scan_error plain_fails nullable_fails :=
  repeat match goal with
         | H : match ?row with Some _ => _ | None => _ end = inl _ |- _ => destruct row; simpl in H
         | H : match ?cells with [] => _ | _ :: _ => _ end = inl _ |- _ => destruct cells; simpl in H
         | H : inl _ = inl _ |- _ => inversion H; subst; clear H; unfold scan_failed; eauto
         | H : inr _ = inl _ |- _ => discriminate H
         | H : match plain ?p ?z ?d ?c with inl _ => _ | inr _ => _ end = inl _ |- _ =>
             let E := fresh "E" in
             destruct (plain p z d c) eqn:E; [apply plain_fails in E|]
         | H : match nullable ?d ?c with inl _ => _ | inr _ => _ end = inl _ |- _ =>
             let E := fresh "E" in
             destruct (nullable d c) eqn:E; [apply nullable_fails in E|]
         end.

(** A scan that succeeded, taken apart into what each destination got. *)
Ltac scan_ok H :=
  repeat match type of H with
         | match plain ?p ?z ?d ?c with inl _ => _ | inr _ => _ end = inr _ =>
             let E := fresh "E" in
             destruct (plain p z d c) eqn:E; [discriminate H|]
         | match nullable ?d ?c with inl _ => _ | inr _ => _ end = inr _ =>
             let E := fresh "E" in
             destruct (nullable d c) eqn:E; [discriminate H|]
         end.

(** Comparisons of the goal decided by arithmetic. *)
Ltac decide_bounds :=
  repeat match goal with
         | |- context [Z.leb ?a ?b] => destruct (Z.leb_spec a b)
         | |- context [Z.ltb ?a ?b] => destruct (Z.ltb_spec a b)
         end;
  cbn [andb negb orb]; try reflexivity; try lia.

(* ===================================================================== *)
(** ** Theorems                                                           *)
(* ===================================================================== *)

(** *** The telegram helper *)

Lemma string_take_length (n : nat) (s : string) :
  (n <= String.length s)%nat -> String.length (string_take n s) = n.
Proof.
  revert s; induction n as [|n IH]; intros [|c s] Hlen; simpl in *; try lia.
  f_equal. apply IH. lia.
Qed.

Lemma slice_to_in_range (s : string) (hi : nat) :
  (hi <= String.length s)%nat -> slice_to s hi = inr (string_take hi s).
Proof.
  intros H. unfold slice_to.
  destruct (Nat.leb_spec hi (String.length s)); [reflexivity | lia].
Qed.

Lemma slice_to_out_of_range (s : string) (hi : nat) :
  (String.length s < hi)%nat -> slice_to s hi = inl (SliceBoundsOutOfRange hi (String.length s)).
Proof.
  intros H. unfold slice_to.
  destruct (Nat.leb_spec hi (String.length s)); [lia | reflexivity].
Qed.

(** C10. [FormatSubscriptionMessage] returns a string exactly for ids of at
    least 8 bytes: then it returns the message built on the first 8 bytes
    of the id; for a shorter id the slice expression [id[:8]] panics with
    the out-of-range error. *)
Theorem C10_FormatSubscriptionMessage_needs_8_bytes :
  forall (id from to date : string) (isActive : bool),
    ((8 <= String.length id)%nat ->
       exists id8 msg,
         slice_to id 8 = inr id8 /\ String.length id8 = 8%nat /\
         Telegram.FormatSubscriptionMessage id from to date isActive = inr msg) /\
    ((String.length id < 8)%nat ->
       Telegram.FormatSubscriptionMessage id from to date isActive
       = inl (SliceBoundsOutOfRange 8 (String.length id))).
Proof.
  intros id from to date isActive. split; intros Hlen.
  - exists (string_take 8 id). eexists. split; [|split].
    + apply slice_to_in_range, Hlen.
    + apply string_take_length, Hlen.
    + unfold Telegram.FormatSubscriptionMessage.
      rewrite (slice_to_in_range id 8 Hlen). reflexivity.
  - unfold Telegram.FormatSubscriptionMessage.
    rewrite (slice_to_out_of_range id 8 Hlen). reflexivity.
Qed.

Lemma C10_witness :
  (exists id8 msg,
      slice_to "8d3f5a1c-77aa" 8 = inr id8 /\ String.length id8 = 8%nat /\
      Telegram.FormatSubscriptionMessage "8d3f5a1c-77aa" "Paris" "Lyon" "2024-06-01" true = inr msg) /\
  Telegram.FormatSubscriptionMessage "8d3f5a" "Paris" "Lyon" "2024-06-01" false
  = inl (SliceBoundsOutOfRange 8 6).
Proof.
  split.
  - apply (C10_FormatSubscriptionMessage_needs_8_bytes "8d3f5a1c-77aa" "Paris" "Lyon" "2024-06-01" true).
    simpl. lia.
  - apply (C10_FormatSubscriptionMessage_needs_8_bytes "8d3f5a" "Paris" "Lyon" "2024-06-01" false).
    simpl. lia.
Defined.

(** *** The timestamp codec of the query layer *)

Lemma uint32_in_range (z : Z) : 0 <= z < 2 ^ 32 -> uint32 z = z.
Proof. intros H. unfold uint32. apply Z.mod_small. exact H. Qed.

Lemma encode_time_present (t : time_Time) :
  Queries.encode_time (Some t) = OptionalValue (DatetimeValue (uint32 (Time_Unix t))).
Proof. reflexivity. Qed.

Lemma decode_encode_time (t : time_Time) :
  decode_stored_time (Queries.encode_time (Some t)) = inr (Some (through_datetime t)).
Proof. reflexivity. Qed.

(** C5, as amended.  An absent timestamp is encoded as the typed null and
    decodes to absent.  A present timestamp whose Unix second count fits
    the unsigned 32 bits of the store's datetime is encoded as a non-null
    datetime of that second count and decodes to the same instant with its
    sub-second part dropped.  A present timestamp whose second count does
    not fit (an instant before 1970 or after 2106-02-07) is encoded as the
    non-null datetime of its second count reduced modulo 2^32 and decodes
    to the instant of that reduced count, which is not the instant
    encoded, at no precision. *)
Theorem C5_timestamp_codec_round_trip_in_range :
  (Queries.encode_time None = NullValue TypeDatetime /\
   decode_stored_time (Queries.encode_time None) = inr None) /\
  (forall t : time_Time,
      0 <= Time_Unix t < 2 ^ 32 ->
      Queries.encode_time (Some t) = OptionalValue (DatetimeValue (Time_Unix t)) /\
      is_null (Queries.encode_time (Some t)) = false /\
      decode_stored_time (Queries.encode_time (Some t)) = inr (Some (Time_seconds t))) /\
  (forall t : time_Time,
      ~ (0 <= Time_Unix t < 2 ^ 32) ->
      Queries.encode_time (Some t)
      = OptionalValue (DatetimeValue (Time_Unix t mod 2 ^ 32)) /\
      is_null (Queries.encode_time (Some t)) = false /\
      decode_stored_time (Queries.encode_time (Some t))
      = inr (Some (time_Unix (Time_Unix t mod 2 ^ 32) 0)) /\
      Time_Unix (time_Unix (Time_Unix t mod 2 ^ 32) 0) <> Time_Unix t /\
      time_Unix (Time_Unix t mod 2 ^ 32) 0 <> Time_seconds t).
Proof.
  split; [split; reflexivity|]. split.
  - intros t Hrange.
    rewrite decode_encode_time, encode_time_present.
    unfold through_datetime. rewrite (uint32_in_range _ Hrange).
    repeat split.
  - intros t Hrange.
    rewrite decode_encode_time, encode_time_present.
    unfold through_datetime, uint32.
    assert (Hwrapped : Time_Unix t mod 2 ^ 32 <> Time_Unix t).
    { intros Heq. apply Hrange. rewrite <- Heq. apply Z.mod_pos_bound. lia. }
    split; [reflexivity|]. split; [reflexivity|]. split; [reflexivity|].
    split; [exact Hwrapped|].
    unfold time_Unix, Time_seconds. intros Heq. injection Heq as Heq. exact (Hwrapped Heq).
Qed.

Lemma C5_witness :
  (Queries.encode_time (Some (mkTime 1717236000 250000000))
   = OptionalValue (DatetimeValue 1717236000) /\
   is_null (Queries.encode_time (Some (mkTime 1717236000 250000000))) = false /\
   decode_stored_time (Queries.encode_time (Some (mkTime 1717236000 250000000)))
   = inr (Some (mkTime 1717236000 0))) /\
  (Queries.encode_time (Some (mkTime 4294967296 0)) = OptionalValue (DatetimeValue 0) /\
   decode_stored_time (Queries.encode_time (Some (mkTime 4294967296 0)))
   = inr (Some (mkTime 0 0))).
Proof.
  destruct C5_timestamp_codec_round_trip_in_range as (_ & Hin & Hout).
  split.
  - apply (Hin (mkTime 1717236000 250000000)). simpl. lia.
  - destruct (Hout (mkTime 4294967296 0)) as (Henc & _ & Hdec & _); [simpl; lia|].
    split; [exact Henc | exact Hdec].
Defined.

(** C5 as stated fails: one second before the epoch comes back as an
    instant of the year 2106, the second count having wrapped around. *)
Lemma C5_counterexample :
  decode_stored_time (Queries.encode_time (Some (mkTime (-1) 0)))
  = inr (Some (mkTime 4294967295 0)) /\
  ~ (forall t : option time_Time,
        decode_stored_time (Queries.encode_time t) = inr (Time_seconds <$> t)).
Proof.
  split; [reflexivity|].
  intros H. specialize (H (Some (mkTime (-1) 0))).
  vm_compute in H. discriminate H.
Qed.

(** *** The connection provider *)

Lemma GetConnection_cached (w : World) :
  var_once w = true -> Connection.GetConnection w = ((var_db w, var_initErr w), w).
Proof.
  intros H. unfold Connection.GetConnection, Connection.once_Do, bind. rewrite H. reflexivity.
Qed.

Lemma GetConnection_connected (w : World) :
  connected w -> Connection.GetConnection w = ((var_db w, None), w).
Proof.
  intros [Honce Herr]. rewrite (GetConnection_cached w Honce), Herr. reflexivity.
Qed.

Lemma getenv_empty_iff (w : World) (key : string) :
  default "" (environ w !! key) = "" <-> env_unset w key \/ env_empty w key.
Proof.
  unfold env_unset, env_empty. destruct (environ w !! key) as [v|]; simpl.
  - split; [intros ->; right; reflexivity | intros [H|H]; congruence].
  - split; [left|]; reflexivity.
Qed.

(** The first call, spelled out. *)
Lemma GetConnection_first_use (w : World) :
  var_once w = false ->
  let endpoint := default "" (environ w !! "YDB_ENDPOINT") in
  let database := default "" (environ w !! "YDB_DATABASE") in
  let r := Connection.GetConnection w in
  var_once (snd r) = true /\
  fst r = (var_db (snd r), var_initErr (snd r)) /\
  if String.eqb endpoint "" || String.eqb database ""
  then var_initErr (snd r) = Some ErrMissingConfig /\ var_db (snd r) = var_db w /\
       trace (snd r) = trace w ++ [EvGetenv "YDB_ENDPOINT"; EvGetenv "YDB_DATABASE"]
  else (var_initErr (snd r) = ErrStore <$> next_fault w) /\
       trace (snd r) = trace w ++ [EvGetenv "YDB_ENDPOINT"; EvGetenv "YDB_DATABASE";
                                   EvOpen (String.append endpoint database)].
Proof.
  intros Honce. cbv zeta.
  unfold Connection.GetConnection, Connection.once_Do, Connection.initialise, bind.
  rewrite Honce. unfold os_Getenv, emit, bind. simpl.
  destruct (String.eqb (default "" (environ w !! "YDB_ENDPOINT")) "" ||
            String.eqb (default "" (environ w !! "YDB_DATABASE")) "") eqn:Hcfg; simpl.
  - repeat split. rewrite <- app_assoc. reflexivity.
  - unfold ydb_Open, emit, bind, round_trip, next_fault. simpl.
    destruct (round_trips w) as [|[msg|] rest]; simpl;
      repeat split; rewrite <- !app_assoc; reflexivity.
Qed.

(** C8, as amended.  On first use [GetConnection] fails with the
    configuration error exactly when the endpoint or the database setting
    is unset or set to the empty string.  That outcome is cached: whatever
    the environment has become, every later call returns the same error and
    leaves the world as it finds it, so it reads no setting and dials
    nothing. *)
Theorem C8_GetConnection_config_error_is_cached :
  forall w : World,
    fresh_process w ->
    let r := Connection.GetConnection w in
    (snd (fst r) = Some ErrMissingConfig <->
       (env_unset w "YDB_ENDPOINT" \/ env_empty w "YDB_ENDPOINT") \/
       (env_unset w "YDB_DATABASE" \/ env_empty w "YDB_DATABASE")) /\
    (snd (fst r) = Some ErrMissingConfig ->
       fst r = (None, Some ErrMissingConfig) /\
       forall w2 : World,
         var_once w2 = var_once (snd r) ->
         var_db w2 = var_db (snd r) ->
         var_initErr w2 = var_initErr (snd r) ->
         Connection.GetConnection w2 = ((None, Some ErrMissingConfig), w2)).
Proof.
  intros w (Honce & Hdb & Herr) r.
  destruct (GetConnection_first_use w Honce) as (Hdone & Hres & Hcase).
  fold r in Hdone, Hres, Hcase.
  rewrite <- !getenv_empty_iff.
  assert (Hiff : snd (fst r) = Some ErrMissingConfig <->
                 default "" (environ w !! "YDB_ENDPOINT") = "" \/
                 default "" (environ w !! "YDB_DATABASE") = "").
  { rewrite Hres. simpl.
    destruct (String.eqb (default "" (environ w !! "YDB_ENDPOINT")) "" ||
              String.eqb (default "" (environ w !! "YDB_DATABASE")) "") eqn:Hcfg.
    - destruct Hcase as (-> & _). split; [intros _|reflexivity].
      apply orb_true_iff in Hcfg. rewrite !String.eqb_eq in Hcfg. exact Hcfg.
    - destruct Hcase as (-> & _). split.
      + destruct (next_fault w); discriminate.
      + intros Hempty. apply orb_false_iff in Hcfg. rewrite !String.eqb_neq in Hcfg.
        destruct Hempty; tauto. }
  split; [exact Hiff|].
  intros Hfail.
  assert (Hvar : var_initErr (snd r) = Some ErrMissingConfig /\ var_db (snd r) = None).
  { apply Hiff in Hfail. 
    destruct (String.eqb (default "" (environ w !! "YDB_ENDPOINT")) "" ||
              String.eqb (default "" (environ w !! "YDB_DATABASE")) "") eqn:Hcfg.
    - destruct Hcase as (He & Hd & _). rewrite He, Hd, Hdb. split; reflexivity.
    - apply orb_false_iff in Hcfg. rewrite !String.eqb_neq in Hcfg.
      destruct Hfail; tauto. }
  destruct Hvar as (He & Hd). split.
  - rewrite Hres, He, Hd. reflexivity.
  - intros w2 H1 H2 H3.
    rewrite GetConnection_cached by congruence.
    rewrite H2, H3, He, Hd. reflexivity.
Qed.

Lemma C8_witness :
  fst (Connection.GetConnection unconfigured_world) = (None, Some ErrMissingConfig) /\
  forall w2 : World,
    var_once w2 = true -> var_db w2 = None -> var_initErr w2 = Some ErrMissingConfig ->
    Connection.GetConnection w2 = ((None, Some ErrMissingConfig), w2).
Proof.
  assert (Hfresh : fresh_process unconfigured_world) by (repeat split).
  destruct (C8_GetConnection_config_error_is_cached unconfigured_world Hfresh) as [Hiff Hcached].
  apply Hcached. apply Hiff. left; left. reflexivity.
Defined.

(** C8 as stated fails: with the endpoint set to the empty string both
    settings are set, and the first call still fails with the
    configuration error. *)
Lemma C8_counterexample :
  ~ (forall w : World,
        fresh_process w ->
        (snd (fst (Connection.GetConnection w)) = Some ErrMissingConfig <->
         env_unset w "YDB_ENDPOINT" \/ env_unset w "YDB_DATABASE")).
Proof.
  intros H.
  assert (Hfresh : fresh_process empty_endpoint_world) by (repeat split).
  destruct (H empty_endpoint_world Hfresh) as [Hunset _].
  destruct Hunset as [U|U]; [reflexivity | vm_compute in U; discriminate U ..].
Qed.

(** *** The transactional executor *)

Lemma round_trip_trace (w : World) : trace (snd (round_trip w)) = trace w.
Proof. unfold round_trip. destruct (round_trips w) as [|o rest]; reflexivity. Qed.

Lemma Session_Execute_trace (q : Stmt) (ps : QueryParameters) (w : World) :
  trace (snd (Session_Execute q ps w)) = trace w ++ [EvExecute q ps].
Proof.
  unfold Session_Execute, emit, bind, round_trip; simpl.
  destruct (round_trips w) as [|[msg|] rest]; simpl; try reflexivity;
    destruct (exec_stmt _ q ps) as [msg|[d s]]; reflexivity.
Qed.

Lemma Session_BeginTransaction_spec (w : World) :
  let r := Session_BeginTransaction w in
  trace (snd r) = trace w ++ [EvBeginTransaction] /\
  (snd (fst r) = None -> fst (fst r) = Some mkTransaction).
Proof.
  unfold Session_BeginTransaction, emit, bind, round_trip; simpl.
  destruct (round_trips w) as [|[msg|] rest]; simpl; split; try reflexivity; discriminate.
Qed.

Lemma Transaction_Commit_trace (tx : Transaction) (w : World) :
  trace (snd (Transaction_Commit tx w)) = trace w ++ [EvCommit].
Proof.
  unfold Transaction_Commit, emit, bind; simpl. rewrite round_trip_trace. reflexivity.
Qed.

Lemma Transaction_Rollback_trace (tx : Transaction) (w : World) :
  trace (snd (Transaction_Rollback tx w)) = trace w ++ [EvRollback].
Proof.
  unfold Transaction_Rollback, emit, bind; simpl. rewrite round_trip_trace. reflexivity.
Qed.

(** C7.  [DoTx] begins the transaction before anything else of the unit of
    work.  If the transaction cannot be begun its error is returned and the
    unit of work does not run.  Otherwise the unit of work is invoked once,
    on the state the begun transaction leaves, and what follows its end is
    fixed by how it ended: commit then the deferred rollback when it
    returned nil, the rollback alone when it returned an error and when it
    panicked.  So the rollback runs on every exit path, commit exactly on
    success, and the error or the panic of the unit of work reaches the
    caller. *)
Theorem C7_DoTx_rolls_back_on_every_exit_path :
  forall (fn : Transaction -> M (Outcome (option error))) (w : World),
    let b := begin_transaction w in
    trace (snd b) = trace w ++ [EvExecute EmptyQuery []; EvBeginTransaction] /\
    (forall err, snd (fst b) = Some err -> Client.DoTx fn w = (Returned (Some err), snd b)) /\
    (snd (fst b) = None ->
       exists tx, fst (fst b) = Some tx /\
       let u := fn tx (snd b) in
       exists res w',
         Client.DoTx fn w = (res, w') /\
         trace w' = trace (snd u) ++ after_unit_of_work (fst u) /\
         In EvRollback (after_unit_of_work (fst u)) /\
         (In EvCommit (after_unit_of_work (fst u)) <-> fst u = Returned None) /\
         res = match fst u with
               | Returned None => Returned (fst (Transaction_Commit tx (snd u)))
               | out => out
               end).
Proof.
  intros fn w b. subst b. unfold begin_transaction.
  pose proof (Session_Execute_trace EmptyQuery [] w) as Hexec.
  unfold Client.DoTx, Do, bind.
  destruct (Session_Execute EmptyQuery [] w) as [r0 w1]; simpl in *.
  pose proof (Session_BeginTransaction_spec w1) as [Hbegin Htx].
  destruct (Session_BeginTransaction w1) as [[tx err] w2]; simpl in *.
  split; [|split].
  - rewrite Hbegin, Hexec, <- app_assoc. reflexivity.
  - intros e ->. reflexivity.
  - intros ->. specialize (Htx eq_refl). subst tx.
    exists mkTransaction. split; [reflexivity|].
    destruct (fn mkTransaction w2) as [out w3]; simpl.
    destruct out as [[e|]|v]; simpl.
    + pose proof (Transaction_Rollback_trace mkTransaction w3) as Hrb.
      destruct (Transaction_Rollback mkTransaction w3) as [rb w4]; simpl in *.
      eexists _, _. split; [reflexivity|]. split; [exact Hrb|].
      split; [left; reflexivity|]. split; [|reflexivity].
      split; [intros [H|[]]; discriminate H | discriminate].
    + pose proof (Transaction_Commit_trace mkTransaction w3) as Hc.
      destruct (Transaction_Commit mkTransaction w3) as [c w4]; simpl in *.
      pose proof (Transaction_Rollback_trace mkTransaction w4) as Hrb.
      destruct (Transaction_Rollback mkTransaction w4) as [rb w5]; simpl in *.
      eexists _, _. split; [reflexivity|].
      split; [rewrite Hrb, Hc, <- app_assoc; reflexivity|].
      split; [right; left; reflexivity|]. split; [|reflexivity].
      split; [reflexivity | intros _; left; reflexivity].
    + pose proof (Transaction_Rollback_trace mkTransaction w3) as Hrb.
      destruct (Transaction_Rollback mkTransaction w3) as [rb w4]; simpl in *.
      eexists _, _. split; [reflexivity|]. split; [exact Hrb|].
      split; [left; reflexivity|]. split; [|reflexivity].
      split; [intros [H|[]]; discriminate H | discriminate].
Qed.

Lemma C7_witness :
  exists res w',
    Client.DoTx panicking_unit_of_work connected_world = (res, w') /\
    trace w' = trace (snd (begin_transaction connected_world)) ++ [EvRollback] /\
    res = Panicked "index out of range".
Proof.
  destruct (C7_DoTx_rolls_back_on_every_exit_path panicking_unit_of_work connected_world)
    as (_ & _ & Hrun).
  destruct (Hrun eq_refl) as (tx & _ & res & w' & Hdo & Htrace & _ & _ & Hres).
  exists res, w'. split; [exact Hdo|]. split; [exact Htrace | exact Hres].
Defined.

(** *** The store and the SDK calls, the lookups *)


Lemma set_cell_lookup (r : Row) (c' : string) (v : Cell) (c : string) :
  set_cell r c' v !! c = if String.eqb c' c then v else r !! c.
Proof.
  unfold set_cell. destruct (String.eqb_spec c' c) as [->|Hne]; destruct v as [s|].
  - apply lookup_insert_eq.
  - apply lookup_delete_eq.
  - apply lookup_insert_ne, Hne.
  - apply lookup_delete_ne, Hne.
Qed.

Lemma set_cells_lookup (cells : list (string * Cell)) (r : Row) (c : string) :
  set_cells r cells !! c = match last_binding c cells with Some v => v | None => r !! c end.
Proof.
  revert r. induction cells as [|[c' v] rest IH]; intros r; [reflexivity|].
  unfold set_cells in *. simpl. rewrite IH.
  destruct (last_binding c rest); [reflexivity|].
  rewrite set_cell_lookup. destruct (String.eqb c' c); reflexivity.
Qed.

(** What one statement sent through a session comes to. *)
Lemma Session_Execute_cases (q : Stmt) (ps : QueryParameters) (w : World) :
  let r := Session_Execute q ps w in
  (scan_null (snd r) = scan_null w /\ var_once (snd r) = var_once w /\
   var_db (snd r) = var_db w /\ var_initErr (snd r) = var_initErr w /\
   wall_clock (snd r) = wall_clock w /\ random (snd r) = random w /\
   environ (snd r) = environ w /\ round_trips (snd r) = tl (round_trips w) /\
   trace (snd r) = trace w ++ [EvExecute q ps]) /\
  match next_fault w with
  | Some msg => fst r = (no_result, Some (ErrStore msg)) /\ tables (snd r) = tables w
  | None =>
      match exec_stmt (tables w) q ps with
      | inl msg => fst r = (no_result, Some (ErrStore msg)) /\ tables (snd r) = tables w
      | inr (d, s) => fst r = (result_of s, None) /\ tables (snd r) = d
      end
  end.
Proof.
  unfold Session_Execute, emit, bind, round_trip, next_fault; simpl.
  destruct (round_trips w) as [|[msg|] rest] eqn:E; simpl;
    try (destruct (exec_stmt (tables w) q ps) as [msg'|[d s]]; simpl);
    rewrite ?E; repeat split.
Qed.

(** The provider leaves the store, the clock and the random source alone,
    has run once it returns, and returns what it has cached. *)
Lemma GetConnection_cases (w : World) :
  let r := Connection.GetConnection w in
  (tables (snd r) = tables w /\ scan_null (snd r) = scan_null w /\
   wall_clock (snd r) = wall_clock w /\ random (snd r) = random w) /\
  var_once (snd r) = true /\
  fst r = (var_db (snd r), var_initErr (snd r)) /\
  (provider_invariant w -> provider_invariant (snd r)).
Proof.
  destruct (var_once w) eqn:Honce.
  - rewrite (GetConnection_cached w Honce). simpl. repeat split; auto.
  - pose proof (GetConnection_first_use w Honce) as H. cbv zeta in H.
    destruct H as (Hdone & Hres & Hcase).
    assert (Hframe : let r := Connection.GetConnection w in
              tables (snd r) = tables w /\ scan_null (snd r) = scan_null w /\
              wall_clock (snd r) = wall_clock w /\ random (snd r) = random w).
    { unfold Connection.GetConnection, Connection.once_Do, Connection.initialise, bind.
      rewrite Honce. unfold os_Getenv, emit, bind. simpl.
      destruct (_ || _); simpl; [repeat split|].
      unfold ydb_Open, emit, bind, round_trip. simpl.
      destruct (round_trips w) as [|[msg|] rest]; simpl; repeat split. }
    cbv zeta in *. repeat split; try tauto.
    intros _. unfold provider_invariant.
    destruct (_ || _); [destruct Hcase as (-> & _); exact I|].
    destruct Hcase as (-> & _). destruct (next_fault w); exact I.
Qed.

(** An operation that starts by acquiring the connection does the same
    from the state the provider leaves. *)
Lemma after_GetConnection {A} (body : option Driver * option error -> M A) (w : World) :
  bind Connection.GetConnection body w
  = bind Connection.GetConnection body (snd (Connection.GetConnection w)).
Proof.
  destruct (GetConnection_cases w) as (_ & Honce & Hres & _).
  unfold bind at 2. rewrite (GetConnection_cached _ Honce), <- Hres.
  unfold bind. destruct (Connection.GetConnection w) as [c w1]. reflexivity.
Qed.

Lemma Repository_GetUser_cases (chatID : Z) (w : World) :
  let c := Connection.GetConnection w in
  fst (Repository.GetUserByTelegramChatID chatID w) =
  match snd (fst c) with
  | Some err => (None, Some err)
  | None =>
      match next_fault (snd c) with
      | Some msg => (None, Some (ErrStore msg))
      | None => read_first (user_rows w chatID) Repository.user_columns
                           (Repository.scan_user (scan_null w)) id (Some ErrUserNotFound)
      end
  end.
Proof.
  cbv zeta. unfold Repository.GetUserByTelegramChatID, bind at 1.
  pose proof (GetConnection_cases w) as ((Ht & Hs & _) & _).
  destruct (Connection.GetConnection w) as [[d [e|]] w1]; simpl in *; [reflexivity|].
  read_cases Session_Execute_cases Ht Hs.
Qed.

Lemma Repository_GetUserTokens_cases (chatID : Z) (w : World) :
  let c := Connection.GetConnection w in
  fst (Repository.GetUserTokens chatID w) =
  match snd (fst c) with
  | Some err => (None, Some err)
  | None =>
      match next_fault (snd c) with
      | Some msg => (None, Some (ErrStore msg))
      | None => read_first (token_rows w chatID) Repository.token_columns
                           (Repository.scan_tokens (scan_null w)) id (Some ErrTokensNotFound)
      end
  end.
Proof.
  cbv zeta. unfold Repository.GetUserTokens, bind at 1.
  pose proof (GetConnection_cases w) as ((Ht & Hs & _) & _).
  destruct (Connection.GetConnection w) as [[d [e|]] w1]; simpl in *; [reflexivity|].
  read_cases Session_Execute_cases Ht Hs.
Qed.

Lemma Repository_GetNotificationByTrip_cases (chatID : Z) (subID tripID : string) (w : World) :
  let c := Connection.GetConnection w in
  fst (Repository.GetNotificationByTrip chatID subID tripID w) =
  match snd (fst c) with
  | Some err => (None, Some err)
  | None =>
      match next_fault (snd c) with
      | Some msg => (None, Some (ErrStore msg))
      | None => read_first (notification_rows w chatID subID tripID) Repository.notification_columns
                           (Repository.scan_notification (scan_null w)) id None
      end
  end.
Proof.
  cbv zeta. unfold Repository.GetNotificationByTrip, bind at 1.
  pose proof (GetConnection_cases w) as ((Ht & Hs & _) & _).
  destruct (Connection.GetConnection w) as [[d [e|]] w1]; simpl in *; [reflexivity|].
  read_cases Session_Execute_cases Ht Hs.
Qed.

(** A write of the query layer on a connection already acquired: the
    statement alone. *)
Lemma Queries_Exec_connected (q : Stmt) (ps : QueryParameters) (w : World) :
  connected w ->
  Queries.Exec q ps w = (snd (fst (Session_Execute q ps w)), snd (Session_Execute q ps w)).
Proof.
  intros Hconn. unfold Queries.Exec, bind at 1.
  rewrite (GetConnection_connected w Hconn). cbn [fst snd].
  unfold Client.Exec, Do, bind, ret. destruct (Session_Execute q ps w) as [[res err] w2].
  reflexivity.
Qed.

(** A write of the query layer, whatever the state of the provider: the
    error the provider has cached, or the statement on the connection. *)
Lemma Queries_Exec_cases (q : Stmt) (ps : QueryParameters) (w : World) :
  let c := Connection.GetConnection w in
  match snd (fst c) with
  | Some err => Queries.Exec q ps w = (Some err, snd c)
  | None =>
      connected (snd c) /\
      let r := Session_Execute q ps (snd c) in
      Queries.Exec q ps w = (snd (fst r), snd r)
  end.
Proof.
  cbv zeta. unfold Queries.Exec, Client.Exec, Do, bind, ret.
  destruct (GetConnection_cases w) as (_ & Honce & Hres & _).
  destruct (Connection.GetConnection w) as [[d [e|]] w1]; cbn [fst snd] in *; [reflexivity|].
  split; [split; [exact Honce | congruence]|].
  destruct (Session_Execute q ps w1) as [[res err] w2]. reflexivity.
Qed.

Lemma Queries_GetUser_cases (chatID : Z) (w : World) :
  let c := Connection.GetConnection w in
  let wrap := fmt_Errorf "failed to query user by telegram_chat_id %d: %w" [chatID] in
  fst (Queries.GetUserByTelegramChatID chatID w) =
  match snd (fst c) with
  | Some err => (None, Some (wrap err))
  | None =>
      match next_fault (snd c) with
      | Some msg => (None, Some (wrap (ErrStore msg)))
      | None => read_first (user_rows w chatID) Queries.user_columns
                           (Queries.scan_user (scan_null w))
                           (fmt_Errorf "failed to scan user: %w" []) (Some ErrUserNotFound)
      end
  end.
Proof.
  cbv zeta. unfold Queries.GetUserByTelegramChatID, Queries.Query, Client.Query.
  unfold bind at 1 2.
  pose proof (GetConnection_cases w) as ((Ht & Hs & _) & _).
  destruct (Connection.GetConnection w) as [[d [e|]] w1]; simpl in *; [reflexivity|].
  read_cases Session_Execute_cases Ht Hs.
Qed.

Lemma Queries_GetUserTokens_cases (chatID : Z) (w : World) :
  let c := Connection.GetConnection w in
  let wrap := fmt_Errorf "failed to query user tokens: %w" [] in
  fst (Queries.GetUserTokens chatID w) =
  match snd (fst c) with
  | Some err => (None, Some (wrap err))
  | None =>
      match next_fault (snd c) with
      | Some msg => (None, Some (wrap (ErrStore msg)))
      | None => read_first (token_rows w chatID) Queries.token_columns
                           (Queries.ScanRow_tokens (scan_null w))
                           (fmt_Errorf "failed to scan user tokens: %w" [])
                           (Some ErrTokensNotFound)
      end
  end.
Proof.
  cbv zeta. unfold Queries.GetUserTokens, Queries.Query, Client.Query.
  unfold bind at 1 2.
  pose proof (GetConnection_cases w) as ((Ht & Hs & _) & _).
  destruct (Connection.GetConnection w) as [[d [e|]] w1]; simpl in *; [reflexivity|].
  read_cases Session_Execute_cases Ht Hs.
Qed.

Lemma Queries_GetNotificationByTrip_cases (chatID : Z) (subID tripID : string) (w : World) :
  let c := Connection.GetConnection w in
  let wrap := fmt_Errorf "failed to query notification: %w" [] in
  fst (Queries.GetNotificationByTrip chatID subID tripID w) =
  match snd (fst c) with
  | Some err => (None, Some (wrap err))
  | None =>
      match next_fault (snd c) with
      | Some msg => (None, Some (wrap (ErrStore msg)))
      | None => read_first (notification_rows w chatID subID tripID) Queries.notification_columns
                           (Queries.scan_notification (scan_null w))
                           (fmt_Errorf "failed to scan notification: %w" []) None
      end
  end.
Proof.
  cbv zeta. unfold Queries.GetNotificationByTrip, Queries.Query, Client.Query.
  unfold bind at 1 2.
  pose proof (GetConnection_cases w) as ((Ht & Hs & _) & _).
  destruct (Connection.GetConnection w) as [[d [e|]] w1]; simpl in *; [reflexivity|].
  read_cases Session_Execute_cases Ht Hs.
Qed.

(** *** Errors *)

Lemma errors_Is_refl (e : error) : errors_Is e e = true.
Proof. destruct e; cbn [errors_Is]; rewrite bool_decide_eq_true_2 by reflexivity; reflexivity. Qed.

Lemma errors_Is_wrapped (f : string) (a : list Z) (cause target : error) :
  errors_Is (fmt_Errorf f a cause) target
  = bool_decide (fmt_Errorf f a cause = target) || errors_Is cause target.
Proof. reflexivity. Qed.

(** *** Scanning fails with an error of the SDK only *)

Lemma plain_error {A} pol (zero : A) dec c e :
  plain pol zero dec c = inl e -> exists msg, e = ErrStore msg.
Proof.
  unfold plain, scan_failed. destruct c as [s|]; [destruct (dec s)|destruct pol];
    intros H; inversion H; eauto.
Qed.

Lemma nullable_error {A} (dec : Scalar -> option A) c e :
  nullable dec c = inl e -> exists msg, e = ErrStore msg.
Proof.
  unfold nullable, scan_failed. destruct c as [s|]; [destruct (dec s)|];
    intros H; inversion H; eauto.
Qed.

Lemma Repository_scan_user_error pol row e :
  Repository.scan_user pol row = inl e -> exists msg, e = ErrStore msg.
Proof. unfold Repository.scan_user. intros H. scan_error (@plain_error) (@nullable_error). Qed.

Lemma Repository_scan_tokens_error pol row e :
  Repository.scan_tokens pol row = inl e -> exists msg, e = ErrStore msg.
Proof. unfold Repository.scan_tokens. intros H. scan_error (@plain_error) (@nullable_error). Qed.

Lemma Queries_scan_user_error pol row e :
  Queries.scan_user pol row = inl e -> exists msg, e = ErrStore msg.
Proof. unfold Queries.scan_user. intros H. scan_error (@plain_error) (@nullable_error). Qed.

Lemma Queries_ScanRow_tokens_error pol row e :
  Queries.ScanRow_tokens pol row = inl e -> exists msg, e = ErrStore msg.
Proof. unfold Queries.ScanRow_tokens. intros H. scan_error (@plain_error) (@nullable_error). Qed.

Lemma provider_error_is_no_sentinel (w : World) (e target : error) :
  provider_invariant w -> var_initErr w = Some e ->
  target = ErrUserNotFound \/ target = ErrTokensNotFound ->
  errors_Is e target = false.
Proof.
  unfold provider_invariant. intros Hinv He Ht. rewrite He in Hinv.
  destruct e; try contradiction; destruct Ht as [-> | ->]; reflexivity.
Qed.

Lemma Repository_GetUser_errors :
  point_lookup_errors connected Repository.GetUserByTelegramChatID user_rows
                      ErrUserNotFound (fun _ e => e).
Proof.
  intros chatID w. pose proof (Repository_GetUser_cases chatID w) as Hc. cbv zeta in Hc.
  split; [|split].
  - intros Hready Hok Hrows. rewrite Hc, (GetConnection_connected w Hready). simpl.
    rewrite Hok, Hrows. reflexivity.
  - intros Hinv e He Hnf.
    destruct (GetConnection_cases w) as (_ & _ & Hres & Hinv'). specialize (Hinv' Hinv).
    rewrite Hc, Hres in He. simpl in He.
    destruct (var_initErr (snd (Connection.GetConnection w))) as [err|] eqn:Herr.
    + simpl in He. inversion He; subst.
      rewrite (provider_error_is_no_sentinel _ _ _ Hinv' Herr) in Hnf by auto. discriminate.
    + destruct (next_fault _) as [msg|]; simpl in He.
      * inversion He; subst. discriminate Hnf.
      * destruct (user_rows w chatID) as [|r rest]; [reflexivity|]. unfold read_first in He.
        destruct (Repository.scan_user _ _) as [err|u] eqn:Hscan; simpl in He; [|discriminate].
        inversion He; subst.
        apply Repository_scan_user_error in Hscan as [msg ->]. discriminate Hnf.
  - intros Hready msg Hfault. split; [|split; [apply errors_Is_refl | reflexivity]].
    rewrite Hc, (GetConnection_connected w Hready). simpl. rewrite Hfault. reflexivity.
Qed.

Lemma Repository_GetUserTokens_errors :
  point_lookup_errors connected Repository.GetUserTokens token_rows
                      ErrTokensNotFound (fun _ e => e).
Proof.
  intros chatID w. pose proof (Repository_GetUserTokens_cases chatID w) as Hc. cbv zeta in Hc.
  split; [|split].
  - intros Hready Hok Hrows. rewrite Hc, (GetConnection_connected w Hready). simpl.
    rewrite Hok, Hrows. reflexivity.
  - intros Hinv e He Hnf.
    destruct (GetConnection_cases w) as (_ & _ & Hres & Hinv'). specialize (Hinv' Hinv).
    rewrite Hc, Hres in He. simpl in He.
    destruct (var_initErr (snd (Connection.GetConnection w))) as [err|] eqn:Herr.
    + simpl in He. inversion He; subst.
      rewrite (provider_error_is_no_sentinel _ _ _ Hinv' Herr) in Hnf by auto. discriminate.
    + destruct (next_fault _) as [msg|]; simpl in He.
      * inversion He; subst. discriminate Hnf.
      * destruct (token_rows w chatID) as [|r rest]; [reflexivity|]. unfold read_first in He.
        destruct (Repository.scan_tokens _ _) as [err|u] eqn:Hscan; simpl in He; [|discriminate].
        inversion He; subst.
        apply Repository_scan_tokens_error in Hscan as [msg ->]. discriminate Hnf.
  - intros Hready msg Hfault. split; [|split; [apply errors_Is_refl | reflexivity]].
    rewrite Hc, (GetConnection_connected w Hready). simpl. rewrite Hfault. reflexivity.
Qed.

Lemma wrapped_provider_error_is_no_sentinel (w : World) (f : string) (a : list Z)
    (e target : error) :
  provider_invariant w -> var_initErr w = Some e ->
  target = ErrUserNotFound \/ target = ErrTokensNotFound ->
  errors_Is (fmt_Errorf f a e) target = false.
Proof.
  intros Hinv He Ht. rewrite errors_Is_wrapped.
  rewrite (provider_error_is_no_sentinel w e target Hinv He Ht).
  destruct Ht as [-> | ->]; reflexivity.
Qed.

Lemma Queries_GetUser_errors :
  point_lookup_errors connected Queries.GetUserByTelegramChatID user_rows ErrUserNotFound
    (fun chatID => fmt_Errorf "failed to query user by telegram_chat_id %d: %w" [chatID]).
Proof.
  intros chatID w. pose proof (Queries_GetUser_cases chatID w) as Hc. cbv zeta in Hc.
  split; [|split].
  - intros Hready Hok Hrows. rewrite Hc, (GetConnection_connected w Hready). simpl.
    rewrite Hok, Hrows. reflexivity.
  - intros Hinv e He Hnf.
    destruct (GetConnection_cases w) as (_ & _ & Hres & Hinv'). specialize (Hinv' Hinv).
    rewrite Hc, Hres in He. simpl in He.
    destruct (var_initErr (snd (Connection.GetConnection w))) as [err|] eqn:Herr.
    + simpl in He. inversion He; subst.
      rewrite (wrapped_provider_error_is_no_sentinel _ _ _ _ _ Hinv' Herr) in Hnf by auto.
      discriminate.
    + destruct (next_fault _) as [msg|]; simpl in He.
      * inversion He; subst. discriminate Hnf.
      * destruct (user_rows w chatID) as [|r rest]; [reflexivity|]. unfold read_first in He.
        destruct (Queries.scan_user _ _) as [err|u] eqn:Hscan; simpl in He; [|discriminate].
        inversion He; subst.
        apply Queries_scan_user_error in Hscan as [msg ->]. discriminate Hnf.
  - intros Hready msg Hfault.
    rewrite Hc, (GetConnection_connected w Hready). cbn [fst snd]. rewrite Hfault.
    split; [reflexivity|]. split; [|reflexivity].
    rewrite errors_Is_wrapped, errors_Is_refl. apply orb_true_r.
Qed.

Lemma Queries_GetUserTokens_errors :
  point_lookup_errors connected Queries.GetUserTokens token_rows ErrTokensNotFound
    (fun _ => fmt_Errorf "failed to query user tokens: %w" []).
Proof.
  intros chatID w. pose proof (Queries_GetUserTokens_cases chatID w) as Hc. cbv zeta in Hc.
  split; [|split].
  - intros Hready Hok Hrows. rewrite Hc, (GetConnection_connected w Hready). simpl.
    rewrite Hok, Hrows. reflexivity.
  - intros Hinv e He Hnf.
    destruct (GetConnection_cases w) as (_ & _ & Hres & Hinv'). specialize (Hinv' Hinv).
    rewrite Hc, Hres in He. simpl in He.
    destruct (var_initErr (snd (Connection.GetConnection w))) as [err|] eqn:Herr.
    + simpl in He. inversion He; subst.
      rewrite (wrapped_provider_error_is_no_sentinel _ _ _ _ _ Hinv' Herr) in Hnf by auto.
      discriminate.
    + destruct (next_fault _) as [msg|]; simpl in He.
      * inversion He; subst. discriminate Hnf.
      * destruct (token_rows w chatID) as [|r rest]; [reflexivity|]. unfold read_first in He.
        destruct (Queries.ScanRow_tokens _ _) as [err|u] eqn:Hscan; simpl in He; [|discriminate].
        inversion He; subst.
        apply Queries_ScanRow_tokens_error in Hscan as [msg ->]. discriminate Hnf.
  - intros Hready msg Hfault.
    rewrite Hc, (GetConnection_connected w Hready). cbn [fst snd]. rewrite Hfault.
    split; [reflexivity|]. split; [|reflexivity].
    rewrite errors_Is_wrapped, errors_Is_refl. apply orb_true_r.
Qed.

(** *** Writes *)

Lemma table_rows_insert_eq (d : DB) (tbl : string) (rows : list Row) :
  table_rows (<[tbl := rows]> d) tbl = rows.
Proof. unfold table_rows. rewrite lookup_insert_eq. reflexivity. Qed.

Lemma table_rows_insert_ne (d : DB) (tbl tbl' : string) (rows : list Row) :
  tbl <> tbl' -> table_rows (<[tbl := rows]> d) tbl' = table_rows d tbl'.
Proof. intros H. unfold table_rows. rewrite lookup_insert_ne by exact H. reflexivity. Qed.

(** A successful statement through a session, read backwards. *)
Lemma Session_Execute_succeeded (q : Stmt) (ps : QueryParameters) (w : World) :
  let r := Session_Execute q ps w in
  snd (fst r) = None ->
  next_fault w = None /\
  exists d s, exec_stmt (tables w) q ps = inr (d, s) /\ tables (snd r) = d /\
              fst (fst r) = result_of s.
Proof.
  cbv zeta. intros Hok.
  destruct (Session_Execute_cases q ps w) as [_ Hx]. cbv zeta in Hx.
  destruct (next_fault w) as [msg|].
  - destruct Hx as [Hx _]. rewrite Hx in Hok. discriminate.
  - split; [reflexivity|].
    destruct (exec_stmt (tables w) q ps) as [msg|[d s]].
    + destruct Hx as [Hx _]. rewrite Hx in Hok. discriminate.
    + destruct Hx as [Hx Ht]. exists d, s. rewrite Hx. auto.
Qed.

(** The rows an upsert or an insert leaves under the key it wrote: each is
    an older row with the cells set, or the new row of the cells alone. *)
Lemma upsert_leaves_written_rows (d d' : DB) (tbl k : string) (cols : list (string * string))
    (ps : QueryParameters) (s : list (list (list Cell))) (v : Scalar) (cells : list (string * Cell)) :
  primary_key tbl = [k] ->
  bind_cells cols ps = Some cells ->
  last_binding k cells = Some (Some v) ->
  exec_stmt d (Upsert tbl cols) ps = inr (d', s) ->
  let found := List.filter (row_matches [(k, Some v)]) (table_rows d' tbl) in
  found <> [] /\ Forall (written cells) found /\
  (forall tbl', tbl' <> tbl -> table_rows d' tbl' = table_rows d tbl').
Proof.
  intros Hpk Hcells Hkey Hexec. cbv zeta. unfold exec_stmt in Hexec. rewrite Hcells, Hpk in Hexec.
  set (r := set_cells ∅ cells) in *.
  assert (Hrk : r !! k = Some v).
  { subst r. rewrite set_cells_lookup, Hkey. reflexivity. }
  assert (Hmatch : forall x : Row, row_matches [(k, Some v)] x = same_key [k] r x).
  { intros x. unfold row_matches, same_key. simpl. rewrite Hrk.
    f_equal. apply bool_decide_ext. split; intros H; congruence. }
  assert (Hkeep : forall old : Row, row_matches [(k, Some v)] (set_cells old cells) = true).
  { intros old. unfold row_matches. simpl. rewrite set_cells_lookup, Hkey.
    rewrite bool_decide_eq_true_2; reflexivity. }
  destruct (negb (has_key [k] r)); [discriminate|].
  destruct (existsb (same_key [k] r) (table_rows d tbl)) eqn:Hex;
    match type of Hexec with
    | inr (?x, _) = _ => assert (Hd : d' = x) by congruence
    end; clear Hexec; subst d'; rewrite table_rows_insert_eq.
  - split; [|split].
    + apply existsb_exists in Hex as (old & Hin & Hsame).
      intros Hnil.
      assert (Hin' : In (set_cells old cells)
                        (List.filter (row_matches [(k, Some v)])
                           (map (fun old0 => if same_key [k] r old0 then set_cells old0 cells else old0)
                                (table_rows d tbl)))).
      { apply filter_In. split; [|apply Hkeep].
        apply in_map_iff. exists old. rewrite Hsame. auto. }
      rewrite Hnil in Hin'. destruct Hin'.
    + apply Forall_forall. intros x Hx. apply list_elem_of_In in Hx.
      apply filter_In in Hx as [Hx Hp]. apply in_map_iff in Hx as (old & <- & Hin).
      destruct (same_key [k] r old) eqn:Hs; [exists old; reflexivity|].
      rewrite Hmatch, Hs in Hp. discriminate.
    + intros tbl' Hne. apply table_rows_insert_ne. congruence.
  - rewrite List.filter_app. cbn [List.filter]. rewrite Hmatch.
    assert (Hself : same_key [k] r r = true).
    { unfold same_key. simpl. rewrite bool_decide_eq_true_2; reflexivity. }
    rewrite Hself.
    assert (Hnone : List.filter (row_matches [(k, Some v)]) (table_rows d tbl) = []).
    { destruct (List.filter _ _) as [|x rest] eqn:Hf; [reflexivity|].
      assert (Hx : In x (List.filter (row_matches [(k, Some v)]) (table_rows d tbl)))
        by (rewrite Hf; left; reflexivity).
      apply filter_In in Hx as [Hx Hp]. rewrite Hmatch in Hp.
      assert (existsb (same_key [k] r) (table_rows d tbl) = true)
        by (apply existsb_exists; eauto).
      congruence. }
    rewrite Hnone. simpl. split; [discriminate|]. split.
    + constructor; [exists ∅; reflexivity | constructor].
    + intros tbl' Hne. apply table_rows_insert_ne. congruence.
Qed.

(** A successful insert appends the row of its cells. *)
Lemma insert_appends (d d' : DB) (tbl : string) (cols : list (string * string))
    (ps : QueryParameters) (s : list (list (list Cell))) (cells : list (string * Cell)) :
  bind_cells cols ps = Some cells ->
  exec_stmt d (Insert tbl cols) ps = inr (d', s) ->
  d' = <[tbl := table_rows d tbl ++ [set_cells ∅ cells]]> d.
Proof.
  intros Hcells Hexec. unfold exec_stmt in Hexec. rewrite Hcells in Hexec. cbv zeta in Hexec.
  destruct (negb _); [discriminate|]. destruct (existsb _ _); [discriminate|].
  congruence.
Qed.

(** An update applies its cells to the rows its condition selects. *)
Lemma update_maps (d d' : DB) (tbl : string) (set_ where_ : list (string * string))
    (ps : QueryParameters) (s : list (list (list Cell))) (cells conds : list (string * Cell)) :
  bind_cells set_ ps = Some cells ->
  bind_cells where_ ps = Some conds ->
  exec_stmt d (Update tbl set_ where_) ps = inr (d', s) ->
  d' = <[tbl := map (fun old => if row_matches conds old then set_cells old cells else old)
                    (table_rows d tbl)]> d.
Proof.
  intros Hcells Hconds Hexec. unfold exec_stmt in Hexec. rewrite Hcells, Hconds in Hexec.
  congruence.
Qed.

(** *** Token sets *)

Lemma Repository_StoreUserTokens_cases (tokens : UserTokens) (w : World) :
  let c := Connection.GetConnection w in
  match snd (fst c) with
  | Some err => Repository.StoreUserTokens tokens w = ((tokens, Some err), snd c)
  | None =>
      connected (snd c) /\
      let created := if Time_IsZero (UserTokens_CreatedAt tokens) then wall_clock w
                     else UserTokens_CreatedAt tokens in
      let tokens' :=
        mkUserTokens (UserTokens_TelegramChatID tokens) (UserTokens_AccessToken tokens)
                     (UserTokens_RefreshToken tokens) (UserTokens_UserID tokens)
                     (UserTokens_Datadome tokens) (UserTokens_AppToken tokens)
                     created (wall_clock w) in
      let r := Session_Execute (Upsert "user_tokens" (by_name Repository.token_columns))
                               (Repository.token_params tokens') (snd c) in
      Repository.StoreUserTokens tokens w = ((tokens', snd (fst r)), snd r)
  end.
Proof.
  cbv zeta.
  assert (Heq : Repository.StoreUserTokens tokens w
                = Repository.StoreUserTokens tokens w) by reflexivity.
  unfold Repository.StoreUserTokens at 2 in Heq. unfold bind, time_Now, Do, ret in Heq.
  rewrite Heq. clear Heq.
  destruct (GetConnection_cases w) as ((_ & _ & Hclock & _) & Honce & Hres & _).
  destruct (Connection.GetConnection w) as [[d [e|]] w1]; simpl in *; [reflexivity|].
  split; [split; [exact Honce | congruence]|].
  rewrite Hclock.
  destruct (Session_Execute _ _ w1) as [[res err] w2]. reflexivity.
Qed.

Lemma Repository_writes_null_for_blank_token :
  writes_null_for_blank_token Repository_StoreUserTokens.
Proof.
  intros tokens w. cbv zeta. unfold Repository_StoreUserTokens.
  pose proof (Repository_StoreUserTokens_cases tokens w) as Hc. cbv zeta in Hc.
  destruct (GetConnection_cases w) as ((Htab & _) & _).
  destruct (snd (fst (Connection.GetConnection w))) as [e|].
  { rewrite Hc. simpl. discriminate. }
  destruct Hc as (Hconn & ->). simpl. intros Hok.
  apply Session_Execute_succeeded in Hok as (_ & d & s & Hexec & Ht & _).
  match type of Hexec with
  | exec_stmt _ ?q ?ps = _ =>
      destruct (Session_Execute_cases q ps (snd (Connection.GetConnection w))) as ((_ & _ & _ & _ & _ & _ & _ & _ & Htrace) & _)
  end.
  split.
  { eexists _, _. split; [rewrite Htrace; apply last_snoc|].
    unfold Repository.token_params, Queries.token_params.
    split; intros H; rewrite H; reflexivity. }
  eapply upsert_leaves_written_rows in Hexec as (Hne & Hall & _);
    [ | reflexivity | reflexivity | reflexivity ].
  unfold token_rows, rows_where. simpl map. rewrite Ht.
  split; [exact Hne|].
  intros row Hin. rewrite Forall_forall in Hall.
  apply list_elem_of_In, Hall in Hin as [old ->].
  rewrite !set_cells_lookup. simpl.
  split; intros H; rewrite H; reflexivity.
Qed.

Lemma Queries_writes_null_for_blank_token :
  writes_null_for_blank_token Queries.StoreUserTokens.
Proof.
  intros tokens w. cbv zeta. unfold Queries.StoreUserTokens.
  match goal with
  | |- context [Queries.Exec ?q ?ps w] => pose proof (Queries_Exec_cases q ps w) as Hc
  end.
  cbv zeta in Hc.
  destruct (snd (fst (Connection.GetConnection w))) as [e|].
  { rewrite Hc. simpl. discriminate. }
  destruct Hc as (Hconn & ->). simpl. intros Hok.
  apply Session_Execute_succeeded in Hok as (_ & d & s & Hexec & Ht & _).
  match type of Hexec with
  | exec_stmt _ ?q ?ps = _ =>
      destruct (Session_Execute_cases q ps (snd (Connection.GetConnection w)))
        as ((_ & _ & _ & _ & _ & _ & _ & _ & Htrace) & _)
  end.
  split.
  { eexists _, _. split; [rewrite Htrace; apply last_snoc|].
    unfold Repository.token_params, Queries.token_params.
    split; intros H; rewrite H; reflexivity. }
  eapply upsert_leaves_written_rows in Hexec as (Hne & Hall & _);
    [ | reflexivity | reflexivity | reflexivity ].
  unfold token_rows, rows_where. simpl map. rewrite Ht.
  split; [exact Hne|].
  intros row Hin. rewrite Forall_forall in Hall.
  apply list_elem_of_In, Hall in Hin as [old ->].
  rewrite !set_cells_lookup. simpl.
  split; intros H; rewrite H; reflexivity.
Qed.

(** What a successful upsert of a token set leaves behind. *)
Lemma upsert_tokens_executed (cols : list string) (ps : QueryParameters) (w : World)
    (cells : list (string * Cell)) (chatID : Z) :
  bind_cells (by_name cols) ps = Some cells ->
  last_binding "telegram_chat_id" cells = Some (Some (SInt64 chatID)) ->
  let r := Session_Execute (Upsert "user_tokens" (by_name cols)) ps w in
  snd (fst r) = None ->
  (scan_null (snd r) = scan_null w /\ var_once (snd r) = var_once w /\
   var_initErr (snd r) = var_initErr w) /\
  token_rows (snd r) chatID <> [] /\
  Forall (written cells) (token_rows (snd r) chatID).
Proof.
  intros Hcells Hkey r Hok. subst r.
  destruct (Session_Execute_cases (Upsert "user_tokens" (by_name cols)) ps w)
    as ((Hs & Ho & _ & He & _) & _).
  apply Session_Execute_succeeded in Hok as (_ & d & s & Hexec & Ht & _).
  split; [auto|].
  eapply upsert_leaves_written_rows in Hexec as (Hne & Hall & _);
    [ | reflexivity | exact Hcells | exact Hkey ].
  unfold token_rows, rows_where. cbn [map fst snd]. rewrite Ht. split; assumption.
Qed.

(** *** Notifications *)

(** What a successful insert of a notification leaves under its triple,
    when the triple had no row. *)
Lemma insert_notification_executed (cols : list string) (ps : QueryParameters) (w : World)
    (cells : list (string * Cell)) (chatID : Z) (subID tripID : string) :
  bind_cells (by_name cols) ps = Some cells ->
  last_binding "telegram_chat_id" cells = Some (Some (SInt64 chatID)) ->
  last_binding "subscription_id" cells = Some (Some (SText subID)) ->
  last_binding "trip_id" cells = Some (Some (SText tripID)) ->
  notification_rows w chatID subID tripID = [] ->
  let r := Session_Execute (Insert "notifications" (by_name cols)) ps w in
  snd (fst r) = None ->
  (scan_null (snd r) = scan_null w /\ var_once (snd r) = var_once w /\
   var_initErr (snd r) = var_initErr w) /\
  notification_rows (snd r) chatID subID tripID = [set_cells ∅ cells].
Proof.
  intros Hcells Hchat Hsub Htrip Hnone r Hok. subst r.
  destruct (Session_Execute_cases (Insert "notifications" (by_name cols)) ps w)
    as ((Hs & Ho & _ & He & _) & _).
  apply Session_Execute_succeeded in Hok as (_ & d & s & Hexec & Ht & _).
  split; [auto|].
  apply (insert_appends _ _ _ _ _ _ _ Hcells) in Hexec. subst d.
  unfold notification_rows, rows_where in *. cbn [map fst snd] in *.
  rewrite Ht, table_rows_insert_eq, List.filter_app, Hnone.
  cbn [List.filter app]. unfold row_matches. cbn [forallb fst snd].
  rewrite !set_cells_lookup, Hchat, Hsub, Htrip.
  rewrite !bool_decide_eq_true_2 by reflexivity. reflexivity.
Qed.

Lemma Repository_CreateNotification_connected (notif : Notification) (w : World) :
  connected w ->
  let fresh_id := String.eqb (Notif_ID notif) "" in
  let id := if fresh_id then uuid_String (uuid_v4 (hd [] (random w))) else Notif_ID notif in
  let w0 := if fresh_id then set_random (tl (random w)) w else w in
  let notif' :=
    mkNotification id (Notif_TelegramChatID notif) (Notif_SubscriptionID notif)
                   (Notif_TripID notif) (Notif_TelegramMessageID notif) "sent" (wall_clock w) in
  let r := Session_Execute (Insert "notifications" (by_name Repository.notification_columns))
                           (Repository.notification_params notif') w0 in
  Repository.CreateNotification notif w = ((notif', snd (fst r)), snd r).
Proof.
  intros Hconn. cbv zeta.
  unfold Repository.CreateNotification, bind at 1.
  rewrite (GetConnection_connected w Hconn). cbn [fst snd].
  unfold bind, uuid_New_String, time_Now, Do, ret.
  destruct (String.eqb (Notif_ID notif) ""); cbn [wall_clock set_random];
    destruct (Session_Execute _ _ _) as [[res err] w2]; reflexivity.
Qed.

Lemma Queries_CreateNotification_connected (notif : Notification) (w : World) :
  connected w ->
  let r := Session_Execute (Insert "notifications" (by_name Queries.notification_columns))
                           (Queries.notification_params notif) w in
  Queries_CreateNotification notif w = ((notif, snd (fst r)), snd r).
Proof.
  intros Hconn. cbv zeta. unfold Queries_CreateNotification, Queries.CreateNotification.
  rewrite (Queries_Exec_connected _ _ w Hconn). reflexivity.
Qed.

Lemma Repository_absent_notification :
  absent_notification_is_no_error connected Repository.GetNotificationByTrip.
Proof.
  intros chatID subID tripID w Hready Hok Hrows.
  rewrite Repository_GetNotificationByTrip_cases. cbv zeta.
  rewrite (GetConnection_connected w Hready). cbn [fst snd].
  rewrite Hok, Hrows. reflexivity.
Qed.

Lemma Queries_absent_notification :
  absent_notification_is_no_error connected Queries.GetNotificationByTrip.
Proof.
  intros chatID subID tripID w Hready Hok Hrows.
  rewrite Queries_GetNotificationByTrip_cases. cbv zeta.
  rewrite (GetConnection_connected w Hready). cbn [fst snd].
  rewrite Hok, Hrows. reflexivity.
Qed.

Lemma Repository_created_notification_found :
  created_notification_is_found connected Repository.CreateNotification
                                Repository.GetNotificationByTrip Repository_as_stored.
Proof.
  intros notif w. cbv zeta. intros Hready Hnone.
  rewrite (Repository_CreateNotification_connected notif w Hready). cbn [fst snd].
  set (id := if String.eqb (Notif_ID notif) "" then _ else _).
  set (w0 := if String.eqb (Notif_ID notif) "" then _ else _).
  assert (Hw0 : tables w0 = tables w /\ var_once w0 = var_once w /\
                var_initErr w0 = var_initErr w /\ scan_null w0 = scan_null w).
  { subst w0. destruct (String.eqb (Notif_ID notif) ""); repeat split. }
  destruct Hw0 as (Ht0 & Ho0 & He0 & Hs0).
  intros Hok Hnf.
  eapply (insert_notification_executed _ _ _ _ (Notif_TelegramChatID notif)
            (Notif_SubscriptionID notif) (Notif_TripID notif)) in Hok
    as ((Hs & Ho & He) & Hrows);
    [ | reflexivity | reflexivity | reflexivity | reflexivity
      | unfold notification_rows, rows_where in *; rewrite Ht0; exact Hnone ].
  destruct Hready as [Honce Herr].
  match goal with
  | |- context [Repository.GetNotificationByTrip ?c ?s ?t ?w'] =>
      rewrite (Repository_GetNotificationByTrip_cases c s t w');
      assert (Hconn : connected w') by (split; congruence);
      cbv zeta; rewrite (GetConnection_connected w' Hconn); cbn [fst snd];
      rewrite Hnf, Hrows
  end.
  unfold read_first, project, Repository.scan_notification.
  cbn [map Repository.notification_columns].
  rewrite !set_cells_lookup. cbn [last_binding String.eqb Ascii.eqb Bool.eqb fst snd].
  simpl. eexists. split; [reflexivity|]. repeat split.
Qed.

Lemma Queries_created_notification_found :
  created_notification_is_found connected Queries_CreateNotification
                                Queries.GetNotificationByTrip Queries_as_stored.
Proof.
  intros notif w. cbv zeta. intros Hready Hnone.
  rewrite (Queries_CreateNotification_connected notif w Hready). cbn [fst snd].
  intros Hok Hnf.
  eapply (insert_notification_executed _ _ _ _ (Notif_TelegramChatID notif)
            (Notif_SubscriptionID notif) (Notif_TripID notif)) in Hok
    as ((Hs & Ho & He) & Hrows);
    [ | reflexivity | reflexivity | reflexivity | reflexivity | exact Hnone ].
  destruct Hready as [Honce Herr].
  match goal with
  | |- context [Queries.GetNotificationByTrip ?c ?s ?t ?w'] =>
      rewrite (Queries_GetNotificationByTrip_cases c s t w');
      assert (Hconn : connected w') by (split; congruence);
      cbv zeta; rewrite (GetConnection_connected w' Hconn); cbn [fst snd];
      rewrite Hnf, Hrows
  end.
  unfold read_first, project, Queries.scan_notification.
  cbn [map Queries.notification_columns].
  rewrite !set_cells_lookup. cbn [last_binding String.eqb Ascii.eqb Bool.eqb fst snd].
  simpl. eexists. split; [reflexivity|]. repeat split.
Qed.

(** *** Users *)

Lemma set_status_other_columns (chatID : Z) (status : UserStatus) (old : Row) (c : string) :
  c <> "status" -> set_status_of chatID status old !! c = old !! c.
Proof.
  intros Hc. unfold set_status_of. destruct (row_matches _ old); [|reflexivity].
  rewrite set_cells_lookup. cbn [last_binding fst snd].
  destruct (String.eqb_spec "status" c); [congruence | reflexivity].
Qed.

Lemma set_status_keeps_match (chatID : Z) (status : UserStatus) (old : Row) :
  row_matches [("telegram_chat_id", Some (SInt64 chatID))] (set_status_of chatID status old)
  = row_matches [("telegram_chat_id", Some (SInt64 chatID))] old.
Proof.
  unfold row_matches. cbn [forallb fst snd].
  rewrite set_status_other_columns by discriminate. reflexivity.
Qed.

Lemma filter_set_status (chatID : Z) (status : UserStatus) (rows : list Row) :
  List.filter (row_matches [("telegram_chat_id", Some (SInt64 chatID))])
              (map (set_status_of chatID status) rows)
  = map (fun old => set_cells old [("status", Some (SText status))])
        (List.filter (row_matches [("telegram_chat_id", Some (SInt64 chatID))]) rows).
Proof.
  induction rows as [|r rows IH]; [reflexivity|].
  cbn [map List.filter]. rewrite set_status_keeps_match.
  destruct (row_matches _ r) eqn:Hr; [|exact IH].
  cbn [map]. rewrite IH. f_equal. unfold set_status_of. rewrite Hr. reflexivity.
Qed.

Lemma Forall2_set_status (chatID : Z) (status : UserStatus) (rows : list Row) :
  Forall2 (fun old new : Row => forall c, c <> "status" -> new !! c = old !! c)
          rows (map (set_status_of chatID status) rows).
Proof.
  induction rows as [|r rows IH]; constructor; [|exact IH].
  intros c Hc. apply set_status_other_columns, Hc.
Qed.

(** What a successful status update leaves behind. *)
Lemma update_status_executed (p : string) (ps : QueryParameters) (w : World)
    (chatID : Z) (status : UserStatus) :
  bind_cells [("status", "$status")] ps = Some [("status", Some (SText status))] ->
  bind_cells [("telegram_chat_id", p)] ps = Some [("telegram_chat_id", Some (SInt64 chatID))] ->
  let r := Session_Execute (Update "users" [("status", "$status")] [("telegram_chat_id", p)]) ps w in
  snd (fst r) = None ->
  (scan_null (snd r) = scan_null w /\ var_once (snd r) = var_once w /\
   var_initErr (snd r) = var_initErr w) /\
  tables (snd r) = <["users" := map (set_status_of chatID status) (table_rows (tables w) "users")]>
                     (tables w).
Proof.
  intros Hset Hwhere r Hok. subst r.
  destruct (Session_Execute_cases
              (Update "users" [("status", "$status")] [("telegram_chat_id", p)]) ps w)
    as ((Hs & Ho & _ & He & _) & _).
  apply Session_Execute_succeeded in Hok as (_ & d & s & Hexec & Ht & _).
  split; [auto|].
  apply (update_maps _ _ _ _ _ _ _ _ _ Hset Hwhere) in Hexec. rewrite Ht. exact Hexec.
Qed.

Lemma status_update_consequences (w1 w2 : World) (chatID : Z) (status : UserStatus) :
  tables w2 = <["users" := map (set_status_of chatID status) (table_rows (tables w1) "users")]>
                (tables w1) ->
  (table_rows (tables w2) "users"
   = map (set_status_of chatID status) (table_rows (tables w1) "users") /\
   (forall tbl, tbl <> "users" -> table_rows (tables w2) tbl = table_rows (tables w1) tbl) /\
   Forall2 (fun old new : Row => forall c, c <> "status" -> new !! c = old !! c)
           (table_rows (tables w1) "users") (table_rows (tables w2) "users")) /\
  user_rows w2 chatID
  = map (fun old => set_cells old [("status", Some (SText status))]) (user_rows w1 chatID).
Proof.
  intros Ht. split; [split; [|split]|].
  - rewrite Ht. apply table_rows_insert_eq.
  - intros tbl Hne. rewrite Ht. apply table_rows_insert_ne. congruence.
  - rewrite Ht, table_rows_insert_eq. apply Forall2_set_status.
  - unfold user_rows, rows_where. cbn [map fst snd].
    rewrite Ht, table_rows_insert_eq. apply filter_set_status.
Qed.

(** Scanning a row whose status cell was set: the same user, the status apart. *)
Lemma Repository_scan_user_with_status pol (row : Row) (u : User) (status : UserStatus) :
  Repository.scan_user pol (Some (project Repository.user_columns row)) = inr u ->
  Repository.scan_user pol
    (Some (project Repository.user_columns (set_cells row [("status", Some (SText status))])))
  = inr (with_status u status).
Proof.
  unfold Repository.scan_user, project. cbn [map Repository.user_columns]. intros H.
  rewrite !set_cells_lookup. cbn [last_binding String.eqb Ascii.eqb Bool.eqb andb fst snd].
  scan_ok H. inversion H; subst; clear H.
  reflexivity.
Qed.

Lemma Queries_scan_user_with_status pol (row : Row) (u : User) (status : UserStatus) :
  Queries.scan_user pol (Some (project Queries.user_columns row)) = inr u ->
  Queries.scan_user pol
    (Some (project Queries.user_columns (set_cells row [("status", Some (SText status))])))
  = inr (with_status u status).
Proof.
  unfold Queries.scan_user, project. cbn [map Queries.user_columns]. intros H.
  rewrite !set_cells_lookup. cbn [last_binding String.eqb Ascii.eqb Bool.eqb andb fst snd].
  scan_ok H. inversion H; subst; clear H.
  reflexivity.
Qed.

(** The world a lookup of a user leaves. *)
Lemma Repository_GetUser_world (chatID : Z) (w w1 : World) (res : option User * option error) :
  Repository.GetUserByTelegramChatID chatID w = (res, w1) ->
  tables w1 = tables w /\ scan_null w1 = scan_null w /\
  var_once w1 = true /\
  (snd res = None -> var_initErr w1 = None).
Proof.
  unfold Repository.GetUserByTelegramChatID. unfold bind at 1.
  destruct (GetConnection_cases w) as ((Ht & Hs & _) & Honce & Hres & _).
  destruct (Connection.GetConnection w) as [[d [e|]] wc]; cbn [fst snd] in *.
  - unfold ret. intros H. inversion H; subst. cbn [snd]. repeat split; auto.
    intros H'; discriminate H'.
  - unfold Do, bind.
    match goal with
    | |- context [Session_Execute ?q ?ps wc] =>
        destruct (Session_Execute_cases q ps wc) as ((Hs' & Ho' & _ & He' & _) & Hx);
        cbv zeta in Hx;
        destruct (Session_Execute q ps wc) as [[r err] w2]
    end.
    cbn [fst snd] in *.
    assert (Hinit : var_initErr w2 = None) by (inversion Hres; congruence).
    assert (Htab : tables w2 = tables w).
    { destruct (next_fault wc); [destruct Hx; congruence|].
      destruct (exec_stmt _ _ _) as [msg|[d' s]] eqn:Hexec; [destruct Hx; congruence|].
      cbn in Hexec. inversion Hexec; subst. destruct Hx; congruence. }
    assert (Hgoal : tables w2 = tables w /\ scan_null w2 = scan_null w /\
                    var_once w2 = true /\ var_initErr w2 = None)
      by (repeat split; congruence).
    clear - Hgoal.
    destruct err; unfold ret.
    + intros H. inversion H; subst. tauto.
    + destruct (NextResultSet r) as [[|] res1]; cbn [negb];
        [destruct (Next res1) as [[|] res2]; cbn [negb];
         [destruct (Repository.scan_user _ _)|] |];
        intros H; inversion H; subst; tauto.
Qed.

Lemma Repository_UpdateUserStatus_connected (chatID : Z) (status : UserStatus) (w : World) :
  connected w ->
  let r := Session_Execute (Update "users" [("status", "$status")] [("telegram_chat_id", "$chat_id")])
                           [("$chat_id", Int64Value chatID); ("$status", UTF8Value status)] w in
  Repository.UpdateUserStatus chatID status w = (snd (fst r), snd r).
Proof.
  intros Hconn. cbv zeta. unfold Repository.UpdateUserStatus, bind at 1.
  rewrite (GetConnection_connected w Hconn). cbn [fst snd].
  unfold Do, bind, ret. destruct (Session_Execute _ _ w) as [[res err] w2]. reflexivity.
Qed.

Lemma Repository_UpdateUserStatus_refused (chatID : Z) (status : UserStatus) (w : World) (e : error) :
  var_once w = true -> var_initErr w = Some e ->
  Repository.UpdateUserStatus chatID status w = (Some e, w).
Proof.
  intros Honce He. unfold Repository.UpdateUserStatus, bind at 1.
  rewrite (GetConnection_cached w Honce), He. reflexivity.
Qed.

Lemma Repository_UpdateUserStatus_after_connection (chatID : Z) (status : UserStatus) (w : World) :
  Repository.UpdateUserStatus chatID status w
  = Repository.UpdateUserStatus chatID status (snd (Connection.GetConnection w)).
Proof. unfold Repository.UpdateUserStatus. apply after_GetConnection. Qed.

(** What a successful status update of [repository.go] leaves behind,
    whatever the state of the provider before it. *)
Lemma Repository_UpdateUserStatus_succeeded (chatID : Z) (status : UserStatus) (w1 w2 : World) :
  Repository.UpdateUserStatus chatID status w1 = (None, w2) ->
  connected w2 /\ scan_null w2 = scan_null w1 /\
  tables w2 = <["users" := map (set_status_of chatID status) (table_rows (tables w1) "users")]>
                (tables w1).
Proof.
  rewrite (Repository_UpdateUserStatus_after_connection chatID status w1).
  destruct (GetConnection_cases w1) as ((Ht & Hs & _) & Honce & _ & _).
  set (wc := snd (Connection.GetConnection w1)) in *.
  destruct (var_initErr wc) as [e|] eqn:Herr.
  { rewrite (Repository_UpdateUserStatus_refused chatID status wc e Honce Herr). discriminate. }
  rewrite (Repository_UpdateUserStatus_connected chatID status wc (conj Honce Herr)).
  intros Hupd. injection Hupd as Hok Hw2.
  eapply (update_status_executed _ _ _ chatID status) in Hok as ((Hs2 & Ho2 & He2) & Ht2);
    [ | reflexivity | reflexivity ].
  rewrite Hw2 in Hs2, Ho2, He2, Ht2.
  split; [split; congruence|]. split; [congruence|].
  rewrite Ht2, Ht. reflexivity.
Qed.

Lemma Repository_status_update_frame : status_update_frame Repository.UpdateUserStatus.
Proof.
  intros chatID status w1 w2 Hupd.
  apply Repository_UpdateUserStatus_succeeded in Hupd as (_ & _ & Ht).
  apply (status_update_consequences w1 w2 chatID status Ht).
Qed.

Lemma Repository_status_update_observed :
  status_update_observed Repository.GetUserByTelegramChatID Repository.UpdateUserStatus.
Proof.
  intros chatID status u w w1 w2 Hget Hupd Hnf.
  destruct (Repository_GetUser_world chatID w w1 _ Hget) as (Ht & Hs & _ & _).
  pose proof (Repository_GetUser_cases chatID w) as Hcases. cbv zeta in Hcases.
  rewrite Hget in Hcases. cbn [fst snd] in Hcases.
  apply Repository_UpdateUserStatus_succeeded in Hupd as (Hconn2 & Hs2 & Ht2).
  destruct (status_update_consequences w1 w2 chatID status Ht2) as (_ & Hrows).
  exists (with_status u status). split; [|repeat split].
  rewrite Repository_GetUser_cases. cbv zeta.
  rewrite (GetConnection_connected w2 Hconn2). cbn [fst snd]. rewrite Hnf, Hrows.
  destruct (snd (fst (Connection.GetConnection w))); [discriminate Hcases|].
  destruct (next_fault (snd (Connection.GetConnection w))); [discriminate Hcases|].
  unfold user_rows, rows_where in *. rewrite Ht.
  destruct (List.filter _ (table_rows (tables w) "users")) as [|row rest]; [discriminate Hcases|].
  unfold read_first in *. cbn [map].
  destruct (Repository.scan_user (scan_null w) _) as [e|u'] eqn:Hscan; [discriminate Hcases|].
  inversion Hcases; subst u'.
  rewrite Hs2, Hs, (Repository_scan_user_with_status _ _ _ status Hscan). reflexivity.
Qed.

Lemma Queries_GetUser_world (chatID : Z) (w w1 : World) (res : option User * option error) :
  Queries.GetUserByTelegramChatID chatID w = (res, w1) ->
  tables w1 = tables w /\ scan_null w1 = scan_null w /\
  var_once w1 = true /\
  (snd res = None -> var_initErr w1 = None).
Proof.
  unfold Queries.GetUserByTelegramChatID, Queries.Query, Client.Query. unfold bind at 1 2.
  destruct (GetConnection_cases w) as ((Ht & Hs & _) & Honce & Hres & _).
  destruct (Connection.GetConnection w) as [[d [e|]] wc]; cbn [fst snd] in *.
  - unfold ret. intros H. inversion H; subst. cbn [snd]. repeat split; auto.
    intros H'; discriminate H'.
  - unfold Do, bind.
    match goal with
    | |- context [Session_Execute ?q ?ps wc] =>
        destruct (Session_Execute_cases q ps wc) as ((Hs' & Ho' & _ & He' & _) & Hx);
        cbv zeta in Hx;
        destruct (Session_Execute q ps wc) as [[r err] w2]
    end.
    cbn [fst snd] in *.
    assert (Hinit : var_initErr w2 = None) by (inversion Hres; congruence).
    assert (Htab : tables w2 = tables w).
    { destruct (next_fault wc); [destruct Hx; congruence|].
      destruct (exec_stmt _ _ _) as [msg|[d' s]] eqn:Hexec; [destruct Hx; congruence|].
      cbn in Hexec. inversion Hexec; subst. destruct Hx; congruence. }
    assert (Hgoal : tables w2 = tables w /\ scan_null w2 = scan_null w /\
                    var_once w2 = true /\ var_initErr w2 = None)
      by (repeat split; congruence).
    clear - Hgoal.
    destruct err; unfold ret.
    + intros H. inversion H; subst. tauto.
    + destruct (Queries.NextRow r) as [[|] res1];
        [destruct (Queries.scan_user _ _)|];
        intros H; inversion H; subst; tauto.
Qed.

(** A write of the query layer that succeeded: the provider gave the
    connection and the statement went through on it. *)
Lemma Queries_Exec_succeeded (q : Stmt) (ps : QueryParameters) (w1 w2 : World) :
  Queries.Exec q ps w1 = (None, w2) ->
  let wc := snd (Connection.GetConnection w1) in
  connected wc /\
  (tables wc = tables w1 /\ scan_null wc = scan_null w1 /\
   wall_clock wc = wall_clock w1 /\ random wc = random w1) /\
  snd (fst (Session_Execute q ps wc)) = None /\ snd (Session_Execute q ps wc) = w2.
Proof.
  intros Hexec. cbv zeta.
  pose proof (Queries_Exec_cases q ps w1) as Hc. cbv zeta in Hc.
  destruct (GetConnection_cases w1) as (Hframe & _).
  destruct (snd (fst (Connection.GetConnection w1))) as [e|].
  { rewrite Hc in Hexec. discriminate. }
  destruct Hc as (Hconn & Hc). rewrite Hc in Hexec. injection Hexec as Hok Hw2.
  auto.
Qed.

Lemma Queries_UpdateUserStatus_succeeded (chatID : Z) (status : UserStatus) (w1 w2 : World) :
  Queries.UpdateUserStatus chatID status w1 = (None, w2) ->
  connected w2 /\ scan_null w2 = scan_null w1 /\
  tables w2 = <["users" := map (set_status_of chatID status) (table_rows (tables w1) "users")]>
                (tables w1).
Proof.
  unfold Queries.UpdateUserStatus. intros Hupd.
  apply Queries_Exec_succeeded in Hupd as ((Honce & Herr) & (Ht & Hs & _) & Hok & Hw2).
  eapply (update_status_executed _ _ _ chatID status) in Hok as ((Hs2 & Ho2 & He2) & Ht2);
    [ | reflexivity | reflexivity ].
  rewrite Hw2 in Hs2, Ho2, He2, Ht2.
  split; [split; congruence|]. split; [congruence|].
  rewrite Ht2, Ht. reflexivity.
Qed.

Lemma Queries_status_update_frame : status_update_frame Queries.UpdateUserStatus.
Proof.
  intros chatID status w1 w2 Hupd.
  apply Queries_UpdateUserStatus_succeeded in Hupd as (_ & _ & Ht).
  apply (status_update_consequences w1 w2 chatID status Ht).
Qed.

Lemma Queries_status_update_observed :
  status_update_observed Queries.GetUserByTelegramChatID Queries.UpdateUserStatus.
Proof.
  intros chatID status u w w1 w2 Hget Hupd Hnf.
  destruct (Queries_GetUser_world chatID w w1 _ Hget) as (Ht & Hs & _ & _).
  pose proof (Queries_GetUser_cases chatID w) as Hcases. cbv zeta in Hcases.
  rewrite Hget in Hcases. cbn [fst snd] in Hcases.
  apply Queries_UpdateUserStatus_succeeded in Hupd as (Hconn2 & Hs2 & Ht2).
  destruct (status_update_consequences w1 w2 chatID status Ht2) as (_ & Hrows).
  exists (with_status u status). split; [|repeat split].
  rewrite Queries_GetUser_cases. cbv zeta.
  rewrite (GetConnection_connected w2 Hconn2). cbn [fst snd]. rewrite Hnf, Hrows.
  destruct (snd (fst (Connection.GetConnection w))); [discriminate Hcases|].
  destruct (next_fault (snd (Connection.GetConnection w))); [discriminate Hcases|].
  unfold user_rows, rows_where in *. rewrite Ht.
  destruct (List.filter _ (table_rows (tables w) "users")) as [|row rest]; [discriminate Hcases|].
  unfold read_first in *. cbn [map].
  destruct (Queries.scan_user (scan_null w) _) as [e|u'] eqn:Hscan; [discriminate Hcases|].
  inversion Hcases; subst u'.
  rewrite Hs2, Hs, (Queries_scan_user_with_status _ _ _ status Hscan). reflexivity.
Qed.

(** *** Creation defaults of [repository.go] *)

Lemma uuid_String_not_empty (u : list Z) : uuid_String u <> "".
Proof. unfold uuid_String. cbn. discriminate. Qed.

Lemma Repository_CreateSearchSubscription_connected (sub : SearchSubscription) (w : World) :
  connected w ->
  let fresh_id := String.eqb (Sub_ID sub) "" in
  let id := if fresh_id then uuid_String (uuid_v4 (hd [] (random w))) else Sub_ID sub in
  let w0 := if fresh_id then set_random (tl (random w)) w else w in
  let sub' :=
    mkSearchSubscription id (Sub_TelegramChatID sub) (Sub_FromPlaceID sub)
      (Sub_FromPlaceName sub) (Sub_ToPlaceID sub) (Sub_ToPlaceName sub)
      (Sub_DepartureDate sub) (Sub_RequestedSeats sub) true (wall_clock w)
      (Sub_LastCheckedAt sub) in
  let r := Session_Execute (Insert "search_subscriptions" (by_name Repository.subscription_columns))
                           (Repository.subscription_params sub') w0 in
  Repository.CreateSearchSubscription sub w = ((sub', snd (fst r)), snd r).
Proof.
  intros Hconn. cbv zeta.
  unfold Repository.CreateSearchSubscription, bind at 1.
  rewrite (GetConnection_connected w Hconn). cbn [fst snd].
  unfold bind, uuid_New_String, time_Now, Do, ret.
  destruct (String.eqb (Sub_ID sub) ""); cbn [wall_clock set_random];
    destruct (Session_Execute _ _ _) as [[res err] w2]; reflexivity.
Qed.

(** *** The claims on the lookups and the writes *)

(** C4.  In a process whose connection provider has succeeded, with no
    row for the chat identity [GetUserByTelegramChatID] returns the
    user-not-found error and [GetUserTokens] the tokens-not-found error,
    and a failure of the store reaches the caller: as it is from
    [repository.go], wrapped with [%w] by the query layer, and in neither
    case as a not-found error.  In every process an error that is (or
    wraps) the not-found error is returned with no row for the chat
    identity only.  An error of the connection provider reaches the caller
    too, as it is from [repository.go] and wrapped with [%w] by the query
    layer. *)
Theorem C4_point_lookups_tell_not_found_from_failure :
  (point_lookup_errors connected Repository.GetUserByTelegramChatID user_rows
                       ErrUserNotFound (fun _ e => e) /\
   point_lookup_errors connected Queries.GetUserTokens token_rows ErrTokensNotFound
                       (fun _ => fmt_Errorf "failed to query user tokens: %w" [])) /\
  (point_lookup_errors connected Repository.GetUserTokens token_rows
                       ErrTokensNotFound (fun _ e => e) /\
   point_lookup_errors connected Queries.GetUserByTelegramChatID user_rows ErrUserNotFound
     (fun chatID => fmt_Errorf "failed to query user by telegram_chat_id %d: %w" [chatID])) /\
  (forall chatID w e,
      snd (fst (Connection.GetConnection w)) = Some e ->
      (fst (Repository.GetUserByTelegramChatID chatID w) = (None, Some e) /\
       fst (Repository.GetUserTokens chatID w) = (None, Some e)) /\
      (fst (Queries.GetUserByTelegramChatID chatID w)
       = (None, Some (fmt_Errorf "failed to query user by telegram_chat_id %d: %w" [chatID] e)) /\
       fst (Queries.GetUserTokens chatID w)
       = (None, Some (fmt_Errorf "failed to query user tokens: %w" [] e)))).
Proof.
  split; [split|split; [split|]].
  - exact Repository_GetUser_errors.
  - exact Queries_GetUserTokens_errors.
  - exact Repository_GetUserTokens_errors.
  - exact Queries_GetUser_errors.
  - intros chatID w e He.
    rewrite Repository_GetUser_cases, Repository_GetUserTokens_cases,
      Queries_GetUser_cases, Queries_GetUserTokens_cases. cbv zeta.
    rewrite He. repeat split; reflexivity.
Qed.

Lemma C4_witness :
  (fst (Repository.GetUserByTelegramChatID 12345 connected_world) = (None, Some ErrUserNotFound) /\
   fst (Queries.GetUserTokens 12345 connected_world) = (None, Some ErrTokensNotFound)) /\
  (fst (Repository.GetUserByTelegramChatID 12345 faulty_world)
   = (None, Some (ErrStore "transport is closing")) /\
   fst (Queries.GetUserTokens 12345 faulty_world)
   = (None, Some (fmt_Errorf "failed to query user tokens: %w" []
                             (ErrStore "transport is closing")))) /\
  (fst (Repository.GetUserByTelegramChatID 12345 unconfigured_world)
   = (None, Some ErrMissingConfig) /\
   fst (Queries.GetUserTokens 12345 unconfigured_world)
   = (None, Some (fmt_Errorf "failed to query user tokens: %w" [] ErrMissingConfig))).
Proof.
  destruct C4_point_lookups_tell_not_found_from_failure as ((Huser & Htokens) & _ & Hrefused).
  split; [split|split; [split|split]].
  - apply (proj1 (Huser 12345 connected_world)).
    + split; vm_compute; reflexivity.
    + vm_compute; reflexivity.
    + vm_compute; reflexivity.
  - apply (proj1 (Htokens 12345 connected_world)).
    + split; vm_compute; reflexivity.
    + vm_compute; reflexivity.
    + vm_compute; reflexivity.
  - apply (proj2 (proj2 (Huser 12345 faulty_world))).
    + split; vm_compute; reflexivity.
    + vm_compute; reflexivity.
  - apply (proj2 (proj2 (Htokens 12345 faulty_world))).
    + split; vm_compute; reflexivity.
    + vm_compute; reflexivity.
  - apply (Hrefused 12345 unconfigured_world ErrMissingConfig). vm_compute; reflexivity.
  - apply (Hrefused 12345 unconfigured_world ErrMissingConfig). vm_compute; reflexivity.
Defined.

(** C3.  In a process whose connection provider has succeeded, for a
    triple with no notification row [GetNotificationByTrip] returns a nil
    notification and a nil error; and after one successful
    [CreateNotification] with that triple it returns the record of the
    triple, as the store holds it.  Both hold for [repository.go] and for
    the query layer. *)
Theorem C3_notification_lookup_by_trip :
  (absent_notification_is_no_error connected Repository.GetNotificationByTrip /\
   created_notification_is_found connected Repository.CreateNotification
                                 Repository.GetNotificationByTrip Repository_as_stored) /\
  (absent_notification_is_no_error connected Queries.GetNotificationByTrip /\
   created_notification_is_found connected Queries_CreateNotification
                                 Queries.GetNotificationByTrip Queries_as_stored).
Proof.
  split; split.
  - exact Repository_absent_notification.
  - exact Repository_created_notification_found.
  - exact Queries_absent_notification.
  - exact Queries_created_notification_found.
Qed.

Lemma C3_witness :
  (fst (Repository.GetNotificationByTrip 12345 "sub-7f3a" "trip-99" connected_world) = (None, None) /\
   exists found : Notification,
     fst (Repository.GetNotificationByTrip 12345 "sub-7f3a" "trip-99"
            (snd (Repository.CreateNotification sample_notification connected_world)))
     = (Some found, None) /\
     found = Repository_as_stored
               (fst (fst (Repository.CreateNotification sample_notification connected_world))) /\
     Notif_TelegramChatID found = 12345 /\
     Notif_SubscriptionID found = "sub-7f3a" /\
     Notif_TripID found = "trip-99") /\
  (fst (Queries.GetNotificationByTrip 12345 "sub-7f3a" "trip-99" connected_world) = (None, None) /\
   exists found : Notification,
     fst (Queries.GetNotificationByTrip 12345 "sub-7f3a" "trip-99"
            (snd (Queries_CreateNotification delivered_notification connected_world)))
     = (Some found, None) /\
     found = Queries_as_stored delivered_notification /\
     Notif_TelegramChatID found = 12345 /\
     Notif_SubscriptionID found = "sub-7f3a" /\
     Notif_TripID found = "trip-99").
Proof.
  destruct C3_notification_lookup_by_trip as ((Habsent & Hfound) & (Habsent' & Hfound')).
  split; split.
  - apply Habsent.
    + split; vm_compute; reflexivity.
    + vm_compute; reflexivity.
    + vm_compute; reflexivity.
  - apply (Hfound sample_notification connected_world).
    + split; vm_compute; reflexivity.
    + vm_compute; reflexivity.
    + vm_compute; reflexivity.
    + vm_compute; reflexivity.
  - apply Habsent'.
    + split; vm_compute; reflexivity.
    + vm_compute; reflexivity.
    + vm_compute; reflexivity.
  - apply (Hfound' delivered_notification connected_world).
    + split; vm_compute; reflexivity.
    + vm_compute; reflexivity.
    + vm_compute; reflexivity.
    + vm_compute; reflexivity.
Defined.

Lemma upsert_tokens_is_accepted (d : DB) (cols : list string) (ps : QueryParameters)
    (cells : list (string * Cell)) (chatID : Z) :
  bind_cells (by_name cols) ps = Some cells ->
  last_binding "telegram_chat_id" cells = Some (Some (SInt64 chatID)) ->
  exists d' s, exec_stmt d (Upsert "user_tokens" (by_name cols)) ps = inr (d', s).
Proof.
  intros Hcells Hkey. unfold exec_stmt. rewrite Hcells. cbv zeta.
  change (primary_key "user_tokens") with ["telegram_chat_id"].
  assert (Hk : has_key ["telegram_chat_id"] (set_cells ∅ cells) = true).
  { unfold has_key. cbn [forallb]. rewrite set_cells_lookup, Hkey.
    rewrite bool_decide_eq_true_2 by (eexists; reflexivity). reflexivity. }
  rewrite Hk. cbn [negb]. destruct (existsb _ _); eauto.
Qed.

Lemma Repository_store_goes_through : store_goes_through Repository_StoreUserTokens.
Proof.
  intros tokens w Hconn Hnf. unfold Repository_StoreUserTokens. cbn [fst snd].
  pose proof (Repository_StoreUserTokens_cases tokens w) as Hc. cbv zeta in Hc.
  rewrite (GetConnection_connected w Hconn) in Hc. cbn [fst snd] in Hc.
  destruct Hc as (_ & ->). cbn [fst snd].
  match goal with
  | |- context [Session_Execute ?q ?ps w] =>
      destruct (Session_Execute_cases q ps w) as (_ & Hx); cbv zeta in Hx;
      destruct (upsert_tokens_is_accepted (tables w) Repository.token_columns ps _
                  (UserTokens_TelegramChatID tokens) eq_refl eq_refl) as (d' & s & Hexec)
  end.
  rewrite Hnf, Hexec in Hx. destruct Hx as (-> & _). reflexivity.
Qed.

Lemma Queries_store_goes_through : store_goes_through Queries.StoreUserTokens.
Proof.
  intros tokens w Hconn Hnf. unfold Queries.StoreUserTokens.
  rewrite (Queries_Exec_connected _ _ w Hconn). cbn [fst snd].
  match goal with
  | |- context [Session_Execute ?q ?ps w] =>
      destruct (Session_Execute_cases q ps w) as (_ & Hx); cbv zeta in Hx;
      destruct (upsert_tokens_is_accepted (tables w) Queries.token_columns ps _
                  (UserTokens_TelegramChatID tokens) eq_refl eq_refl) as (d' & s & Hexec)
  end.
  rewrite Hnf, Hexec in Hx. destruct Hx as (-> & _). reflexivity.
Qed.

(** X30.  A token set whose datadome or app token is the empty string is
    stored with the typed null bound for that column, and after a store
    that succeeded the row of the chat holds NULL there, not an empty
    string, whatever the row held before.  With the connection acquired
    and no fault of the network the store succeeds.  All this holds for
    [repository.go] and for the query layer. *)
Theorem StoreUserTokens_writes_null_for_a_blank_auxiliary_token :
  (writes_null_for_blank_token Repository_StoreUserTokens /\
   store_goes_through Repository_StoreUserTokens) /\
  (writes_null_for_blank_token Queries.StoreUserTokens /\
   store_goes_through Queries.StoreUserTokens).
Proof.
  split; split.
  - exact Repository_writes_null_for_blank_token.
  - exact Repository_store_goes_through.
  - exact Queries_writes_null_for_blank_token.
  - exact Queries_store_goes_through.
Qed.

Lemma StoreUserTokens_blank_token_witness :
  (let w' := snd (Repository_StoreUserTokens sample_tokens connected_world) in
   fst (Repository_StoreUserTokens sample_tokens connected_world) = None /\
   token_rows w' 12345 <> [] /\
   forall row : Row,
     In row (token_rows w' 12345) -> row !! "datadome" = None /\ row !! "app_token" = None) /\
  (let w' := snd (Queries.StoreUserTokens half_blank_tokens world_with_tokens) in
   fst (Queries.StoreUserTokens half_blank_tokens world_with_tokens) = None /\
   token_rows w' 12345 <> [] /\
   forall row : Row, In row (token_rows w' 12345) -> row !! "datadome" = None).
Proof.
  destruct StoreUserTokens_writes_null_for_a_blank_auxiliary_token
    as ((Hwrite & Hok) & (Hwrite' & Hok')).
  split; cbv zeta.
  - assert (Hstored : fst (Repository_StoreUserTokens sample_tokens connected_world) = None).
    { apply Hok; [split|]; vm_compute; reflexivity. }
    destruct (Hwrite sample_tokens connected_world Hstored) as (_ & Hrows & Hnull).
    split; [exact Hstored|]. split; [exact Hrows|].
    intros row Hin. destruct (Hnull row Hin) as (Hd & Ha).
    split; [apply Hd | apply Ha]; reflexivity.
  - assert (Hstored : fst (Queries.StoreUserTokens half_blank_tokens world_with_tokens) = None).
    { apply Hok'; [split|]; vm_compute; reflexivity. }
    destruct (Hwrite' half_blank_tokens world_with_tokens Hstored) as (_ & Hrows & Hnull).
    split; [exact Hstored|]. split; [exact Hrows|].
    intros row Hin. apply (Hnull row Hin). reflexivity.
Defined.

(** C9.  A successful [UpdateUserStatus] sets the status cell of the rows
    of the chat identity and changes nothing else in the store: every other
    table, every other row of users and every other column of the rows of
    the chat are as they were.  Where [GetUserByTelegramChatID] returned a
    user before the update, it returns after it a user with the new status
    and with the chat identity, [created_at], [last_auth_success_at] and
    [last_auth_failure_at] of before.  Both hold for [repository.go] and
    for the query layer. *)
Theorem C9_UpdateUserStatus_changes_status_only :
  (status_update_frame Repository.UpdateUserStatus /\
   status_update_observed Repository.GetUserByTelegramChatID Repository.UpdateUserStatus) /\
  (status_update_frame Queries.UpdateUserStatus /\
   status_update_observed Queries.GetUserByTelegramChatID Queries.UpdateUserStatus).
Proof.
  split; split.
  - exact Repository_status_update_frame.
  - exact Repository_status_update_observed.
  - exact Queries_status_update_frame.
  - exact Queries_status_update_observed.
Qed.

Lemma C9_witness :
  let w1 := snd (Repository.GetUserByTelegramChatID 12345 world_with_user) in
  let w2 := snd (Repository.UpdateUserStatus 12345 UserStatusActive w1) in
  exists after : User,
    fst (Repository.GetUserByTelegramChatID 12345 w2) = (Some after, None) /\
    User_Status after = UserStatusActive /\
    User_TelegramChatID after = 12345 /\
    User_CreatedAt after = mkTime 1717236000 0 /\
    User_LastAuthSuccessAt after = None /\
    User_LastAuthFailureAt after = None.
Proof.
  cbv zeta.
  apply (proj2 (proj1 C9_UpdateUserStatus_changes_status_only) 12345 UserStatusActive sample_user
           world_with_user
           (snd (Repository.GetUserByTelegramChatID 12345 world_with_user))
           (snd (Repository.UpdateUserStatus 12345 UserStatusActive
                   (snd (Repository.GetUserByTelegramChatID 12345 world_with_user))))).
  - vm_compute; reflexivity.
  - vm_compute; reflexivity.
  - vm_compute; reflexivity.
Defined.

(** *** Creation and refresh: [repository.go] against the query layer *)

Lemma Repository_CreateSearchSubscription_refused (sub : SearchSubscription) (w : World) (e : error) :
  var_once w = true -> var_initErr w = Some e ->
  Repository.CreateSearchSubscription sub w = ((sub, Some e), w).
Proof.
  intros Honce He. unfold Repository.CreateSearchSubscription, bind at 1.
  rewrite (GetConnection_cached w Honce), He. reflexivity.
Qed.

Lemma Repository_CreateSearchSubscription_after_connection (sub : SearchSubscription) (w : World) :
  Repository.CreateSearchSubscription sub w
  = Repository.CreateSearchSubscription sub (snd (Connection.GetConnection w)).
Proof. unfold Repository.CreateSearchSubscription. apply after_GetConnection. Qed.

(** X1.  The creation defaults of [repository.go]: a subscription that was
    created successfully has a non-empty id (the caller's, or a fresh one
    when the caller gave none), is active and was created now, in the
    caller's struct and in the stored row alike, whatever the caller
    supplied in those three fields. *)
Theorem Repository_CreateSearchSubscription_is_authoritative :
  forall (sub : SearchSubscription) (w : World),
    let r := Repository.CreateSearchSubscription sub w in
    let created := fst (fst r) in
    snd (fst r) = None ->
    Sub_ID created <> "" /\
    (Sub_ID sub <> "" -> Sub_ID created = Sub_ID sub) /\
    (Sub_ID sub = "" -> Sub_ID created = uuid_String (uuid_v4 (hd [] (random w)))) /\
    Sub_IsActive created = true /\
    Sub_CreatedAt created = wall_clock w /\
    exists row : Row,
      In row (table_rows (tables (snd r)) "search_subscriptions") /\
      row !! "id" = Some (SText (Sub_ID created)) /\
      row !! "is_active" = Some (SBool true) /\
      row !! "created_at" = Some (STimestamp (uint64 (Time_UnixMicro (wall_clock w)))).
Proof.
  intros sub w. cbv zeta.
  rewrite (Repository_CreateSearchSubscription_after_connection sub w).
  destruct (GetConnection_cases w) as ((_ & _ & Hclock & Hrandom) & Honce & _ & _).
  set (w1 := snd (Connection.GetConnection w)) in *.
  destruct (var_initErr w1) as [e|] eqn:Herr.
  { rewrite (Repository_CreateSearchSubscription_refused sub w1 e Honce Herr). discriminate. }
  rewrite (Repository_CreateSearchSubscription_connected sub w1 (conj Honce Herr)).
  cbn [fst snd]. rewrite Hclock, Hrandom. intros Hok.
  apply Session_Execute_succeeded in Hok as (_ & d & s & Hexec & Ht & _).
  eapply insert_appends in Hexec; [|reflexivity].
  cbn [Sub_ID Sub_IsActive Sub_CreatedAt].
  split; [|split; [|split; [|split; [reflexivity|split; [reflexivity|]]]]].
  - destruct (String.eqb_spec (Sub_ID sub) ""); [apply uuid_String_not_empty | assumption].
  - intros Hid. destruct (String.eqb_spec (Sub_ID sub) ""); [contradiction | reflexivity].
  - intros Hid. destruct (String.eqb_spec (Sub_ID sub) ""); [reflexivity | contradiction].
  - eexists. rewrite Ht, Hexec, table_rows_insert_eq.
    split; [apply in_or_app; right; left; reflexivity|].
    rewrite !set_cells_lookup. cbn. repeat split.
Qed.

Lemma Repository_CreateSearchSubscription_witness :
  let r := Repository.CreateSearchSubscription blank_subscription connected_world in
  Sub_ID (fst (fst r)) = "00000000-0000-4000-8000-000000000000" /\
  Sub_IsActive (fst (fst r)) = true /\
  Sub_CreatedAt (fst (fst r)) = mkTime 1717236000 250000000.
Proof.
  cbv zeta.
  destruct (Repository_CreateSearchSubscription_is_authoritative blank_subscription connected_world)
    as (_ & _ & Hid & Hactive & Hcreated & _).
  - vm_compute; reflexivity.
  - split; [apply Hid; reflexivity|]. split; [exact Hactive | exact Hcreated].
Defined.

(** X2.  The refresh of [repository.go]: a token set that was stored
    successfully has its update time set to now and its creation time set
    to now when the caller left it unset and kept otherwise, in the caller's
    struct and in every column of the stored row of the chat. *)
Theorem Repository_StoreUserTokens_refreshes_updated_at :
  forall (tokens : UserTokens) (w : World),
    let r := Repository.StoreUserTokens tokens w in
    let stored := fst (fst r) in
    let chatID := UserTokens_TelegramChatID tokens in
    snd (fst r) = None ->
    UserTokens_UpdatedAt stored = wall_clock w /\
    UserTokens_CreatedAt stored
    = (if Time_IsZero (UserTokens_CreatedAt tokens) then wall_clock w
       else UserTokens_CreatedAt tokens) /\
    token_rows (snd r) chatID <> [] /\
    forall row : Row,
      In row (token_rows (snd r) chatID) ->
      row !! "updated_at" = Some (STimestamp (uint64 (Time_UnixMicro (wall_clock w)))) /\
      row !! "created_at"
      = Some (STimestamp (uint64 (Time_UnixMicro (UserTokens_CreatedAt stored)))) /\
      row !! "access_token" = Some (SText (UserTokens_AccessToken tokens)) /\
      row !! "refresh_token" = Some (SText (UserTokens_RefreshToken tokens)) /\
      row !! "user_id" = Some (SText (UserTokens_UserID tokens)).
Proof.
  intros tokens w. cbv zeta.
  pose proof (Repository_StoreUserTokens_cases tokens w) as Hc. cbv zeta in Hc.
  destruct (snd (fst (Connection.GetConnection w))) as [e|].
  { rewrite Hc. cbn [fst snd]. discriminate. }
  destruct Hc as (_ & ->). cbn [fst snd]. intros Hok.
  eapply (upsert_tokens_executed _ _ _ _ (UserTokens_TelegramChatID tokens)) in Hok
    as (_ & Hne & Hall); [ | reflexivity | reflexivity ].
  cbn [UserTokens_UpdatedAt UserTokens_CreatedAt].
  split; [reflexivity|]. split; [reflexivity|]. split; [exact Hne|].
  intros row Hin. rewrite Forall_forall in Hall.
  apply list_elem_of_In, Hall in Hin as [old ->].
  rewrite !set_cells_lookup. cbn. repeat split.
Qed.

Lemma Repository_StoreUserTokens_witness :
  let r := Repository.StoreUserTokens stale_tokens connected_world in
  UserTokens_UpdatedAt (fst (fst r)) = mkTime 1717236000 250000000 /\
  UserTokens_CreatedAt (fst (fst r)) = mkTime 1717236000 250000000.
Proof.
  cbv zeta.
  destruct (Repository_StoreUserTokens_refreshes_updated_at stale_tokens connected_world)
    as (Hupdated & Hcreated & _).
  - vm_compute; reflexivity.
  - split; [exact Hupdated | exact Hcreated].
Defined.

(** *** Deletes *)

Lemma filter_negb_empty {A} (p : A -> bool) (l : list A) :
  List.filter p (List.filter (fun a => negb (p a)) l) = [].
Proof.
  induction l as [|a l IH]; [reflexivity|]. cbn [List.filter].
  destruct (p a) eqn:E; cbn [negb List.filter]; [exact IH|]. rewrite E. exact IH.
Qed.

Lemma filter_negb_none {A} (p : A -> bool) (l : list A) :
  List.filter p l = [] -> List.filter (fun a => negb (p a)) l = l.
Proof.
  induction l as [|a l IH]; [reflexivity|]. cbn [List.filter].
  destruct (p a) eqn:E; cbn [negb]; [discriminate|]. intros H. rewrite (IH H). reflexivity.
Qed.

Lemma delete_executed (tbl col p : string) (v : Scalar) (w : World) :
  next_fault w = None ->
  let r := Session_Execute (Delete tbl [(col, p)]) [(p, Prim v)] w in
  snd (fst r) = None /\
  (scan_null (snd r) = scan_null w /\ var_once (snd r) = var_once w /\
   var_initErr (snd r) = var_initErr w) /\
  tables (snd r)
  = <[tbl := List.filter (fun row => negb (row_matches [(col, Some v)] row))
                         (table_rows (tables w) tbl)]> (tables w).
Proof.
  intros Hnf. cbv zeta.
  destruct (Session_Execute_cases (Delete tbl [(col, p)]) [(p, Prim v)] w)
    as ((Hs & Ho & _ & He & _) & Hx).
  cbv zeta in Hx. rewrite Hnf in Hx.
  unfold exec_stmt, bind_cells, param in Hx. cbn [List.find fst snd] in Hx.
  rewrite String.eqb_refl in Hx. cbn [fmap option_fmap option_map snd cell_of] in Hx.
  destruct Hx as [Hx Ht]. rewrite Hx. auto.
Qed.

Lemma delete_consequences (tbl col : string) (v : Scalar) (w w' : World) :
  tables w'
  = <[tbl := List.filter (fun row => negb (row_matches [(col, Some v)] row))
                         (table_rows (tables w) tbl)]> (tables w) ->
  rows_where w' tbl [(col, v)] = [] /\
  table_rows (tables w') tbl
  = List.filter (fun row => negb (row_matches [(col, Some v)] row)) (table_rows (tables w) tbl) /\
  (forall tbl', tbl' <> tbl -> table_rows (tables w') tbl' = table_rows (tables w) tbl') /\
  (rows_where w tbl [(col, v)] = [] ->
   forall tbl', table_rows (tables w') tbl' = table_rows (tables w) tbl').
Proof.
  intros Ht. unfold rows_where. cbn [map fst snd]. rewrite Ht, table_rows_insert_eq.
  split; [apply filter_negb_empty|]. split; [reflexivity|].
  split; [intros tbl' Hne; apply table_rows_insert_ne; congruence|].
  intros Hnone tbl'. destruct (decide (tbl = tbl')) as [<-|Hne].
  - rewrite table_rows_insert_eq. apply filter_negb_none, Hnone.
  - apply table_rows_insert_ne, Hne.
Qed.

Lemma Repository_DeleteUserTokens_connected (chatID : Z) (w : World) :
  connected w ->
  let r := Session_Execute (Delete "user_tokens" [("telegram_chat_id", "$chat_id")])
                           [("$chat_id", Int64Value chatID)] w in
  Repository.DeleteUserTokens chatID w = (snd (fst r), snd r).
Proof.
  intros Hconn. cbv zeta. unfold Repository.DeleteUserTokens, bind at 1.
  rewrite (GetConnection_connected w Hconn). cbn [fst snd].
  unfold Do, bind, ret. destruct (Session_Execute _ _ w) as [[res err] w2]. reflexivity.
Qed.

Lemma Repository_DeleteSearchSubscription_connected (subID : string) (w : World) :
  connected w ->
  let r := Session_Execute (Delete "search_subscriptions" [("id", "$id")])
                           [("$id", UTF8Value subID)] w in
  Repository.DeleteSearchSubscription subID w = (snd (fst r), snd r).
Proof.
  intros Hconn. cbv zeta. unfold Repository.DeleteSearchSubscription, bind at 1.
  rewrite (GetConnection_connected w Hconn). cbn [fst snd].
  unfold Do, bind, ret. destruct (Session_Execute _ _ w) as [[res err] w2]. reflexivity.
Qed.

Lemma Repository_DeleteUserTokens_idempotent :
  delete_is_idempotent connected Repository.DeleteUserTokens
                       "user_tokens" "telegram_chat_id" SInt64.
Proof.
  intros chatID w Hready Hnf. cbv zeta.
  rewrite (Repository_DeleteUserTokens_connected chatID w Hready). cbn [fst snd].
  unfold Int64Value.
  destruct (delete_executed "user_tokens" "telegram_chat_id" "$chat_id" (SInt64 chatID) w Hnf)
    as (Hok & (_ & Ho & He) & Ht).
  split; [exact Hok|]. split; [destruct Hready; split; congruence|].
  apply (delete_consequences _ _ _ _ _ Ht).
Qed.

Lemma Repository_DeleteSearchSubscription_idempotent :
  delete_is_idempotent connected Repository.DeleteSearchSubscription
                       "search_subscriptions" "id" SText.
Proof.
  intros subID w Hready Hnf. cbv zeta.
  rewrite (Repository_DeleteSearchSubscription_connected subID w Hready). cbn [fst snd].
  unfold UTF8Value.
  destruct (delete_executed "search_subscriptions" "id" "$id" (SText subID) w Hnf)
    as (Hok & (_ & Ho & He) & Ht).
  split; [exact Hok|]. split; [destruct Hready; split; congruence|].
  apply (delete_consequences _ _ _ _ _ Ht).
Qed.

Lemma Queries_DeleteUserTokens_idempotent :
  delete_is_idempotent connected Queries.DeleteUserTokens
                       "user_tokens" "telegram_chat_id" SInt64.
Proof.
  intros chatID w Hready Hnf. cbv zeta.
  unfold Queries.DeleteUserTokens. rewrite (Queries_Exec_connected _ _ w Hready).
  cbn [fst snd]. unfold Int64Value.
  destruct (delete_executed "user_tokens" "telegram_chat_id" "$telegram_chat_id"
              (SInt64 chatID) w Hnf) as (Hok & (_ & Ho & He) & Ht).
  split; [exact Hok|]. split; [destruct Hready; split; congruence|].
  apply (delete_consequences _ _ _ _ _ Ht).
Qed.

Lemma Queries_DeleteSearchSubscription_idempotent :
  delete_is_idempotent connected Queries.DeleteSearchSubscription
                       "search_subscriptions" "id" SText.
Proof.
  intros subID w Hready Hnf. cbv zeta.
  unfold Queries.DeleteSearchSubscription. rewrite (Queries_Exec_connected _ _ w Hready).
  cbn [fst snd]. unfold TextValue.
  destruct (delete_executed "search_subscriptions" "id" "$id" (SText subID) w Hnf)
    as (Hok & (_ & Ho & He) & Ht).
  split; [exact Hok|]. split; [destruct Hready; split; congruence|].
  apply (delete_consequences _ _ _ _ _ Ht).
Qed.

(** X3.  Idempotent delete (spec, section 8: deleting a subscription or
    token set that does not exist completes without error).  In both
    implementations, in a process whose connection provider has succeeded
    and with no fault of the network, [DeleteUserTokens] and
    [DeleteSearchSubscription] return no error whether or not a row has the
    key; afterwards no row has it, the other rows and the other tables are
    as before, with no row under the key every table is as before, and the
    provider is as it was. *)
Theorem delete_of_an_absent_row_is_no_error :
  (delete_is_idempotent connected Repository.DeleteUserTokens
                        "user_tokens" "telegram_chat_id" SInt64 /\
   delete_is_idempotent connected Repository.DeleteSearchSubscription
                        "search_subscriptions" "id" SText) /\
  (delete_is_idempotent connected Queries.DeleteUserTokens
                        "user_tokens" "telegram_chat_id" SInt64 /\
   delete_is_idempotent connected Queries.DeleteSearchSubscription
                        "search_subscriptions" "id" SText).
Proof.
  split; split.
  - exact Repository_DeleteUserTokens_idempotent.
  - exact Repository_DeleteSearchSubscription_idempotent.
  - exact Queries_DeleteUserTokens_idempotent.
  - exact Queries_DeleteSearchSubscription_idempotent.
Qed.

Lemma delete_of_an_absent_row_witness :
  fst (Repository.DeleteUserTokens 12345 connected_world) = None /\
  fst (Repository.DeleteSearchSubscription "no-such-id" connected_world) = None /\
  fst (Queries.DeleteUserTokens 12345 connected_world) = None /\
  fst (Queries.DeleteSearchSubscription "no-such-id" connected_world) = None.
Proof.
  destruct delete_of_an_absent_row_is_no_error as ((Ht & Hs) & (Hqt & Hqs)).
  assert (Hconn : connected connected_world) by (vm_compute; auto).
  split; [apply (Ht 12345 connected_world Hconn); reflexivity|].
  split; [apply (Hs "no-such-id" connected_world Hconn); reflexivity|].
  split; [apply (Hqt 12345 connected_world Hconn); reflexivity|].
  apply (Hqs "no-such-id" connected_world Hconn); reflexivity.
Defined.

(** *** The scan of the subscriptions of a chat *)

Lemma Repository_GetSearchSubscriptionsByUser_connected (chatID : Z) (w : World) :
  connected w ->
  next_fault w = None ->
  Repository.GetSearchSubscriptionsByUser chatID w
  = (match scan_rows (Repository.scan_subscription (scan_null w))
                     (map (project (Repository.subscription_columns ++ ["last_checked_at"]))
                          (subscription_rows w chatID)) [] with
     | inl err => ([], Some err)
     | inr subs => (subs, None)
     end,
     snd (Session_Execute
            (Select (Repository.subscription_columns ++ ["last_checked_at"]) "search_subscriptions"
                    [("telegram_chat_id", "$chat_id")])
            [("$chat_id", Int64Value chatID)] w)).
Proof.
  intros Hconn Hnf. unfold Repository.GetSearchSubscriptionsByUser, bind at 1.
  rewrite (GetConnection_connected w Hconn). cbn [fst snd].
  unfold Do, bind, ret.
  match goal with |- context [Session_Execute ?q ?ps w] =>
    destruct (Session_Execute_cases q ps w) as ((Hs & _) & Hx) end.
  cbv zeta in Hx. rewrite Hnf in Hx.
  unfold exec_stmt, bind_cells, param in Hx. cbn [List.find fst snd String.eqb Ascii.eqb Bool.eqb] in Hx.
  cbn [fmap option_fmap option_map snd cell_of Int64Value] in Hx.
  destruct Hx as [Hx Ht].
  destruct (Session_Execute _ _ w) as [[res err] w2]. cbn [fst snd] in *.
  injection Hx as -> ->. cbn [sets result_of scan_sets]. rewrite Hs.
  unfold subscription_rows, rows_where. cbn [map fst snd].
  destruct (scan_rows _ _ _); reflexivity.
Qed.

Lemma Repository_scan_subscription_error pol row e :
  Repository.scan_subscription pol row = inl e -> exists msg, e = ErrStore msg.
Proof.
  unfold Repository.scan_subscription. intros H. scan_error (@plain_error) (@nullable_error).
Qed.

(** The loop over the rows: what it returns is what it had, followed by the
    rows decoded one by one in their order; its error is that of a scan. *)
Lemma scan_rows_ordered {A} (scan : option (list Cell) -> error + A) (rows : list (list Cell)) :
  forall acc out, scan_rows scan rows acc = inr out ->
    exists new, out = acc ++ new /\ Forall2 (fun row a => scan (Some row) = inr a) rows new.
Proof.
  induction rows as [|row rows IH]; intros acc out H; cbn [scan_rows] in H.
  - exists []. inversion H. rewrite app_nil_r. auto.
  - destruct (scan (Some row)) as [e|a] eqn:E; [discriminate|].
    apply IH in H as (new & -> & Hall). exists (a :: new).
    rewrite <- app_assoc. split; [reflexivity|]. constructor; assumption.
Qed.

Lemma scan_rows_error {A} (scan : option (list Cell) -> error + A) (rows : list (list Cell)) :
  forall acc e, scan_rows scan rows acc = inl e -> exists row, scan (Some row) = inl e.
Proof.
  induction rows as [|row rows IH]; intros acc e H; cbn [scan_rows] in H; [discriminate|].
  destruct (scan (Some row)) as [e'|a] eqn:E; [|eauto].
  exists row. congruence.
Qed.

Lemma Forall2_of_map {A B C} (f : A -> B) (P : B -> C -> Prop) (l : list A) (l' : list C) :
  Forall2 P (map f l) l' -> Forall2 (fun a c => P (f a) c) l l'.
Proof.
  revert l'. induction l as [|a l IH]; intros l' H; inversion H; subst; constructor; auto.
Qed.

(** X4.  A multi-row scan (spec, section 4.3).  With the connection up and
    no fault of the network, [GetSearchSubscriptionsByUser] of
    [repository.go] returns the empty sequence and no error when no row
    matches; a sequence it returns holds the matching rows decoded one by
    one in the order of the store; and an error it returns comes with no
    sequence and is not the subscription-not-found error. *)
Theorem Repository_GetSearchSubscriptionsByUser_is_an_ordered_scan :
  forall (chatID : Z) (w : World),
    connected w ->
    next_fault w = None ->
    let r := fst (Repository.GetSearchSubscriptionsByUser chatID w) in
    let cols := Repository.subscription_columns ++ ["last_checked_at"] in
    (subscription_rows w chatID = [] -> r = ([], None)) /\
    (forall subs, r = (subs, None) ->
       Forall2 (fun row sub =>
                  Repository.scan_subscription (scan_null w) (Some (project cols row)) = inr sub)
               (subscription_rows w chatID) subs) /\
    (forall e, snd r = Some e ->
       fst r = [] /\ errors_Is e ErrSubscriptionNotFound = false).
Proof.
  intros chatID w Hconn Hnf. cbv zeta.
  rewrite (Repository_GetSearchSubscriptionsByUser_connected chatID w Hconn Hnf). cbn [fst snd].
  split; [intros ->; reflexivity|].
  destruct (scan_rows _ _ _) as [e|subs] eqn:Hscan; cbn [fst snd].
  - split; [discriminate|]. intros e' He'. injection He' as <-. split; [reflexivity|].
    apply scan_rows_error in Hscan as [row Hrow].
    apply Repository_scan_subscription_error in Hrow as [msg ->]. reflexivity.
  - split; [|discriminate]. intros subs' H. injection H as <-.
    apply scan_rows_ordered in Hscan as (new & -> & Hall). cbn [app].
    apply Forall2_of_map in Hall. exact Hall.
Qed.

Lemma Repository_ordered_scan_witness :
  fst (Repository.GetSearchSubscriptionsByUser 12345 connected_world) = ([], None).
Proof.
  destruct (Repository_GetSearchSubscriptionsByUser_is_an_ordered_scan 12345 connected_world)
    as (Hempty & _); [vm_compute; auto | reflexivity |].
  apply Hempty. reflexivity.
Defined.

Lemma insert_subscription_executed (ps : QueryParameters) (w : World)
    (cells : list (string * Cell)) (chatID : Z) :
  bind_cells (by_name Repository.subscription_columns) ps = Some cells ->
  last_binding "telegram_chat_id" cells = Some (Some (SInt64 chatID)) ->
  subscription_rows w chatID = [] ->
  let r := Session_Execute (Insert "search_subscriptions" (by_name Repository.subscription_columns))
                           ps w in
  snd (fst r) = None ->
  (scan_null (snd r) = scan_null w /\ var_once (snd r) = var_once w /\
   var_initErr (snd r) = var_initErr w) /\
  subscription_rows (snd r) chatID = [set_cells ∅ cells].
Proof.
  intros Hcells Hchat Hnone r Hok. subst r.
  destruct (Session_Execute_cases
              (Insert "search_subscriptions" (by_name Repository.subscription_columns)) ps w)
    as ((Hs & Ho & _ & He & _) & _).
  apply Session_Execute_succeeded in Hok as (_ & d & s & Hexec & Ht & _).
  split; [auto|].
  apply (insert_appends _ _ _ _ _ _ _ Hcells) in Hexec. subst d.
  unfold subscription_rows, rows_where in *. cbn [map fst snd] in *.
  rewrite Ht, table_rows_insert_eq, List.filter_app, Hnone.
  cbn [List.filter app]. unfold row_matches. cbn [forallb fst snd].
  rewrite !set_cells_lookup, Hchat.
  rewrite !bool_decide_eq_true_2 by reflexivity. reflexivity.
Qed.

(** X5.  The scenario of section 8.  After a successful
    [CreateSearchSubscription] of [repository.go] for a chat that had no
    subscription, [GetSearchSubscriptionsByUser] of that chat returns
    exactly one entry: the subscription returned by the creation as the
    table gives it back (seat count narrowed to 32 bits, creation time at
    the microsecond, no last check); its id is not empty and it is active. *)
Theorem Repository_created_subscription_is_the_one_listed :
  forall (sub : SearchSubscription) (w : World),
    let chatID := Sub_TelegramChatID sub in
    let r := Repository.CreateSearchSubscription sub w in
    connected w ->
    subscription_rows w chatID = [] ->
    snd (fst r) = None ->
    next_fault (snd r) = None ->
    fst (Repository.GetSearchSubscriptionsByUser chatID (snd r))
    = ([Repository_subscription_as_stored (fst (fst r))], None) /\
    Sub_ID (fst (fst r)) <> "" /\
    Sub_IsActive (fst (fst r)) = true.
Proof.
  intros sub w. cbv zeta. intros Hready Hnone.
  rewrite (Repository_CreateSearchSubscription_connected sub w Hready). cbn [fst snd].
  set (id := if String.eqb (Sub_ID sub) "" then _ else _).
  set (w0 := if String.eqb (Sub_ID sub) "" then _ else _).
  assert (Hw0 : tables w0 = tables w /\ var_once w0 = var_once w /\
                var_initErr w0 = var_initErr w /\ scan_null w0 = scan_null w).
  { subst w0. destruct (String.eqb (Sub_ID sub) ""); repeat split. }
  destruct Hw0 as (Ht0 & Ho0 & He0 & Hs0).
  intros Hok Hnf.
  eapply (insert_subscription_executed _ _ _ (Sub_TelegramChatID sub)) in Hok
    as ((Hs & Ho & He) & Hrows);
    [ | reflexivity | reflexivity
      | unfold subscription_rows, rows_where in *; rewrite Ht0; exact Hnone ].
  destruct Hready as [Honce Herr].
  split.
  - match goal with
    | |- context [Repository.GetSearchSubscriptionsByUser ?c ?w'] =>
        assert (Hconn : connected w') by (split; congruence);
        rewrite (Repository_GetSearchSubscriptionsByUser_connected c w' Hconn Hnf)
    end.
    cbn [fst snd]. rewrite Hrows.
    unfold project, Repository.scan_subscription.
    cbn [map app Repository.subscription_columns scan_rows].
    rewrite !set_cells_lookup. cbn [last_binding String.eqb Ascii.eqb Bool.eqb fst snd].
    simpl. reflexivity.
  - split; [|reflexivity]. subst id.
    destruct (String.eqb_spec (Sub_ID sub) ""); [apply uuid_String_not_empty | assumption].
Qed.

Lemma Repository_created_subscription_witness :
  exists stored : SearchSubscription,
    fst (Repository.GetSearchSubscriptionsByUser 12345
           (snd (Repository.CreateSearchSubscription blank_subscription connected_world)))
    = ([stored], None) /\
    Sub_FromPlaceName stored = "Paris" /\ Sub_ToPlaceName stored = "Lyon" /\
    Sub_DepartureDate stored = "2024-06-01" /\ Sub_RequestedSeats stored = 2 /\
    Sub_IsActive stored = true /\ Sub_ID stored <> "".
Proof.
  destruct (Repository_created_subscription_is_the_one_listed blank_subscription connected_world)
    as (Hlist & Hid & Hactive);
    [vm_compute; auto | reflexivity | reflexivity | reflexivity |].
  eexists. split; [exact Hlist|].
  repeat split; try reflexivity. exact Hid.
Defined.

(** *** Upsert then read *)

Lemma upsert_user_executed (cols : list string) (ps : QueryParameters) (w : World)
    (cells : list (string * Cell)) (chatID : Z) :
  bind_cells (by_name cols) ps = Some cells ->
  last_binding "telegram_chat_id" cells = Some (Some (SInt64 chatID)) ->
  let r := Session_Execute (Upsert "users" (by_name cols)) ps w in
  snd (fst r) = None ->
  (scan_null (snd r) = scan_null w /\ var_once (snd r) = var_once w /\
   var_initErr (snd r) = var_initErr w) /\
  user_rows (snd r) chatID <> [] /\
  Forall (written cells) (user_rows (snd r) chatID).
Proof.
  intros Hcells Hkey r Hok. subst r.
  destruct (Session_Execute_cases (Upsert "users" (by_name cols)) ps w)
    as ((Hs & Ho & _ & He & _) & _).
  apply Session_Execute_succeeded in Hok as (_ & d & s & Hexec & Ht & _).
  split; [auto|].
  eapply upsert_leaves_written_rows in Hexec as (Hne & Hall & _);
    [ | reflexivity | exact Hcells | exact Hkey ].
  unfold user_rows, rows_where. cbn [map fst snd]. rewrite Ht. split; assumption.
Qed.

Lemma Repository_UpsertUser_connected (user : User) (w : World) :
  connected w ->
  let user' :=
    if Time_IsZero (User_CreatedAt user)
    then mkUser (User_TelegramChatID user) (User_Status user) (wall_clock w)
                (User_LastAuthSuccessAt user) (User_LastAuthFailureAt user)
    else user in
  let r := Session_Execute (Upsert "users" (by_name Repository.user_columns))
             [("$telegram_chat_id", Int64Value (User_TelegramChatID user'));
              ("$status", UTF8Value (User_Status user'));
              ("$created_at", TimestampValueFromTime (User_CreatedAt user'));
              ("$last_auth_success_at",
               OptionalValueOf TypeTimestamp (TimestampValueFromTime <$> User_LastAuthSuccessAt user'));
              ("$last_auth_failure_at",
               OptionalValueOf TypeTimestamp (TimestampValueFromTime <$> User_LastAuthFailureAt user'))]
             w in
  Repository.UpsertUser user w = ((user', snd (fst r)), snd r).
Proof.
  intros Hconn. cbv zeta. unfold Repository.UpsertUser, bind at 1.
  rewrite (GetConnection_connected w Hconn). cbn [fst snd].
  unfold bind, time_Now, Do, ret.
  destruct (Session_Execute _ _ w) as [[res err] w2]. reflexivity.
Qed.

Lemma Repository_upserted_user_is_read_back :
  upserted_user_is_read_back connected Repository.UpsertUser Repository.GetUserByTelegramChatID
                             Repository_user_as_stored.
Proof.
  intros user w. cbv zeta. intros Hready.
  rewrite (Repository_UpsertUser_connected user w Hready). cbn [fst snd].
  set (user' := if Time_IsZero (User_CreatedAt user) then _ else _).
  assert (Hchat : User_TelegramChatID user' = User_TelegramChatID user).
  { subst user'. destruct (Time_IsZero _); reflexivity. }
  intros Hok Hnf.
  eapply (upsert_user_executed _ _ _ _ (User_TelegramChatID user)) in Hok
    as ((Hs & Ho & He) & Hne & Hall);
    [ | reflexivity | cbn; rewrite Hchat; reflexivity ].
  destruct Hready as [Honce Herr].
  match goal with
  | |- context [Repository.GetUserByTelegramChatID ?c ?w'] =>
      rewrite (Repository_GetUser_cases c w');
      assert (Hconn : connected w') by (split; congruence);
      cbv zeta; rewrite (GetConnection_connected w' Hconn); cbn [fst snd];
      rewrite Hnf;
      destruct (user_rows w' c) as [|row rest]; [congruence|]
  end.
  apply Forall_cons in Hall as [[old ->] _].
  unfold read_first, project, Repository.scan_user. cbn [map Repository.user_columns].
  rewrite !set_cells_lookup. cbn [last_binding String.eqb Ascii.eqb Bool.eqb fst snd].
  unfold Repository_user_as_stored.
  destruct (User_LastAuthSuccessAt user') as [ts|], (User_LastAuthFailureAt user') as [tf|];
    reflexivity.
Qed.

Lemma Queries_UpsertUser_connected (user : User) (w : World) :
  connected w ->
  let r := Session_Execute (Upsert "users" (by_name Queries.user_columns))
                           (Queries.user_params user) w in
  Queries_UpsertUser user w = ((user, snd (fst r)), snd r).
Proof.
  intros Hconn. cbv zeta. unfold Queries_UpsertUser, Queries.UpsertUser.
  rewrite (Queries_Exec_connected _ _ w Hconn). reflexivity.
Qed.

Lemma Queries_upserted_user_is_read_back :
  upserted_user_is_read_back connected Queries_UpsertUser Queries.GetUserByTelegramChatID
                             Queries_user_as_stored.
Proof.
  intros user w. cbv zeta. intros Hready.
  rewrite (Queries_UpsertUser_connected user w Hready). cbn [fst snd].
  intros Hok Hnf.
  eapply (upsert_user_executed _ _ _ _ (User_TelegramChatID user)) in Hok
    as ((Hs & Ho & He) & Hne & Hall);
    [ | reflexivity | reflexivity ].
  destruct Hready as [Honce Herr].
  match goal with
  | |- context [Queries.GetUserByTelegramChatID ?c ?w'] =>
      rewrite (Queries_GetUser_cases c w');
      assert (Hconn : connected w') by (split; congruence);
      cbv zeta; rewrite (GetConnection_connected w' Hconn); cbn [fst snd];
      rewrite Hnf;
      destruct (user_rows w' c) as [|row rest]; [congruence|]
  end.
  apply Forall_cons in Hall as [[old ->] _].
  unfold read_first, project, Queries.scan_user. cbn [map Queries.user_columns].
  rewrite !set_cells_lookup. cbn [last_binding String.eqb Ascii.eqb Bool.eqb fst snd].
  unfold Queries_user_as_stored.
  destruct (User_LastAuthSuccessAt user) as [ts|], (User_LastAuthFailureAt user) as [tf|];
    reflexivity.
Qed.

(** X6.  Upsert then read (spec, section 8).  In both implementations, in
    a process whose connection provider has succeeded, a successful
    [UpsertUser] followed by [GetUserByTelegramChatID] of the same chat
    returns the user written, on a first insert and on an overwrite alike,
    with each time at the resolution of its column (microseconds in
    [repository.go], whole seconds modulo 2^32 in the query layer) and an
    absent authentication time absent.  The user written by
    [repository.go] is the argument with its creation time set from the
    clock when it was the zero time; the user written by the query layer is
    the argument as it is. *)
Theorem UpsertUser_then_lookup_returns_the_user_written :
  (upserted_user_is_read_back connected Repository.UpsertUser Repository.GetUserByTelegramChatID
                              Repository_user_as_stored /\
   upserted_user_is_read_back connected Queries_UpsertUser Queries.GetUserByTelegramChatID
                              Queries_user_as_stored) /\
  (forall (user : User) (w : World),
      connected w ->
      fst (fst (Repository.UpsertUser user w))
      = mkUser (User_TelegramChatID user) (User_Status user)
               (if Time_IsZero (User_CreatedAt user) then wall_clock w else User_CreatedAt user)
               (User_LastAuthSuccessAt user) (User_LastAuthFailureAt user) /\
      fst (fst (Queries_UpsertUser user w)) = user).
Proof.
  split; [split|].
  - exact Repository_upserted_user_is_read_back.
  - exact Queries_upserted_user_is_read_back.
  - intros user w Hconn.
    rewrite (Repository_UpsertUser_connected user w Hconn),
      (Queries_UpsertUser_connected user w Hconn). cbn [fst snd].
    split; [|reflexivity].
    destruct user as [chat status created success failure]. cbn [User_CreatedAt].
    destruct (Time_IsZero created); reflexivity.
Qed.

Lemma UpsertUser_then_lookup_witness :
  (fst (Repository.GetUserByTelegramChatID 12345
          (snd (Repository.UpsertUser first_contact connected_world)))
   = (Some (mkUser 12345 UserStatusUnauthenticated (mkTime 1717236000 250000000) None None),
      None) /\
   fst (Repository.GetUserByTelegramChatID 12345
          (snd (Repository.UpsertUser (with_status sample_user "active") world_with_user)))
   = (Some (Repository_user_as_stored (with_status sample_user "active")), None)) /\
  (fst (Queries.GetUserByTelegramChatID 12345
          (snd (Queries_UpsertUser first_contact connected_world)))
   = (Some (Queries_user_as_stored first_contact), None) /\
   User_CreatedAt (Queries_user_as_stored first_contact) = mkTime 2288912640 0).
Proof.
  destruct UpsertUser_then_lookup_returns_the_user_written as ((Hrepo & Hquery) & Hwritten).
  assert (Hconn : connected connected_world) by (vm_compute; auto).
  split; split.
  - assert (Hread := Hrepo first_contact connected_world Hconn).
    cbv zeta in Hread.
    rewrite (proj1 (Hwritten first_contact connected_world Hconn)) in Hread.
    apply Hread; reflexivity.
  - apply (Hrepo (with_status sample_user "active") world_with_user);
      [vm_compute; auto | reflexivity | reflexivity].
  - apply (Hquery first_contact connected_world Hconn); reflexivity.
  - reflexivity.
Defined.

(** C1 at the failing input.  The [CreateSearchSubscription] of the query
    layer stores what the caller supplied: for a subscription with an empty
    id, not active and with its creation time unset, it succeeds and leaves
    a row with the empty id, [is_active] false and the unset time narrowed
    to 32 bits (an instant of 2042), while the clock reads 2024-06-01. *)
Theorem C1_query_layer_stores_the_caller_values :
  let r := Queries.CreateSearchSubscription blank_subscription connected_world in
  fst r = None /\
  map (fun row : Row => (row !! "id", row !! "is_active", row !! "created_at"))
      (table_rows (tables (snd r)) "search_subscriptions")
  = [(Some (SText ""), Some (SBool false), Some (SDatetime 2288912640))] /\
  wall_clock connected_world = mkTime 1717236000 250000000.
Proof. vm_compute. repeat split. Qed.

(** C2 at the failing input.  The [StoreUserTokens] of the query layer
    stores the caller's timestamps: for a token set with its creation time
    unset and an update time of 2020-09-13 it succeeds and leaves a row with
    that update time and the unset creation time narrowed to 32 bits, while
    the clock reads 2024-06-01. *)
Theorem C2_query_layer_stores_the_caller_timestamps :
  let r := Queries.StoreUserTokens stale_tokens connected_world in
  fst r = None /\
  map (fun row : Row => (row !! "created_at", row !! "updated_at"))
      (table_rows (tables (snd r)) "user_tokens")
  = [(Some (SDatetime 2288912640), Some (SDatetime 1600000000))] /\
  wall_clock connected_world = mkTime 1717236000 250000000.
Proof. vm_compute. repeat split. Qed.

(* ===================================================================== *)
(** ** The rest of the package                                            *)
(* ===================================================================== *)

(** *** The telegram helpers: callback data *)

Lemma strings_Split_not_nil (s : string) (sep : ascii) : strings_Split s sep <> [].
Proof.
  destruct s as [|c rest]; cbn [strings_Split]; [discriminate|].
  destruct (Ascii.eqb c sep); [discriminate|].
  destruct (strings_Split rest sep); discriminate.
Qed.

Lemma strings_Join_cons (x y : string) (l : list string) (sep : string) :
  strings_Join (x :: y :: l) sep = String.append x (String.append sep (strings_Join (y :: l) sep)).
Proof. reflexivity. Qed.

(** Joining the pieces of a split with the separator gives the string back. *)
Lemma strings_Join_Split (s : string) (sep : ascii) :
  strings_Join (strings_Split s sep) (String sep EmptyString) = s.
Proof.
  induction s as [|c rest IH]; [reflexivity|]. cbn [strings_Split].
  pose proof (strings_Split_not_nil rest sep) as Hne.
  destruct (Ascii.eqb_spec c sep) as [->|Hc].
  - destruct (strings_Split rest sep) as [|p ps]; [congruence|].
    rewrite strings_Join_cons, IH. reflexivity.
  - destruct (strings_Split rest sep) as [|p ps]; [congruence|].
    destruct ps as [|q qs].
    + cbn in IH |- *. rewrite IH. reflexivity.
    + rewrite strings_Join_cons in IH |- *. rewrite <- IH. reflexivity.
Qed.

(** No piece of a split holds the separator. *)
Lemma strings_Split_pieces (s : string) (sep : ascii) :
  Forall (fun p => contains_byte sep p = false) (strings_Split s sep).
Proof.
  induction s as [|c rest IH]; cbn [strings_Split]; [repeat constructor|].
  destruct (Ascii.eqb c sep) eqn:Hc; [constructor; [reflexivity | exact IH]|].
  destruct (strings_Split rest sep) as [|p ps]; [repeat constructor; cbn; rewrite Hc; reflexivity|].
  apply Forall_cons in IH as [Hp Hps]. constructor; [|exact Hps].
  cbn [contains_byte]. rewrite Hc, Hp. reflexivity.
Qed.

Lemma strings_Split_append (x rest : string) (sep : ascii) :
  contains_byte sep x = false ->
  strings_Split (String.append x (String sep rest)) sep = x :: strings_Split rest sep.
Proof.
  induction x as [|c x IH]; intros Hx.
  { change (String.append "" (String sep rest)) with (String sep rest).
    cbn [strings_Split]. rewrite Ascii.eqb_refl. reflexivity. }
  cbn [contains_byte] in Hx. apply orb_false_iff in Hx as [Hc Hx].
  change (String.append (String c x) (String sep rest))
    with (String c (String.append x (String sep rest))).
  cbn [strings_Split]. rewrite Hc, (IH Hx). reflexivity.
Qed.

Lemma strings_Split_one (x : string) (sep : ascii) :
  contains_byte sep x = false -> strings_Split x sep = [x].
Proof.
  induction x as [|c x IH]; intros Hx; [reflexivity|].
  cbn [contains_byte] in Hx. apply orb_false_iff in Hx as [Hc Hx].
  cbn [strings_Split]. rewrite Hc, (IH Hx). reflexivity.
Qed.

(** Splitting a join of pieces that hold no separator gives the pieces back. *)
Lemma strings_Split_Join (x : string) (l : list string) (sep : ascii) :
  Forall (fun p => contains_byte sep p = false) (x :: l) ->
  strings_Split (strings_Join (x :: l) (String sep EmptyString)) sep = x :: l.
Proof.
  revert x. induction l as [|y l IH]; intros x H; apply Forall_cons in H as [Hx Hl].
  - apply strings_Split_one, Hx.
  - rewrite strings_Join_cons.
    change (String.append (String sep "") (strings_Join (y :: l) (String sep "")))
      with (String sep (strings_Join (y :: l) (String sep ""))).
    rewrite (strings_Split_append _ _ _ Hx), (IH y Hl). reflexivity.
Qed.

(** X7.  [CreateCallbackData] undoes [ParseCallbackData].  For every
    callback data, joining the action and the parameters it parses into
    gives the data back; neither the action nor a parameter holds a colon;
    and the split always has a first piece, so the branch of
    [ParseCallbackData] for no piece is never taken. *)
Theorem CreateCallbackData_of_ParseCallbackData :
  forall data : string,
    let parsed := Telegram.ParseCallbackData data in
    Telegram.CreateCallbackData (fst parsed) (snd parsed) = data /\
    colon_free (fst parsed) (snd parsed) /\
    strings_Split data ":" = fst parsed :: snd parsed.
Proof.
  intros data. cbv zeta. unfold Telegram.ParseCallbackData, Telegram.CreateCallbackData.
  pose proof (strings_Split_not_nil data ":") as Hne.
  pose proof (strings_Join_Split data ":") as Hjoin.
  pose proof (strings_Split_pieces data ":") as Hpieces.
  destruct (strings_Split data ":") as [|action params]; [congruence|].
  cbn [fst snd app]. apply Forall_cons in Hpieces as [Ha Hps].
  split; [exact Hjoin|]. split; [split; assumption | reflexivity].
Qed.

(** X8.  [ParseCallbackData] undoes [CreateCallbackData] exactly when
    neither the action nor a parameter holds a colon: a colon inside one of
    them moves the boundaries between the pieces. *)
Theorem ParseCallbackData_of_CreateCallbackData :
  forall (action : string) (params : list string),
    Telegram.ParseCallbackData (Telegram.CreateCallbackData action params) = (action, params)
    <-> colon_free action params.
Proof.
  intros action params. split.
  - unfold Telegram.ParseCallbackData. intros H.
    pose proof (strings_Split_pieces (Telegram.CreateCallbackData action params) ":") as Hpieces.
    destruct (strings_Split _ ":") as [|a ps]; inversion H; subst.
    + split; [reflexivity | constructor].
    + apply Forall_cons in Hpieces. exact Hpieces.
  - intros [Ha Hps]. unfold Telegram.ParseCallbackData, Telegram.CreateCallbackData.
    cbn [app]. rewrite strings_Split_Join; [reflexivity|].
    constructor; assumption.
Qed.

(** *** The telegram helpers: the chat identity in decimal *)

Lemma decimal_digit_range (c : ascii) (d : Z) : decimal_digit c = Some d -> 0 <= d <= 9.
Proof.
  unfold decimal_digit. destruct (_ && _) eqn:H; [|discriminate].
  apply andb_true_iff in H as [H1 H2]. intros [= <-]. lia.
Qed.

Lemma digits_value_grows (s : string) :
  forall n v, 0 <= n -> digits_value s n = Some v -> n <= v.
Proof.
  induction s as [|c rest IH]; intros n v Hn H; cbn [digits_value] in H.
  - inversion H. lia.
  - destruct (decimal_digit c) as [d|] eqn:Hd; [|discriminate].
    apply decimal_digit_range in Hd. apply IH in H; lia.
Qed.

(** The loop of [ParseUint] against the number denoted: the number when it
    fits 64 bits, the range error when it does not, an error when a byte is
    not a digit. *)
Lemma ParseUint_loop_spec (s : string) :
  forall n, 0 <= n <= maxUint64 ->
    match digits_value s n with
    | Some v => ParseUint_loop s n
                = if v <=? maxUint64 then (v, None) else (maxUint64, Some ErrRange)
    | None => ParseUint_loop s n = (0, Some ErrSyntax) \/
              ParseUint_loop s n = (maxUint64, Some ErrRange)
    end.
Proof.
  unfold maxUint64. change (2 ^ 64 - 1) with 18446744073709551615.
  induction s as [|c rest IH]; intros n Hn; cbn [digits_value ParseUint_loop].
  - destruct (Z.leb_spec n 18446744073709551615); [reflexivity | lia].
  - destruct (decimal_digit c) as [d|] eqn:Hd; [|left; reflexivity].
    apply decimal_digit_range in Hd.
    unfold maxUint64, uint64. change (2 ^ 64 - 1) with 18446744073709551615.
    change (18446744073709551615 / 10 + 1) with 1844674407370955162.
    change (2 ^ 64) with 18446744073709551616.
    destruct (Z.leb_spec 1844674407370955162 n) as [Hcut|Hcut].
    { destruct (digits_value rest (n * 10 + d)) as [v|] eqn:Hv; [|right; reflexivity].
      apply digits_value_grows in Hv; [|lia].
      destruct (Z.leb_spec v 18446744073709551615); [lia | reflexivity]. }
    rewrite (Z.mod_small (n * 10)) by lia.
    destruct (Z.leb_spec (n * 10 + d) 18446744073709551615) as [Hfit|Hover].
    + rewrite (Z.mod_small (n * 10 + d)) by lia.
      destruct (Z.ltb_spec (n * 10 + d) (n * 10)); [lia|].
      destruct (Z.ltb_spec 18446744073709551615 (n * 10 + d)); [lia|].
      cbn [orb]. apply IH. lia.
    + assert (Hwrap : (n * 10 + d) mod 18446744073709551616 = n * 10 + d - 18446744073709551616).
      { symmetry. apply (Z.mod_unique _ _ 1); lia. }
      rewrite Hwrap.
      destruct (Z.ltb_spec (n * 10 + d - 18446744073709551616) (n * 10)); [|lia].
      cbn [orb].
      destruct (digits_value rest (n * 10 + d)) as [v|] eqn:Hv; [|right; reflexivity].
      apply digits_value_grows in Hv; [|lia].
      destruct (Z.leb_spec v 18446744073709551615); [lia | reflexivity].
Qed.

Lemma strconv_ParseUint_spec (s : string) :
  match decimal_number s with
  | Some v => 0 <= v /\
              strconv_ParseUint s
              = if v <=? maxUint64 then (v, None) else (maxUint64, Some ErrRange)
  | None => strconv_ParseUint s = (0, Some ErrSyntax) \/
            strconv_ParseUint s = (maxUint64, Some ErrRange)
  end.
Proof.
  unfold decimal_number, strconv_ParseUint.
  destruct (String.eqb s ""); [left; reflexivity|].
  pose proof (ParseUint_loop_spec s 0) as H.
  destruct (digits_value s 0) as [v|] eqn:Hv.
  - split; [apply (digits_value_grows s 0 v); [lia | exact Hv]|].
    apply H. unfold maxUint64. lia.
  - apply H. unfold maxUint64. lia.
Qed.

(** What [ParseInt] makes of the digits after the sign. *)
Lemma strconv_ParseInt_signed (c : ascii) (rest digits : string) :
  digits = (if Ascii.eqb c "+" || Ascii.eqb c "-" then rest else String c rest) ->
  let neg := Ascii.eqb c "-" in
  match decimal_number digits with
  | Some v =>
      let z := if neg then - v else v in
      strconv_ParseInt (String c rest)
      = if (- 2 ^ 63 <=? z) && (z <? 2 ^ 63) then (z, None)
        else (if neg then - 2 ^ 63 else 2 ^ 63 - 1, Some ErrRange)
  | None =>
      strconv_ParseInt (String c rest) = (0, Some ErrSyntax) \/
      strconv_ParseInt (String c rest) = (if neg then - 2 ^ 63 else 2 ^ 63 - 1, Some ErrRange)
  end.
Proof.
  intros Hdigits. cbv zeta. unfold strconv_ParseInt. rewrite <- Hdigits.
  pose proof (strconv_ParseUint_spec digits) as H.
  unfold maxUint64 in *. change (2 ^ 64 - 1) with 18446744073709551615 in *.
  change (2 ^ 63) with 9223372036854775808.
  destruct (decimal_number digits) as [v|].
  - destruct H as [Hv H]. rewrite H. clear H.
    destruct (Z.leb_spec v 18446744073709551615); destruct (Ascii.eqb c "-");
      cbn [negb andb];
      repeat match goal with
             | |- context [Z.leb ?a ?b] => destruct (Z.leb_spec a b)
             | |- context [Z.ltb ?a ?b] => destruct (Z.ltb_spec a b)
             end; cbn [negb andb]; try reflexivity; try lia.
  - destruct H as [-> | ->]; [left; reflexivity|right].
    destruct (Ascii.eqb c "-"); reflexivity.
Qed.

(** X9.  [GetChatIDFromString] reads signed decimal numerals: one decimal
    digit or more, leading zeros allowed, after an optional [+] or [-].  It
    returns the number denoted and no error when the number fits 64 signed
    bits, the nearer bound and the range error when it does not, and an
    error for every other string, with the value 0 when that error is the
    syntax error.  So it returns no error exactly for the numerals in
    range. *)
Theorem GetChatIDFromString_reads_signed_decimals :
  forall s : string,
    match signed_decimal s with
    | Some z =>
        Telegram.GetChatIDFromString s
        = if (- 2 ^ 63 <=? z) && (z <? 2 ^ 63) then (z, None)
          else (if z <? 0 then - 2 ^ 63 else 2 ^ 63 - 1, Some ErrRange)
    | None =>
        exists (v : Z) (e : NumError),
          Telegram.GetChatIDFromString s = (v, Some e) /\ (e = ErrSyntax -> v = 0)
    end.
Proof.
  intros s. unfold Telegram.GetChatIDFromString, signed_decimal.
  destruct s as [|c rest]; [exists 0, ErrSyntax; split; reflexivity|].
  pose proof (strconv_ParseInt_signed c rest _ eq_refl) as H. cbv zeta in H.
  assert (Hsign : Ascii.eqb c "+" = true -> Ascii.eqb c "-" = false).
  { intros Hplus. apply Ascii.eqb_eq in Hplus. subst c. reflexivity. }
  destruct (Ascii.eqb c "+") eqn:Hplus; [rewrite (Hsign eq_refl) in H|];
    cbn [orb] in H; [|destruct (Ascii.eqb c "-") eqn:Hminus];
    match type of H with
    | match decimal_number ?digits with _ => _ end =>
        pose proof (strconv_ParseUint_spec digits) as Hu;
        destruct (decimal_number digits) as [v|]; cbn [fmap option_fmap option_map]
    end;
    try (destruct H as [-> | ->]; eexists _, _;
         (split; [reflexivity | try reflexivity; discriminate]));
    rewrite H; destruct Hu as [Hv _]; change (2 ^ 63) with 9223372036854775808;
    decide_bounds.
Qed.

(** *** The telegram helpers: the list of subscriptions and the bot client *)

Lemma string_append_assoc (a b c : string) :
  String.append (String.append a b) c = String.append a (String.append b c).
Proof.
  induction a as [|x a IH]; [reflexivity|].
  change (String x (String.append (String.append a b) c)
          = String x (String.append a (String.append b c))).
  rewrite IH. reflexivity.
Qed.

Lemma strings_Join_app (l1 l2 : list string) (sep : string) :
  l1 <> [] -> l2 <> [] ->
  strings_Join (l1 ++ l2) sep
  = String.append (strings_Join l1 sep) (String.append sep (strings_Join l2 sep)).
Proof.
  intros H1 H2. induction l1 as [|x l1 IH]; [congruence|].
  destruct l1 as [|y l1].
  - destruct l2 as [|z l2]; [congruence|]. reflexivity.
  - transitivity (String.append x (String.append sep (strings_Join ((y :: l1) ++ l2) sep)));
      [reflexivity|].
    rewrite IH by discriminate.
    transitivity (String.append
                    (String.append x (String.append sep (strings_Join (y :: l1) sep)))
                    (String.append sep (strings_Join l2 sep))); [|reflexivity].
    rewrite !string_append_assoc. reflexivity.
Qed.

(** X10.  [FormatSubscriptionsList] returns the placeholder for no
    subscription and a single subscription as it is; for two runs of
    subscriptions it returns the text of the first, a blank line and the
    text of the second: the entries in their order, a blank line between
    neighbours and none at either end. *)
Theorem FormatSubscriptionsList_joins_with_blank_lines :
  Telegram.FormatSubscriptionsList [] = "No active subscriptions" /\
  (forall s : string, Telegram.FormatSubscriptionsList [s] = s) /\
  (forall l1 l2 : list string,
     l1 <> [] -> l2 <> [] ->
     Telegram.FormatSubscriptionsList (l1 ++ l2)
     = String.append (Telegram.FormatSubscriptionsList l1)
         (String.append blank_line (Telegram.FormatSubscriptionsList l2))).
Proof.
  split; [reflexivity|]. split; [reflexivity|].
  intros l1 l2 H1 H2. unfold Telegram.FormatSubscriptionsList.
  destruct l1 as [|x l1]; [congruence|]. destruct l2 as [|y l2]; [congruence|].
  cbn [app length Nat.eqb].
  apply (strings_Join_app (x :: l1) (y :: l2)); discriminate.
Qed.

Lemma FormatSubscriptionsList_witness :
  Telegram.FormatSubscriptionsList (["first"] ++ ["second"; "third"])
  = String.append "first" (String.append blank_line
      (String.append "second" (String.append blank_line "third"))).
Proof.
  destruct FormatSubscriptionsList_joins_with_blank_lines as (_ & _ & H).
  rewrite (H ["first"] ["second"; "third"]) by discriminate. reflexivity.
Defined.

(** X11.  [NewBotClientFromEnv] fails with the token-not-set error exactly
    when [TELEGRAM_BOT_TOKEN] is unset or empty, and then returns no client
    and does not call the bot API.  With a token it calls the API once and
    returns the client of that token, or the error of the API wrapped.
    Nothing is kept from one call to the next: the environment, the tables
    and the variables of the connection provider are as before. *)
Theorem NewBotClientFromEnv_needs_the_token :
  forall w : World,
    let token := default "" (environ w !! "TELEGRAM_BOT_TOKEN") in
    let r := Telegram.NewBotClientFromEnv w in
    (snd (fst r) = Some Telegram.TokenNotSet <->
       env_unset w "TELEGRAM_BOT_TOKEN" \/ env_empty w "TELEGRAM_BOT_TOKEN") /\
    (snd (fst r) = Some Telegram.TokenNotSet ->
       fst (fst r) = None /\ round_trips (snd r) = round_trips w) /\
    (token <> "" ->
       round_trips (snd r) = tl (round_trips w) /\
       fst r = match next_fault w with
               | Some msg => (None, Some (Telegram.CreateBotFailed (ErrStore msg)))
               | None => (Some (Telegram.mkBotClient (Some (Telegram.mkBotAPI token))), None)
               end) /\
    (environ (snd r) = environ w /\ tables (snd r) = tables w /\
     var_once (snd r) = var_once w /\ var_db (snd r) = var_db w /\
     var_initErr (snd r) = var_initErr w).
Proof.
  intros w. cbv zeta. rewrite <- getenv_empty_iff.
  unfold Telegram.NewBotClientFromEnv, os_Getenv, emit, bind. cbn [fst snd environ set_trace].
  destruct (String.eqb_spec (default "" (environ w !! "TELEGRAM_BOT_TOKEN")) "") as [He|Hne].
  - cbn. rewrite He. repeat split; auto; intros. all: congruence.
  - unfold Telegram.tba_NewBotAPI, bind, round_trip, next_fault. cbn.
    destruct (round_trips w) as [|[msg|] rest] eqn:E; cbn; rewrite ?E;
      repeat split; auto; try discriminate; intros. all: congruence.
Qed.

Lemma NewBotClientFromEnv_witness :
  fst (Telegram.NewBotClientFromEnv unconfigured_world) = (None, Some Telegram.TokenNotSet) /\
  fst (Telegram.NewBotClientFromEnv world_with_bot_token)
  = (Some (Telegram.mkBotClient (Some (Telegram.mkBotAPI "123456:bot-secret"))), None).
Proof.
  split.
  - destruct (NewBotClientFromEnv_needs_the_token unconfigured_world) as (Hiff & Hnone & _).
    cbv zeta in Hiff, Hnone.
    assert (H : snd (fst (Telegram.NewBotClientFromEnv unconfigured_world))
                = Some Telegram.TokenNotSet) by (apply Hiff; left; reflexivity).
    destruct (Hnone H) as [Hfst _].
    destruct (Telegram.NewBotClientFromEnv unconfigured_world) as [[c e] w']. cbn in *.
    congruence.
  - destruct (NewBotClientFromEnv_needs_the_token world_with_bot_token) as (_ & _ & Hset & _).
    cbv zeta in Hset. destruct Hset as [_ ->]; [vm_compute; discriminate | reflexivity].
Defined.

(** *** Narrow updates *)

Lemma with_connection_cases {A} (refused : error -> A) (body : M A) (w : World) :
  let wc := snd (Connection.GetConnection w) in
  (tables wc = tables w /\ scan_null wc = scan_null w /\
   wall_clock wc = wall_clock w /\ random wc = random w) /\
  var_once wc = true /\
  with_connection refused body w
  = match var_initErr wc with
    | Some e => (refused e, wc)
    | None => body wc
    end /\
  (connected w -> wc = w).
Proof.
  cbv zeta. destruct (GetConnection_cases w) as (Hframe & Honce & Hres & _).
  split; [exact Hframe|]. split; [exact Honce|]. split.
  - unfold with_connection, bind.
    destruct (Connection.GetConnection w) as [[d e] wc]. cbn [fst snd] in *.
    injection Hres as _ ->. destruct (var_initErr wc); reflexivity.
  - intros Hconn. rewrite (GetConnection_connected w Hconn). reflexivity.
Qed.

Lemma set_where_other_columns (key_col : string) (key : Scalar) (col : string) (cell : Cell)
    (old : Row) (c : string) :
  c <> col -> set_where key_col key col cell old !! c = old !! c.
Proof.
  intros Hc. unfold set_where. destruct (row_matches _ old); [|reflexivity].
  rewrite set_cells_lookup. cbn [last_binding fst snd].
  destruct (String.eqb_spec col c); [congruence | reflexivity].
Qed.

(** A condition reads the columns it names and no other. *)
Lemma row_matches_ext (conds : list (string * Cell)) (r1 r2 : Row) :
  (forall c, In c (map fst conds) -> r1 !! c = r2 !! c) ->
  row_matches conds r1 = row_matches conds r2.
Proof.
  unfold row_matches. induction conds as [|[c v] conds IH]; intros H; [reflexivity|].
  cbn [forallb fst snd]. rewrite IH by (intros c' Hc'; apply H; right; exact Hc').
  rewrite (H c) by (left; reflexivity). reflexivity.
Qed.

Lemma set_where_keeps_match (key_col : string) (key : Scalar) (col : string) (cell : Cell)
    (conds : list (string * Cell)) (old : Row) :
  ~ In col (map fst conds) ->
  row_matches conds (set_where key_col key col cell old) = row_matches conds old.
Proof.
  intros Hnot. apply row_matches_ext. intros c Hc.
  apply set_where_other_columns. intros ->. exact (Hnot Hc).
Qed.

Lemma filter_set_where (key_col : string) (key : Scalar) (col : string) (cell : Cell)
    (conds : list (string * Cell)) (rows : list Row) :
  ~ In col (map fst conds) ->
  List.filter (row_matches conds) (map (set_where key_col key col cell) rows)
  = map (set_where key_col key col cell) (List.filter (row_matches conds) rows).
Proof.
  intros Hnot. induction rows as [|r rows IH]; [reflexivity|].
  cbn [map List.filter]. rewrite (set_where_keeps_match _ _ _ _ _ _ Hnot).
  destruct (row_matches conds r); cbn [map]; rewrite IH; reflexivity.
Qed.

Lemma map_set_where_no_row (key_col : string) (key : Scalar) (col : string) (cell : Cell)
    (rows : list Row) :
  List.filter (row_matches [(key_col, Some key)]) rows = [] ->
  map (set_where key_col key col cell) rows = rows.
Proof.
  induction rows as [|r rows IH]; [reflexivity|]. cbn [List.filter map].
  unfold set_where at 1. destruct (row_matches _ r); [discriminate|].
  intros H. rewrite (IH H). reflexivity.
Qed.

Lemma Forall2_set_where (key_col : string) (key : Scalar) (col : string) (cell : Cell)
    (rows : list Row) :
  Forall2 (fun old new : Row =>
             (forall c, c <> col -> new !! c = old !! c) /\
             (row_matches [(key_col, Some key)] old = false -> new = old))
          rows (map (set_where key_col key col cell) rows).
Proof.
  induction rows as [|r rows IH]; constructor; [|exact IH]. split.
  - intros c Hc. apply set_where_other_columns, Hc.
  - intros H. unfold set_where. rewrite H. reflexivity.
Qed.

(** What the store makes of [UPDATE tbl SET col = $p WHERE key_col = $kp]. *)
Lemma narrow_update_executed (tbl col p key_col kp : string) (ps : QueryParameters) (w : World)
    (cell : Cell) (key : Scalar) :
  bind_cells [(col, p)] ps = Some [(col, cell)] ->
  bind_cells [(key_col, kp)] ps = Some [(key_col, Some key)] ->
  let r := Session_Execute (Update tbl [(col, p)] [(key_col, kp)]) ps w in
  (scan_null (snd r) = scan_null w /\ var_once (snd r) = var_once w /\
   var_initErr (snd r) = var_initErr w /\ wall_clock (snd r) = wall_clock w /\
   round_trips (snd r) = tl (round_trips w)) /\
  match next_fault w with
  | Some msg => snd (fst r) = Some (ErrStore msg) /\ tables (snd r) = tables w
  | None =>
      snd (fst r) = None /\
      tables (snd r)
      = <[tbl := map (set_where key_col key col cell) (table_rows (tables w) tbl)]> (tables w)
  end.
Proof.
  intros Hset Hwhere. cbv zeta.
  destruct (Session_Execute_cases (Update tbl [(col, p)] [(key_col, kp)]) ps w)
    as ((Hs & Ho & _ & He & Hc & _ & _ & Hr & _) & Hx).
  cbv zeta in Hx. split; [auto|].
  destruct (next_fault w) as [msg|].
  - destruct Hx as [-> Ht]. auto.
  - unfold exec_stmt in Hx. rewrite Hset, Hwhere in Hx. destruct Hx as [-> Ht]. auto.
Qed.

Lemma narrow_update_consequences (tbl key_col col : string) (key : Scalar) (cell : Cell)
    (w1 w2 : World) :
  tables w2
  = <[tbl := map (set_where key_col key col cell) (table_rows (tables w1) tbl)]> (tables w1) ->
  table_rows (tables w2) tbl = map (set_where key_col key col cell) (table_rows (tables w1) tbl) /\
  (forall tbl', tbl' <> tbl -> table_rows (tables w2) tbl' = table_rows (tables w1) tbl') /\
  Forall2 (fun old new : Row =>
             (forall c, c <> col -> new !! c = old !! c) /\
             (row_matches [(key_col, Some key)] old = false -> new = old))
          (table_rows (tables w1) tbl) (table_rows (tables w2) tbl) /\
  (rows_where w1 tbl [(key_col, key)] = [] ->
   forall tbl', table_rows (tables w2) tbl' = table_rows (tables w1) tbl').
Proof.
  intros Ht. rewrite Ht, table_rows_insert_eq.
  split; [reflexivity|]. split; [intros tbl' Hne; apply table_rows_insert_ne; congruence|].
  split; [apply Forall2_set_where|].
  unfold rows_where. cbn [map fst snd]. intros Hnone tbl'.
  destruct (decide (tbl = tbl')) as [<-|Hne].
  - rewrite table_rows_insert_eq. apply map_set_where_no_row, Hnone.
  - apply table_rows_insert_ne, Hne.
Qed.

(** A narrow update of [repository.go]: the statement, once the connection
    is there. *)
Lemma Repository_narrow_update {K V} (update : K -> V -> M (option error))
    (tbl col p key_col kp : string) (params : World -> K -> V -> QueryParameters)
    (key : K -> Scalar) (cell : World -> V -> Cell) :
  (forall k v w,
      update k v w
      = with_connection Some
          (fun w' => (snd (fst (Session_Execute (Update tbl [(col, p)] [(key_col, kp)])
                                                (params w' k v) w')),
                      snd (Session_Execute (Update tbl [(col, p)] [(key_col, kp)])
                                           (params w' k v) w'))) w) ->
  (forall k v w, bind_cells [(col, p)] (params w k v) = Some [(col, cell w v)]) ->
  (forall k v w, bind_cells [(key_col, kp)] (params w k v) = Some [(key_col, Some (key k))]) ->
  (forall v w w', wall_clock w' = wall_clock w -> cell w' v = cell w v) ->
  narrow_update connected update tbl key_col col key cell.
Proof.
  intros Hdef Hset Hwhere Hcell. split.
  - intros k v w1 w2 Hupd. rewrite Hdef in Hupd.
    destruct (with_connection_cases Some
                (fun w' => (snd (fst (Session_Execute (Update tbl [(col, p)] [(key_col, kp)])
                                                      (params w' k v) w')),
                            snd (Session_Execute (Update tbl [(col, p)] [(key_col, kp)])
                                                 (params w' k v) w'))) w1)
      as ((Ht0 & Hs0 & Hclock & _) & Honce & Hrun & _).
    cbv zeta in Hrun. rewrite Hrun in Hupd. clear Hrun.
    set (wc := snd (Connection.GetConnection w1)) in *.
    destruct (var_initErr wc) eqn:Herr; [discriminate|].
    destruct (narrow_update_executed tbl col p key_col kp _ wc _ _ (Hset k v wc) (Hwhere k v wc))
      as ((Hs & Ho & He & _) & Hx).
    cbv zeta in Hx, Hs, Ho, He. injection Hupd as Hok Hw2.
    destruct (next_fault wc); [destruct Hx; congruence|]. destruct Hx as [_ Ht].
    rewrite Hw2, Ht0, (Hcell v w1 wc Hclock) in Ht. rewrite Hw2 in Hs, Ho, He.
    pose proof (narrow_update_consequences _ _ _ _ _ w1 w2 Ht) as (H1 & H2 & H3 & H4).
    split; [exact H1|]. split; [exact H2|]. split; [exact H3|]. split; [exact H4|].
    split; [congruence|]. intros _. split; congruence.
  - intros k v w Hready. rewrite Hdef.
    destruct (with_connection_cases Some
                (fun w' => (snd (fst (Session_Execute (Update tbl [(col, p)] [(key_col, kp)])
                                                      (params w' k v) w')),
                            snd (Session_Execute (Update tbl [(col, p)] [(key_col, kp)])
                                                 (params w' k v) w'))) w)
      as (_ & _ & Hrun & Hsame).
    cbv zeta in Hrun. rewrite Hrun, (Hsame Hready). clear Hrun.
    destruct Hready as [_ ->].
    destruct (narrow_update_executed tbl col p key_col kp _ w _ _ (Hset k v w) (Hwhere k v w))
      as (_ & Hx).
    cbv zeta in Hx. cbn [fst snd].
    destruct (next_fault w); destruct Hx; auto.
Qed.

(** A write of the query layer has the shape of the operations of
    [repository.go]: the connection, then the statement. *)
Lemma Queries_Exec_with_connection (q : Stmt) (ps : QueryParameters) (w : World) :
  Queries.Exec q ps w
  = with_connection Some (fun w' => (snd (fst (Session_Execute q ps w')),
                                     snd (Session_Execute q ps w'))) w.
Proof.
  unfold Queries.Exec, with_connection, Client.Exec, Do, bind, ret.
  destruct (Connection.GetConnection w) as [[d [e|]] wc]; cbn [fst snd]; [reflexivity|].
  destruct (Session_Execute q ps wc) as [[res err] w2]. reflexivity.
Qed.

(** A narrow update of the query layer: the statement, once the connection
    is there; the parameters are built before the connection is acquired,
    from a clock the provider leaves alone. *)
Lemma Queries_narrow_update {K V} (update : K -> V -> M (option error))
    (tbl col p key_col kp : string) (params : World -> K -> V -> QueryParameters)
    (key : K -> Scalar) (cell : World -> V -> Cell) :
  (forall k v w,
      update k v w = Queries.Exec (Update tbl [(col, p)] [(key_col, kp)]) (params w k v) w) ->
  (forall k v w, bind_cells [(col, p)] (params w k v) = Some [(col, cell w v)]) ->
  (forall k v w, bind_cells [(key_col, kp)] (params w k v) = Some [(key_col, Some (key k))]) ->
  (forall k v w w', wall_clock w' = wall_clock w -> params w' k v = params w k v) ->
  (forall v w w', wall_clock w' = wall_clock w -> cell w' v = cell w v) ->
  narrow_update connected update tbl key_col col key cell.
Proof.
  intros Hdef Hset Hwhere Hparams Hcell.
  apply (Repository_narrow_update update tbl col p key_col kp params key cell); auto.
  intros k v w. rewrite Hdef.
  unfold Queries.Exec, with_connection, Client.Exec, Do, bind, ret.
  destruct (GetConnection_cases w) as ((_ & _ & Hclock & _) & _).
  destruct (Connection.GetConnection w) as [[d [e|]] wc]; cbn [fst snd] in *; [reflexivity|].
  rewrite (Hparams k v w wc Hclock).
  destruct (Session_Execute _ _ wc) as [[res err] w2]. reflexivity.
Qed.

(** An operation of [repository.go] that runs one statement and returns its
    error is [with_connection] around that statement. *)
Lemma Repository_statement (q : World -> Stmt) (ps : World -> QueryParameters) (w : World) :
  with_connection Some (fun w' => (snd (fst (Session_Execute (q w') (ps w') w')),
                                   snd (Session_Execute (q w') (ps w') w'))) w
  = (conn <- Connection.GetConnection ;;
     match snd conn with
     | Some err => ret (Some err)
     | None => fun w' => (r <- Do (Session_Execute (q w') (ps w')) ;; ret (snd r)) w'
     end) w.
Proof.
  unfold with_connection, bind, Do, ret.
  destruct (Connection.GetConnection w) as [[d [e|]] wc]; cbn [fst snd]; [reflexivity|].
  destruct (Session_Execute (q wc) (ps wc) wc) as [[res err] w2]. reflexivity.
Qed.

Lemma Repository_SetSubscriptionActive_narrow :
  narrow_update connected Repository.SetSubscriptionActive
                "search_subscriptions" "id" "is_active" SText (fun _ active => Some (SBool active)).
Proof.
  apply (Repository_narrow_update _ _ _ "$is_active" _ "$id"
           (fun _ subID active => [("$id", UTF8Value subID); ("$is_active", BoolValue active)]));
    try reflexivity.
  intros subID active w.
  rewrite (Repository_statement (fun _ => _) (fun _ => _) w). reflexivity.
Qed.

Lemma Queries_SetSubscriptionActive_narrow :
  narrow_update connected Queries.SetSubscriptionActive
                "search_subscriptions" "id" "is_active" SText (fun _ active => Some (SBool active)).
Proof.
  apply (Queries_narrow_update _ _ _ "$is_active" _ "$id"
           (fun _ subID active => [("$id", TextValue subID); ("$is_active", BoolValue active)]));
    reflexivity.
Qed.

Lemma Repository_UpdateSubscriptionLastChecked_narrow :
  narrow_update connected (fun subID (_ : unit) => Repository.UpdateSubscriptionLastChecked subID)
                "search_subscriptions" "id" "last_checked_at" SText
                (fun w _ => Some (STimestamp (uint64 (Time_UnixMicro (wall_clock w))))).
Proof.
  apply (Repository_narrow_update _ _ _ "$last_checked_at" _ "$id"
           (fun w subID _ => [("$id", UTF8Value subID);
                              ("$last_checked_at", TimestampValueFromTime (wall_clock w))]));
    try reflexivity.
  - intros subID [] w.
    rewrite (Repository_statement (fun _ => _) (fun w' => _) w). reflexivity.
  - intros _ w w' ->. reflexivity.
Qed.

Lemma Queries_UpdateSubscriptionLastChecked_narrow :
  narrow_update connected (fun subID (_ : unit) => Queries.UpdateSubscriptionLastChecked subID)
                "search_subscriptions" "id" "last_checked_at" SText
                (fun w _ => Some (SDatetime (uint32 (Time_Unix (wall_clock w))))).
Proof.
  apply (Queries_narrow_update _ _ _ "$last_checked_at" _ "$id"
           (fun w subID _ => [("$id", TextValue subID);
                              ("$last_checked_at",
                               DatetimeValue (uint32 (Time_Unix (wall_clock w))))]));
    try reflexivity.
  - intros subID _ w w' ->. reflexivity.
  - intros _ w w' ->. reflexivity.
Qed.

Lemma Repository_UpdateNotificationMessageID_narrow :
  narrow_update connected Repository.UpdateNotificationMessageID
                "notifications" "id" "telegram_message_id" SText
                (fun _ messageID => Some (SInt32 (int32 messageID))).
Proof.
  apply (Repository_narrow_update _ _ _ "$message_id" _ "$id"
           (fun _ notifID messageID => [("$id", UTF8Value notifID);
                                        ("$message_id", Int32Value (int32 messageID))]));
    try reflexivity.
  intros notifID messageID w.
  rewrite (Repository_statement (fun _ => _) (fun _ => _) w). reflexivity.
Qed.

Lemma Queries_UpdateNotificationMessageID_narrow :
  narrow_update connected Queries.UpdateNotificationMessageID
                "notifications" "id" "telegram_message_id" SText
                (fun _ messageID => Some (SInt32 (int32 messageID))).
Proof.
  apply (Queries_narrow_update _ _ _ "$telegram_message_id" _ "$id"
           (fun _ notifID messageID => [("$id", TextValue notifID);
                                        ("$telegram_message_id", Int32Value (int32 messageID))]));
    reflexivity.
Qed.

Lemma Repository_UpdateUserStatus_narrow :
  narrow_update connected Repository.UpdateUserStatus
                "users" "telegram_chat_id" "status" SInt64 (fun _ status => Some (SText status)).
Proof.
  apply (Repository_narrow_update _ _ _ "$status" _ "$chat_id"
           (fun _ chatID status => [("$chat_id", Int64Value chatID); ("$status", UTF8Value status)]));
    try reflexivity.
  intros chatID status w.
  rewrite (Repository_statement (fun _ => _) (fun _ => _) w). reflexivity.
Qed.

Lemma Queries_UpdateUserStatus_narrow :
  narrow_update connected Queries.UpdateUserStatus
                "users" "telegram_chat_id" "status" SInt64 (fun _ status => Some (SText status)).
Proof.
  apply (Queries_narrow_update _ _ _ "$status" _ "$telegram_chat_id"
           (fun _ chatID status => [("$telegram_chat_id", Int64Value chatID);
                                    ("$status", TextValue status)]));
    reflexivity.
Qed.

(** *** Multi-row scans *)

Lemma Session_Execute_literal_cases (cols : list string) (tbl : string)
    (where_ : list (string * (string * Scalar))) (w : World) :
  let r := Session_Execute_literal cols tbl where_ w in
  (tables (snd r) = tables w /\ scan_null (snd r) = scan_null w /\
   var_once (snd r) = var_once w /\ var_initErr (snd r) = var_initErr w /\
   round_trips (snd r) = tl (round_trips w)) /\
  fst r = match next_fault w with
          | Some msg => (no_result, Some (ErrStore msg))
          | None =>
              (result_of [map (project cols)
                              (rows_where w tbl (map (fun c => (fst c, snd (snd c))) where_))],
               None)
          end.
Proof.
  unfold Session_Execute_literal, emit, bind, round_trip, next_fault, rows_where, ret.
  cbn [fst snd trace set_trace round_trips].
  rewrite map_map. cbn [fst snd].
  destruct (round_trips w) as [|[msg|] rest] eqn:E; cbn; rewrite ?E; repeat split.
Qed.

Lemma Session_Execute_select (cols : list string) (tbl col p : string) (v : Scalar) (w : World) :
  let r := Session_Execute (Select cols tbl [(col, p)]) [(p, Prim v)] w in
  (tables (snd r) = tables w /\ scan_null (snd r) = scan_null w /\
   var_once (snd r) = var_once w /\ var_initErr (snd r) = var_initErr w /\
   round_trips (snd r) = tl (round_trips w)) /\
  fst r = match next_fault w with
          | Some msg => (no_result, Some (ErrStore msg))
          | None => (result_of [map (project cols) (rows_where w tbl [(col, v)])], None)
          end.
Proof.
  cbv zeta.
  destruct (Session_Execute_cases (Select cols tbl [(col, p)]) [(p, Prim v)] w)
    as ((Hs & Ho & _ & He & _ & _ & _ & Hr & _) & Hx).
  cbv zeta in Hx. unfold exec_stmt, bind_cells, param in Hx. cbn [List.find fst snd] in Hx.
  rewrite String.eqb_refl in Hx. cbn [fmap option_fmap option_map snd cell_of] in Hx.
  destruct (next_fault w); destruct Hx as [Hx Ht]; rewrite Hx; repeat split; auto.
Qed.

Lemma scan_rows_complete {A} (scan : option (list Cell) -> error + A) (rows : list (list Cell)) :
  forall acc new, Forall2 (fun row a => scan (Some row) = inr a) rows new ->
    scan_rows scan rows acc = inr (acc ++ new).
Proof.
  induction rows as [|row rows IH]; intros acc new H; inversion H; subst; cbn [scan_rows].
  - rewrite app_nil_r. reflexivity.
  - match goal with Hrow : scan (Some row) = inr _ |- _ => rewrite Hrow end.
    rewrite IH with (new := l') by assumption. rewrite <- app_assoc. reflexivity.
Qed.

Lemma scan_rows_first_error {A} (scan : option (list Cell) -> error + A)
    (rows : list (list Cell)) :
  forall acc e, scan_rows scan rows acc = inl e -> exists row, In row rows /\ scan (Some row) = inl e.
Proof.
  induction rows as [|row rows IH]; intros acc e H; cbn [scan_rows] in H; [discriminate|].
  destruct (scan (Some row)) as [e'|a] eqn:E.
  - exists row. split; [left; reflexivity | congruence].
  - apply IH in H as (row' & Hin & Hrow'). exists row'. split; [right; exact Hin | exact Hrow'].
Qed.

(** The two loops over one result set, and what they come to for the rows
    a statement selected. *)
Lemma scan_rows_of_selected {A} (scan : option (list Cell) -> error + A) (cols : list string)
    (rows : list Row) (wrap : error -> error) :
  (forall row e, scan row = inl e -> exists msg, e = ErrStore msg) ->
  let out := match scan_rows scan (map (project cols) rows) [] with
             | inl err => ([], Some (wrap err))
             | inr xs => (xs, None)
             end in
  (rows = [] -> out = ([], None)) /\
  (forall xs, out = (xs, None) <->
              Forall2 (fun row x => scan (Some (project cols row)) = inr x) rows xs) /\
  (forall e, snd out = Some e ->
     fst out = [] /\
     exists row msg, In row rows /\ scan (Some (project cols row)) = inl (ErrStore msg) /\
                     e = wrap (ErrStore msg)).
Proof.
  intros Hscan. cbv zeta. split; [intros ->; reflexivity|].
  destruct (scan_rows scan (map (project cols) rows) []) as [e|xs] eqn:Hrows; cbn [fst snd].
  - split.
    + intros xs. split; [discriminate|]. intros Hall.
      rewrite (scan_rows_complete scan _ [] xs) in Hrows; [discriminate|].
      clear Hrows. induction Hall; constructor; assumption.
    + intros e' [= <-]. split; [reflexivity|].
      apply scan_rows_first_error in Hrows as (cells & Hin & Hrow).
      apply in_map_iff in Hin as (row & <- & Hin).
      destruct (Hscan _ _ Hrow) as [msg ->]. exists row, msg. auto.
  - split; [|discriminate].
    apply scan_rows_ordered in Hrows as (new & -> & Hall). cbn [app].
    apply Forall2_of_map in Hall.
    intros xs. split.
    + intros [= <-]. exact Hall.
    + intros Hxs. f_equal. clear -Hall Hxs. revert xs Hxs.
      induction Hall; intros xs Hxs; inversion Hxs; subst; [reflexivity|].
      f_equal; [congruence | auto].
Qed.

(** The loop of the query layer, on the one result set of a statement. *)
Lemma NextRow_loop_rows {A} (scan : option (list Cell) -> error + A) (rows : list (list Cell)) :
  forall fuel cur acc, (length rows < fuel)%nat ->
    Queries.NextRow_loop scan fuel (mkResult [] rows cur) acc = scan_rows scan rows acc.
Proof.
  induction rows as [|row rows IH]; intros fuel cur acc Hfuel;
    (destruct fuel as [|fuel]; [cbn in Hfuel; lia|]); cbn [Queries.NextRow_loop scan_rows].
  - reflexivity.
  - unfold Queries.NextRow, Next. cbn [rows_left sets current_row].
    destruct (scan (Some row)); [reflexivity|]. apply IH. cbn in Hfuel. lia.
Qed.

Lemma scan_all_result_of {A} (scan : option (list Cell) -> error + A) (rows : list (list Cell)) :
  Queries.scan_all scan (result_of [rows]) = scan_rows scan rows [].
Proof.
  assert (Hp : Queries.pending (result_of [rows]) = length rows)
    by (unfold Queries.pending, result_of; cbn; lia).
  unfold Queries.scan_all. rewrite Hp. cbn [Queries.NextRow_loop].
  unfold Queries.NextRow, Next, NextResultSet, result_of. cbn [rows_left sets current_row].
  destruct rows as [|row rows]; [reflexivity|]. cbn [scan_rows current_row].
  destruct (scan (Some row)); [reflexivity|]. apply NextRow_loop_rows. cbn. lia.
Qed.

Lemma scan_sets_one {A} (scan : option (list Cell) -> error + A) (rows : list (list Cell)) :
  scan_sets scan [rows] [] = scan_rows scan rows [].
Proof. cbn [scan_sets]. destruct (scan_rows scan rows []); reflexivity. Qed.

Lemma list_body_outcome {A} (scan : option (list Cell) -> error + A) (cols : list string)
    (rows : list Row) (wrap : error -> error) (w : World) (out : list A * option error) :
  (forall row e, scan row = inl e -> exists msg, e = ErrStore msg) ->
  out = match scan_rows scan (map (project cols) rows) [] with
        | inl err => ([], Some (wrap err))
        | inr xs => (xs, None)
        end ->
  (rows = [] -> out = ([], None)) /\
  (forall xs, out = (xs, None) <->
              Forall2 (fun row x => scan (Some (project cols row)) = inr x) rows xs) /\
  (forall e, snd out = Some e ->
     fst out = [] /\
     exists row msg, In row rows /\ scan (Some (project cols row)) = inl (ErrStore msg) /\
                     e = wrap (ErrStore msg)).
Proof. intros Hscan ->. apply (scan_rows_of_selected scan cols rows wrap Hscan). Qed.

Lemma Repository_list_body_scan {A} (exec : M (Result * option error))
    (scan : NullPolicy -> option (list Cell) -> error + A) (cols : list string)
    (rows : World -> list Row) :
  selects exec cols rows ->
  (forall pol row e, scan pol row = inl e -> exists msg, e = ErrStore msg) ->
  ordered_scan connected (with_connection (fun e => ([], Some e)) (Repository_list_body exec scan))
               rows (fun w row => scan (scan_null w) (Some (project cols row)))
               (fun e => e) (fun e => e).
Proof.
  intros Hsel Hscan w Hready.
  destruct (with_connection_cases (fun e => ([] : list A, Some e)) (Repository_list_body exec scan) w)
    as (_ & _ & Hrun & Hsame).
  cbv zeta in Hrun. rewrite Hrun, (Hsame Hready). clear Hrun Hsame.
  destruct Hready as [Honce Herr]. rewrite Herr.
  unfold Repository_list_body, Do, bind, ret.
  destruct (Hsel w) as ((Ht & Hs & Ho & He & _) & Hres).
  assert (Hconn : connected (snd (exec w))) by (split; congruence).
  destruct (exec w) as [[res err] w2]. cbn [fst snd] in *.
  destruct (next_fault w) as [msg|].
  - injection Hres as -> ->. cbn [fst snd]. auto.
  - injection Hres as -> ->. cbn [fst snd sets result_of]. rewrite scan_sets_one, Hs.
    split; [destruct (scan_rows _ _ _); auto|].
    apply (list_body_outcome (scan (scan_null w)) cols (rows w) (fun e => e) w);
      [apply Hscan|].
    destruct (scan_rows _ _ _); reflexivity.
Qed.

(** An ordered scan is a property of what the operation returns. *)
Lemma ordered_scan_ext {A} (ready : World -> Prop) (list_ list_' : M (list A * option error))
    (rows : World -> list Row) (decode : World -> Row -> error + A)
    (wrap_query wrap_scan : error -> error) :
  (forall w, list_' w = list_ w) ->
  ordered_scan ready list_ rows decode wrap_query wrap_scan ->
  ordered_scan ready list_' rows decode wrap_query wrap_scan.
Proof. intros Heq H w Hready. rewrite Heq. apply (H w Hready). Qed.

Lemma Queries_list_body_scan {A} (exec : M (Result * option error))
    (scan : NullPolicy -> option (list Cell) -> error + A) (cols : list string)
    (rows : World -> list Row) (wrap_query wrap_scan : error -> error) :
  selects exec cols rows ->
  (forall pol row e, scan pol row = inl e -> exists msg, e = ErrStore msg) ->
  ordered_scan connected
               (with_connection (fun e => ([], Some (wrap_query e)))
                                (Queries_list_body exec scan wrap_query wrap_scan))
               rows (fun w row => scan (scan_null w) (Some (project cols row)))
               wrap_query wrap_scan.
Proof.
  intros Hsel Hscan w Hready.
  destruct (with_connection_cases (fun e => ([] : list A, Some (wrap_query e)))
              (Queries_list_body exec scan wrap_query wrap_scan) w)
    as (_ & _ & Hrun & Hsame).
  cbv zeta in Hrun. rewrite Hrun, (Hsame Hready). clear Hrun Hsame.
  destruct Hready as [Honce Herr]. rewrite Herr.
  unfold Queries_list_body, bind, ret.
  destruct (Hsel w) as ((Ht & Hs & Ho & He & _) & Hres).
  assert (Hconn : connected (snd (exec w))) by (split; congruence).
  destruct (exec w) as [[res err] w2]. cbn [fst snd] in *.
  destruct (next_fault w) as [msg|].
  - injection Hres as -> ->. cbn [fst snd]. auto.
  - injection Hres as -> ->. cbn [fst snd]. rewrite scan_all_result_of, Hs.
    split; [destruct (scan_rows _ _ _); auto|].
    apply (list_body_outcome (scan (scan_null w)) cols (rows w) wrap_scan w);
      [apply Hscan|].
    destruct (scan_rows _ _ _); reflexivity.
Qed.

Lemma selects_by_parameter (cols : list string) (tbl col p : string) (v : Scalar) :
  selects (Session_Execute (Select cols tbl [(col, p)]) [(p, Prim v)]) cols
          (fun w => rows_where w tbl [(col, v)]).
Proof. intros w. apply Session_Execute_select. Qed.

Lemma selects_by_literal (cols : list string) (tbl col text : string) (v : Scalar) :
  selects (Session_Execute_literal cols tbl [(col, (text, v))]) cols
          (fun w => rows_where w tbl [(col, v)]).
Proof. intros w. apply (Session_Execute_literal_cases cols tbl [(col, (text, v))] w). Qed.

Lemma Queries_scan_subscription_error pol row e :
  Queries.scan_subscription pol row = inl e -> exists msg, e = ErrStore msg.
Proof.
  unfold Queries.scan_subscription. intros H. scan_error (@plain_error) (@nullable_error).
Qed.

(** The list operations of the query layer: the connection, then the
    statement and the loop over its rows. *)
Lemma Queries_GetActiveUsers_with_connection (w : World) :
  Queries.GetActiveUsers w
  = with_connection (fun e => ([], Some (fmt_Errorf "failed to query active users: %w" [] e)))
      (Queries_list_body
         (Session_Execute_literal Queries.user_columns "users"
            [("status", (Queries.quoted "active", SText "active"))])
         Queries.scan_user
         (fmt_Errorf "failed to query active users: %w" [])
         (fmt_Errorf "failed to scan user: %w" [])) w.
Proof.
  unfold Queries.GetActiveUsers, Queries.Query_literal, with_connection, Queries_list_body,
    Do, bind, ret.
  destruct (Connection.GetConnection w) as [[d [e|]] wc]; reflexivity.
Qed.

Lemma Queries_GetActiveSubscriptions_with_connection (w : World) :
  Queries.GetActiveSubscriptions w
  = with_connection
      (fun e => ([], Some (fmt_Errorf "failed to query active subscriptions: %w" [] e)))
      (Queries_list_body
         (Session_Execute_literal (Queries.subscription_columns ++ ["last_checked_at"])
            "search_subscriptions" [("is_active", ("true", SBool true))])
         Queries.scan_subscription
         (fmt_Errorf "failed to query active subscriptions: %w" [])
         (fmt_Errorf "failed to scan subscription: %w" [])) w.
Proof.
  unfold Queries.GetActiveSubscriptions, Queries.Query_literal, with_connection,
    Queries_list_body, Do, bind, ret.
  destruct (Connection.GetConnection w) as [[d [e|]] wc]; reflexivity.
Qed.

Lemma Queries_GetSearchSubscriptionsByUser_with_connection (chatID : Z) (w : World) :
  Queries.GetSearchSubscriptionsByUser chatID w
  = with_connection (fun e => ([], Some (fmt_Errorf "failed to query subscriptions: %w" [] e)))
      (Queries_list_body
         (Session_Execute
            (Select (Queries.subscription_columns ++ ["last_checked_at"]) "search_subscriptions"
                    [("telegram_chat_id", "$telegram_chat_id")])
            [("$telegram_chat_id", Int64Value chatID)])
         Queries.scan_subscription
         (fmt_Errorf "failed to query subscriptions: %w" [])
         (fmt_Errorf "failed to scan subscription: %w" [])) w.
Proof.
  unfold Queries.GetSearchSubscriptionsByUser, Queries.Query, Client.Query, with_connection,
    Queries_list_body, Do, bind, ret.
  destruct (Connection.GetConnection w) as [[d [e|]] wc]; reflexivity.
Qed.

Lemma Repository_GetActiveUsers_scan :
  ordered_scan connected Repository.GetActiveUsers active_user_rows Repository_decode_user
               (fun e => e) (fun e => e).
Proof.
  apply (Repository_list_body_scan _ Repository.scan_user Repository.user_columns).
  - apply selects_by_literal.
  - apply Repository_scan_user_error.
Qed.

Lemma Repository_GetActiveSubscriptions_scan :
  ordered_scan connected Repository.GetActiveSubscriptions active_subscription_rows
               Repository_decode_subscription (fun e => e) (fun e => e).
Proof.
  apply (Repository_list_body_scan _ Repository.scan_subscription
           (Repository.subscription_columns ++ ["last_checked_at"])).
  - apply selects_by_literal.
  - apply Repository_scan_subscription_error.
Qed.

Lemma Repository_GetSearchSubscriptionsByUser_scan (chatID : Z) :
  ordered_scan connected (Repository.GetSearchSubscriptionsByUser chatID)
               (fun w => subscription_rows w chatID)
               Repository_decode_subscription (fun e => e) (fun e => e).
Proof.
  apply (Repository_list_body_scan _ Repository.scan_subscription
           (Repository.subscription_columns ++ ["last_checked_at"])).
  - apply (selects_by_parameter _ "search_subscriptions" "telegram_chat_id" "$chat_id"
             (SInt64 chatID)).
  - apply Repository_scan_subscription_error.
Qed.

Lemma Queries_GetActiveUsers_scan :
  ordered_scan connected Queries.GetActiveUsers active_user_rows Queries_decode_user
               (fmt_Errorf "failed to query active users: %w" [])
               (fmt_Errorf "failed to scan user: %w" []).
Proof.
  apply (ordered_scan_ext _ _ _ _ _ _ _ Queries_GetActiveUsers_with_connection).
  apply (Queries_list_body_scan _ Queries.scan_user Queries.user_columns).
  - apply selects_by_literal.
  - apply Queries_scan_user_error.
Qed.

Lemma Queries_GetActiveSubscriptions_scan :
  ordered_scan connected Queries.GetActiveSubscriptions active_subscription_rows
               Queries_decode_subscription
               (fmt_Errorf "failed to query active subscriptions: %w" [])
               (fmt_Errorf "failed to scan subscription: %w" []).
Proof.
  apply (ordered_scan_ext _ _ _ _ _ _ _ Queries_GetActiveSubscriptions_with_connection).
  apply (Queries_list_body_scan _ Queries.scan_subscription
           (Queries.subscription_columns ++ ["last_checked_at"])).
  - apply selects_by_literal.
  - apply Queries_scan_subscription_error.
Qed.

Lemma Queries_GetSearchSubscriptionsByUser_scan (chatID : Z) :
  ordered_scan connected (Queries.GetSearchSubscriptionsByUser chatID)
               (fun w => subscription_rows w chatID)
               Queries_decode_subscription
               (fmt_Errorf "failed to query subscriptions: %w" [])
               (fmt_Errorf "failed to scan subscription: %w" []).
Proof.
  apply (ordered_scan_ext _ _ _ _ _ _ _
           (Queries_GetSearchSubscriptionsByUser_with_connection chatID)).
  apply (Queries_list_body_scan _ Queries.scan_subscription
           (Queries.subscription_columns ++ ["last_checked_at"])).
  - apply (selects_by_parameter _ "search_subscriptions" "telegram_chat_id" "$telegram_chat_id"
             (SInt64 chatID)).
  - apply Queries_scan_subscription_error.
Qed.

Lemma rows_where_cell (w : World) (tbl col : string) (v : Scalar) (row : Row) :
  In row (rows_where w tbl [(col, v)]) -> row !! col = Some v.
Proof.
  unfold rows_where. cbn [map fst snd]. intros H. apply filter_In in H as [_ H].
  unfold row_matches in H. cbn [forallb fst snd] in H. rewrite andb_true_r in H.
  apply bool_decide_eq_true_1 in H. exact H.
Qed.

Lemma Forall2_Forall_r {A B} (R : A -> B -> Prop) (P : B -> Prop) (l : list A) (xs : list B) :
  Forall2 R l xs -> (forall a x, In a l -> R a x -> P x) -> Forall P xs.
Proof.
  induction 1 as [|a x l xs Hax Hall IH]; intros H; constructor.
  - apply (H a x); [left; reflexivity | exact Hax].
  - apply IH. intros a' x' Hin. apply H. right. exact Hin.
Qed.

Lemma ordered_scan_lists_only {A} (ready : World -> Prop) (list_ : M (list A * option error))
    (rows : World -> list Row) (decode : World -> Row -> error + A)
    (wrap_query wrap_scan : error -> error) (P : A -> Prop) :
  ordered_scan ready list_ rows decode wrap_query wrap_scan ->
  (forall w row x, In row (rows w) -> decode w row = inr x -> P x) ->
  lists_only ready list_ P.
Proof.
  intros Hscan Hdec w xs Hready Hres.
  destruct (Hscan w Hready) as (_ & Hcase).
  destruct (next_fault w); [rewrite Hcase in Hres; discriminate|].
  destruct Hcase as (_ & Hiff & _). apply Hiff in Hres.
  apply (Forall2_Forall_r _ _ _ _ Hres). intros row x. apply Hdec.
Qed.

(** What a plain destination holds for its cell. *)
Lemma plain_as_string (pol : NullPolicy) (c : Cell) (a : string) :
  plain pol "" as_string c = inr a ->
  (forall x, c = Some (SText x) -> a = x) /\ (a <> "" -> c = Some (SText a)).
Proof.
  unfold plain. destruct c as [[]|]; cbn; try discriminate.
  - intros [= <-]. split; [intros x [= <-]; reflexivity | reflexivity].
  - destruct pol; [|discriminate]. intros [= <-]. split; [discriminate | congruence].
Qed.

Lemma plain_as_int64 (pol : NullPolicy) (c : Cell) (a : Z) :
  plain pol 0 as_int64 c = inr a ->
  (forall x, c = Some (SInt64 x) -> a = x) /\ (a <> 0 -> c = Some (SInt64 a)).
Proof.
  unfold plain. destruct c as [[]|]; cbn; try discriminate.
  - intros [= <-]. split; [intros x [= <-]; reflexivity | reflexivity].
  - destruct pol; [|discriminate]. intros [= <-]. split; [discriminate | congruence].
Qed.

Lemma plain_as_bool (pol : NullPolicy) (c : Cell) (a : bool) :
  plain pol false as_bool c = inr a -> forall x, c = Some (SBool x) -> a = x.
Proof.
  unfold plain. destruct c as [[]|]; cbn; try discriminate.
  intros [= <-] x [= <-]. reflexivity.
Qed.

(** The fields a decoded row takes from its cells. *)
Lemma Repository_decode_user_cells (w : World) (row : Row) (u : User) :
  Repository_decode_user w row = inr u ->
  (forall chat, row !! "telegram_chat_id" = Some (SInt64 chat) -> User_TelegramChatID u = chat) /\
  (forall s, row !! "status" = Some (SText s) -> User_Status u = s) /\
  (User_TelegramChatID u <> 0 -> row !! "telegram_chat_id" = Some (SInt64 (User_TelegramChatID u))).
Proof.
  unfold Repository_decode_user, Repository.scan_user, project.
  cbn [map Repository.user_columns]. intros H. scan_ok H. inversion H; subst; clear H.
  cbn [User_TelegramChatID User_Status].
  apply plain_as_int64 in E as [Hchat Hback]. apply plain_as_string in E0 as [Hstatus _].
  auto.
Qed.

Lemma Queries_decode_user_cells (w : World) (row : Row) (u : User) :
  Queries_decode_user w row = inr u ->
  (forall chat, row !! "telegram_chat_id" = Some (SInt64 chat) -> User_TelegramChatID u = chat) /\
  (forall s, row !! "status" = Some (SText s) -> User_Status u = s) /\
  (User_TelegramChatID u <> 0 -> row !! "telegram_chat_id" = Some (SInt64 (User_TelegramChatID u))).
Proof.
  unfold Queries_decode_user, Queries.scan_user, project.
  cbn [map Queries.user_columns]. intros H. scan_ok H. inversion H; subst; clear H.
  cbn [User_TelegramChatID User_Status].
  apply plain_as_int64 in E as [Hchat Hback]. apply plain_as_string in E0 as [Hstatus _].
  auto.
Qed.

Lemma Repository_decode_subscription_cells (w : World) (row : Row) (s : SearchSubscription) :
  Repository_decode_subscription w row = inr s ->
  (forall id, row !! "id" = Some (SText id) -> Sub_ID s = id) /\
  (forall chat, row !! "telegram_chat_id" = Some (SInt64 chat) -> Sub_TelegramChatID s = chat) /\
  (forall b, row !! "is_active" = Some (SBool b) -> Sub_IsActive s = b) /\
  (Sub_ID s <> "" -> row !! "id" = Some (SText (Sub_ID s))).
Proof.
  unfold Repository_decode_subscription, Repository.scan_subscription, project.
  cbn [map app Repository.subscription_columns]. intros H. scan_ok H. inversion H; subst; clear H.
  cbn [Sub_ID Sub_TelegramChatID Sub_IsActive].
  apply plain_as_string in E as [Hid Hback]. apply plain_as_int64 in E0 as [Hchat _].
  pose proof (plain_as_bool _ _ _ E7) as Hactive.
  auto.
Qed.

Lemma Queries_decode_subscription_cells (w : World) (row : Row) (s : SearchSubscription) :
  Queries_decode_subscription w row = inr s ->
  (forall id, row !! "id" = Some (SText id) -> Sub_ID s = id) /\
  (forall chat, row !! "telegram_chat_id" = Some (SInt64 chat) -> Sub_TelegramChatID s = chat) /\
  (forall b, row !! "is_active" = Some (SBool b) -> Sub_IsActive s = b) /\
  (Sub_ID s <> "" -> row !! "id" = Some (SText (Sub_ID s))).
Proof.
  unfold Queries_decode_subscription, Queries.scan_subscription, project.
  cbn [map app Queries.subscription_columns]. intros H. scan_ok H. inversion H; subst; clear H.
  cbn [Sub_ID Sub_TelegramChatID Sub_IsActive].
  apply plain_as_string in E as [Hid Hback]. apply plain_as_int64 in E0 as [Hchat _].
  pose proof (plain_as_bool _ _ _ E7) as Hactive.
  auto.
Qed.

(** What [with_connection] does with an error of the provider. *)
Lemma with_connection_refused {A} (refused : error -> A) (body : M A) (w : World) (e : error) :
  snd (fst (Connection.GetConnection w)) = Some e ->
  fst (with_connection refused body w) = refused e.
Proof.
  intros He. unfold with_connection, bind, ret.
  destruct (Connection.GetConnection w) as [[d e'] wc]. cbn [fst snd] in *.
  rewrite He. reflexivity.
Qed.

Lemma with_connection_through_the_provider {A} (refused : error -> A) (body : M A)
    (err : A -> option error) :
  (forall e, err (refused e) <> None) ->
  through_the_provider err (with_connection refused body).
Proof.
  intros Hrefused w. cbv zeta. split.
  - unfold with_connection. apply after_GetConnection.
  - destruct (with_connection_cases refused body w) as (_ & Honce & Hrun & _).
    cbv zeta in Hrun. rewrite Hrun.
    destruct (var_initErr (snd (Connection.GetConnection w))) as [e|] eqn:Herr.
    + cbn [fst]. intros H. destruct (Hrefused e H).
    + intros _. split; assumption.
Qed.

Lemma through_the_provider_ext {A} (err : A -> option error) (op op' : M A) :
  (forall w, op' w = op w) -> through_the_provider err op -> through_the_provider err op'.
Proof. intros Heq H w. cbv zeta. rewrite !Heq. apply (H w). Qed.

(** What a listing returns without an error it returns from the state the
    provider leaves, where the connection is there. *)
Lemma lists_only_always {A} (list_ : M (list A * option error)) (P : A -> Prop) :
  through_the_provider snd list_ -> lists_only connected list_ P -> lists_only always list_ P.
Proof.
  intros Hthrough Hlist w xs _ Hres.
  destruct (Hthrough w) as (Heq & Hconn). cbv zeta in Heq, Hconn.
  apply (Hlist (snd (Connection.GetConnection w)) xs).
  - apply Hconn. rewrite Hres. reflexivity.
  - rewrite <- Heq. exact Hres.
Qed.

Lemma Queries_GetActiveUsers_through_the_provider :
  through_the_provider snd Queries.GetActiveUsers.
Proof.
  apply (through_the_provider_ext _ _ _ Queries_GetActiveUsers_with_connection).
  apply with_connection_through_the_provider. discriminate.
Qed.

Lemma Queries_GetActiveSubscriptions_through_the_provider :
  through_the_provider snd Queries.GetActiveSubscriptions.
Proof.
  apply (through_the_provider_ext _ _ _ Queries_GetActiveSubscriptions_with_connection).
  apply with_connection_through_the_provider. discriminate.
Qed.

Lemma Queries_GetSearchSubscriptionsByUser_through_the_provider (chatID : Z) :
  through_the_provider snd (Queries.GetSearchSubscriptionsByUser chatID).
Proof.
  apply (through_the_provider_ext _ _ _
           (Queries_GetSearchSubscriptionsByUser_with_connection chatID)).
  apply with_connection_through_the_provider. discriminate.
Qed.

(** X12.  [GetActiveUsers], both implementations, is an ordered scan of the
    users whose status cell is [active].  In a process whose connection
    provider has succeeded, a fault of the network is returned
    ([repository.go] as it is, the query layer wrapped) with no sequence;
    otherwise the users returned are the selected rows decoded one by one
    in the order of the store, the empty sequence for no row, an error of
    the scan comes with no sequence, and the tables are untouched.  An
    error of the provider is returned in the same way, with no sequence.
    Every user returned has the status [active]. *)
Theorem GetActiveUsers_returns_the_active_users_in_order :
  (ordered_scan connected Repository.GetActiveUsers active_user_rows Repository_decode_user
                (fun e => e) (fun e => e) /\
   lists_only connected Repository.GetActiveUsers (fun u => User_Status u = UserStatusActive)) /\
  (ordered_scan connected Queries.GetActiveUsers active_user_rows Queries_decode_user
                (fmt_Errorf "failed to query active users: %w" [])
                (fmt_Errorf "failed to scan user: %w" []) /\
   lists_only always Queries.GetActiveUsers (fun u => User_Status u = UserStatusActive)) /\
  (forall (w : World) (e : error),
      snd (fst (Connection.GetConnection w)) = Some e ->
      fst (Repository.GetActiveUsers w) = ([], Some e) /\
      fst (Queries.GetActiveUsers w)
      = ([], Some (fmt_Errorf "failed to query active users: %w" [] e))).
Proof.
  split; [split|split; [split|]].
  - exact Repository_GetActiveUsers_scan.
  - apply (ordered_scan_lists_only _ _ _ _ _ _ _ Repository_GetActiveUsers_scan).
    intros w row u Hin Hdec. apply rows_where_cell in Hin.
    apply (Repository_decode_user_cells w row u Hdec), Hin.
  - exact Queries_GetActiveUsers_scan.
  - apply lists_only_always; [exact Queries_GetActiveUsers_through_the_provider|].
    apply (ordered_scan_lists_only _ _ _ _ _ _ _ Queries_GetActiveUsers_scan).
    intros w row u Hin Hdec. apply rows_where_cell in Hin.
    apply (Queries_decode_user_cells w row u Hdec), Hin.
  - intros w e He. split.
    + apply (with_connection_refused (fun e => ([], Some e)) _ w e He).
    + rewrite Queries_GetActiveUsers_with_connection.
      rewrite (with_connection_refused _ _ w e He). reflexivity.
Qed.

(** X13.  [GetActiveSubscriptions], both implementations, is an ordered
    scan of the subscriptions whose [is_active] cell is true, with the
    outcomes of X12, under the same condition on the provider; every
    subscription returned is active. *)
Theorem GetActiveSubscriptions_returns_the_active_ones_in_order :
  (ordered_scan connected Repository.GetActiveSubscriptions active_subscription_rows
                Repository_decode_subscription (fun e => e) (fun e => e) /\
   lists_only connected Repository.GetActiveSubscriptions (fun s => Sub_IsActive s = true)) /\
  (ordered_scan connected Queries.GetActiveSubscriptions active_subscription_rows
                Queries_decode_subscription
                (fmt_Errorf "failed to query active subscriptions: %w" [])
                (fmt_Errorf "failed to scan subscription: %w" []) /\
   lists_only always Queries.GetActiveSubscriptions (fun s => Sub_IsActive s = true)) /\
  (forall (w : World) (e : error),
      snd (fst (Connection.GetConnection w)) = Some e ->
      fst (Repository.GetActiveSubscriptions w) = ([], Some e) /\
      fst (Queries.GetActiveSubscriptions w)
      = ([], Some (fmt_Errorf "failed to query active subscriptions: %w" [] e))).
Proof.
  split; [split|split; [split|]].
  - exact Repository_GetActiveSubscriptions_scan.
  - apply (ordered_scan_lists_only _ _ _ _ _ _ _ Repository_GetActiveSubscriptions_scan).
    intros w row s Hin Hdec. apply rows_where_cell in Hin.
    apply (Repository_decode_subscription_cells w row s Hdec), Hin.
  - exact Queries_GetActiveSubscriptions_scan.
  - apply lists_only_always; [exact Queries_GetActiveSubscriptions_through_the_provider|].
    apply (ordered_scan_lists_only _ _ _ _ _ _ _ Queries_GetActiveSubscriptions_scan).
    intros w row s Hin Hdec. apply rows_where_cell in Hin.
    apply (Queries_decode_subscription_cells w row s Hdec), Hin.
  - intros w e He. split.
    + apply (with_connection_refused (fun e => ([], Some e)) _ w e He).
    + rewrite Queries_GetActiveSubscriptions_with_connection.
      rewrite (with_connection_refused _ _ w e He). reflexivity.
Qed.

(** X14.  [GetSearchSubscriptionsByUser] of the query layer is an ordered
    scan of the subscriptions of the chat, with the outcomes of X12 under
    the same condition on the provider and each error wrapped with [%w];
    and in both implementations every subscription returned carries the
    chat identity asked for. *)
Theorem GetSearchSubscriptionsByUser_returns_the_chat_s_own_in_order :
  forall chatID : Z,
    (ordered_scan connected (Queries.GetSearchSubscriptionsByUser chatID)
                  (fun w => subscription_rows w chatID) Queries_decode_subscription
                  (fmt_Errorf "failed to query subscriptions: %w" [])
                  (fmt_Errorf "failed to scan subscription: %w" []) /\
     lists_only always (Queries.GetSearchSubscriptionsByUser chatID)
                (fun s => Sub_TelegramChatID s = chatID) /\
     (forall (w : World) (e : error),
         snd (fst (Connection.GetConnection w)) = Some e ->
         fst (Queries.GetSearchSubscriptionsByUser chatID w)
         = ([], Some (fmt_Errorf "failed to query subscriptions: %w" [] e)))) /\
    lists_only connected (Repository.GetSearchSubscriptionsByUser chatID)
               (fun s => Sub_TelegramChatID s = chatID).
Proof.
  intros chatID. split; [split; [|split]|].
  - exact (Queries_GetSearchSubscriptionsByUser_scan chatID).
  - apply lists_only_always;
      [exact (Queries_GetSearchSubscriptionsByUser_through_the_provider chatID)|].
    apply (ordered_scan_lists_only _ _ _ _ _ _ _ (Queries_GetSearchSubscriptionsByUser_scan chatID)).
    intros w row s Hin Hdec. apply rows_where_cell in Hin.
    apply (Queries_decode_subscription_cells w row s Hdec), Hin.
  - intros w e He. rewrite Queries_GetSearchSubscriptionsByUser_with_connection.
    rewrite (with_connection_refused _ _ w e He). reflexivity.
  - apply (ordered_scan_lists_only _ _ _ _ _ _ _
             (Repository_GetSearchSubscriptionsByUser_scan chatID)).
    intros w row s Hin Hdec. apply rows_where_cell in Hin.
    apply (Repository_decode_subscription_cells w row s Hdec), Hin.
Qed.

(** *** Updates as the listings see them *)

Lemma Forall2_map_both {A B} (R : A -> B -> Prop) (R' : A -> B -> Prop) (f : A -> A) (g : B -> B)
    (l : list A) (xs : list B) :
  Forall2 R l xs -> (forall a x, R a x -> R' (f a) (g x)) -> Forall2 R' (map f l) (map g xs).
Proof. induction 1; intros Hfg; constructor; auto. Qed.

Lemma narrow_update_then_list {K V A}
    (ready : World -> Prop) (update : K -> V -> M (option error))
    (tbl key_col col : string) (key : K -> Scalar) (cell : World -> V -> Cell)
    (list_ : M (list A * option error)) (conds : list (string * Scalar))
    (decode : World -> Row -> error + A) (wrap_query wrap_scan : error -> error)
    (good : K -> Prop) (after : K -> V -> World -> A -> A) :
  narrow_update ready update tbl key_col col key cell ->
  ordered_scan ready list_ (fun w => rows_where w tbl conds) decode wrap_query wrap_scan ->
  ~ In col (map fst conds) ->
  (forall k v w1 w w' row x,
      good k -> scan_null w' = scan_null w -> decode w row = inr x ->
      decode w' (set_where key_col (key k) col (cell w1 v) row) = inr (after k v w1 x)) ->
  update_seen_by_list ready update list_ good after.
Proof.
  intros [Hupd _] Hscan Hnot Hcomm k v xs w w1 w2 Hgood Hready Hlist Hupdate Hnf.
  destruct (Hscan w Hready) as ((Ht & Hs & Hready1) & Hcase).
  rewrite Hlist in Ht, Hs, Hready1, Hcase. cbn [fst snd] in *.
  destruct (next_fault w); [discriminate|]. destruct Hcase as (_ & Hiff & _).
  pose proof (proj1 (Hiff xs) eq_refl) as Hall.
  destruct (Hupd k v w1 w2 Hupdate) as (Hrows & _ & _ & _ & Hs2 & Hready2).
  destruct (Hscan w2 (Hready2 Hready1)) as (_ & Hcase2). rewrite Hnf in Hcase2.
  destruct Hcase2 as (_ & Hiff2 & _). apply Hiff2.
  unfold rows_where in *. rewrite Hrows, Ht, filter_set_where.
  - apply (Forall2_map_both _ _ _ _ _ _ Hall). intros row x Hrow.
    apply (Hcomm k v w1 w w2 row x Hgood); [congruence | exact Hrow].
  - rewrite map_map. cbn [fst]. exact Hnot.
Qed.

Lemma narrow_update_leaves_list {K V A}
    (ready : World -> Prop) (update : K -> V -> M (option error))
    (tbl key_col col : string) (key : K -> Scalar) (cell : World -> V -> Cell)
    (list_ : M (list A * option error)) (listed : Scalar)
    (decode : World -> Row -> error + A) (wrap_query wrap_scan : error -> error)
    (good : K -> V -> Prop) (has_key : K -> A -> Prop) :
  narrow_update ready update tbl key_col col key cell ->
  ordered_scan ready list_ (fun w => rows_where w tbl [(col, listed)]) decode
               wrap_query wrap_scan ->
  (forall k v w, good k v -> cell w v <> Some listed) ->
  (forall k v w row x, good k v -> decode w row = inr x -> has_key k x ->
                       row !! key_col = Some (key k)) ->
  update_leaves_list ready update list_ good has_key.
Proof.
  intros [Hupd _] Hscan Hcell Hdec k v xs w1 w2 Hgood Hready Hupdate Hlist.
  destruct (Hupd k v w1 w2 Hupdate) as (Hrows & _ & _ & _ & _ & Hready2).
  destruct (Hscan w2 (Hready2 Hready)) as (_ & Hcase).
  destruct (next_fault w2); [rewrite Hcase in Hlist; discriminate|].
  destruct Hcase as (_ & Hiff & _). apply Hiff in Hlist.
  apply (Forall2_Forall_r _ _ _ _ Hlist). intros row x Hin Hrow Hkey.
  pose proof (rows_where_cell _ _ _ _ _ Hin) as Hcol.
  unfold rows_where in Hin. apply filter_In in Hin as [Hin _]. rewrite Hrows in Hin.
  apply in_map_iff in Hin as (old & <- & _).
  pose proof (Hdec k v w2 _ x Hgood Hrow Hkey) as Hk.
  unfold set_where in Hcol, Hk.
  destruct (row_matches [(key_col, Some (key k))] old) eqn:Hm.
  - rewrite set_cells_lookup in Hcol. cbn [last_binding fst snd] in Hcol.
    rewrite String.eqb_refl in Hcol. exact (Hcell k v w1 Hgood Hcol).
  - unfold row_matches in Hm. cbn [forallb fst snd] in Hm. rewrite andb_true_r in Hm.
    apply bool_decide_eq_false_1 in Hm. exact (Hm Hk).
Qed.

(** The row of a subscription with one cell set, decoded. *)
Lemma set_where_id_cases (subID : string) (col : string) (cell : Cell) (row : Row)
    (w : World) (s : SearchSubscription)
    (decode : World -> Row -> error + SearchSubscription) :
  (decode w row = inr s ->
   (forall id, row !! "id" = Some (SText id) -> Sub_ID s = id) /\
   (Sub_ID s <> "" -> row !! "id" = Some (SText (Sub_ID s)))) ->
  subID <> "" ->
  decode w row = inr s ->
  (row_matches [("id", Some (SText subID))] row = true /\ String.eqb (Sub_ID s) subID = true) \/
  (row_matches [("id", Some (SText subID))] row = false /\ String.eqb (Sub_ID s) subID = false).
Proof.
  intros Hcells Hne Hdec. destruct (Hcells Hdec) as [Hid Hback].
  unfold row_matches. cbn [forallb fst snd]. rewrite andb_true_r.
  destruct (decide (row !! "id" = Some (SText subID))) as [Heq|Hneq].
  - left. rewrite bool_decide_eq_true_2 by exact Heq.
    rewrite (Hid _ Heq), String.eqb_refl. auto.
  - right. rewrite bool_decide_eq_false_2 by exact Hneq. split; [reflexivity|].
    apply String.eqb_neq. intros Heq. apply Hneq. rewrite <- Heq. apply Hback. congruence.
Qed.

Lemma Repository_decode_set_active (subID : string) (active : bool) (w w' : World) (row : Row)
    (s : SearchSubscription) :
  subID <> "" -> scan_null w' = scan_null w ->
  Repository_decode_subscription w row = inr s ->
  Repository_decode_subscription w'
    (set_where "id" (SText subID) "is_active" (Some (SBool active)) row)
  = inr (on_id subID (fun s => with_active s active) s).
Proof.
  intros Hne Hs Hdec.
  destruct (set_where_id_cases subID "is_active" (Some (SBool active)) row w s
              Repository_decode_subscription) as [[Hm He]|[Hm He]]; auto.
  { intros H. destruct (Repository_decode_subscription_cells w row s H) as (H1 & _ & _ & H4). auto. }
  - unfold set_where, on_id. rewrite Hm, He.
    unfold Repository_decode_subscription, Repository.scan_subscription, project in *.
    cbn [map app Repository.subscription_columns] in *.
    rewrite !set_cells_lookup. cbn [last_binding String.eqb Ascii.eqb Bool.eqb andb fst snd].
    rewrite Hs. scan_ok Hdec. inversion Hdec; subst; clear Hdec. reflexivity.
  - unfold set_where, on_id. rewrite Hm, He.
    unfold Repository_decode_subscription in *. rewrite Hs. exact Hdec.
Qed.

Lemma Queries_decode_set_active (subID : string) (active : bool) (w w' : World) (row : Row)
    (s : SearchSubscription) :
  subID <> "" -> scan_null w' = scan_null w ->
  Queries_decode_subscription w row = inr s ->
  Queries_decode_subscription w'
    (set_where "id" (SText subID) "is_active" (Some (SBool active)) row)
  = inr (on_id subID (fun s => with_active s active) s).
Proof.
  intros Hne Hs Hdec.
  destruct (set_where_id_cases subID "is_active" (Some (SBool active)) row w s
              Queries_decode_subscription) as [[Hm He]|[Hm He]]; auto.
  { intros H. destruct (Queries_decode_subscription_cells w row s H) as (H1 & _ & _ & H4). auto. }
  - unfold set_where, on_id. rewrite Hm, He.
    unfold Queries_decode_subscription, Queries.scan_subscription, project in *.
    cbn [map app Queries.subscription_columns] in *.
    rewrite !set_cells_lookup. cbn [last_binding String.eqb Ascii.eqb Bool.eqb andb fst snd].
    rewrite Hs. scan_ok Hdec. inversion Hdec; subst; clear Hdec. reflexivity.
  - unfold set_where, on_id. rewrite Hm, He.
    unfold Queries_decode_subscription in *. rewrite Hs. exact Hdec.
Qed.

Lemma Repository_decode_set_last_checked (subID : string) (w1 w w' : World) (row : Row)
    (s : SearchSubscription) :
  subID <> "" -> scan_null w' = scan_null w ->
  Repository_decode_subscription w row = inr s ->
  Repository_decode_subscription w'
    (set_where "id" (SText subID) "last_checked_at"
               (Some (STimestamp (uint64 (Time_UnixMicro (wall_clock w1))))) row)
  = inr (on_id subID (fun s => with_last_checked s (through_timestamp (wall_clock w1))) s).
Proof.
  intros Hne Hs Hdec.
  destruct (set_where_id_cases subID "last_checked_at"
              (Some (STimestamp (uint64 (Time_UnixMicro (wall_clock w1))))) row w s
              Repository_decode_subscription) as [[Hm He]|[Hm He]]; auto.
  { intros H. destruct (Repository_decode_subscription_cells w row s H) as (H1 & _ & _ & H4). auto. }
  - unfold set_where, on_id. rewrite Hm, He.
    unfold Repository_decode_subscription, Repository.scan_subscription, project in *.
    cbn [map app Repository.subscription_columns] in *.
    rewrite !set_cells_lookup. cbn [last_binding String.eqb Ascii.eqb Bool.eqb andb fst snd].
    rewrite Hs. scan_ok Hdec. inversion Hdec; subst; clear Hdec. reflexivity.
  - unfold set_where, on_id. rewrite Hm, He.
    unfold Repository_decode_subscription in *. rewrite Hs. exact Hdec.
Qed.

Lemma Queries_decode_set_last_checked (subID : string) (w1 w w' : World) (row : Row)
    (s : SearchSubscription) :
  subID <> "" -> scan_null w' = scan_null w ->
  Queries_decode_subscription w row = inr s ->
  Queries_decode_subscription w'
    (set_where "id" (SText subID) "last_checked_at"
               (Some (SDatetime (uint32 (Time_Unix (wall_clock w1))))) row)
  = inr (on_id subID (fun s => with_last_checked s (through_datetime (wall_clock w1))) s).
Proof.
  intros Hne Hs Hdec.
  destruct (set_where_id_cases subID "last_checked_at"
              (Some (SDatetime (uint32 (Time_Unix (wall_clock w1))))) row w s
              Queries_decode_subscription) as [[Hm He]|[Hm He]]; auto.
  { intros H. destruct (Queries_decode_subscription_cells w row s H) as (H1 & _ & _ & H4). auto. }
  - unfold set_where, on_id. rewrite Hm, He.
    unfold Queries_decode_subscription, Queries.scan_subscription, project in *.
    cbn [map app Queries.subscription_columns] in *.
    rewrite !set_cells_lookup. cbn [last_binding String.eqb Ascii.eqb Bool.eqb andb fst snd].
    rewrite Hs. scan_ok Hdec. inversion Hdec; subst; clear Hdec. reflexivity.
  - unfold set_where, on_id. rewrite Hm, He.
    unfold Queries_decode_subscription in *. rewrite Hs. exact Hdec.
Qed.

(** The statements about an update or a delete and a listing, taken from the
    processes whose provider has succeeded to every process: a call that
    ends without an error has found the connection. *)
Lemma update_seen_by_list_always {K V A} (update : K -> V -> M (option error))
    (list_ : M (list A * option error)) (good : K -> Prop) (after : K -> V -> World -> A -> A) :
  through_the_provider snd list_ ->
  update_seen_by_list connected update list_ good after ->
  update_seen_by_list always update list_ good after.
Proof.
  intros Hthrough H k v xs w w1 w2 Hgood _ Hlist Hupdate Hnf.
  destruct (Hthrough w) as (Heq & Hconn). cbv zeta in Heq, Hconn.
  apply (H k v xs (snd (Connection.GetConnection w)) w1 w2 Hgood); auto.
  - apply Hconn. rewrite Hlist. reflexivity.
  - rewrite <- Heq. exact Hlist.
Qed.

Lemma update_leaves_list_always {K V A} (update : K -> V -> M (option error))
    (list_ : M (list A * option error)) (good : K -> V -> Prop) (has_key : K -> A -> Prop) :
  (forall k v, through_the_provider (fun e => e) (update k v)) ->
  update_leaves_list connected update list_ good has_key ->
  update_leaves_list always update list_ good has_key.
Proof.
  intros Hthrough H k v xs w1 w2 Hgood _ Hupdate Hlist.
  destruct (Hthrough k v w1) as (Heq & Hconn). cbv zeta in Heq, Hconn.
  apply (H k v xs (snd (Connection.GetConnection w1)) w2 Hgood).
  - apply Hconn. rewrite Hupdate. reflexivity.
  - rewrite <- Heq. exact Hupdate.
  - exact Hlist.
Qed.

Lemma Queries_Exec_through_the_provider (q : Stmt) (ps : QueryParameters) :
  through_the_provider (fun e => e) (Queries.Exec q ps).
Proof.
  apply (through_the_provider_ext _ _ _ (Queries_Exec_with_connection q ps)).
  apply with_connection_through_the_provider. discriminate.
Qed.

Lemma Queries_UpdateSubscriptionLastChecked_through_the_provider (subID : string) :
  through_the_provider (fun e => e) (Queries.UpdateSubscriptionLastChecked subID).
Proof.
  intros w. cbv zeta.
  destruct (GetConnection_cases w) as ((_ & _ & Hclock & _) & _).
  unfold Queries.UpdateSubscriptionLastChecked, bind at 1 2, time_Now. rewrite Hclock.
  apply Queries_Exec_through_the_provider.
Qed.

(** X19.  [SetSubscriptionActive] as the listings see it, in both
    implementations and for an id that is not empty.  Where
    [GetSearchSubscriptionsByUser] returned a sequence before the update, it
    returns after it the same sequence with the flag set in the
    subscriptions that have the id; and after a deactivation that
    succeeded [GetActiveSubscriptions] returns no subscription with the
    id. *)
Theorem SetSubscriptionActive_is_seen_by_the_listings :
  ((forall chatID : Z,
      update_seen_by_list connected Repository.SetSubscriptionActive
        (Repository.GetSearchSubscriptionsByUser chatID) (fun subID => subID <> "")
        (fun subID active _ => on_id subID (fun s => with_active s active))) /\
   update_leaves_list connected Repository.SetSubscriptionActive
     Repository.GetActiveSubscriptions (fun subID active => subID <> "" /\ active = false)
     (fun subID s => Sub_ID s = subID)) /\
  ((forall chatID : Z,
      update_seen_by_list always Queries.SetSubscriptionActive
        (Queries.GetSearchSubscriptionsByUser chatID) (fun subID => subID <> "")
        (fun subID active _ => on_id subID (fun s => with_active s active))) /\
   update_leaves_list always Queries.SetSubscriptionActive
     Queries.GetActiveSubscriptions (fun subID active => subID <> "" /\ active = false)
     (fun subID s => Sub_ID s = subID)).
Proof.
  split; split.
  - intros chatID.
    apply (narrow_update_then_list _ _ "search_subscriptions" "id" _ _ _ _
             [("telegram_chat_id", SInt64 chatID)] _ _ _ (fun subID => subID <> "")
             (fun subID active (_ : World) => on_id subID (fun s => with_active s active))
             Repository_SetSubscriptionActive_narrow
             (Repository_GetSearchSubscriptionsByUser_scan chatID)).
    + cbn. intros [H|[]]. discriminate H.
    + intros subID active w1 w w' row s Hne Hs Hdec.
      apply (Repository_decode_set_active subID active w w'); assumption.
  - apply (narrow_update_leaves_list _ _ "search_subscriptions" "id" "is_active" _ _ _
             (SBool true) _ _ _ (fun subID active => subID <> "" /\ active = false)
             (fun subID s => Sub_ID s = subID)
             Repository_SetSubscriptionActive_narrow Repository_GetActiveSubscriptions_scan).
    + intros subID active w [_ ->]. discriminate.
    + intros subID active w row s [Hne _] Hdec <-.
      apply (Repository_decode_subscription_cells w row s Hdec), Hne.
  - intros chatID.
    apply update_seen_by_list_always;
      [exact (Queries_GetSearchSubscriptionsByUser_through_the_provider chatID)|].
    apply (narrow_update_then_list _ _ "search_subscriptions" "id" _ _ _ _
             [("telegram_chat_id", SInt64 chatID)] _ _ _ (fun subID => subID <> "")
             (fun subID active (_ : World) => on_id subID (fun s => with_active s active))
             Queries_SetSubscriptionActive_narrow
             (Queries_GetSearchSubscriptionsByUser_scan chatID)).
    + cbn. intros [H|[]]. discriminate H.
    + intros subID active w1 w w' row s Hne Hs Hdec.
      apply (Queries_decode_set_active subID active w w'); assumption.
  - apply update_leaves_list_always;
      [intros subID active; apply Queries_Exec_through_the_provider|].
    apply (narrow_update_leaves_list _ _ "search_subscriptions" "id" "is_active" _ _ _
             (SBool true) _ _ _ (fun subID active => subID <> "" /\ active = false)
             (fun subID s => Sub_ID s = subID)
             Queries_SetSubscriptionActive_narrow Queries_GetActiveSubscriptions_scan).
    + intros subID active w [_ ->]. discriminate.
    + intros subID active w row s [Hne _] Hdec <-.
      apply (Queries_decode_subscription_cells w row s Hdec), Hne.
Qed.

Lemma SetSubscriptionActive_witness :
  let listed := Repository.GetSearchSubscriptionsByUser 12345 world_with_subscription in
  let w2 := snd (Repository.SetSubscriptionActive sample_subscription_id false (snd listed)) in
  (fst (Repository.GetSearchSubscriptionsByUser 12345 w2)
   = (map (on_id sample_subscription_id (fun s => with_active s false)) (fst (fst listed)), None) /\
   map Sub_ID (fst (fst listed)) = [sample_subscription_id] /\
   map Sub_IsActive (fst (fst listed)) = [true]) /\
  Forall (fun s => Sub_ID s <> sample_subscription_id) (fst (fst (Repository.GetActiveSubscriptions w2))).
Proof.
  cbv zeta.
  destruct SetSubscriptionActive_is_seen_by_the_listings as [[Hseen Hleaves] _].
  split; [split; [|split; vm_compute; reflexivity]|].
  - apply (Hseen 12345 sample_subscription_id false
             (fst (fst (Repository.GetSearchSubscriptionsByUser 12345 world_with_subscription)))
             world_with_subscription
             (snd (Repository.GetSearchSubscriptionsByUser 12345 world_with_subscription))
             (snd (Repository.SetSubscriptionActive sample_subscription_id false
                     (snd (Repository.GetSearchSubscriptionsByUser 12345
                             world_with_subscription))))).
    + vm_compute. discriminate.
    + vm_compute. auto.
    + vm_compute. reflexivity.
    + vm_compute. reflexivity.
    + vm_compute. reflexivity.
  - apply (Hleaves sample_subscription_id false _
             (snd (Repository.GetSearchSubscriptionsByUser 12345 world_with_subscription))
             (snd (Repository.SetSubscriptionActive sample_subscription_id false
                     (snd (Repository.GetSearchSubscriptionsByUser 12345
                             world_with_subscription))))).
    + split; [vm_compute; discriminate | reflexivity].
    + vm_compute. auto.
    + vm_compute. reflexivity.
    + vm_compute. reflexivity.
Defined.

(** X20.  [UpdateSubscriptionLastChecked] as the listing sees it, in both
    implementations and for an id that is not empty: where
    [GetSearchSubscriptionsByUser] returned a sequence before the update, it
    returns after it the same sequence with the last check of the
    subscriptions that have the id set to the reading of the clock at the
    resolution of the column. *)
Theorem UpdateSubscriptionLastChecked_is_seen_by_the_listing :
  forall chatID : Z,
    update_seen_by_list connected
      (fun subID (_ : unit) => Repository.UpdateSubscriptionLastChecked subID)
      (Repository.GetSearchSubscriptionsByUser chatID) (fun subID => subID <> "")
      (fun subID _ w1 =>
         on_id subID (fun s => with_last_checked s (through_timestamp (wall_clock w1)))) /\
    update_seen_by_list always
      (fun subID (_ : unit) => Queries.UpdateSubscriptionLastChecked subID)
      (Queries.GetSearchSubscriptionsByUser chatID) (fun subID => subID <> "")
      (fun subID _ w1 =>
         on_id subID (fun s => with_last_checked s (through_datetime (wall_clock w1)))).
Proof.
  intros chatID. split.
  - apply (narrow_update_then_list _ _ "search_subscriptions" "id" _ _ _ _
             [("telegram_chat_id", SInt64 chatID)] _ _ _ (fun subID => subID <> "")
             (fun subID (_ : unit) w1 =>
                on_id subID (fun s => with_last_checked s (through_timestamp (wall_clock w1))))
             Repository_UpdateSubscriptionLastChecked_narrow
             (Repository_GetSearchSubscriptionsByUser_scan chatID)).
    + cbn. intros [H|[]]. discriminate H.
    + intros subID [] w1 w w' row s Hne Hs Hdec.
      apply (Repository_decode_set_last_checked subID w1 w w'); assumption.
  - apply update_seen_by_list_always;
      [exact (Queries_GetSearchSubscriptionsByUser_through_the_provider chatID)|].
    apply (narrow_update_then_list _ _ "search_subscriptions" "id" _ _ _ _
             [("telegram_chat_id", SInt64 chatID)] _ _ _ (fun subID => subID <> "")
             (fun subID (_ : unit) w1 =>
                on_id subID (fun s => with_last_checked s (through_datetime (wall_clock w1))))
             Queries_UpdateSubscriptionLastChecked_narrow
             (Queries_GetSearchSubscriptionsByUser_scan chatID)).
    + cbn. intros [H|[]]. discriminate H.
    + intros subID [] w1 w w' row s Hne Hs Hdec.
      apply (Queries_decode_set_last_checked subID w1 w w'); assumption.
Qed.

Lemma UpdateSubscriptionLastChecked_witness :
  let listed := Repository.GetSearchSubscriptionsByUser 12345 world_with_subscription in
  let w2 := snd (Repository.UpdateSubscriptionLastChecked sample_subscription_id (snd listed)) in
  fst (Repository.GetSearchSubscriptionsByUser 12345 w2)
  = (map (on_id sample_subscription_id
            (fun s => with_last_checked s (mkTime 1717236000 250000000)))
         (fst (fst listed)), None) /\
  map Sub_LastCheckedAt (fst (fst listed)) = [None].
Proof.
  cbv zeta. split; [|vm_compute; reflexivity].
  destruct (UpdateSubscriptionLastChecked_is_seen_by_the_listing 12345) as [Hseen _].
  apply (Hseen sample_subscription_id tt
           (fst (fst (Repository.GetSearchSubscriptionsByUser 12345 world_with_subscription)))
           world_with_subscription
           (snd (Repository.GetSearchSubscriptionsByUser 12345 world_with_subscription))
           (snd (Repository.UpdateSubscriptionLastChecked sample_subscription_id
                   (snd (Repository.GetSearchSubscriptionsByUser 12345
                           world_with_subscription))))).
  - vm_compute. discriminate.
  - vm_compute. auto.
  - vm_compute. reflexivity.
  - vm_compute. reflexivity.
  - vm_compute. reflexivity.
Defined.

(** X21.  [UpdateUserStatus] and the active list, in both implementations:
    after a status update that succeeded, to a status other than [active]
    and for a chat identity other than 0, [GetActiveUsers] returns no user
    with that chat identity. *)
Theorem UpdateUserStatus_takes_the_user_off_the_active_list :
  update_leaves_list connected Repository.UpdateUserStatus Repository.GetActiveUsers
    (fun chatID status => chatID <> 0 /\ status <> UserStatusActive)
    (fun chatID u => User_TelegramChatID u = chatID) /\
  update_leaves_list always Queries.UpdateUserStatus Queries.GetActiveUsers
    (fun chatID status => chatID <> 0 /\ status <> UserStatusActive)
    (fun chatID u => User_TelegramChatID u = chatID).
Proof.
  split.
  - apply (narrow_update_leaves_list _ _ "users" "telegram_chat_id" "status" _ _ _
             (SText "active") _ _ _ (fun chatID status => chatID <> 0 /\ status <> UserStatusActive)
             (fun chatID u => User_TelegramChatID u = chatID)
             Repository_UpdateUserStatus_narrow Repository_GetActiveUsers_scan).
    + intros chatID status w [_ Hs] [= H]. exact (Hs H).
    + intros chatID status w row u [Hne _] Hdec <-.
      apply (Repository_decode_user_cells w row u Hdec), Hne.
  - apply update_leaves_list_always;
      [intros chatID status; apply Queries_Exec_through_the_provider|].
    apply (narrow_update_leaves_list _ _ "users" "telegram_chat_id" "status" _ _ _
             (SText "active") _ _ _ (fun chatID status => chatID <> 0 /\ status <> UserStatusActive)
             (fun chatID u => User_TelegramChatID u = chatID)
             Queries_UpdateUserStatus_narrow Queries_GetActiveUsers_scan).
    + intros chatID status w [_ Hs] [= H]. exact (Hs H).
    + intros chatID status w row u [Hne _] Hdec <-.
      apply (Queries_decode_user_cells w row u Hdec), Hne.
Qed.

Lemma UpdateUserStatus_active_list_witness :
  let w2 := snd (Repository.UpdateUserStatus 12345 UserStatusInactive world_with_user) in
  Forall (fun u => User_TelegramChatID u <> 12345) (fst (fst (Repository.GetActiveUsers w2))).
Proof.
  cbv zeta.
  destruct UpdateUserStatus_takes_the_user_off_the_active_list as [Hrepo _].
  apply (Hrepo 12345 UserStatusInactive _ world_with_user
           (snd (Repository.UpdateUserStatus 12345 UserStatusInactive world_with_user))).
  - split; [lia | discriminate].
  - vm_compute. auto.
  - vm_compute. reflexivity.
  - vm_compute. reflexivity.
Defined.

Lemma narrow_update_absent {K V} (ready : World -> Prop) (update : K -> V -> M (option error))
    (tbl key_col col : string) (key : K -> Scalar) (cell : World -> V -> Cell) :
  narrow_update ready update tbl key_col col key cell ->
  update_of_absent_row_is_silent ready update tbl key_col key.
Proof.
  intros [Hupd Hout] k v w Hready Hnf Hnone.
  pose proof (Hout k v w Hready) as Hok. rewrite Hnf in Hok.
  split; [exact Hok|].
  destruct (Hupd k v w (snd (update k v w))) as (_ & _ & _ & Hsame & _).
  - rewrite (surjective_pairing (update k v w)) at 1. rewrite Hok. reflexivity.
  - exact (Hsame Hnone).
Qed.

(** X15.  [SetSubscriptionActive], both implementations, is a narrow
    update: a call that succeeds has set [is_active] to the flag in the
    rows of [search_subscriptions] with the id; no other column, no other
    row and no other table is changed.  In a process whose connection
    provider has succeeded the call returns no error unless the network
    fails, whether or not a row has the id, and a fault of the network is
    returned as it is, with the tables untouched. *)
Theorem SetSubscriptionActive_changes_the_flag_only :
  narrow_update connected Repository.SetSubscriptionActive
                "search_subscriptions" "id" "is_active" SText (fun _ active => Some (SBool active)) /\
  narrow_update connected Queries.SetSubscriptionActive
                "search_subscriptions" "id" "is_active" SText (fun _ active => Some (SBool active)).
Proof.
  split; [exact Repository_SetSubscriptionActive_narrow | exact Queries_SetSubscriptionActive_narrow].
Qed.

Lemma SetSubscriptionActive_flag_witness :
  (let w2 := snd (Repository.SetSubscriptionActive sample_subscription_id false
                    world_with_subscription) in
   map (fun row => row !! "is_active") (table_rows (tables w2) "search_subscriptions")
   = [Some (SBool false)]) /\
  (let w2 := snd (Queries.SetSubscriptionActive sample_subscription_id false
                    world_with_subscription) in
   map (fun row => row !! "is_active") (table_rows (tables w2) "search_subscriptions")
   = [Some (SBool false)]) /\
  fst (Queries.SetSubscriptionActive sample_subscription_id false faulty_world)
  = Some (ErrStore "transport is closing").
Proof.
  cbv zeta.
  destruct SetSubscriptionActive_changes_the_flag_only as [[Hupd _] [Hupd' Hout']].
  split; [|split].
  - destruct (Hupd sample_subscription_id false world_with_subscription
                (snd (Repository.SetSubscriptionActive sample_subscription_id false
                        world_with_subscription))) as (Hrows & _).
    + vm_compute. reflexivity.
    + rewrite Hrows. vm_compute. reflexivity.
  - destruct (Hupd' sample_subscription_id false world_with_subscription
                (snd (Queries.SetSubscriptionActive sample_subscription_id false
                        world_with_subscription))) as (Hrows & _).
    + vm_compute. reflexivity.
    + rewrite Hrows. vm_compute. reflexivity.
  - assert (Hconn : connected faulty_world) by (vm_compute; auto).
    pose proof (Hout' sample_subscription_id false faulty_world Hconn) as Hfault.
    change (next_fault faulty_world) with (Some "transport is closing") in Hfault.
    exact (proj1 Hfault).
Defined.

(** X16.  [UpdateSubscriptionLastChecked], both implementations, is a
    narrow update: a call that succeeds has set [last_checked_at] of the
    rows with the id to the reading of the clock, in microseconds for
    [repository.go] and in whole seconds modulo 2^32 for the query layer,
    and has changed nothing else.  In a process whose connection provider
    has succeeded the call returns no error unless the network fails, and
    a fault of the network is returned as it is, with the tables
    untouched. *)
Theorem UpdateSubscriptionLastChecked_writes_the_clock_only :
  narrow_update connected (fun subID (_ : unit) => Repository.UpdateSubscriptionLastChecked subID)
                "search_subscriptions" "id" "last_checked_at" SText
                (fun w _ => Some (STimestamp (uint64 (Time_UnixMicro (wall_clock w))))) /\
  narrow_update connected (fun subID (_ : unit) => Queries.UpdateSubscriptionLastChecked subID)
                "search_subscriptions" "id" "last_checked_at" SText
                (fun w _ => Some (SDatetime (uint32 (Time_Unix (wall_clock w))))).
Proof.
  split; [exact Repository_UpdateSubscriptionLastChecked_narrow
         | exact Queries_UpdateSubscriptionLastChecked_narrow].
Qed.

Lemma UpdateSubscriptionLastChecked_clock_witness :
  let w2 := snd (Queries.UpdateSubscriptionLastChecked sample_subscription_id
                   world_with_subscription) in
  map (fun row => row !! "last_checked_at") (table_rows (tables w2) "search_subscriptions")
  = [Some (SDatetime 1717236000)].
Proof.
  cbv zeta.
  destruct UpdateSubscriptionLastChecked_writes_the_clock_only as [_ [Hupd _]].
  destruct (Hupd sample_subscription_id tt world_with_subscription
              (snd (Queries.UpdateSubscriptionLastChecked sample_subscription_id
                      world_with_subscription))) as (Hrows & _).
  - vm_compute. reflexivity.
  - rewrite Hrows. vm_compute. reflexivity.
Defined.

(** X17.  [UpdateNotificationMessageID], both implementations, is a narrow
    update: a call that succeeds has set [telegram_message_id] of the rows
    of [notifications] with the id to the message id narrowed to 32 bits
    ([int32(messageID)]), and has changed nothing else.  In a process
    whose connection provider has succeeded the call returns no error
    unless the network fails, and a fault of the network is returned as it
    is, with the tables untouched. *)
Theorem UpdateNotificationMessageID_changes_the_message_id_only :
  narrow_update connected Repository.UpdateNotificationMessageID
                "notifications" "id" "telegram_message_id" SText
                (fun _ messageID => Some (SInt32 (int32 messageID))) /\
  narrow_update connected Queries.UpdateNotificationMessageID
                "notifications" "id" "telegram_message_id" SText
                (fun _ messageID => Some (SInt32 (int32 messageID))).
Proof.
  split; [exact Repository_UpdateNotificationMessageID_narrow
         | exact Queries_UpdateNotificationMessageID_narrow].
Qed.

(** X18.  No update reports a missing row.  In both implementations
    [UpdateUserStatus], [SetSubscriptionActive],
    [UpdateSubscriptionLastChecked] and [UpdateNotificationMessageID], called
    in a process whose connection provider has succeeded, with a key that
    no row has and with no fault of the network, return no error (not the
    user-not-found nor the subscription-not-found error) and leave every
    table as it was. *)
Theorem no_update_reports_a_missing_row :
  (update_of_absent_row_is_silent connected Repository.UpdateUserStatus
     "users" "telegram_chat_id" SInt64 /\
   update_of_absent_row_is_silent connected Repository.SetSubscriptionActive
     "search_subscriptions" "id" SText /\
   update_of_absent_row_is_silent connected
     (fun subID (_ : unit) => Repository.UpdateSubscriptionLastChecked subID)
     "search_subscriptions" "id" SText /\
   update_of_absent_row_is_silent connected Repository.UpdateNotificationMessageID
     "notifications" "id" SText) /\
  (update_of_absent_row_is_silent connected Queries.UpdateUserStatus
     "users" "telegram_chat_id" SInt64 /\
   update_of_absent_row_is_silent connected Queries.SetSubscriptionActive
     "search_subscriptions" "id" SText /\
   update_of_absent_row_is_silent connected
     (fun subID (_ : unit) => Queries.UpdateSubscriptionLastChecked subID)
     "search_subscriptions" "id" SText /\
   update_of_absent_row_is_silent connected Queries.UpdateNotificationMessageID
     "notifications" "id" SText).
Proof.
  split; (split; [|split; [|split]]).
  - exact (narrow_update_absent _ _ _ _ _ _ _ Repository_UpdateUserStatus_narrow).
  - exact (narrow_update_absent _ _ _ _ _ _ _ Repository_SetSubscriptionActive_narrow).
  - exact (narrow_update_absent _ _ _ _ _ _ _ Repository_UpdateSubscriptionLastChecked_narrow).
  - exact (narrow_update_absent _ _ _ _ _ _ _ Repository_UpdateNotificationMessageID_narrow).
  - exact (narrow_update_absent _ _ _ _ _ _ _ Queries_UpdateUserStatus_narrow).
  - exact (narrow_update_absent _ _ _ _ _ _ _ Queries_SetSubscriptionActive_narrow).
  - exact (narrow_update_absent _ _ _ _ _ _ _ Queries_UpdateSubscriptionLastChecked_narrow).
  - exact (narrow_update_absent _ _ _ _ _ _ _ Queries_UpdateNotificationMessageID_narrow).
Qed.

Lemma no_update_reports_a_missing_row_witness :
  fst (Repository.UpdateUserStatus 777 UserStatusActive connected_world) = None /\
  fst (Repository.SetSubscriptionActive "no-such-id" true connected_world) = None /\
  fst (Queries.UpdateNotificationMessageID "no-such-id" 7 connected_world) = None.
Proof.
  destruct no_update_reports_a_missing_row as ((Hu & Hs & _) & (_ & _ & _ & Hn)).
  assert (Hconn : connected connected_world) by (vm_compute; auto).
  split; [|split].
  - apply (Hu 777 UserStatusActive connected_world Hconn); reflexivity.
  - apply (Hs "no-such-id" true connected_world Hconn); reflexivity.
  - apply (Hn "no-such-id" 7 connected_world Hconn); reflexivity.
Defined.

(** *** Token sets: store, delete, read *)

Lemma Repository_stored_tokens_are_read_back :
  stored_tokens_are_read_back connected Repository.StoreUserTokens Repository.GetUserTokens
                              Repository_tokens_as_stored (fun e => e).
Proof.
  intros tokens w. cbv zeta. intros Hready.
  pose proof (Repository_StoreUserTokens_cases tokens w) as Hc. cbv zeta in Hc.
  rewrite (GetConnection_connected w Hready) in Hc. cbn [fst snd] in Hc.
  destruct Hc as (_ & ->). cbn [fst snd]. intros Hok Hnf.
  eapply (upsert_tokens_executed _ _ _ _ (UserTokens_TelegramChatID tokens)) in Hok
    as ((Hs & Ho & He) & Hne & Hall);
    [ | reflexivity | reflexivity ].
  destruct Hready as [Honce Herr].
  match goal with
  | |- context [Repository.GetUserTokens ?c ?w'] =>
      rewrite (Repository_GetUserTokens_cases c w');
      assert (Hconn : connected w') by (split; congruence);
      cbv zeta; rewrite (GetConnection_connected w' Hconn); cbn [fst snd];
      rewrite Hnf;
      destruct (token_rows w' c) as [|row rest]; [congruence|]
  end.
  apply Forall_cons in Hall as [[old ->] _].
  unfold read_first, project, Repository.scan_tokens. cbn [map Repository.token_columns].
  rewrite !set_cells_lookup. cbn [last_binding String.eqb Ascii.eqb Bool.eqb fst snd].
  destruct (scan_null _);
    destruct tokens as [chat acc ref uid [|c1 dd] [|c2 app] created updated];
    cbn; try reflexivity; eexists; reflexivity.
Qed.

Lemma through_the_provider_returning {A} (a : A) (op : M (option error)) :
  through_the_provider (fun e => e) op ->
  through_the_provider snd (fun w => ((a, fst (op w)), snd (op w))).
Proof.
  intros H w. cbv zeta. destruct (H w) as (Heq & Hconn). cbv zeta in Heq, Hconn.
  rewrite <- Heq. split; [reflexivity | exact Hconn].
Qed.

Lemma stored_tokens_are_read_back_always
    (store : UserTokens -> M (UserTokens * option error))
    (get : Z -> M (option UserTokens * option error))
    (as_stored : UserTokens -> UserTokens) (wrap : error -> error) :
  (forall tokens, through_the_provider snd (store tokens)) ->
  stored_tokens_are_read_back connected store get as_stored wrap ->
  stored_tokens_are_read_back always store get as_stored wrap.
Proof.
  intros Hthrough H tokens w. cbv zeta. intros _ Hok Hnf.
  destruct (Hthrough tokens w) as (Heq & Hconn). cbv zeta in Heq, Hconn.
  specialize (H tokens (snd (Connection.GetConnection w))). cbv zeta in H.
  rewrite <- Heq in H. apply H; auto.
Qed.

Lemma Queries_stored_tokens_are_read_back :
  stored_tokens_are_read_back connected Queries_StoreUserTokens Queries.GetUserTokens
                              Queries_tokens_as_stored
                              (fmt_Errorf "failed to scan user tokens: %w" []).
Proof.
  intros tokens w. cbv zeta. intros Hready.
  unfold Queries_StoreUserTokens, Queries.StoreUserTokens.
  rewrite (Queries_Exec_connected _ _ w Hready). cbn [fst snd]. intros Hok Hnf.
  eapply (upsert_tokens_executed _ _ _ _ (UserTokens_TelegramChatID tokens)) in Hok
    as ((Hs & Ho & He) & Hne & Hall);
    [ | reflexivity | reflexivity ].
  destruct Hready as [Honce Herr].
  match goal with
  | |- context [Queries.GetUserTokens ?c ?w'] =>
      rewrite (Queries_GetUserTokens_cases c w');
      assert (Hconn : connected w') by (split; congruence);
      cbv zeta; rewrite (GetConnection_connected w' Hconn); cbn [fst snd];
      rewrite Hnf;
      destruct (token_rows w' c) as [|row rest]; [congruence|]
  end.
  apply Forall_cons in Hall as [[old ->] _].
  unfold read_first, project, Queries.ScanRow_tokens. cbn [map Queries.token_columns].
  rewrite !set_cells_lookup. cbn [last_binding String.eqb Ascii.eqb Bool.eqb fst snd].
  destruct (scan_null _);
    destruct tokens as [chat acc ref uid [|c1 dd] [|c2 app] created updated];
    cbn; try reflexivity; eexists; reflexivity.
Qed.

(** X22.  Store then read, in both implementations.  After a
    [StoreUserTokens] that succeeded, [GetUserTokens] of the chat returns
    the token set written, with both times at the resolution of their
    column, whatever the chat had before.  The exception follows from the
    NULL written for a blank auxiliary token: with a scanner that refuses
    NULL for a plain destination, the lookup of a token set stored with a
    blank auxiliary token ends in the error of the scan. *)
Theorem StoreUserTokens_then_GetUserTokens :
  stored_tokens_are_read_back connected Repository.StoreUserTokens Repository.GetUserTokens
                              Repository_tokens_as_stored (fun e => e) /\
  stored_tokens_are_read_back always Queries_StoreUserTokens Queries.GetUserTokens
                              Queries_tokens_as_stored
                              (fmt_Errorf "failed to scan user tokens: %w" []).
Proof.
  split; [exact Repository_stored_tokens_are_read_back|].
  apply stored_tokens_are_read_back_always; [|exact Queries_stored_tokens_are_read_back].
  intros tokens.
  apply (through_the_provider_returning tokens (Queries.StoreUserTokens tokens)).
  apply Queries_Exec_through_the_provider.
Qed.

Lemma StoreUserTokens_then_GetUserTokens_witness :
  let r := Repository.StoreUserTokens stale_tokens connected_world in
  fst (Repository.GetUserTokens 12345 (snd r))
  = (Some (mkUserTokens 12345 "access-1" "refresh-1" "user-1" "" ""
             (mkTime 1717236000 250000000) (mkTime 1717236000 250000000)), None).
Proof.
  cbv zeta.
  destruct StoreUserTokens_then_GetUserTokens as [Hrepo _].
  assert (Hconn : connected connected_world) by (vm_compute; auto).
  pose proof (Hrepo stale_tokens connected_world Hconn eq_refl eq_refl) as H.
  change (fst (Repository.GetUserTokens 12345
                 (snd (Repository.StoreUserTokens stale_tokens connected_world)))
          = (Some (Repository_tokens_as_stored
                     (fst (fst (Repository.StoreUserTokens stale_tokens connected_world)))),
             None)) in H.
  rewrite H. vm_compute. reflexivity.
Defined.

Lemma Repository_deleted_tokens_are_not_found :
  deleted_tokens_are_not_found connected Repository.DeleteUserTokens Repository.GetUserTokens.
Proof.
  intros chatID w Hready Hnf Hnf2.
  destruct (Repository_DeleteUserTokens_idempotent chatID w Hready Hnf)
    as (Hok & Hready2 & Hnone & _).
  split; [exact Hok|].
  apply (Repository_GetUserTokens_errors chatID); assumption.
Qed.

Lemma Queries_deleted_tokens_are_not_found :
  deleted_tokens_are_not_found connected Queries.DeleteUserTokens Queries.GetUserTokens.
Proof.
  intros chatID w Hready Hnf Hnf2.
  destruct (Queries_DeleteUserTokens_idempotent chatID w Hready Hnf)
    as (Hok & Hready2 & Hnone & _).
  split; [exact Hok|].
  apply (Queries_GetUserTokens_errors chatID); assumption.
Qed.

(** X23.  Delete then read, in both implementations: in a process whose
    connection provider has succeeded and with no fault of the network
    [DeleteUserTokens] returns no error, and the [GetUserTokens] of the
    chat that follows answers the tokens-not-found error. *)
Theorem DeleteUserTokens_then_GetUserTokens :
  deleted_tokens_are_not_found connected Repository.DeleteUserTokens Repository.GetUserTokens /\
  deleted_tokens_are_not_found connected Queries.DeleteUserTokens Queries.GetUserTokens.
Proof.
  split; [exact Repository_deleted_tokens_are_not_found
         | exact Queries_deleted_tokens_are_not_found].
Qed.

Lemma DeleteUserTokens_then_GetUserTokens_witness :
  (let stored := snd (Repository.StoreUserTokens sample_tokens connected_world) in
   fst (Repository.GetUserTokens 12345 (snd (Repository.DeleteUserTokens 12345 stored)))
   = (None, Some ErrTokensNotFound)) /\
  fst (Queries.GetUserTokens 12345 (snd (Queries.DeleteUserTokens 12345 world_with_tokens)))
  = (None, Some ErrTokensNotFound).
Proof.
  cbv zeta.
  destruct DeleteUserTokens_then_GetUserTokens as [Hrepo Hquery].
  split.
  - apply (Hrepo 12345 (snd (Repository.StoreUserTokens sample_tokens connected_world)));
      [vm_compute; auto | reflexivity | reflexivity].
  - apply (Hquery 12345 world_with_tokens); [vm_compute; auto | reflexivity | reflexivity].
Defined.

(** *** The message id of a notification *)

Lemma notification_rows_set_where (w1 w2 : World) (chatID : Z) (subID tripID notifID : string)
    (cell : Cell) :
  table_rows (tables w2) "notifications"
  = map (set_where "id" (SText notifID) "telegram_message_id" cell)
        (table_rows (tables w1) "notifications") ->
  notification_rows w2 chatID subID tripID
  = map (set_where "id" (SText notifID) "telegram_message_id" cell)
        (notification_rows w1 chatID subID tripID).
Proof.
  intros Ht. unfold notification_rows, rows_where. rewrite Ht. apply filter_set_where.
  cbn. intros [H|[H|[H|[]]]]; discriminate H.
Qed.

Lemma Repository_scan_notification_message_id (pol : NullPolicy) (notifID : string)
    (messageID : Z) (row : Row) (n : Notification) :
  notifID <> "" ->
  Repository.scan_notification pol (Some (project Repository.notification_columns row)) = inr n ->
  Repository.scan_notification pol
    (Some (project Repository.notification_columns
             (set_where "id" (SText notifID) "telegram_message_id" (Some (SInt32 messageID)) row)))
  = inr (if String.eqb (Notif_ID n) notifID then with_message_id n messageID else n).
Proof.
  intros Hne Hdec. unfold set_where, row_matches. cbn [forallb fst snd]. rewrite andb_true_r.
  unfold Repository.scan_notification, project in *.
  cbn [map Repository.notification_columns] in *.
  destruct (decide (row !! "id" = Some (SText notifID))) as [Heq|Hneq].
  - rewrite bool_decide_eq_true_2 by exact Heq.
    rewrite !set_cells_lookup. cbn [last_binding String.eqb Ascii.eqb Bool.eqb andb fst snd].
    rewrite Heq in *. scan_ok Hdec. inversion Hdec; subst; clear Hdec.
    cbn in E. inversion E; subst. cbn [Notif_ID]. rewrite String.eqb_refl. reflexivity.
  - rewrite bool_decide_eq_false_2 by exact Hneq. rewrite Hdec. f_equal.
    scan_ok Hdec. inversion Hdec; subst; clear Hdec. cbn [Notif_ID].
    destruct (String.eqb_spec s notifID) as [->|]; [|reflexivity].
    exfalso. apply Hneq. unfold plain in E.
    destruct (row !! "id") as [[]|]; try discriminate; cbn in E.
    + congruence.
    + destruct pol; congruence.
Qed.

Lemma Queries_scan_notification_message_id (pol : NullPolicy) (notifID : string)
    (messageID : Z) (row : Row) (n : Notification) :
  notifID <> "" ->
  Queries.scan_notification pol (Some (project Queries.notification_columns row)) = inr n ->
  Queries.scan_notification pol
    (Some (project Queries.notification_columns
             (set_where "id" (SText notifID) "telegram_message_id" (Some (SInt32 messageID)) row)))
  = inr (if String.eqb (Notif_ID n) notifID then with_message_id n messageID else n).
Proof.
  intros Hne Hdec. unfold set_where, row_matches. cbn [forallb fst snd]. rewrite andb_true_r.
  unfold Queries.scan_notification, project in *.
  cbn [map Queries.notification_columns] in *.
  destruct (decide (row !! "id" = Some (SText notifID))) as [Heq|Hneq].
  - rewrite bool_decide_eq_true_2 by exact Heq.
    rewrite !set_cells_lookup. cbn [last_binding String.eqb Ascii.eqb Bool.eqb andb fst snd].
    rewrite Heq in *. scan_ok Hdec. inversion Hdec; subst; clear Hdec.
    cbn in E. inversion E; subst. cbn [Notif_ID]. rewrite String.eqb_refl. reflexivity.
  - rewrite bool_decide_eq_false_2 by exact Hneq. rewrite Hdec. f_equal.
    scan_ok Hdec. inversion Hdec; subst; clear Hdec. cbn [Notif_ID].
    destruct (String.eqb_spec s notifID) as [->|]; [|reflexivity].
    exfalso. apply Hneq. unfold plain in E.
    destruct (row !! "id") as [[]|]; try discriminate; cbn in E.
    + congruence.
    + destruct pol; congruence.
Qed.

Lemma Repository_message_id_update_observed :
  message_id_update_observed connected Repository.GetNotificationByTrip
                             Repository.UpdateNotificationMessageID.
Proof.
  intros chatID subID tripID notifID messageID n w1 w2 Hne Hready Hnf Hget Hupd Hnf2.
  destruct Repository_UpdateNotificationMessageID_narrow as [Hnarrow _].
  destruct (Hnarrow notifID messageID w1 w2 Hupd) as (Hrows & _ & _ & _ & Hs & Hready2).
  specialize (Hready2 Hready).
  rewrite Repository_GetNotificationByTrip_cases in Hget |- *. cbv zeta in Hget |- *.
  rewrite (GetConnection_connected w1 Hready) in Hget.
  rewrite (GetConnection_connected w2 Hready2). cbn [fst snd] in Hget |- *.
  rewrite Hnf in Hget. rewrite Hnf2.
  rewrite (notification_rows_set_where w1 w2 chatID subID tripID notifID _ Hrows).
  destruct (notification_rows w1 chatID subID tripID) as [|row rest]; [discriminate|].
  unfold read_first in *. cbn [map].
  destruct (Repository.scan_notification (scan_null w1) _) as [e|n'] eqn:Hdec; [discriminate|].
  injection Hget as ->. rewrite Hs.
  rewrite (Repository_scan_notification_message_id _ notifID _ row n Hne Hdec). reflexivity.
Qed.

(** A write of the query layer that succeeded leaves the connection there. *)
Lemma Queries_Exec_connects (q : Stmt) (ps : QueryParameters) (w1 w2 : World) :
  Queries.Exec q ps w1 = (None, w2) -> connected w2.
Proof.
  intros Hexec.
  apply Queries_Exec_succeeded in Hexec as ((Honce & Herr) & _ & _ & Hw2).
  destruct (Session_Execute_cases q ps (snd (Connection.GetConnection w1)))
    as ((_ & Ho & _ & He & _) & _).
  cbv zeta in Ho, He. rewrite Hw2 in Ho, He. split; congruence.
Qed.

Lemma Queries_message_id_update_observed :
  message_id_update_observed always Queries.GetNotificationByTrip
                             Queries.UpdateNotificationMessageID.
Proof.
  intros chatID subID tripID notifID messageID n w1 w2 Hne _ _ Hget Hupd Hnf2.
  destruct Queries_UpdateNotificationMessageID_narrow as [Hnarrow _].
  destruct (Hnarrow notifID messageID w1 w2 Hupd) as (Hrows & _ & _ & _ & Hs & _).
  assert (Hready2 : connected w2) by exact (Queries_Exec_connects _ _ w1 w2 Hupd).
  rewrite Queries_GetNotificationByTrip_cases in Hget |- *. cbv zeta in Hget |- *.
  rewrite (GetConnection_connected w2 Hready2). cbn [fst snd].
  destruct (snd (fst (Connection.GetConnection w1))); [discriminate Hget|].
  destruct (next_fault (snd (Connection.GetConnection w1))); [discriminate Hget|].
  rewrite Hnf2.
  rewrite (notification_rows_set_where w1 w2 chatID subID tripID notifID _ Hrows).
  destruct (notification_rows w1 chatID subID tripID) as [|row rest]; [discriminate|].
  unfold read_first in *. cbn [map].
  destruct (Queries.scan_notification (scan_null w1) _) as [e|n'] eqn:Hdec; [discriminate|].
  injection Hget as ->. rewrite Hs.
  rewrite (Queries_scan_notification_message_id _ notifID _ row n Hne Hdec). reflexivity.
Qed.

(** X24.  [UpdateNotificationMessageID] as [GetNotificationByTrip] sees
    it, in both implementations and for an id that is not empty: where the
    lookup of a triple returns a notification, after an update that
    succeeded it returns the same notification, with the message id
    narrowed to 32 bits when the notification has the id updated and
    unchanged when it has another. *)
Theorem UpdateNotificationMessageID_is_seen_by_GetNotificationByTrip :
  message_id_update_observed connected Repository.GetNotificationByTrip
                             Repository.UpdateNotificationMessageID /\
  message_id_update_observed always Queries.GetNotificationByTrip
                             Queries.UpdateNotificationMessageID.
Proof.
  split; [exact Repository_message_id_update_observed | exact Queries_message_id_update_observed].
Qed.

Lemma UpdateNotificationMessageID_witness :
  let w2 := snd (Repository.UpdateNotificationMessageID sample_notification_id 4294967338
                   world_with_notification) in
  fst (Repository.GetNotificationByTrip 12345 "sub-7f3a" "trip-99" w2)
  = (Some (mkNotification sample_notification_id 12345 "sub-7f3a" "trip-99" 42 "sent"
                          (mkTime 1717236000 250000000)), None).
Proof.
  cbv zeta.
  destruct UpdateNotificationMessageID_is_seen_by_GetNotificationByTrip as [Hrepo _].
  rewrite (Hrepo 12345 "sub-7f3a" "trip-99" sample_notification_id 4294967338
             (mkNotification sample_notification_id 12345 "sub-7f3a" "trip-99" 7 "sent"
                             (mkTime 1717236000 250000000))
             world_with_notification
             (snd (Repository.UpdateNotificationMessageID sample_notification_id 4294967338
                     world_with_notification))).
  - vm_compute. reflexivity.
  - vm_compute. discriminate.
  - vm_compute. auto.
  - reflexivity.
  - vm_compute. reflexivity.
  - vm_compute. reflexivity.
  - reflexivity.
Defined.

(** *** The transactional executor and the dial *)

Lemma World_eta (w : World) :
  mkWorld (environ w) (wall_clock w) (random w) (round_trips w) (scan_null w)
          (var_db w) (var_once w) (var_initErr w) (tables w) (trace w) = w.
Proof. destruct w. reflexivity. Qed.

(** The leading [Execute] of [DoTx], whatever its outcome: one event, one
    round trip used, and nothing else. *)
Lemma leading_Execute (w : World) (o : option string) (rest : list (option string)) :
  round_trips w = o :: rest ->
  snd (Session_Execute EmptyQuery [] w)
  = set_round_trips rest (set_trace (trace w ++ [EvExecute EmptyQuery []]) w).
Proof.
  intros Hr. unfold Session_Execute, emit, bind, round_trip, ret.
  cbn [fst snd round_trips set_trace]. rewrite Hr.
  destruct o as [msg|]; cbn [fmap option_fmap option_map fst snd]; [reflexivity|].
  unfold exec_stmt. cbn [fst snd]. unfold set_tables, set_round_trips, set_trace. reflexivity.
Qed.

(** X25.  [DoTx] discards the error of its leading [Execute]: the [err] of
    that call is overwritten by the one of [BeginTransaction], so whether
    the first round trip fails or not, [DoTx] returns the same result and
    leaves the same state. *)
Theorem DoTx_discards_the_error_of_its_leading_Execute :
  forall (fn : Transaction -> M (Outcome (option error))) (w : World)
         (o : option string) (rest : list (option string)),
    round_trips w = o :: rest ->
    Client.DoTx fn w = Client.DoTx fn (set_round_trips (None :: rest) w).
Proof.
  intros fn w o rest Hr. unfold Client.DoTx, Do, bind at 1.
  symmetry. unfold bind at 1. symmetry.
  pose proof (leading_Execute w o rest Hr) as H1.
  pose proof (leading_Execute (set_round_trips (None :: rest) w) None rest eq_refl) as H2.
  destruct (Session_Execute EmptyQuery [] w) as [r1 w1].
  destruct (Session_Execute EmptyQuery [] (set_round_trips (None :: rest) w)) as [r2 w2].
  cbn [snd] in H1, H2. subst w1 w2. reflexivity.
Qed.

Lemma DoTx_leading_Execute_witness :
  Client.DoTx idle_unit_of_work faulty_world
  = Client.DoTx idle_unit_of_work (set_round_trips [None] connected_world) /\
  fst (Client.DoTx idle_unit_of_work faulty_world) = Returned None.
Proof.
  split; [|vm_compute; reflexivity].
  exact (DoTx_discards_the_error_of_its_leading_Execute idle_unit_of_work faulty_world
           (Some "transport is closing") [] eq_refl).
Defined.

(** What the dial leaves in the package variables and of the network. *)
Lemma GetConnection_dial (w : World) :
  var_once w = false ->
  let endpoint := default "" (environ w !! "YDB_ENDPOINT") in
  let database := default "" (environ w !! "YDB_DATABASE") in
  let r := Connection.GetConnection w in
  String.eqb endpoint "" || String.eqb database "" = false ->
  var_db (snd r) = match next_fault w with
                   | Some _ => None
                   | None => Some (mkDriver (String.append endpoint database))
                   end /\
  round_trips (snd r) = tl (round_trips w).
Proof.
  intros Honce. cbv zeta.
  unfold Connection.GetConnection, Connection.once_Do, Connection.initialise, bind.
  rewrite Honce. unfold os_Getenv, emit, bind. simpl.
  intros Hcfg. rewrite Hcfg. simpl.
  unfold ydb_Open, emit, bind, round_trip, next_fault. simpl.
  destruct (round_trips w) as [|[msg|] rest] eqn:E; simpl; rewrite ?E; split; reflexivity.
Qed.

(** X26.  [GetConnection] with both settings present.  The first call
    reads the two settings and dials the endpoint followed by the database,
    once; it returns the driver, or the error of the dial.  Either outcome
    is kept: whatever the environment and the network have become, every
    later call returns it and leaves the world as it finds it, so a failed
    dial is not tried again. *)
Theorem GetConnection_dials_once_and_keeps_the_outcome :
  forall w : World,
    let endpoint := default "" (environ w !! "YDB_ENDPOINT") in
    let database := default "" (environ w !! "YDB_DATABASE") in
    let r := Connection.GetConnection w in
    fresh_process w ->
    endpoint <> "" ->
    database <> "" ->
    trace (snd r) = trace w ++ [EvGetenv "YDB_ENDPOINT"; EvGetenv "YDB_DATABASE";
                                EvOpen (String.append endpoint database)] /\
    round_trips (snd r) = tl (round_trips w) /\
    fst r = match next_fault w with
            | Some msg => (None, Some (ErrStore msg))
            | None => (Some (mkDriver (String.append endpoint database)), None)
            end /\
    (forall w2 : World,
        var_once w2 = var_once (snd r) ->
        var_db w2 = var_db (snd r) ->
        var_initErr w2 = var_initErr (snd r) ->
        Connection.GetConnection w2 = (fst r, w2)).
Proof.
  intros w. cbv zeta. intros (Honce & Hdb & Herr) Hend Hdat.
  assert (Hcfg : String.eqb (default "" (environ w !! "YDB_ENDPOINT")) ""
                 || String.eqb (default "" (environ w !! "YDB_DATABASE")) "" = false).
  { apply String.eqb_neq in Hend, Hdat. rewrite Hend, Hdat. reflexivity. }
  destruct (GetConnection_first_use w Honce) as (Hdone & Hres & Hcase). cbv zeta in Hcase.
  rewrite Hcfg in Hcase. destruct Hcase as [Hinit Htrace].
  destruct (GetConnection_dial w Honce Hcfg) as [Hdriver Hrest].
  split; [exact Htrace|]. split; [exact Hrest|]. split.
  - rewrite Hres, Hdriver, Hinit. destruct (next_fault w); reflexivity.
  - intros w2 H1 H2 H3. rewrite (GetConnection_cached w2) by congruence.
    rewrite Hres, H2, H3. reflexivity.
Qed.

Lemma GetConnection_dial_witness :
  fst (Connection.GetConnection configured_world)
  = (Some (mkDriver "grpcs://ydb.serverless.yandexcloud.net:2135/ru-central1/b1g/etn"), None) /\
  fst (Connection.GetConnection (set_round_trips [Some "dial timeout"] configured_world))
  = (None, Some (ErrStore "dial timeout")) /\
  fst (Connection.GetConnection
         (snd (Connection.GetConnection (set_round_trips [Some "dial timeout"] configured_world))))
  = (None, Some (ErrStore "dial timeout")).
Proof.
  assert (Hfresh : fresh_process configured_world) by (vm_compute; auto).
  split; [|split].
  - destruct (GetConnection_dials_once_and_keeps_the_outcome configured_world Hfresh)
      as (_ & _ & H & _); [vm_compute; discriminate | vm_compute; discriminate |].
    rewrite H. vm_compute. reflexivity.
  - destruct (GetConnection_dials_once_and_keeps_the_outcome
                (set_round_trips [Some "dial timeout"] configured_world) Hfresh)
      as (_ & _ & H & _); [vm_compute; discriminate | vm_compute; discriminate |].
    rewrite H. vm_compute. reflexivity.
  - destruct (GetConnection_dials_once_and_keeps_the_outcome
                (set_round_trips [Some "dial timeout"] configured_world) Hfresh)
      as (_ & _ & H & Hcached); [vm_compute; discriminate | vm_compute; discriminate |].
    rewrite Hcached by reflexivity. rewrite H. vm_compute. reflexivity.
Defined.

(** *** Deleting a subscription *)

Lemma delete_outcome (tbl col p : string) (v : Scalar) (w : World) :
  let r := Session_Execute (Delete tbl [(col, p)]) [(p, Prim v)] w in
  (scan_null (snd r) = scan_null w /\ var_once (snd r) = var_once w /\
   var_initErr (snd r) = var_initErr w) /\
  (snd (fst r) = None ->
   tables (snd r)
   = <[tbl := List.filter (fun row => negb (row_matches [(col, Some v)] row))
                          (table_rows (tables w) tbl)]> (tables w)).
Proof.
  cbv zeta.
  destruct (Session_Execute_cases (Delete tbl [(col, p)]) [(p, Prim v)] w)
    as ((Hs & Ho & _ & He & _) & Hx).
  split; [auto|]. cbv zeta in Hx.
  unfold exec_stmt, bind_cells, param in Hx. cbn [List.find fst snd] in Hx.
  rewrite String.eqb_refl in Hx. cbn [fmap option_fmap option_map snd cell_of] in Hx.
  destruct (next_fault w); destruct Hx as [Hx Ht]; rewrite Hx; [discriminate|]. intros _. exact Ht.
Qed.

Lemma Repository_DeleteSearchSubscription_removes :
  removes_rows connected Repository.DeleteSearchSubscription "search_subscriptions" "id" SText.
Proof.
  intros subID w1 w2 Hdel.
  assert (Hshape : Repository.DeleteSearchSubscription subID w1
                   = with_connection Some
                       (fun w' => (snd (fst (Session_Execute
                                               (Delete "search_subscriptions" [("id", "$id")])
                                               [("$id", UTF8Value subID)] w')),
                                   snd (Session_Execute
                                          (Delete "search_subscriptions" [("id", "$id")])
                                          [("$id", UTF8Value subID)] w'))) w1).
  { rewrite (Repository_statement (fun _ => _) (fun _ => _) w1). reflexivity. }
  rewrite Hshape in Hdel. clear Hshape.
  match type of Hdel with
  | with_connection ?f ?body w1 = _ =>
      destruct (with_connection_cases f body w1) as ((Ht0 & Hs0 & _) & Honce & Hrun & _)
  end.
  cbv zeta in Hrun. rewrite Hrun in Hdel. clear Hrun.
  set (wc := snd (Connection.GetConnection w1)) in *.
  destruct (var_initErr wc) eqn:Herr; [discriminate|].
  destruct (delete_outcome "search_subscriptions" "id" "$id" (SText subID) wc)
    as ((Hs & Ho & He) & Ht).
  cbv zeta in Hs, Ho, He, Ht. unfold UTF8Value in Hdel. injection Hdel as Hok Hw2.
  specialize (Ht Hok). rewrite Hw2 in Hs, Ho, He, Ht.
  split; [rewrite Ht, table_rows_insert_eq, Ht0; reflexivity|].
  split; [congruence|]. intros _. split; congruence.
Qed.

Lemma Queries_DeleteSearchSubscription_removes :
  removes_rows connected Queries.DeleteSearchSubscription "search_subscriptions" "id" SText.
Proof.
  intros subID w1 w2 Hdel.
  unfold Queries.DeleteSearchSubscription in Hdel.
  rewrite Queries_Exec_with_connection in Hdel.
  match type of Hdel with
  | with_connection ?f ?body w1 = _ =>
      destruct (with_connection_cases f body w1) as ((Ht0 & Hs0 & _) & Honce & Hrun & _)
  end.
  cbv zeta in Hrun. rewrite Hrun in Hdel. clear Hrun.
  set (wc := snd (Connection.GetConnection w1)) in *.
  destruct (var_initErr wc) eqn:Herr; [discriminate|].
  destruct (delete_outcome "search_subscriptions" "id" "$id" (SText subID) wc)
    as ((Hs & Ho & He) & Ht).
  cbv zeta in Hs, Ho, He, Ht. unfold TextValue in Hdel. injection Hdel as Hok Hw2.
  specialize (Ht Hok). rewrite Hw2 in Hs, Ho, He, Ht.
  split; [rewrite Ht, table_rows_insert_eq, Ht0; reflexivity|].
  split; [congruence|]. intros _. split; congruence.
Qed.

Lemma filter_filter_comm {A} (p q : A -> bool) (l : list A) :
  List.filter p (List.filter q l) = List.filter q (List.filter p l).
Proof.
  induction l as [|a l IH]; [reflexivity|]. cbn [List.filter].
  destruct (p a) eqn:Hp, (q a) eqn:Hq; cbn [List.filter]; rewrite ?Hp, ?Hq, IH; reflexivity.
Qed.

Lemma Forall2_filter {A B} (R : A -> B -> Prop) (p : A -> bool) (q : B -> bool)
    (l : list A) (xs : list B) :
  Forall2 R l xs -> (forall a x, R a x -> p a = q x) ->
  Forall2 R (List.filter p l) (List.filter q xs).
Proof.
  induction 1 as [|a x l xs Hax Hall IH]; intros Hpq; [constructor|].
  cbn [List.filter]. rewrite (Hpq a x Hax).
  destruct (q x); [constructor; [exact Hax|]|]; apply IH, Hpq.
Qed.

Lemma delete_then_list
    (ready : World -> Prop) (delete : string -> M (option error))
    (list_ : M (list SearchSubscription * option error)) (conds : list (string * Scalar))
    (decode : World -> Row -> error + SearchSubscription) (wrap_query wrap_scan : error -> error) :
  removes_rows ready delete "search_subscriptions" "id" SText ->
  ordered_scan ready list_ (fun w => rows_where w "search_subscriptions" conds) decode
               wrap_query wrap_scan ->
  (forall w w' row, scan_null w' = scan_null w -> decode w' row = decode w row) ->
  (forall w row s, decode w row = inr s ->
     (forall id, row !! "id" = Some (SText id) -> Sub_ID s = id) /\
     (Sub_ID s <> "" -> row !! "id" = Some (SText (Sub_ID s)))) ->
  delete_seen_by_list ready delete list_.
Proof.
  intros Hdel Hscan Hpol Hcells subID xs w w1 w2 Hne Hready Hlist Hdelete Hnf.
  destruct (Hscan w Hready) as ((Ht & Hs & Hready1) & Hcase).
  rewrite Hlist in Ht, Hs, Hready1, Hcase. cbn [fst snd] in *.
  destruct (next_fault w); [discriminate|]. destruct Hcase as (_ & Hiff & _).
  pose proof (proj1 (Hiff xs) eq_refl) as Hall.
  destruct (Hdel subID w1 w2 Hdelete) as (Hrows & Hs2 & Hready2).
  destruct (Hscan w2 (Hready2 Hready1)) as (_ & Hcase2). rewrite Hnf in Hcase2.
  destruct Hcase2 as (_ & Hiff2 & _). apply Hiff2.
  unfold rows_where in *. rewrite Hrows, Ht, filter_filter_comm.
  assert (Hpol2 : forall row, decode w2 row = decode w row)
    by (intros row; apply Hpol; congruence).
  apply Forall2_filter.
  - clear -Hall Hpol2. induction Hall; constructor; [rewrite Hpol2|]; assumption.
  - intros row s Hrow. rewrite Hpol2 in Hrow.
    destruct (set_where_id_cases subID "id" None row w s decode (Hcells w row s) Hne Hrow)
      as [[-> ->]|[-> ->]]; reflexivity.
Qed.

Lemma delete_seen_by_list_always (delete : string -> M (option error))
    (list_ : M (list SearchSubscription * option error)) :
  through_the_provider snd list_ ->
  delete_seen_by_list connected delete list_ ->
  delete_seen_by_list always delete list_.
Proof.
  intros Hthrough H subID xs w w1 w2 Hne _ Hlist Hdelete Hnf.
  destruct (Hthrough w) as (Heq & Hconn). cbv zeta in Heq, Hconn.
  apply (H subID xs (snd (Connection.GetConnection w)) w1 w2 Hne); auto.
  - apply Hconn. rewrite Hlist. reflexivity.
  - rewrite <- Heq. exact Hlist.
Qed.

(** X27.  [DeleteSearchSubscription] as the listing sees it, in both
    implementations and for an id that is not empty: where
    [GetSearchSubscriptionsByUser] returned a sequence before a delete that
    succeeded, it returns after it the subscriptions of that sequence that
    do not have the id, in their order. *)
Theorem DeleteSearchSubscription_is_seen_by_the_listing :
  forall chatID : Z,
    delete_seen_by_list connected Repository.DeleteSearchSubscription
                        (Repository.GetSearchSubscriptionsByUser chatID) /\
    delete_seen_by_list always Queries.DeleteSearchSubscription
                        (Queries.GetSearchSubscriptionsByUser chatID).
Proof.
  intros chatID. split.
  - apply (delete_then_list _ _ _ [("telegram_chat_id", SInt64 chatID)] _ _ _
             Repository_DeleteSearchSubscription_removes
             (Repository_GetSearchSubscriptionsByUser_scan chatID)).
    + intros w w' row Hs. unfold Repository_decode_subscription. rewrite Hs. reflexivity.
    + intros w row s Hdec.
      destruct (Repository_decode_subscription_cells w row s Hdec) as (H1 & _ & _ & H4). auto.
  - apply delete_seen_by_list_always;
      [exact (Queries_GetSearchSubscriptionsByUser_through_the_provider chatID)|].
    apply (delete_then_list _ _ _ [("telegram_chat_id", SInt64 chatID)] _ _ _
             Queries_DeleteSearchSubscription_removes
             (Queries_GetSearchSubscriptionsByUser_scan chatID)).
    + intros w w' row Hs. unfold Queries_decode_subscription. rewrite Hs. reflexivity.
    + intros w row s Hdec.
      destruct (Queries_decode_subscription_cells w row s Hdec) as (H1 & _ & _ & H4). auto.
Qed.

Lemma DeleteSearchSubscription_witness :
  let listed := Repository.GetSearchSubscriptionsByUser 12345 world_with_subscription in
  let w2 := snd (Repository.DeleteSearchSubscription sample_subscription_id (snd listed)) in
  map Sub_ID (fst (fst listed)) = [sample_subscription_id] /\
  fst (Repository.GetSearchSubscriptionsByUser 12345 w2) = ([], None).
Proof.
  cbv zeta. split; [vm_compute; reflexivity|].
  destruct (DeleteSearchSubscription_is_seen_by_the_listing 12345) as [Hrepo _].
  rewrite (Hrepo sample_subscription_id
             (fst (fst (Repository.GetSearchSubscriptionsByUser 12345 world_with_subscription)))
             world_with_subscription
             (snd (Repository.GetSearchSubscriptionsByUser 12345 world_with_subscription))
             (snd (Repository.DeleteSearchSubscription sample_subscription_id
                     (snd (Repository.GetSearchSubscriptionsByUser 12345
                             world_with_subscription))))).
  - vm_compute. reflexivity.
  - vm_compute. discriminate.
  - vm_compute. auto.
  - vm_compute. reflexivity.
  - vm_compute. reflexivity.
  - vm_compute. reflexivity.
Defined.

(** *** Creating a notification *)

Lemma new_row_matches (cells : list (string * Cell)) (conds : list (string * Scalar)) :
  Forall (fun cv => last_binding (fst cv) cells = Some (Some (snd cv))) conds ->
  row_matches (map (fun cv => (fst cv, Some (snd cv))) conds) (set_cells ∅ cells) = true.
Proof.
  unfold row_matches. induction 1 as [|[c v] conds Hc _ IH]; [reflexivity|].
  cbn [map forallb fst snd] in *. rewrite IH, set_cells_lookup, Hc.
  rewrite bool_decide_eq_true_2 by reflexivity. reflexivity.
Qed.

Lemma insert_rows_where (tbl : string) (cols : list string) (ps : QueryParameters) (w : World)
    (cells : list (string * Cell)) (conds : list (string * Scalar)) :
  bind_cells (by_name cols) ps = Some cells ->
  Forall (fun cv => last_binding (fst cv) cells = Some (Some (snd cv))) conds ->
  let r := Session_Execute (Insert tbl (by_name cols)) ps w in
  snd (fst r) = None ->
  (scan_null (snd r) = scan_null w /\ var_once (snd r) = var_once w /\
   var_initErr (snd r) = var_initErr w) /\
  next_fault w = None /\
  rows_where (snd r) tbl conds = rows_where w tbl conds ++ [set_cells ∅ cells].
Proof.
  intros Hcells Hconds r Hok. subst r.
  destruct (Session_Execute_cases (Insert tbl (by_name cols)) ps w)
    as ((Hs & Ho & _ & He & _) & _).
  apply Session_Execute_succeeded in Hok as (Hnf & d & s & Hexec & Ht & _).
  split; [auto|]. split; [exact Hnf|].
  apply (insert_appends _ _ _ _ _ _ _ Hcells) in Hexec. subst d.
  unfold rows_where. rewrite Ht, table_rows_insert_eq, List.filter_app.
  cbn [List.filter]. rewrite (new_row_matches cells conds Hconds). reflexivity.
Qed.

(** An insert under a key no row has is accepted. *)
Lemma insert_is_accepted (d : DB) (tbl k : string) (cols : list (string * string))
    (ps : QueryParameters) (cells : list (string * Cell)) (v : Scalar) :
  primary_key tbl = [k] ->
  bind_cells cols ps = Some cells ->
  last_binding k cells = Some (Some v) ->
  List.filter (row_matches [(k, Some v)]) (table_rows d tbl) = [] ->
  exists d' s, exec_stmt d (Insert tbl cols) ps = inr (d', s).
Proof.
  intros Hpk Hcells Hkey Hnone. unfold exec_stmt. rewrite Hcells, Hpk. cbv zeta.
  set (r := set_cells ∅ cells).
  assert (Hrk : r !! k = Some v) by (subst r; rewrite set_cells_lookup, Hkey; reflexivity).
  assert (Hk : has_key [k] r = true).
  { unfold has_key. cbn [forallb]. rewrite Hrk.
    rewrite bool_decide_eq_true_2 by (eexists; reflexivity). reflexivity. }
  rewrite Hk. cbn [negb].
  destruct (existsb (same_key [k] r) (table_rows d tbl)) eqn:Hex; [|eauto].
  apply existsb_exists in Hex as (old & Hin & Hsame).
  assert (Hold : In old (List.filter (row_matches [(k, Some v)]) (table_rows d tbl))).
  { apply filter_In. split; [exact Hin|].
    unfold row_matches. cbn [forallb fst snd]. rewrite andb_true_r.
    unfold same_key in Hsame. cbn [forallb] in Hsame. rewrite andb_true_r in Hsame.
    apply bool_decide_eq_true_1 in Hsame. apply bool_decide_eq_true_2. congruence. }
  rewrite Hnone in Hold. destruct Hold.
Qed.

(** What an insert of a notification comes to on the connection. *)
Lemma insert_notification_outcome (cols : list string) (ps : QueryParameters) (w : World)
    (cells : list (string * Cell)) (chatID : Z) (subID tripID id : string) :
  bind_cells (by_name cols) ps = Some cells ->
  last_binding "telegram_chat_id" cells = Some (Some (SInt64 chatID)) ->
  last_binding "subscription_id" cells = Some (Some (SText subID)) ->
  last_binding "trip_id" cells = Some (Some (SText tripID)) ->
  last_binding "id" cells = Some (Some (SText id)) ->
  let r := Session_Execute (Insert "notifications" (by_name cols)) ps w in
  (snd (fst r) = None ->
   exists row : Row,
     Permutation (notification_rows (snd r) chatID subID tripID)
                 (row :: notification_rows w chatID subID tripID) /\
     row !! "id" = Some (SText id)) /\
  (next_fault w = None ->
   rows_where w "notifications" [("id", SText id)] = [] ->
   snd (fst r) = None).
Proof.
  intros Hcells Hchat Hsub Htrip Hid. cbv zeta. split.
  - intros Hok.
    eapply (insert_rows_where _ _ _ _ _
              [("telegram_chat_id", SInt64 chatID); ("subscription_id", SText subID);
               ("trip_id", SText tripID)]) in Hok as (_ & _ & Hrows);
      [ | exact Hcells | repeat constructor; assumption ].
    exists (set_cells ∅ cells). split.
    + unfold notification_rows. rewrite Hrows. symmetry. apply Permutation_cons_append.
    + rewrite set_cells_lookup, Hid. reflexivity.
  - intros Hnf Hnone.
    destruct (Session_Execute_cases (Insert "notifications" (by_name cols)) ps w) as (_ & Hx).
    cbv zeta in Hx. rewrite Hnf in Hx.
    destruct (insert_is_accepted (tables w) "notifications" "id" (by_name cols) ps cells
                (SText id) eq_refl Hcells Hid Hnone) as (d' & s & Hexec).
    rewrite Hexec in Hx. destruct Hx as (-> & _). reflexivity.
Qed.

Lemma Repository_CreateNotification_refused (notif : Notification) (w : World) (e : error) :
  var_once w = true -> var_initErr w = Some e ->
  Repository.CreateNotification notif w = ((notif, Some e), w).
Proof.
  intros Honce He. unfold Repository.CreateNotification, bind at 1.
  rewrite (GetConnection_cached w Honce), He. reflexivity.
Qed.

Lemma Repository_CreateNotification_after_connection (notif : Notification) (w : World) :
  Repository.CreateNotification notif w
  = Repository.CreateNotification notif (snd (Connection.GetConnection w)).
Proof. unfold Repository.CreateNotification. apply after_GetConnection. Qed.

Lemma Repository_create_does_not_deduplicate :
  create_does_not_deduplicate Repository.CreateNotification.
Proof.
  assert (Hconnected : forall notif w, connected w ->
            let chatID := Notif_TelegramChatID notif in
            let subID := Notif_SubscriptionID notif in
            let tripID := Notif_TripID notif in
            let r := Repository.CreateNotification notif w in
            (snd (fst r) = None ->
             exists row : Row,
               Permutation (notification_rows (snd r) chatID subID tripID)
                           (row :: notification_rows w chatID subID tripID) /\
               row !! "id" = Some (SText (Notif_ID (fst (fst r))))) /\
            (next_fault w = None ->
             rows_where w "notifications" [("id", SText (Notif_ID (fst (fst r))))] = [] ->
             snd (fst r) = None)).
  { intros notif w Hconn. cbv zeta.
    rewrite (Repository_CreateNotification_connected notif w Hconn). cbn [fst snd].
    set (id := if String.eqb (Notif_ID notif) "" then _ else _).
    set (w0 := if String.eqb (Notif_ID notif) "" then _ else _).
    assert (Hw0 : tables w0 = tables w /\ round_trips w0 = round_trips w).
    { subst w0. destruct (String.eqb (Notif_ID notif) ""); split; reflexivity. }
    destruct Hw0 as (Ht0 & Hr0).
    destruct (insert_notification_outcome Repository.notification_columns
                (Repository.notification_params
                   (mkNotification id (Notif_TelegramChatID notif) (Notif_SubscriptionID notif)
                      (Notif_TripID notif) (Notif_TelegramMessageID notif) "sent"
                      (wall_clock w)))
                w0 _ (Notif_TelegramChatID notif) (Notif_SubscriptionID notif)
                (Notif_TripID notif) id eq_refl eq_refl eq_refl eq_refl eq_refl)
      as (Hone & Hgoes).
    cbv zeta in Hone, Hgoes. cbn [Notif_ID].
    unfold notification_rows, rows_where, next_fault in *. rewrite Ht0, Hr0 in *.
    split; assumption. }
  intros notif w. cbv zeta. split.
  - rewrite (Repository_CreateNotification_after_connection notif w).
    destruct (GetConnection_cases w) as ((Ht & _) & Honce & _ & _).
    assert (Hrows : notification_rows w (Notif_TelegramChatID notif)
                      (Notif_SubscriptionID notif) (Notif_TripID notif)
                    = notification_rows (snd (Connection.GetConnection w))
                        (Notif_TelegramChatID notif) (Notif_SubscriptionID notif)
                        (Notif_TripID notif)).
    { unfold notification_rows, rows_where. rewrite Ht. reflexivity. }
    rewrite Hrows.
    destruct (var_initErr (snd (Connection.GetConnection w))) as [e|] eqn:Herr.
    + rewrite (Repository_CreateNotification_refused notif _ e Honce Herr). discriminate.
    + apply (Hconnected notif _ (conj Honce Herr)).
  - intros Hconn. apply (Hconnected notif w Hconn).
Qed.

Lemma Queries_CreateNotification_through_the_provider (notif : Notification) :
  through_the_provider snd (Queries_CreateNotification notif).
Proof.
  exact (through_the_provider_returning notif (Queries.CreateNotification notif)
           (Queries_Exec_through_the_provider _ _)).
Qed.

Lemma Queries_create_does_not_deduplicate :
  create_does_not_deduplicate Queries_CreateNotification.
Proof.
  assert (Hconnected : forall notif w, connected w ->
            let chatID := Notif_TelegramChatID notif in
            let subID := Notif_SubscriptionID notif in
            let tripID := Notif_TripID notif in
            let r := Queries_CreateNotification notif w in
            (snd (fst r) = None ->
             exists row : Row,
               Permutation (notification_rows (snd r) chatID subID tripID)
                           (row :: notification_rows w chatID subID tripID) /\
               row !! "id" = Some (SText (Notif_ID (fst (fst r))))) /\
            (next_fault w = None ->
             rows_where w "notifications" [("id", SText (Notif_ID (fst (fst r))))] = [] ->
             snd (fst r) = None)).
  { intros notif w Hconn. cbv zeta.
    rewrite (Queries_CreateNotification_connected notif w Hconn). cbn [fst snd].
    apply (insert_notification_outcome Queries.notification_columns
             (Queries.notification_params notif) w _ (Notif_TelegramChatID notif)
             (Notif_SubscriptionID notif) (Notif_TripID notif) (Notif_ID notif)
             eq_refl eq_refl eq_refl eq_refl eq_refl). }
  intros notif w. cbv zeta. split.
  - destruct (Queries_CreateNotification_through_the_provider notif w) as (Heq & Hconn).
    cbv zeta in Heq, Hconn.
    destruct (GetConnection_cases w) as ((Ht & _) & _).
    assert (Hrows : notification_rows w (Notif_TelegramChatID notif)
                      (Notif_SubscriptionID notif) (Notif_TripID notif)
                    = notification_rows (snd (Connection.GetConnection w))
                        (Notif_TelegramChatID notif) (Notif_SubscriptionID notif)
                        (Notif_TripID notif)).
    { unfold notification_rows, rows_where. rewrite Ht. reflexivity. }
    intros Hok. specialize (Hconn Hok). rewrite Hrows. rewrite Heq in Hok |- *.
    apply (Hconnected notif _ Hconn), Hok.
  - intros Hconn. apply (Hconnected notif w Hconn).
Qed.

(** X28.  [CreateNotification] does not look for an earlier notification
    of the triple, in either implementation.  A create that succeeds
    leaves the triple with one row more than it had, the new one under the
    id written, in whatever order the store keeps them.  In a process
    whose connection provider has succeeded, with no fault of the network
    and no row under the id written, the create succeeds whether or not
    the triple has a notification already: the layer does not enforce one
    notification per triple. *)
Theorem CreateNotification_does_not_deduplicate :
  create_does_not_deduplicate Repository.CreateNotification /\
  create_does_not_deduplicate Queries_CreateNotification.
Proof.
  split; [exact Repository_create_does_not_deduplicate
         | exact Queries_create_does_not_deduplicate].
Qed.

Lemma CreateNotification_twice_witness :
  (let again := mkNotification "second-id" 12345 "sub-7f3a" "trip-99" 8 "" zero_Time in
   let r := Repository.CreateNotification again world_with_notification in
   snd (fst r) = None /\
   length (notification_rows world_with_notification 12345 "sub-7f3a" "trip-99") = 1%nat /\
   length (notification_rows (snd r) 12345 "sub-7f3a" "trip-99") = 2%nat) /\
  (let first := snd (Queries_CreateNotification delivered_notification connected_world) in
   let again := mkNotification "notif-77aa" 12345 "sub-7f3a" "trip-99" 8 "sent"
                               (mkTime 1717236060 0) in
   let r := Queries_CreateNotification again first in
   snd (fst r) = None /\
   length (notification_rows first 12345 "sub-7f3a" "trip-99") = 1%nat /\
   length (notification_rows (snd r) 12345 "sub-7f3a" "trip-99") = 2%nat).
Proof.
  cbv zeta.
  destruct CreateNotification_does_not_deduplicate as [Hrepo Hquery].
  split.
  - destruct (Hrepo (mkNotification "second-id" 12345 "sub-7f3a" "trip-99" 8 "" zero_Time)
                world_with_notification) as (Hone & Hgoes).
    assert (Hok : snd (fst (Repository.CreateNotification
                              (mkNotification "second-id" 12345 "sub-7f3a" "trip-99" 8 ""
                                              zero_Time) world_with_notification)) = None).
    { apply Hgoes; [vm_compute; auto | vm_compute; reflexivity | vm_compute; reflexivity]. }
    destruct (Hone Hok) as (row & Hperm & _).
    split; [exact Hok|]. split; [vm_compute; reflexivity|].
    apply Permutation_length in Hperm.
    cbn [Notif_TelegramChatID Notif_SubscriptionID Notif_TripID] in Hperm.
    rewrite Hperm. vm_compute. reflexivity.
  - destruct (Hquery (mkNotification "notif-77aa" 12345 "sub-7f3a" "trip-99" 8 "sent"
                                     (mkTime 1717236060 0))
                (snd (Queries_CreateNotification delivered_notification connected_world)))
      as (Hone & Hgoes).
    assert (Hok : snd (fst (Queries_CreateNotification
                              (mkNotification "notif-77aa" 12345 "sub-7f3a" "trip-99" 8 "sent"
                                              (mkTime 1717236060 0))
                              (snd (Queries_CreateNotification delivered_notification
                                      connected_world)))) = None).
    { apply Hgoes; [vm_compute; auto | vm_compute; reflexivity | vm_compute; reflexivity]. }
    destruct (Hone Hok) as (row & Hperm & _).
    split; [exact Hok|]. split; [vm_compute; reflexivity|].
    apply Permutation_length in Hperm.
    cbn [Notif_TelegramChatID Notif_SubscriptionID Notif_TripID] in Hperm.
    rewrite Hperm. vm_compute. reflexivity.
Defined.

(** X29.  [CreateNotification] of [repository.go] is authoritative on the
    status, the creation time and an empty id: a create that succeeds
    leaves in the caller's struct and in the row it inserted the status
    [sent], the reading of the clock and an id that is not empty (the
    caller's when it was not empty, a generated UUID otherwise), whatever
    status and creation time the caller supplied; the triple and the
    message id are the caller's, the message id narrowed to 32 bits in the
    row. *)
Theorem Repository_CreateNotification_is_authoritative :
  forall (notif : Notification) (w : World),
    let r := Repository.CreateNotification notif w in
    let written := fst (fst r) in
    snd (fst r) = None ->
    (Notif_Status written = "sent" /\
     Notif_CreatedAt written = wall_clock w /\
     Notif_ID written <> "" /\
     (Notif_ID notif <> "" -> Notif_ID written = Notif_ID notif) /\
     (Notif_ID notif = "" -> Notif_ID written = uuid_String (uuid_v4 (hd [] (random w)))) /\
     Notif_TelegramChatID written = Notif_TelegramChatID notif /\
     Notif_SubscriptionID written = Notif_SubscriptionID notif /\
     Notif_TripID written = Notif_TripID notif /\
     Notif_TelegramMessageID written = Notif_TelegramMessageID notif) /\
    exists row : Row,
      In row (table_rows (tables (snd r)) "notifications") /\
      row !! "id" = Some (SText (Notif_ID written)) /\
      row !! "status" = Some (SText "sent") /\
      row !! "created_at" = Some (STimestamp (uint64 (Time_UnixMicro (wall_clock w)))) /\
      row !! "telegram_message_id" = Some (SInt32 (int32 (Notif_TelegramMessageID notif))).
Proof.
  intros notif w. cbv zeta.
  rewrite (Repository_CreateNotification_after_connection notif w).
  destruct (GetConnection_cases w) as ((_ & _ & Hclock & Hrandom) & Honce & _ & _).
  set (w1 := snd (Connection.GetConnection w)) in *.
  destruct (var_initErr w1) as [e|] eqn:Herr.
  { rewrite (Repository_CreateNotification_refused notif w1 e Honce Herr). discriminate. }
  rewrite (Repository_CreateNotification_connected notif w1 (conj Honce Herr)).
  cbn [fst snd]. rewrite Hclock, Hrandom. intros Hok.
  apply Session_Execute_succeeded in Hok as (_ & d & s & Hexec & Ht & _).
  eapply insert_appends in Hexec; [|reflexivity].
  cbn [Notif_Status Notif_CreatedAt Notif_ID Notif_TelegramChatID Notif_SubscriptionID
       Notif_TripID Notif_TelegramMessageID].
  split.
  - repeat split.
    + destruct (String.eqb_spec (Notif_ID notif) ""); [apply uuid_String_not_empty | assumption].
    + intros Hid. destruct (String.eqb_spec (Notif_ID notif) ""); [contradiction | reflexivity].
    + intros Hid. destruct (String.eqb_spec (Notif_ID notif) ""); [reflexivity | contradiction].
  - eexists. rewrite Ht, Hexec, table_rows_insert_eq.
    split; [apply in_or_app; right; left; reflexivity|].
    rewrite !set_cells_lookup. cbn. repeat split.
Qed.

Lemma Repository_CreateNotification_witness :
  let r := Repository.CreateNotification sample_notification connected_world in
  Notif_Status (fst (fst r)) = "sent" /\
  Notif_CreatedAt (fst (fst r)) = mkTime 1717236000 250000000 /\
  Notif_ID (fst (fst r)) = "00000000-0000-4000-8000-000000000000".
Proof.
  cbv zeta.
  destruct (Repository_CreateNotification_is_authoritative sample_notification connected_world)
    as ((Hstatus & Hcreated & _ & _ & Hid & _) & _).
  - vm_compute. reflexivity.
  - split; [exact Hstatus|]. split; [exact Hcreated | apply Hid; reflexivity].
Defined.

(** *** Worked instances of the scans and of the narrow updates *)

Lemma GetActiveUsers_witness :
  (map User_TelegramChatID (fst (fst (Repository.GetActiveUsers world_with_active_user)))
   = [12345] /\
   Forall (fun u => User_Status u = UserStatusActive)
          (fst (fst (Repository.GetActiveUsers world_with_active_user))) /\
   fst (Repository.GetActiveUsers world_with_user) = ([], None)) /\
  (map User_TelegramChatID (fst (fst (Queries.GetActiveUsers world_with_active_user)))
   = [12345] /\
   Forall (fun u => User_Status u = UserStatusActive)
          (fst (fst (Queries.GetActiveUsers world_with_active_user))) /\
   fst (Queries.GetActiveUsers unconfigured_world)
   = ([], Some (fmt_Errorf "failed to query active users: %w" [] ErrMissingConfig))).
Proof.
  destruct GetActiveUsers_returns_the_active_users_in_order
    as ((Hscan & Honly) & (_ & Honly') & Hrefused).
  split; (split; [vm_compute; reflexivity|]); split.
  - apply (Honly world_with_active_user); [vm_compute; auto | vm_compute; reflexivity].
  - destruct (Hscan world_with_user) as (_ & Hcase); [vm_compute; auto|].
    change (next_fault world_with_user) with (@None string) in Hcase.
    destruct Hcase as (Hempty & _). apply Hempty. vm_compute. reflexivity.
  - apply (Honly' world_with_active_user); [exact I | vm_compute; reflexivity].
  - apply (Hrefused unconfigured_world ErrMissingConfig). vm_compute. reflexivity.
Defined.

Lemma GetActiveSubscriptions_witness :
  (map Sub_ID (fst (fst (Repository.GetActiveSubscriptions world_with_subscription)))
   = [sample_subscription_id] /\
   Forall (fun s => Sub_IsActive s = true)
          (fst (fst (Repository.GetActiveSubscriptions world_with_subscription)))) /\
  (map Sub_ID (fst (fst (Queries.GetActiveSubscriptions world_with_subscription)))
   = [sample_subscription_id] /\
   Forall (fun s => Sub_IsActive s = true)
          (fst (fst (Queries.GetActiveSubscriptions world_with_subscription))) /\
   fst (Queries.GetActiveSubscriptions unconfigured_world)
   = ([], Some (fmt_Errorf "failed to query active subscriptions: %w" [] ErrMissingConfig))).
Proof.
  destruct GetActiveSubscriptions_returns_the_active_ones_in_order
    as ((_ & Honly) & (_ & Honly') & Hrefused).
  split; (split; [vm_compute; reflexivity|]).
  - apply (Honly world_with_subscription); [vm_compute; auto | vm_compute; reflexivity].
  - split.
    + apply (Honly' world_with_subscription); [exact I | vm_compute; reflexivity].
    + apply (Hrefused unconfigured_world ErrMissingConfig). vm_compute. reflexivity.
Defined.

Lemma GetSearchSubscriptionsByUser_witness :
  map Sub_ID (fst (fst (Queries.GetSearchSubscriptionsByUser 12345 world_with_subscription)))
  = [sample_subscription_id] /\
  Forall (fun s => Sub_TelegramChatID s = 12345)
         (fst (fst (Queries.GetSearchSubscriptionsByUser 12345 world_with_subscription))) /\
  fst (Queries.GetSearchSubscriptionsByUser 777 world_with_subscription) = ([], None).
Proof.
  split; [vm_compute; reflexivity|]. split.
  - destruct (GetSearchSubscriptionsByUser_returns_the_chat_s_own_in_order 12345)
      as [(_ & Honly & _) _].
    apply (Honly world_with_subscription); [exact I | vm_compute; reflexivity].
  - destruct (GetSearchSubscriptionsByUser_returns_the_chat_s_own_in_order 777)
      as [(Hscan & _) _].
    destruct (Hscan world_with_subscription) as (_ & Hcase); [vm_compute; auto|].
    change (next_fault world_with_subscription) with (@None string) in Hcase.
    destruct Hcase as (Hempty & _). apply Hempty. vm_compute. reflexivity.
Defined.

Lemma UpdateNotificationMessageID_only_witness :
  (let w2 := snd (Repository.UpdateNotificationMessageID sample_notification_id 42
                    world_with_notification) in
   map (fun row => row !! "telegram_message_id") (table_rows (tables w2) "notifications")
   = [Some (SInt32 42)] /\
   table_rows (tables w2) "users" = table_rows (tables world_with_notification) "users") /\
  (let w2 := snd (Queries.UpdateNotificationMessageID sample_notification_id 4294967338
                    world_with_notification) in
   map (fun row => row !! "telegram_message_id") (table_rows (tables w2) "notifications")
   = [Some (SInt32 42)] /\
   table_rows (tables w2) "users" = table_rows (tables world_with_notification) "users").
Proof.
  cbv zeta.
  destruct UpdateNotificationMessageID_changes_the_message_id_only as [[Hupd _] [Hupd' _]].
  split.
  - destruct (Hupd sample_notification_id 42 world_with_notification
                (snd (Repository.UpdateNotificationMessageID sample_notification_id 42
                        world_with_notification))) as (Hrows & Hothers & _).
    + vm_compute. reflexivity.
    + split; [rewrite Hrows; vm_compute; reflexivity | apply Hothers; discriminate].
  - destruct (Hupd' sample_notification_id 4294967338 world_with_notification
                (snd (Queries.UpdateNotificationMessageID sample_notification_id 4294967338
                        world_with_notification))) as (Hrows & Hothers & _).
    + vm_compute. reflexivity.
    + split; [rewrite Hrows; vm_compute; reflexivity | apply Hothers; discriminate].
Defined.

Lemma ParseCallbackData_witness :
  Telegram.ParseCallbackData (Telegram.CreateCallbackData "unsubscribe" ["sub-7f3a"; "12345"])
  = ("unsubscribe", ["sub-7f3a"; "12345"]).
Proof.
  apply ParseCallbackData_of_CreateCallbackData.
  split; [reflexivity | repeat constructor].
Defined.
